(** * SNMP agent, PDU processing (snmp_agent_pdu.c)

    A shallow embedding of [snmpProcessPdu], [snmpProcessGetRequestPdu],
    [snmpProcessGetBulkRequestPdu], [snmpProcessSetRequestPdu] and
    [snmpFormatReportPdu].

    The functions of the agent that snmp_agent_pdu.c calls but does not
    define (the variable-binding codec, the MIB accessors, the status
    translator, the header writers) are gathered in the record [Externals];
    every handler below is a function of an [Externals] value, and the
    contracts a property needs of them are stated as hypotheses.

    The module [Ksz8794] embeds the driver of the KSZ8794 Ethernet switch
    (ksz8794_driver.c) in the same way: the hardware, the constants of the
    headers and the functions of the stack the driver calls are its
    parameters. *)

From Stdlib Require Import ZArith List Bool Lia.
Import ListNotations.
Open Scope Z_scope.

(** ** Error codes *)

(** The members of [error_t] that snmp_agent_pdu.c names, and the ones the
    codec and the MIB accessors report. *)
Inductive error_t : Set :=
| NO_ERROR
| ERROR_FAILURE
| ERROR_INVALID_TAG
| ERROR_INVALID_LENGTH
| ERROR_INVALID_TYPE
| ERROR_INVALID_SYNTAX
| ERROR_BUFFER_OVERFLOW
| ERROR_ACCESS_DENIED
| ERROR_OBJECT_NOT_FOUND
| ERROR_INSTANCE_NOT_FOUND
| ERROR_WRONG_TYPE
| ERROR_WRONG_LENGTH
| ERROR_WRONG_VALUE
| ERROR_NOT_WRITABLE
| ERROR_NOT_IMPLEMENTED
| ERROR_UNSUPPORTED_SECURITY_LEVEL
| ERROR_NOT_IN_TIME_WINDOW
| ERROR_UNKNOWN_USER_NAME
| ERROR_UNKNOWN_ENGINE_ID
| ERROR_AUTHENTICATION_FAILED
| ERROR_DECRYPTION_FAILED
| ERROR_UNAVAILABLE_CONTEXT
| ERROR_UNKNOWN_CONTEXT.

Scheme Equality for error_t.

(** The C test [if(error)]. *)
Definition isError (e : error_t) : bool :=
  match e with NO_ERROR => false | _ => true end.

(** ** Enumerations of snmp_common.h *)

Inductive SnmpPduType : Set :=
| SNMP_PDU_GET_REQUEST
| SNMP_PDU_GET_NEXT_REQUEST
| SNMP_PDU_GET_RESPONSE
| SNMP_PDU_SET_REQUEST
| SNMP_PDU_TRAP
| SNMP_PDU_GET_BULK_REQUEST
| SNMP_PDU_INFORM_REQUEST
| SNMP_PDU_TRAP_V2
| SNMP_PDU_REPORT.

Scheme Equality for SnmpPduType.

Inductive SnmpAccess : Set :=
| SNMP_ACCESS_NONE
| SNMP_ACCESS_READ_ONLY
| SNMP_ACCESS_WRITE_ONLY
| SNMP_ACCESS_READ_WRITE.

Scheme Equality for SnmpAccess.

(** Modelled from the spec: the numeric constants below are declared in
    headers that are not part of the sources at hand (snmp_common.h, asn1.h,
    mib_common.h); they carry the values the protocol fixes for them. *)
Definition SNMP_VERSION_1 : Z := 0.
Definition SNMP_VERSION_2C : Z := 1.
Definition SNMP_VERSION_3 : Z := 3.

Definition SNMP_ERROR_NONE : Z := 0.
Definition SNMP_ERROR_TOO_BIG : Z := 1.
Definition SNMP_ERROR_NO_SUCH_NAME : Z := 2.
Definition SNMP_ERROR_GENERIC : Z := 5.
Definition SNMP_ERROR_NO_ACCESS : Z := 6.
Definition SNMP_ERROR_WRONG_VALUE : Z := 10.

Definition SNMP_MSG_FLAG_AUTH : Z := 1.
Definition SNMP_MSG_FLAG_PRIV : Z := 2.
Definition SNMP_MSG_FLAG_REPORTABLE : Z := 4.
Definition SNMP_SECURITY_MODEL_USM : Z := 3.

Definition ASN1_CLASS_UNIVERSAL : Z := 0.
Definition ASN1_CLASS_APPLICATION : Z := 64.
Definition ASN1_CLASS_CONTEXT_SPECIFIC : Z := 128.

Definition SNMP_EXCEPTION_NO_SUCH_OBJECT : Z := 0.
Definition SNMP_EXCEPTION_NO_SUCH_INSTANCE : Z := 1.
Definition SNMP_EXCEPTION_END_OF_MIB_VIEW : Z := 2.
Definition MIB_TYPE_COUNTER32 : Z := 1.

(** ** Machine integers *)

(** A 32-bit counter ([uint32_t]) after an addition. *)
Definition wrapU32 (z : Z) : Z := z mod 2 ^ 32.

(** A signed 32-bit field ([int32_t]) after an arithmetic step. *)
Definition wrapS32 (z : Z) : Z := (z + 2 ^ 31) mod 2 ^ 32 - 2 ^ 31.

(** ** Structures *)

(** [SnmpVarBind]: a pointer and length pair is a list of octets. *)
Record SnmpVarBind : Set := mkVarBind {
  oid : list Z;
  objClass : Z;
  objType : Z;
  value : list Z
}.

(** [SnmpMessage], restricted to the fields snmp_agent_pdu.c reads or
    writes.  [varBindList] holds the [varBindListLen] octets of the list, so
    [varBindListLen] is its length.  Where the C code assigns a pointer and
    its length from different places, both are kept. *)
Record SnmpMessage : Set := mkMessage {
  version : Z;
  msgId : Z;
  msgMaxSize : Z;
  msgFlags : Z;
  msgSecurityModel : Z;
  msgAuthEngineId : list Z;
  msgAuthEngineBoots : Z;
  msgAuthEngineTime : Z;
  msgUserName : list Z;
  msgUserNameLen : Z;
  msgAuthParameters : option (list Z);
  msgAuthParametersLen : Z;
  msgPrivParameters : list Z;
  msgPrivParametersLen : Z;
  contextEngineId : list Z;
  contextName : list Z;
  pduType : SnmpPduType;
  requestId : Z;
  errorStatus : Z;
  errorIndex : Z;
  nonRepeaters : Z;
  maxRepetitions : Z;
  varBindList : list Z
}.

Definition varBindListLen (m : SnmpMessage) : nat := length (varBindList m).

Definition set_varBindList (m : SnmpMessage) (l : list Z) : SnmpMessage :=
  mkMessage (version m) (msgId m) (msgMaxSize m) (msgFlags m)
    (msgSecurityModel m) (msgAuthEngineId m) (msgAuthEngineBoots m)
    (msgAuthEngineTime m) (msgUserName m) (msgUserNameLen m)
    (msgAuthParameters m) (msgAuthParametersLen m) (msgPrivParameters m)
    (msgPrivParametersLen m) (contextEngineId m) (contextName m) (pduType m)
    (requestId m) (errorStatus m) (errorIndex m) (nonRepeaters m)
    (maxRepetitions m) l.

Definition set_maxRepetitions (m : SnmpMessage) (r : Z) : SnmpMessage :=
  mkMessage (version m) (msgId m) (msgMaxSize m) (msgFlags m)
    (msgSecurityModel m) (msgAuthEngineId m) (msgAuthEngineBoots m)
    (msgAuthEngineTime m) (msgUserName m) (msgUserNameLen m)
    (msgAuthParameters m) (msgAuthParametersLen m) (msgPrivParameters m)
    (msgPrivParametersLen m) (contextEngineId m) (contextName m) (pduType m)
    (requestId m) (errorStatus m) (errorIndex m) (nonRepeaters m)
    r (varBindList m).

(** The counters the handlers touch through the macros
    [MIB2_INC_COUNTER32], [SNMP_MIB_INC_COUNTER32],
    [SNMP_USM_MIB_INC_COUNTER32] and [SNMP_USM_MIB_GET_COUNTER32]. *)
Inductive Mib2Counter : Set :=
| snmpInGetRequests
| snmpInGetNexts
| snmpInSetRequests
| snmpInBadCommunityUses
| snmpInTotalReqVars
| snmpInTotalSetVars
| snmpOutGetResponses.

Scheme Equality for Mib2Counter.

Inductive UsmCounter : Set :=
| usmStatsUnsupportedSecLevels
| usmStatsNotInTimeWindows
| usmStatsUnknownUserNames
| usmStatsUnknownEngineIDs
| usmStatsWrongDigests
| usmStatsDecryptionErrors.

Scheme Equality for UsmCounter.

(** Modelled from the spec: the counter macros are defined in the MIB module
    headers, which are not part of the sources at hand; a counter group is a
    table from counter names to 32-bit values, "increment" adds to the named
    counter and "get" reads it. *)
Definition incCounter {K : Set} (eqb : K -> K -> bool)
    (name : K) (v : Z) (base : K -> Z) : K -> Z :=
  fun k => if eqb k name then wrapU32 (base k + v) else base k.

Definition MIB2_INC_COUNTER32 := incCounter Mib2Counter_beq.
Definition SNMP_MIB_INC_COUNTER32 := incCounter Mib2Counter_beq.
Definition SNMP_USM_MIB_INC_COUNTER32 := incCounter UsmCounter_beq.
Definition SNMP_USM_MIB_GET_COUNTER32 (name : UsmCounter)
    (base : UsmCounter -> Z) : Z := base name.

Section Model.

(** The managed-object store behind the MIB accessors. *)
Context {Mib : Type}.

(** [SnmpAgentContext], with the process-wide state the handlers reach
    through globals: the MIB bases and the three counter groups. *)
Record SnmpAgentContext : Type := mkContext {
  request : SnmpMessage;
  response : SnmpMessage;
  user_mode : SnmpAccess;
  contextEngine : list Z;
  engineBoots : Z;
  engineTime : Z;
  ctxContextName : list Z;
  privParameters : list Z;
  mib : Mib;
  mib2Base : Mib2Counter -> Z;
  snmpMibBase : Mib2Counter -> Z;
  snmpUsmMibBase : UsmCounter -> Z
}.

Definition set_request (c : SnmpAgentContext) (m : SnmpMessage) :=
  mkContext m (response c) (user_mode c) (contextEngine c) (engineBoots c)
    (engineTime c) (ctxContextName c) (privParameters c) (mib c)
    (mib2Base c) (snmpMibBase c) (snmpUsmMibBase c).

Definition set_response (c : SnmpAgentContext) (m : SnmpMessage) :=
  mkContext (request c) m (user_mode c) (contextEngine c) (engineBoots c)
    (engineTime c) (ctxContextName c) (privParameters c) (mib c)
    (mib2Base c) (snmpMibBase c) (snmpUsmMibBase c).

Definition set_mib (c : SnmpAgentContext) (s : Mib) :=
  mkContext (request c) (response c) (user_mode c) (contextEngine c)
    (engineBoots c) (engineTime c) (ctxContextName c) (privParameters c) s
    (mib2Base c) (snmpMibBase c) (snmpUsmMibBase c).

Definition set_mib2Base (c : SnmpAgentContext) (b : Mib2Counter -> Z) :=
  mkContext (request c) (response c) (user_mode c) (contextEngine c)
    (engineBoots c) (engineTime c) (ctxContextName c) (privParameters c)
    (mib c) b (snmpMibBase c) (snmpUsmMibBase c).

Definition set_snmpMibBase (c : SnmpAgentContext) (b : Mib2Counter -> Z) :=
  mkContext (request c) (response c) (user_mode c) (contextEngine c)
    (engineBoots c) (engineTime c) (ctxContextName c) (privParameters c)
    (mib c) (mib2Base c) b (snmpUsmMibBase c).

Definition set_snmpUsmMibBase (c : SnmpAgentContext) (b : UsmCounter -> Z) :=
  mkContext (request c) (response c) (user_mode c) (contextEngine c)
    (engineBoots c) (engineTime c) (ctxContextName c) (privParameters c)
    (mib c) (mib2Base c) (snmpMibBase c) b.

(** ** The functions snmp_agent_pdu.c calls

    Each takes what the C function reads and returns its status code with
    what it writes: [snmpInitResponse], [snmpWriteVarBinding] and
    [snmpCopyVarBindingList] write the response message,
    [snmpSetObjectValue] writes the MIB, the MIB readers return the variable
    binding they fill in, [snmpParseVarBinding] reads the [length] octets at
    [p] and returns the binding and the number [n] of octets it spans.
    None of them writes the request message.  The handlers run on one
    thread between [snmpLockMib] and [snmpUnlockMib]; the lock has no
    counterpart in this sequential model.  With them come the constants of
    the configuration and of the platform: [SIZE_MAX] is the largest value
    of [size_t]. *)
Record Externals : Type := mkExternals {
  SNMP_AGENT_INFORM_SUPPORT : bool;
  SNMP_MAX_MSG_SIZE : Z;
  SIZE_MAX : Z;
  snmpParsePduHeader : SnmpMessage -> error_t * SnmpMessage;
  snmpInitMessage : SnmpMessage -> SnmpMessage;
  snmpInitResponse : SnmpAgentContext -> error_t * SnmpMessage;
  snmpParseVarBinding : list Z -> error_t * SnmpVarBind * nat;
  oidCheck : list Z -> error_t;
  snmpGetObjectValue :
    SnmpAgentContext -> SnmpMessage -> SnmpVarBind -> error_t * SnmpVarBind;
  snmpGetNextObject :
    SnmpAgentContext -> SnmpMessage -> SnmpVarBind -> error_t * SnmpVarBind;
  snmpSetObjectValue :
    SnmpAgentContext -> SnmpMessage -> SnmpVarBind -> bool -> error_t * Mib;
  snmpWriteVarBinding : SnmpAgentContext -> SnmpVarBind -> error_t * SnmpMessage;
  snmpTranslateStatusCode :
    SnmpMessage -> error_t -> Z -> error_t * SnmpMessage;
  snmpCopyVarBindingList : SnmpAgentContext -> error_t * SnmpMessage;
  snmpWritePduHeader : SnmpMessage -> error_t * SnmpMessage;
  snmpComputeMessageOverhead : SnmpMessage -> error_t * SnmpMessage;
  snmpEncodeUnsignedInt32 : Z -> error_t * list Z;
  snmpProcessGetResponsePdu : SnmpAgentContext -> error_t * SnmpAgentContext;
  snmpProcessReportPdu : SnmpAgentContext -> error_t * SnmpAgentContext;
  usmStatsUnsupportedSecLevelsObject : list Z;
  usmStatsNotInTimeWindowsObject : list Z;
  usmStatsUnknownUserNamesObject : list Z;
  usmStatsUnknownEngineIdsObject : list Z;
  usmStatsWrongDigestsObject : list Z;
  usmStatsDecryptionErrorsObject : list Z
}.

Variable X : Externals.

(** ** Loops *)

(** What one pass through a loop body ends with: [break], the end of the
    body, or the read of a local that was never assigned, after which the C
    code has no defined behaviour. *)
Inductive Flow (S : Type) : Type :=
| Break (s : S)
| Next (s : S)
| Fault (s : S).

Arguments Break {S} s.
Arguments Next {S} s.
Arguments Fault {S} s.

(** [for(...; cond; incr) body], run for at most [fuel] tests of [cond].
    There is no result when the loop does not end within [fuel] tests, and
    none when a pass has no defined behaviour. *)
Fixpoint forLoop {S : Type} (cond : S -> bool) (body : S -> Flow S)
    (incr : S -> S) (fuel : nat) (s : S) : option S :=
  match fuel with
  | O => None
  | Datatypes.S fuel' =>
      if cond s then
        match body s with
        | Break s' => Some s'
        | Next s' => forLoop cond body incr fuel' (incr s')
        | Fault _ => None
        end
      else Some s
  end.

(** The states in which the loop started in [s0] tests its condition. *)
Inductive loopHead {S : Type} (cond : S -> bool) (body : S -> Flow S)
    (incr : S -> S) (s0 : S) : S -> Prop :=
| head_start : loopHead cond body incr s0 s0
| head_next (s s' : S) :
    loopHead cond body incr s0 s -> cond s = true -> body s = Next s' ->
    loopHead cond body incr s0 (incr s').

(** The passes of the loop started in [s0]: the states in which the body
    was entered and went on to the next pass, in order, and the state whose
    condition is tested after them. *)
Inductive loopPasses {S : Type} (cond : S -> bool) (body : S -> Flow S)
    (incr : S -> S) (s0 : S) : list S -> S -> Prop :=
| passes_none : loopPasses cond body incr s0 [] s0
| passes_more (entered : list S) (s s' : S) :
    loopPasses cond body incr s0 entered s -> cond s = true ->
    body s = Next s' ->
    loopPasses cond body incr s0 (entered ++ [s]) (incr s').

(** The run of the loop started in [s0] that ended in [r]: the states in
    which the body was entered, in order, the last of them left by [break]
    unless the loop ended on its condition. *)
Inductive loopRun {S : Type} (cond : S -> bool) (body : S -> Flow S)
    (incr : S -> S) (s0 : S) : list S -> S -> Prop :=
| run_done (entered : list S) (s : S) :
    loopPasses cond body incr s0 entered s -> cond s = false ->
    loopRun cond body incr s0 entered s
| run_break (entered : list S) (s r : S) :
    loopPasses cond body incr s0 entered s -> cond s = true ->
    body s = Break r ->
    loopRun cond body incr s0 (entered ++ [s]) r.

(** The octets a pointer [p] (an offset into [buf]) and a [length] denote. *)
Definition octetsAt (buf : list Z) (p length : nat) : list Z :=
  firstn length (skipn p buf).

(** [a - b] on [size_t], for operands that are values of [size_t]: the
    difference when [b] is at most [a], and the difference modulo
    [SIZE_MAX + 1] otherwise. *)
Definition sizeSub (a b : nat) : nat :=
  if (b <=? a)%nat then (a - b)%nat
  else Z.to_nat (SIZE_MAX X + 1 - Z.of_nat (b - a)).

(** The three exception values a binding can be turned into. *)
Definition setException (var : SnmpVarBind) (exception : Z) : SnmpVarBind :=
  mkVarBind (oid var) ASN1_CLASS_CONTEXT_SPECIFIC exception [].

(** ** snmpProcessGetRequestPdu *)

(** The locals of the variable-binding loop: the context, the cursor [p]
    (an offset into the request's list) with the [length] left, the 1-based
    [index] and the status code [error]. *)
Record GetLoop : Type := mkGetLoop {
  gl_ctx : SnmpAgentContext;
  gl_p : nat;
  gl_length : nat;
  gl_index : Z;
  gl_error : error_t
}.

Definition getCond (st : GetLoop) : bool := (0 <? gl_length st)%nat.

Definition getIncr (st : GetLoop) : GetLoop :=
  mkGetLoop (gl_ctx st) (gl_p st) (gl_length st) (gl_index st + 1)
    (gl_error st).

(** The retrieval step of the loop body: the value of the object for a
    GetRequest, the next object and its value for a GetNextRequest.  The
    boolean tells that the body leaves the loop ("Stop immediately"). *)
Definition getRetrieve (ctx : SnmpAgentContext) (var : SnmpVarBind)
    : bool * error_t * SnmpVarBind :=
  let req := request ctx in
  if SnmpPduType_beq (pduType req) SNMP_PDU_GET_REQUEST then
    let '(error, var) := snmpGetObjectValue X ctx req var in
    (false, error, var)
  else
    let '(error, var) := snmpGetNextObject X ctx req var in
    if version req =? SNMP_VERSION_1 then
      if error_t_beq error NO_ERROR then
        let '(error, var) := snmpGetObjectValue X ctx req var in
        (false, error, var)
      else (true, error, var)
    else
      if error_t_beq error NO_ERROR then
        let '(error, var) := snmpGetObjectValue X ctx req var in
        (false, error, var)
      else if error_t_beq error ERROR_OBJECT_NOT_FOUND then
        (false, NO_ERROR, setException var SNMP_EXCEPTION_END_OF_MIB_VIEW)
      else (true, error, var).

(** "Failed to retrieve object value?": what becomes of the binding and of
    the counters once the retrieval step returned [error].  The boolean
    tells that the body leaves the loop. *)
Definition getCatch (ctx : SnmpAgentContext) (error : error_t)
    (var : SnmpVarBind) : bool * SnmpAgentContext * SnmpVarBind :=
  if isError error then
    if version (request ctx) =? SNMP_VERSION_1 then (true, ctx, var)
    else if error_t_beq error ERROR_ACCESS_DENIED
            || error_t_beq error ERROR_OBJECT_NOT_FOUND then
      (false, ctx, setException var SNMP_EXCEPTION_NO_SUCH_OBJECT)
    else if error_t_beq error ERROR_INSTANCE_NOT_FOUND then
      (false, ctx, setException var SNMP_EXCEPTION_NO_SUCH_INSTANCE)
    else (true, ctx, var)
  else
    (false,
     set_mib2Base ctx (MIB2_INC_COUNTER32 snmpInTotalReqVars 1 (mib2Base ctx)),
     var).

Definition getBody (st : GetLoop) : Flow GetLoop :=
  let ctx := gl_ctx st in
  let stop ctx error :=
    Break (mkGetLoop ctx (gl_p st) (gl_length st) (gl_index st) error) in
  let '(error, var, n) :=
    snmpParseVarBinding X
      (octetsAt (varBindList (request ctx)) (gl_p st) (gl_length st)) in
  if isError error then stop ctx error else
  let error := oidCheck X (oid var) in
  if isError error then stop ctx error else
  let '(leave, error, var) := getRetrieve ctx var in
  if leave then stop ctx error else
  let '(leave, ctx, var) := getCatch ctx error var in
  if leave then stop ctx error else
  let '(error, resp) := snmpWriteVarBinding X ctx var in
  let ctx := set_response ctx resp in
  if isError error then stop ctx error else
  Next (mkGetLoop ctx (gl_p st + n)%nat (sizeSub (gl_length st) n)
          (gl_index st) error).

(** What every handler does once its loop stopped on [error] at [index]:
    "Set error-status and error-index fields". *)
Definition translateStatus (ctx : SnmpAgentContext) (error : error_t)
    (index : Z) : error_t * SnmpAgentContext :=
  let '(error, resp) :=
    snmpTranslateStatusCode X (response ctx) error index in
  (error, set_response ctx resp).

Definition copyVarBindingList (ctx : SnmpAgentContext)
    : error_t * SnmpAgentContext :=
  let '(error, resp) := snmpCopyVarBindingList X ctx in
  (error, set_response ctx resp).

(** "Enforce access policy", the denial branch. *)
Definition badCommunityUse (ctx : SnmpAgentContext) : SnmpAgentContext :=
  let ctx :=
    set_mib2Base ctx
      (MIB2_INC_COUNTER32 snmpInBadCommunityUses 1 (mib2Base ctx)) in
  set_snmpMibBase ctx
    (SNMP_MIB_INC_COUNTER32 snmpInBadCommunityUses 1 (snmpMibBase ctx)).

Definition readAllowed (mode : SnmpAccess) : bool :=
  SnmpAccess_beq mode SNMP_ACCESS_READ_ONLY
  || SnmpAccess_beq mode SNMP_ACCESS_READ_WRITE.

Definition writeAllowed (mode : SnmpAccess) : bool :=
  SnmpAccess_beq mode SNMP_ACCESS_WRITE_ONLY
  || SnmpAccess_beq mode SNMP_ACCESS_READ_WRITE.

(** The start of the variable-binding loop of the Get handler. *)
Definition getStart (ctx : SnmpAgentContext) (error : error_t) : GetLoop :=
  mkGetLoop ctx 0%nat (varBindListLen (request ctx)) 1 error.

(** "Check status code", after the loop of the Get handler. *)
Definition getFinish (st : GetLoop) : error_t * SnmpAgentContext :=
  let ctx := gl_ctx st in
  if isError (gl_error st) then
    let '(error, ctx) := translateStatus ctx (gl_error st) (gl_index st) in
    if isError error then (error, ctx) else
    if negb (version (response ctx) =? SNMP_VERSION_1)
       && (errorStatus (response ctx) =? SNMP_ERROR_TOO_BIG) then
      (NO_ERROR, set_response ctx (set_varBindList (response ctx) []))
    else
      let '(error, ctx) := copyVarBindingList ctx in
      if isError error then (error, ctx) else (NO_ERROR, ctx)
  else (NO_ERROR, ctx).

(** "Check PDU type": the request is counted. *)
Definition getCount (ctx : SnmpAgentContext) : SnmpAgentContext :=
  if SnmpPduType_beq (pduType (request ctx)) SNMP_PDU_GET_REQUEST then
    set_mib2Base ctx (MIB2_INC_COUNTER32 snmpInGetRequests 1 (mib2Base ctx))
  else if SnmpPduType_beq (pduType (request ctx))
            SNMP_PDU_GET_NEXT_REQUEST then
    set_mib2Base ctx (MIB2_INC_COUNTER32 snmpInGetNexts 1 (mib2Base ctx))
  else ctx.

Definition snmpProcessGetRequestPdu (fuel : nat) (ctx : SnmpAgentContext)
    : option (error_t * SnmpAgentContext) :=
  let ctx := getCount ctx in
  if negb (readAllowed (user_mode ctx)) then
    Some (ERROR_ACCESS_DENIED, badCommunityUse ctx)
  else
    let '(error, resp) := snmpInitResponse X ctx in
    let ctx := set_response ctx resp in
    if isError error then Some (error, ctx) else
    match forLoop getCond getBody getIncr fuel (getStart ctx error) with
    | None => None
    | Some st => Some (getFinish st)
    end.

(** ** snmpProcessGetBulkRequestPdu *)

(** The cursor of the GetBulk loop starts in the request's list and is later
    pointed at [next], inside the response's list. *)
Inductive Region : Set := InRequest | InResponse.

(** The locals of the loop.  [next], [m] and [endOfMibView] are declared
    without a value: they hold none until the pass for the first repeating
    variable assigns them. *)
Record BulkLoop : Type := mkBulkLoop {
  bl_ctx : SnmpAgentContext;
  bl_region : Region;
  bl_p : nat;
  bl_length : nat;
  bl_index : Z;
  bl_error : error_t;
  bl_next : option nat;
  bl_m : option nat;
  bl_endOfMibView : option bool
}.

Definition bulkCond (st : BulkLoop) : bool := (0 <? bl_length st)%nat.

Definition bulkIncr (st : BulkLoop) : BulkLoop :=
  mkBulkLoop (bl_ctx st) (bl_region st) (bl_p st) (bl_length st)
    (bl_index st + 1) (bl_error st) (bl_next st) (bl_m st)
    (bl_endOfMibView st).

(** The list the cursor reads. *)
Definition bulkBuffer (ctx : SnmpAgentContext) (r : Region) : list Z :=
  match r with
  | InRequest => varBindList (request ctx)
  | InResponse => varBindList (response ctx)
  end.

(** "Search the MIB for the next object" and the value that goes with it.
    The first boolean tells that the body leaves the loop; [endOfMibView]
    is assigned FALSE when the next object is found and left as it is
    otherwise. *)
Definition bulkRetrieve (ctx : SnmpAgentContext) (var : SnmpVarBind)
    (endOfMibView : option bool)
    : bool * option bool * error_t * SnmpVarBind :=
  let req := request ctx in
  let '(error, var) := snmpGetNextObject X ctx req var in
  if error_t_beq error NO_ERROR then
    let '(error, var) := snmpGetObjectValue X ctx req var in
    (false, Some false, error, var)
  else if error_t_beq error ERROR_OBJECT_NOT_FOUND then
    (false, endOfMibView, NO_ERROR,
     setException var SNMP_EXCEPTION_END_OF_MIB_VIEW)
  else (true, endOfMibView, error, var).

Definition bulkCatch (ctx : SnmpAgentContext) (error : error_t)
    (var : SnmpVarBind) : bool * SnmpAgentContext * SnmpVarBind :=
  if isError error then
    if error_t_beq error ERROR_ACCESS_DENIED
       || error_t_beq error ERROR_OBJECT_NOT_FOUND then
      (false, ctx, setException var SNMP_EXCEPTION_NO_SUCH_OBJECT)
    else if error_t_beq error ERROR_INSTANCE_NOT_FOUND then
      (false, ctx, setException var SNMP_EXCEPTION_NO_SUCH_INSTANCE)
    else (true, ctx, var)
  else
    (false,
     set_mib2Base ctx (MIB2_INC_COUNTER32 snmpInTotalReqVars 1 (mib2Base ctx)),
     var).

(** "Next iteration?": the end of a pass over the repeating variables.
    [endOfMibView], [next] and [m] are read here, in that order. *)
Definition bulkRepeat (ctx : SnmpAgentContext) (region : Region)
    (p length : nat) (index : Z) (error : error_t) (next m : option nat)
    (endOfMibView : option bool) : Flow BulkLoop :=
  if (length =? 0)%nat && (nonRepeaters (request ctx) <? index) then
    let req :=
      set_maxRepetitions (request ctx)
        (wrapS32 (maxRepetitions (request ctx) - 1)) in
    let ctx := set_request ctx req in
    let here :=
      mkBulkLoop ctx region p length index error next m endOfMibView in
    if maxRepetitions req =? 0 then Break here else
    match endOfMibView with
    | None => Fault here
    | Some true => Break here
    | Some false =>
        match next, m with
        | Some first, Some size =>
            Next (mkBulkLoop ctx InResponse first
                    (sizeSub (varBindListLen (response ctx)) size)
                    (nonRepeaters req) error next m endOfMibView)
        | _, _ => Fault here
        end
    end
  else
    Next (mkBulkLoop ctx region p length index error next m endOfMibView).

(** What a pass holds when it comes to "Advance data pointer": the context
    after the binding was appended, the number [n] of octets the binding
    read spans, and the locals. *)
Record BulkAnswer : Type := mkBulkAnswer {
  ba_ctx : SnmpAgentContext;
  ba_n : nat;
  ba_error : error_t;
  ba_next : option nat;
  ba_m : option nat;
  ba_endOfMibView : option bool
}.

(** The body of the loop down to the append of the binding: the state the
    pass leaves the loop in, or what it holds after the append. *)
Definition bulkAnswer (st : BulkLoop) : BulkLoop + BulkAnswer :=
  let ctx := bl_ctx st in
  let region := bl_region st in
  let index := bl_index st in
  let first := index - 1 =? nonRepeaters (request ctx) in
  let next :=
    if first then Some (varBindListLen (response ctx)) else bl_next st in
  let m := if first then Some (varBindListLen (response ctx)) else bl_m st in
  let endOfMibView := if first then Some true else bl_endOfMibView st in
  let stop ctx error endOfMibView :=
    inl (mkBulkLoop ctx region (bl_p st) (bl_length st) index error
           next m endOfMibView) in
  if first && (maxRepetitions (request ctx) =? 0) then
    stop ctx (bl_error st) endOfMibView
  else
  let '(error, var, n) :=
    snmpParseVarBinding X
      (octetsAt (bulkBuffer ctx region) (bl_p st) (bl_length st)) in
  if isError error then stop ctx error endOfMibView else
  let error := oidCheck X (oid var) in
  if isError error then stop ctx error endOfMibView else
  let '(leave, endOfMibView, error, var) :=
    bulkRetrieve ctx var endOfMibView in
  if leave then stop ctx error endOfMibView else
  let '(leave, ctx, var) := bulkCatch ctx error var in
  if leave then stop ctx error endOfMibView else
  let '(error, resp) := snmpWriteVarBinding X ctx var in
  let ctx := set_response ctx resp in
  if isError error then stop ctx error endOfMibView else
  inr (mkBulkAnswer ctx n error next m endOfMibView).

Definition bulkBody (st : BulkLoop) : Flow BulkLoop :=
  match bulkAnswer st with
  | inl stopped => Break stopped
  | inr a =>
      bulkRepeat (ba_ctx a) (bl_region st) (bl_p st + ba_n a)%nat
        (sizeSub (bl_length st) (ba_n a)) (bl_index st) (ba_error a)
        (ba_next a) (ba_m a) (ba_endOfMibView a)
  end.

Definition bulkStart (ctx : SnmpAgentContext) (error : error_t) : BulkLoop :=
  mkBulkLoop ctx InRequest 0%nat (varBindListLen (request ctx)) 1 error
    None None None.

(** "Check status code", after the loop of the GetBulk handler. *)
Definition bulkFinish (st : BulkLoop) : error_t * SnmpAgentContext :=
  let ctx := bl_ctx st in
  if error_t_beq (bl_error st) ERROR_BUFFER_OVERFLOW then (NO_ERROR, ctx)
  else if isError (bl_error st) then
    let '(error, ctx) := translateStatus ctx (bl_error st) (bl_index st) in
    if isError error then (error, ctx) else
    let '(error, ctx) := copyVarBindingList ctx in
    if isError error then (error, ctx) else (NO_ERROR, ctx)
  else (NO_ERROR, ctx).

(** The handler as it is compiled when SNMPv2c or SNMPv3 support is
    enabled. *)
Definition snmpProcessGetBulkRequestPdu (fuel : nat) (ctx : SnmpAgentContext)
    : option (error_t * SnmpAgentContext) :=
  if version (request ctx) =? SNMP_VERSION_1 then
    Some (ERROR_INVALID_TYPE, ctx)
  else if negb (readAllowed (user_mode ctx)) then
    Some (ERROR_ACCESS_DENIED, badCommunityUse ctx)
  else
    let '(error, resp) := snmpInitResponse X ctx in
    let ctx := set_response ctx resp in
    if isError error then Some (error, ctx) else
    match forLoop bulkCond bulkBody bulkIncr fuel (bulkStart ctx error) with
    | None => None
    | Some st => Some (bulkFinish st)
    end.

(** ** snmpProcessSetRequestPdu *)

Record SetLoop : Type := mkSetLoop {
  sl_ctx : SnmpAgentContext;
  sl_p : nat;
  sl_length : nat;
  sl_index : Z;
  sl_error : error_t
}.

Definition setCond (st : SetLoop) : bool := (0 <? sl_length st)%nat.

Definition setIncr (st : SetLoop) : SetLoop :=
  mkSetLoop (sl_ctx st) (sl_p st) (sl_length st) (sl_index st + 1)
    (sl_error st).

(** The body of the two loops of the Set handler: [commit] is [false] in the
    first (validation) and [true] in the second, which also counts the
    variables it altered. *)
Definition setBody (commit : bool) (st : SetLoop) : Flow SetLoop :=
  let ctx := sl_ctx st in
  let stop ctx error :=
    Break (mkSetLoop ctx (sl_p st) (sl_length st) (sl_index st) error) in
  let '(error, var, n) :=
    snmpParseVarBinding X
      (octetsAt (varBindList (request ctx)) (sl_p st) (sl_length st)) in
  if isError error then stop ctx error else
  let '(error, store) := snmpSetObjectValue X ctx (request ctx) var commit in
  let ctx := set_mib ctx store in
  if isError error then stop ctx error else
  let ctx :=
    if commit then
      set_mib2Base ctx
        (MIB2_INC_COUNTER32 snmpInTotalSetVars 1 (mib2Base ctx))
    else ctx in
  Next (mkSetLoop ctx (sl_p st + n)%nat (sizeSub (sl_length st) n)
          (sl_index st) error).

Definition setStart (ctx : SnmpAgentContext) (error : error_t) : SetLoop :=
  mkSetLoop ctx 0%nat (varBindListLen (request ctx)) 1 error.

(** "Any error to report?", after the two loops of the Set handler. *)
Definition setFinish (st : SetLoop) : error_t * SnmpAgentContext :=
  let ctx := sl_ctx st in
  if isError (sl_error st) then
    let '(error, ctx) := translateStatus ctx (sl_error st) (sl_index st) in
    if isError error then (error, ctx) else copyVarBindingList ctx
  else copyVarBindingList ctx.

(** The request is counted. *)
Definition setCount (ctx : SnmpAgentContext) : SnmpAgentContext :=
  set_mib2Base ctx (MIB2_INC_COUNTER32 snmpInSetRequests 1 (mib2Base ctx)).

Definition snmpProcessSetRequestPdu (fuel : nat) (ctx : SnmpAgentContext)
    : option (error_t * SnmpAgentContext) :=
  let ctx := setCount ctx in
  if negb (writeAllowed (user_mode ctx)) then
    Some (ERROR_ACCESS_DENIED, badCommunityUse ctx)
  else
    let '(error, resp) := snmpInitResponse X ctx in
    let ctx := set_response ctx resp in
    if isError error then Some (error, ctx) else
    match forLoop setCond (setBody false) setIncr fuel (setStart ctx error) with
    | None => None
    | Some st1 =>
        if isError (sl_error st1) then Some (setFinish st1) else
        match
          forLoop setCond (setBody true) setIncr fuel
            (setStart (sl_ctx st1) (sl_error st1))
        with
        | None => None
        | Some st2 => Some (setFinish st2)
        end
    end.

(** ** snmpProcessPdu *)

Definition isRequestPdu (t : SnmpPduType) : bool :=
  SnmpPduType_beq t SNMP_PDU_GET_REQUEST
  || SnmpPduType_beq t SNMP_PDU_GET_NEXT_REQUEST
  || SnmpPduType_beq t SNMP_PDU_GET_BULK_REQUEST
  || SnmpPduType_beq t SNMP_PDU_SET_REQUEST.

(** "Check PDU type": the switch over the type of the request. *)
Definition dispatchPdu (fuel : nat) (ctx : SnmpAgentContext)
    : option (error_t * SnmpAgentContext) :=
  match pduType (request ctx) with
  | SNMP_PDU_GET_REQUEST | SNMP_PDU_GET_NEXT_REQUEST =>
      snmpProcessGetRequestPdu fuel ctx
  | SNMP_PDU_GET_BULK_REQUEST => snmpProcessGetBulkRequestPdu fuel ctx
  | SNMP_PDU_SET_REQUEST => snmpProcessSetRequestPdu fuel ctx
  | SNMP_PDU_GET_RESPONSE =>
      if SNMP_AGENT_INFORM_SUPPORT X then
        Some (snmpProcessGetResponsePdu X ctx)
      else Some (ERROR_INVALID_TYPE, ctx)
  | SNMP_PDU_REPORT =>
      if SNMP_AGENT_INFORM_SUPPORT X then Some (snmpProcessReportPdu X ctx)
      else Some (ERROR_INVALID_TYPE, ctx)
  | _ => Some (ERROR_INVALID_TYPE, ctx)
  end.

Definition snmpProcessPdu (fuel : nat) (ctx : SnmpAgentContext)
    : option (error_t * SnmpAgentContext) :=
  let '(error, req) := snmpParsePduHeader X (request ctx) in
  let ctx := set_request ctx req in
  if isError error then Some (error, ctx) else
  let ctx := set_response ctx (snmpInitMessage X (response ctx)) in
  match dispatchPdu fuel ctx with
  | None => None
  | Some (error, ctx) =>
      if isError error then Some (error, ctx) else
      if isRequestPdu (pduType (request ctx)) then
        let ctx :=
          set_mib2Base ctx
            (MIB2_INC_COUNTER32 snmpOutGetResponses 1 (mib2Base ctx)) in
        let '(error, resp) := snmpWritePduHeader X (response ctx) in
        Some (error, set_response ctx resp)
      else Some (error, ctx)
  end.

(** ** snmpFormatReportPdu *)

Definition snmpUnavailableContextsObject : list Z :=
  [43; 6; 1; 6; 3; 12; 1; 4; 0].
Definition snmpUnknownContextsObject : list Z :=
  [43; 6; 1; 6; 3; 12; 1; 5; 0].

(** The assignments to the response message that every report gets.  The
    context name is a C string: the list holds its characters. *)
Definition reportInit (ctx : SnmpAgentContext) : SnmpMessage :=
  let r := snmpInitMessage X (response ctx) in
  let req := request ctx in
  mkMessage (version req) (msgId req) (SNMP_MAX_MSG_SIZE X) 0
    SNMP_SECURITY_MODEL_USM (contextEngine ctx) (engineBoots ctx)
    (engineTime ctx) (msgUserName r) (msgUserNameLen r)
    (msgAuthParameters r) (msgAuthParametersLen r) (msgPrivParameters r)
    (msgPrivParametersLen r) (contextEngine ctx) (ctxContextName ctx)
    SNMP_PDU_REPORT (requestId req) (errorStatus r) (errorIndex r)
    (nonRepeaters r) (maxRepetitions r) (varBindList r).

(** The assignments made when the message is outside of the time window. *)
Definition reportNotInTimeWindow (ctx : SnmpAgentContext) (r : SnmpMessage)
    : SnmpMessage :=
  let req := request ctx in
  mkMessage (version r) (msgId r) (msgMaxSize r)
    (Z.land (msgFlags req) (Z.lor SNMP_MSG_FLAG_AUTH SNMP_MSG_FLAG_PRIV))
    (msgSecurityModel r) (msgAuthEngineId r) (msgAuthEngineBoots r)
    (msgAuthEngineTime r) (msgUserName req) (msgUserNameLen req)
    None (msgAuthParametersLen req) (privParameters ctx)
    (msgPrivParametersLen req) (contextEngineId r) (contextName r)
    (pduType r) (requestId r) (errorStatus r) (errorIndex r)
    (nonRepeaters r) (maxRepetitions r) (varBindList r).

(** "Check error indication": the counters after the switch, the value of
    the local [counter] and the object identifier given to the binding. *)
Definition reportSelect (errorIndication : error_t) (base : UsmCounter -> Z)
    : (UsmCounter -> Z) * Z * list Z :=
  let count name object :=
    let base := SNMP_USM_MIB_INC_COUNTER32 name 1 base in
    (base, SNMP_USM_MIB_GET_COUNTER32 name base, object) in
  match errorIndication with
  | ERROR_UNSUPPORTED_SECURITY_LEVEL =>
      count usmStatsUnsupportedSecLevels
        (usmStatsUnsupportedSecLevelsObject X)
  | ERROR_NOT_IN_TIME_WINDOW =>
      count usmStatsNotInTimeWindows (usmStatsNotInTimeWindowsObject X)
  | ERROR_UNKNOWN_USER_NAME =>
      count usmStatsUnknownUserNames (usmStatsUnknownUserNamesObject X)
  | ERROR_UNKNOWN_ENGINE_ID =>
      count usmStatsUnknownEngineIDs (usmStatsUnknownEngineIdsObject X)
  | ERROR_AUTHENTICATION_FAILED =>
      count usmStatsWrongDigests (usmStatsWrongDigestsObject X)
  | ERROR_DECRYPTION_FAILED =>
      count usmStatsDecryptionErrors (usmStatsDecryptionErrorsObject X)
  | ERROR_UNAVAILABLE_CONTEXT => (base, 1, snmpUnavailableContextsObject)
  | ERROR_UNKNOWN_CONTEXT => (base, 1, snmpUnknownContextsObject)
  | _ => (base, 1, [])
  end.

(** The binding of the report: the selected object and the encoded
    counter. *)
Definition reportVarBind (object octets : list Z) : SnmpVarBind :=
  mkVarBind object ASN1_CLASS_APPLICATION MIB_TYPE_COUNTER32 octets.

(** The function as it is compiled when SNMPv3 support is enabled. *)
Definition snmpFormatReportPdu (ctx : SnmpAgentContext)
    (errorIndication : error_t) : error_t * SnmpAgentContext :=
  let r := reportInit ctx in
  let r :=
    if error_t_beq errorIndication ERROR_NOT_IN_TIME_WINDOW then
      reportNotInTimeWindow ctx r
    else r in
  let '(error, r) := snmpComputeMessageOverhead X r in
  let ctx := set_response ctx r in
  if isError error then (error, ctx) else
  let '(base, counter, object) :=
    reportSelect errorIndication (snmpUsmMibBase ctx) in
  let ctx := set_snmpUsmMibBase ctx base in
  let '(error, octets) := snmpEncodeUnsignedInt32 X counter in
  if isError error then (error, ctx) else
  let var := reportVarBind object octets in
  let '(error, r) := snmpWriteVarBinding X ctx var in
  let ctx := set_response ctx r in
  if isError error then (error, ctx) else
  let '(error, r) := snmpWritePduHeader X (response ctx) in
  (error, set_response ctx r).

End Model.

Arguments Break {S} s.
Arguments Next {S} s.
Arguments Fault {S} s.

(** The state a pass through a loop body ends in. *)
Definition flowState {S : Type} (f : Flow S) : S :=
  match f with Break s => s | Next s => s | Fault s => s end.

Arguments SnmpAgentContext : clear implicits.
Arguments Externals : clear implicits.
Arguments GetLoop : clear implicits.
Arguments BulkLoop : clear implicits.
Arguments BulkAnswer : clear implicits.
Arguments SetLoop : clear implicits.


(** * Contracts of the functions the handlers call

    What the properties below need of the codec, of the MIB accessors and of
    the response writers.  Each is a statement about an [Externals] value. *)

(** A parsed binding spans at least one octet and no more than the octets
    the parser was given. *)
Definition ParseProgress {Mib : Type} (X : Externals Mib) : Prop :=
  forall octets e v n,
    snmpParseVarBinding X octets = (e, v, n) ->
    isError e = false -> (0 < n <= length octets)%nat.

(** Validation ([commit = FALSE]) leaves the MIB as it is. *)
Definition CheckKeepsMib {Mib : Type} (X : Externals Mib) : Prop :=
  forall ctx msg v e s,
    snmpSetObjectValue X ctx msg v false = (e, s) -> s = mib ctx.

(** The status translator stores the index it is given, unless the failure
    is "response too large". *)
Definition TranslateStoresIndex {Mib : Type} (X : Externals Mib) : Prop :=
  forall m e k m',
    isError e = true -> e <> ERROR_BUFFER_OVERFLOW ->
    snmpTranslateStatusCode X m e k = (NO_ERROR, m') -> errorIndex m' = k.

(** [snmpCopyVarBindingList] makes the response's list the request's and
    leaves error-status and error-index alone. *)
Definition CopyEchoes {Mib : Type} (X : Externals Mib) : Prop :=
  forall ctx m,
    snmpCopyVarBindingList X ctx = (NO_ERROR, m) ->
    varBindList m = varBindList (request ctx)
    /\ errorStatus m = errorStatus (response ctx)
    /\ errorIndex m = errorIndex (response ctx).

(** [snmpWriteVarBinding] appends the encoding [enc] of the binding to the
    response's list, or fails and leaves the list as it is; it never touches
    error-status and error-index. *)
Definition WriteAppends {Mib : Type} (X : Externals Mib)
    (enc : SnmpVarBind -> list Z) : Prop :=
  forall ctx v e m,
    snmpWriteVarBinding X ctx v = (e, m) ->
    errorStatus m = errorStatus (response ctx)
    /\ errorIndex m = errorIndex (response ctx)
    /\ varBindList m =
       if isError e then varBindList (response ctx)
       else varBindList (response ctx) ++ enc v.

(** The parser reads an encoded binding as one binding. *)
Definition ParseSpansEncoding {Mib : Type} (X : Externals Mib)
    (enc : SnmpVarBind -> list Z) : Prop :=
  forall v e v' n,
    snmpParseVarBinding X (enc v) = (e, v', n) ->
    isError e = false -> n = length (enc v).

(** The bindings a list of octets holds, decoded one after the other as the
    loops of the handlers do; [None] when some binding does not parse or is
    reported to span more octets than the list has. *)
Fixpoint decodeVarBinds {Mib : Type} (X : Externals Mib) (fuel : nat)
    (octets : list Z) : option (list SnmpVarBind) :=
  match fuel with
  | O => None
  | S fuel' =>
      match octets with
      | [] => Some []
      | _ :: _ =>
          let '(e, v, n) := snmpParseVarBinding X octets in
          if isError e then None
          else if (length octets <? n)%nat then None
          else option_map (cons v) (decodeVarBinds X fuel' (skipn n octets))
      end
  end.

(** The bindings at the head of a list of octets, decoded one after the
    other as far as they parse, with the status of the parser for what
    follows them: NO_ERROR when the list ends there. *)
Fixpoint parsedBinds {Mib : Type} (X : Externals Mib) (fuel : nat)
    (octets : list Z) : list SnmpVarBind * error_t :=
  match fuel with
  | O => ([], NO_ERROR)
  | S fuel' =>
      match octets with
      | [] => ([], NO_ERROR)
      | _ :: _ =>
          let '(e, v, n) := snmpParseVarBinding X octets in
          if isError e then ([], e)
          else
            let '(vs, rest) := parsedBinds X fuel' (skipn n octets) in
            (v :: vs, rest)
      end
  end.

(** One phase of the Set handler told over the decoded bindings: the calls
    to [snmpSetObjectValue] in request order up to the first that fails,
    with the status, the 1-based index the phase stops at and the context it
    leaves.  The loops of [snmpProcessSetRequestPdu] are compared with it. *)
Fixpoint setAll {Mib : Type} (X : Externals Mib) (commit : bool)
    (ctx : SnmpAgentContext Mib) (vs : list SnmpVarBind) (index : Z)
    : error_t * Z * SnmpAgentContext Mib :=
  match vs with
  | [] => (NO_ERROR, index, ctx)
  | v :: vs' =>
      let '(e, store) := snmpSetObjectValue X ctx (request ctx) v commit in
      let ctx := set_mib ctx store in
      if isError e then (e, index, ctx)
      else
        setAll X commit
          (if commit then
             set_mib2Base ctx
               (MIB2_INC_COUNTER32 snmpInTotalSetVars 1 (mib2Base ctx))
           else ctx)
          vs' (index + 1)
  end.

(** The state a phase of the Set handler stops in when the octets after the
    bindings it went through give the parser's status [rest]. *)
Definition setThen {Mib : Type} (phase : error_t * Z * SnmpAgentContext Mib)
    (rest : error_t) : error_t * Z * SnmpAgentContext Mib :=
  let '(e, index, ctx) := phase in
  if isError e then (e, index, ctx) else (rest, index, ctx).

(** The same agent with another validation of object identifiers. *)
Definition withOidCheck {Mib : Type} (X : Externals Mib)
    (check : list Z -> error_t) : Externals Mib :=
  mkExternals (SNMP_AGENT_INFORM_SUPPORT X) (SNMP_MAX_MSG_SIZE X)
    (SIZE_MAX X) (snmpParsePduHeader X) (snmpInitMessage X)
    (snmpInitResponse X)
    (snmpParseVarBinding X) check (snmpGetObjectValue X)
    (snmpGetNextObject X) (snmpSetObjectValue X) (snmpWriteVarBinding X)
    (snmpTranslateStatusCode X) (snmpCopyVarBindingList X)
    (snmpWritePduHeader X) (snmpComputeMessageOverhead X)
    (snmpEncodeUnsignedInt32 X) (snmpProcessGetResponsePdu X)
    (snmpProcessReportPdu X) (usmStatsUnsupportedSecLevelsObject X)
    (usmStatsNotInTimeWindowsObject X) (usmStatsUnknownUserNamesObject X)
    (usmStatsUnknownEngineIdsObject X) (usmStatsWrongDigestsObject X)
    (usmStatsDecryptionErrorsObject X).

(** The table of the failure causes a report is made for, as the
    specification gives it: the causes, the counter each cause stands for
    (the two context causes have an object but no counter in the agent) and
    the object identifier reported.  [reportSelect] is compared with it. *)
Definition reportCauses : list error_t :=
  [ERROR_UNSUPPORTED_SECURITY_LEVEL; ERROR_NOT_IN_TIME_WINDOW;
   ERROR_UNKNOWN_USER_NAME; ERROR_UNKNOWN_ENGINE_ID;
   ERROR_AUTHENTICATION_FAILED; ERROR_DECRYPTION_FAILED;
   ERROR_UNAVAILABLE_CONTEXT; ERROR_UNKNOWN_CONTEXT].

Definition causeCounter (cause : error_t) : option UsmCounter :=
  match cause with
  | ERROR_UNSUPPORTED_SECURITY_LEVEL => Some usmStatsUnsupportedSecLevels
  | ERROR_NOT_IN_TIME_WINDOW => Some usmStatsNotInTimeWindows
  | ERROR_UNKNOWN_USER_NAME => Some usmStatsUnknownUserNames
  | ERROR_UNKNOWN_ENGINE_ID => Some usmStatsUnknownEngineIDs
  | ERROR_AUTHENTICATION_FAILED => Some usmStatsWrongDigests
  | ERROR_DECRYPTION_FAILED => Some usmStatsDecryptionErrors
  | _ => None
  end.

Definition causeObject {Mib : Type} (X : Externals Mib) (cause : error_t)
    : list Z :=
  match cause with
  | ERROR_UNSUPPORTED_SECURITY_LEVEL => usmStatsUnsupportedSecLevelsObject X
  | ERROR_NOT_IN_TIME_WINDOW => usmStatsNotInTimeWindowsObject X
  | ERROR_UNKNOWN_USER_NAME => usmStatsUnknownUserNamesObject X
  | ERROR_UNKNOWN_ENGINE_ID => usmStatsUnknownEngineIdsObject X
  | ERROR_AUTHENTICATION_FAILED => usmStatsWrongDigestsObject X
  | ERROR_DECRYPTION_FAILED => usmStatsDecryptionErrorsObject X
  | ERROR_UNAVAILABLE_CONTEXT => snmpUnavailableContextsObject
  | ERROR_UNKNOWN_CONTEXT => snmpUnknownContextsObject
  | _ => []
  end.

(** The message [snmpFormatReportPdu] hands to
    [snmpComputeMessageOverhead]. *)
Definition reportMessage {Mib : Type} (X : Externals Mib)
    (ctx : SnmpAgentContext Mib) (cause : error_t) : SnmpMessage :=
  if error_t_beq cause ERROR_NOT_IN_TIME_WINDOW then
    reportNotInTimeWindow ctx (reportInit X ctx)
  else reportInit X ctx.

(** The repetitions the GetBulk loop can still make before
    max-repetitions reaches zero, the field being read modulo 2^32. *)
Definition repeatsLeft {Mib : Type} (st : BulkLoop Mib) : nat :=
  Z.to_nat ((maxRepetitions (request (bl_ctx st)) - 1) mod 2 ^ 32).

(** What holds at the head of the GetBulk loop for a request [req0] that
    arrived with non-negative non-repeaters and with max-repetitions [M]:
    the request is [req0] but for max-repetitions, which lies between 0 and
    [M] and is positive once the walk is past the first repeating
    variable. *)
Definition BulkHead {Mib : Type} (req0 : SnmpMessage) (M : Z)
    (st : BulkLoop Mib) : Prop :=
  let req := request (bl_ctx st) in
  req = set_maxRepetitions req0 (maxRepetitions req)
  /\ 0 <= maxRepetitions req <= M
  /\ (nonRepeaters req0 + 1 < bl_index st -> 1 <= maxRepetitions req).

(** The pass of the GetBulk loop entered in [st] comes to "Next
    iteration?" with the list being walked at its end and a repeating
    variable: it ends a repetition. *)
Definition roundEnds {Mib : Type} (X : Externals Mib) (st : BulkLoop Mib)
    : bool :=
  match bulkAnswer X st with
  | inl _ => false
  | inr a =>
      (sizeSub X (bl_length st) (ba_n a) =? 0)%nat
      && (nonRepeaters (request (ba_ctx a)) <? bl_index st)
  end.

(** The search for the next object, in the pass of the GetBulk loop
    entered in [st], finds none. *)
Definition searchFails {Mib : Type} (X : Externals Mib) (st : BulkLoop Mib)
    : bool :=
  let ctx := bl_ctx st in
  let '(_, var, _) :=
    snmpParseVarBinding X
      (octetsAt (bulkBuffer ctx (bl_region st)) (bl_p st) (bl_length st)) in
  error_t_beq (fst (snmpGetNextObject X ctx (request ctx) var))
    ERROR_OBJECT_NOT_FOUND.

(** The indexes [from], [from + 1], ... of [n] consecutive passes. *)
Definition indexesFrom (from : Z) (n : nat) : list Z :=
  map (fun i => from + Z.of_nat i) (seq 0 n).

(** The locals [next], [m] and [endOfMibView] of the GetBulk loop hold a
    value once the walk is past the first repeating variable. *)
Definition BulkLocals {Mib : Type} (st : BulkLoop Mib) : Prop :=
  nonRepeaters (request (bl_ctx st)) + 1 < bl_index st ->
  bl_next st <> None /\ bl_m st <> None /\ bl_endOfMibView st <> None.

(** What holds at the head of the GetBulk loop after the passes [entered],
    for a request that arrived with [N] non-repeaters and max-repetitions
    [M]: max-repetitions was lowered once for each pass that ended a
    repetition; the passes of the repetition under way, one for each
    repeating variable walked so far, are the last of [entered], and when
    there are some, [next] and [m] hold a value and [endOfMibView] tells
    whether the search found no object in every one of them. *)
Definition BulkRounds {Mib : Type} (X : Externals Mib) (N M : Z)
    (entered : list (BulkLoop Mib)) (st : BulkLoop Mib) : Prop :=
  maxRepetitions (request (bl_ctx st))
    = M - Z.of_nat (length (filter (roundEnds X) entered))
  /\ exists before round : list (BulkLoop Mib),
       entered = before ++ round
       /\ map (@bl_index Mib) round
          = indexesFrom (N + 1) (Z.to_nat (bl_index st - 1 - N))
       /\ (round <> [] ->
           bl_endOfMibView st = Some (forallb (searchFails X) round)
           /\ bl_next st <> None /\ bl_m st <> None).

(** What holds of the state the GetBulk loop ends in. *)
Definition BulkEnd {Mib : Type} (req0 : SnmpMessage) (M : Z)
    (st : BulkLoop Mib) : Prop :=
  let req := request (bl_ctx st) in
  req = set_maxRepetitions req0 (maxRepetitions req)
  /\ 0 <= maxRepetitions req <= M.

(** What holds at the head of the GetBulk loop when the request [req0]
    holds [nonRepeaters req0] non-repeating variables followed by one
    repeating variable, arrived with max-repetitions [M], and the response
    started with an empty list.  The response holds the encodings of the
    bindings [ws] written so far.  While the cursor is in the request, no
    repetition was made and as many bindings were written as were read;
    once it is in the response, it spans the binding written last, and
    the bindings written are the non-repeaters and one binding for each
    repetition made. *)
Definition BulkWalk {Mib : Type} (X : Externals Mib)
    (enc : SnmpVarBind -> list Z) (req0 : SnmpMessage) (M : Z)
    (st : BulkLoop Mib) : Prop :=
  let ctx := bl_ctx st in
  bl_error st = NO_ERROR
  /\ exists ws : list SnmpVarBind,
       varBindList (response ctx) = flat_map enc ws
       /\ match bl_region st with
          | InRequest =>
              maxRepetitions (request ctx) = M
              /\ Z.of_nat (length ws) = bl_index st - 1
              /\ (bl_length st <= length (varBindList req0) - bl_p st)%nat
              /\ exists fuelD v rest,
                   decodeVarBinds X fuelD
                     (octetsAt (varBindList req0) (bl_p st) (bl_length st))
                   = Some (v :: rest)
                   /\ bl_index st + Z.of_nat (length rest)
                      = nonRepeaters req0 + 1
          | InResponse =>
              bl_index st = nonRepeaters req0 + 1
              /\ Z.of_nat (length ws)
                 = nonRepeaters req0
                   + (M - maxRepetitions (request ctx))
              /\ exists ws' w,
                   ws = ws' ++ [w]
                   /\ bl_p st = length (flat_map enc ws')
                   /\ bl_length st = length (enc w)
          end.

(** What then holds of the state the loop ends in, unless it ends on a
    failure other than ERROR_BUFFER_OVERFLOW: the response holds at most
    one binding for each non-repeater and for each repetition made. *)
Definition BulkDone {Mib : Type} (enc : SnmpVarBind -> list Z)
    (req0 : SnmpMessage) (M : Z) (st : BulkLoop Mib) : Prop :=
  isError (bl_error st) = false \/ bl_error st = ERROR_BUFFER_OVERFLOW ->
  exists ws : list SnmpVarBind,
    varBindList (response (bl_ctx st)) = flat_map enc ws
    /\ Z.of_nat (length ws)
       <= nonRepeaters req0 + (M - maxRepetitions (request (bl_ctx st))).











(** The value retrieval of the Get handler returned [e] for the binding
    [var]: directly for a GetRequest, after a successful search for the next
    object otherwise. *)
Definition ValueRetrieval {Mib : Type} (X : Externals Mib)
    (ctx : SnmpAgentContext Mib) (var : SnmpVarBind) (e : error_t)
    (var' : SnmpVarBind) : Prop :=
  (pduType (request ctx) = SNMP_PDU_GET_REQUEST
   /\ snmpGetObjectValue X ctx (request ctx) var = (e, var'))
  \/ (pduType (request ctx) <> SNMP_PDU_GET_REQUEST
      /\ exists found,
           snmpGetNextObject X ctx (request ctx) var = (NO_ERROR, found)
           /\ snmpGetObjectValue X ctx (request ctx) found = (e, var')).

(** A 32-bit counter after [k] increments by one. *)
Definition countedUp (k : nat) (z : Z) : Z :=
  Nat.iter k (fun c => wrapU32 (c + 1)) z.

(** What holds at the head of the Get loop for a request whose list holds
    the bindings [vs], the response having started as [r0] and the counter
    snmpInTotalReqVars as [total0]. *)
Definition GetWalk {Mib : Type} (X : Externals Mib)
    (enc : SnmpVarBind -> list Z) (req0 r0 : SnmpMessage)
    (vs : list SnmpVarBind) (total0 : Z) (st : GetLoop Mib) : Prop :=
  let ctx := gl_ctx st in
  request ctx = req0
  /\ gl_error st = NO_ERROR
  /\ (gl_length st <= length (varBindList req0) - gl_p st)%nat
  /\ exists (ws rest : list SnmpVarBind) (fuelD k : nat),
       varBindList (response ctx) = varBindList r0 ++ flat_map enc ws
       /\ gl_index st = Z.of_nat (length ws) + 1
       /\ decodeVarBinds X fuelD
            (octetsAt (varBindList req0) (gl_p st) (gl_length st))
          = Some rest
       /\ (length ws + length rest = length vs)%nat
       /\ (k <= length ws)%nat
       /\ mib2Base ctx snmpInTotalReqVars = countedUp k total0.

(** What then holds of the state the loop ends in. *)
Definition GetDone {Mib : Type} (enc : SnmpVarBind -> list Z)
    (r0 : SnmpMessage) (vs : list SnmpVarBind) (total0 : Z)
    (st : GetLoop Mib) : Prop :=
  exists (ws : list SnmpVarBind) (k : nat),
    varBindList (response (gl_ctx st)) = varBindList r0 ++ flat_map enc ws
    /\ gl_index st = Z.of_nat (length ws) + 1
    /\ (k <= length vs)%nat
    /\ mib2Base (gl_ctx st) snmpInTotalReqVars = countedUp k total0
    /\ (if isError (gl_error st) then (length ws < length vs)%nat
        else length ws = length vs /\ (k <= length ws)%nat).

(** Between the contexts [c0] and [c], no counter but the MIB-II counter
    [name] changed. *)
Definition OnlyCounts {Mib : Type} (name : Mib2Counter)
    (c0 c : SnmpAgentContext Mib) : Prop :=
  (forall k, k <> name -> mib2Base c k = mib2Base c0 k)
  /\ snmpMibBase c = snmpMibBase c0
  /\ snmpUsmMibBase c = snmpUsmMibBase c0.

(** The locals the GetBulk loop shares with the Get loop. *)
Definition asGetLoop {Mib : Type} (st : BulkLoop Mib) : GetLoop Mib :=
  mkGetLoop (bl_ctx st) (bl_p st) (bl_length st) (bl_index st) (bl_error st).

(** What holds at the head of the GetBulk loop while it walks the
    non-repeaters of a request [req0] that holds the bindings [vs]. *)
Definition BulkNonRepeaters {Mib : Type} (X : Externals Mib)
    (req0 : SnmpMessage) (vs : list SnmpVarBind) (st : BulkLoop Mib)
    : Prop :=
  request (bl_ctx st) = req0
  /\ bl_region st = InRequest
  /\ (bl_length st <= length (varBindList req0) - bl_p st)%nat
  /\ exists (rest : list SnmpVarBind) (fuelD : nat),
       decodeVarBinds X fuelD
         (octetsAt (varBindList req0) (bl_p st) (bl_length st)) = Some rest
       /\ bl_index st - 1 + Z.of_nat (length rest) = Z.of_nat (length vs).

(** * A small agent to run the handlers on

    A managed-object store with a handful of objects and a length-prefixed
    codec for variable bindings, used to evaluate the handlers on concrete
    requests. *)
Module Demo.

(** The store: object identifiers, in increasing order, with their values. *)
Definition Store : Type := list (list Z * list Z).

Fixpoint oidLtb (a b : list Z) : bool :=
  match a, b with
  | _, [] => false
  | [], _ :: _ => true
  | x :: a', y :: b' => (x <? y) || ((x =? y) && oidLtb a' b')
  end.

Fixpoint oidEqb (a b : list Z) : bool :=
  match a, b with
  | [], [] => true
  | x :: a', y :: b' => (x =? y) && oidEqb a' b'
  | _, _ => false
  end.

Fixpoint lookup (s : Store) (o : list Z) : option (list Z) :=
  match s with
  | [] => None
  | (k, v) :: s' => if oidEqb k o then Some v else lookup s' o
  end.

Fixpoint successor (s : Store) (o : list Z) : option (list Z) :=
  match s with
  | [] => None
  | (k, _) :: s' => if oidLtb o k then Some k else successor s' o
  end.

Fixpoint update (s : Store) (o v : list Z) : Store :=
  match s with
  | [] => []
  | (k, w) :: s' =>
      if oidEqb k o then (k, v) :: s' else (k, w) :: update s' o v
  end.

(** Objects under the arc 99 are outside of the caller's view; objects
    under the arc 66 accept a value and then refuse to store it. *)
Definition hidden (o : list Z) : bool :=
  match o with 99 :: _ => true | _ => false end.

Definition faulty (o : list Z) : bool :=
  match o with 66 :: _ => true | _ => false end.

(** The codec: total length, length of the identifier, the identifier, the
    class, the type, the value. *)
Definition encodeVarBind (v : SnmpVarBind) : list Z :=
  Z.of_nat (4 + length (oid v) + length (value v))
    :: Z.of_nat (length (oid v))
    :: oid v ++ objClass v :: objType v :: value v.

Definition noVarBind : SnmpVarBind := mkVarBind [] 0 0 [].

Definition parseVarBinding (octets : list Z) : error_t * SnmpVarBind * nat :=
  match octets with
  | t :: l :: rest =>
      let n := Z.to_nat t in
      let k := Z.to_nat l in
      if ((4 + k <=? n) && (n <=? length octets))%nat then
        match skipn k rest with
        | c :: ty :: val =>
            (NO_ERROR, mkVarBind (firstn k rest) c ty (firstn (n - 4 - k) val),
             n)
        | _ => (ERROR_INVALID_LENGTH, noVarBind, 0%nat)
        end
      else (ERROR_INVALID_LENGTH, noVarBind, 0%nat)
  | _ => (ERROR_INVALID_TAG, noVarBind, 0%nat)
  end.

(** An identifier is refused when it is empty or ends in an octet whose
    continuation bit is set. *)
Definition checkOid (o : list Z) : error_t :=
  match rev o with
  | [] => ERROR_INVALID_SYNTAX
  | last :: _ => if last <? 128 then NO_ERROR else ERROR_INVALID_SYNTAX
  end.

Definition getObjectValue (ctx : SnmpAgentContext Store) (_ : SnmpMessage)
    (var : SnmpVarBind) : error_t * SnmpVarBind :=
  if hidden (oid var) then (ERROR_ACCESS_DENIED, var) else
  match lookup (mib ctx) (oid var) with
  | Some v => (NO_ERROR, mkVarBind (oid var) ASN1_CLASS_UNIVERSAL 4 v)
  | None => (ERROR_OBJECT_NOT_FOUND, var)
  end.

Definition getNextObject (ctx : SnmpAgentContext Store) (_ : SnmpMessage)
    (var : SnmpVarBind) : error_t * SnmpVarBind :=
  if hidden (oid var) then (ERROR_ACCESS_DENIED, var) else
  match successor (mib ctx) (oid var) with
  | Some k => (NO_ERROR, mkVarBind k (objClass var) (objType var) (value var))
  | None => (ERROR_OBJECT_NOT_FOUND, var)
  end.

Definition setObjectValue (ctx : SnmpAgentContext Store) (_ : SnmpMessage)
    (var : SnmpVarBind) (commit : bool) : error_t * Store :=
  match lookup (mib ctx) (oid var) with
  | None => (ERROR_OBJECT_NOT_FOUND, mib ctx)
  | Some _ =>
      match value var with
      | [] => (ERROR_WRONG_VALUE, mib ctx)
      | _ :: _ =>
          if commit then
            if faulty (oid var) then (ERROR_FAILURE, mib ctx)
            else (NO_ERROR, update (mib ctx) (oid var) (value var))
          else (NO_ERROR, mib ctx)
      end
  end.

Definition blankMessage : SnmpMessage :=
  mkMessage SNMP_VERSION_1 0 0 0 0 [] 0 0 [] 0 None 0 [] 0 [] []
    SNMP_PDU_GET_REQUEST 0 SNMP_ERROR_NONE 0 0 0 [].

Definition initResponse (ctx : SnmpAgentContext Store)
    : error_t * SnmpMessage :=
  let req := request ctx in
  (NO_ERROR,
   mkMessage (version req) (msgId req) (msgMaxSize req) (msgFlags req)
     (msgSecurityModel req) (msgAuthEngineId req) (msgAuthEngineBoots req)
     (msgAuthEngineTime req) (msgUserName req) (msgUserNameLen req)
     (msgAuthParameters req) (msgAuthParametersLen req)
     (msgPrivParameters req) (msgPrivParametersLen req)
     (contextEngineId req) (contextName req) SNMP_PDU_GET_RESPONSE
     (requestId req) SNMP_ERROR_NONE 0 0 0 []).

(** The room the response has for variable bindings. *)
Definition capacity : nat := 40.

Definition writeVarBinding (ctx : SnmpAgentContext Store) (var : SnmpVarBind)
    : error_t * SnmpMessage :=
  let r := response ctx in
  if (capacity <? length (varBindList r) + length (encodeVarBind var))%nat
  then (ERROR_BUFFER_OVERFLOW, r)
  else (NO_ERROR, set_varBindList r (varBindList r ++ encodeVarBind var)).

Definition copyList (ctx : SnmpAgentContext Store) : error_t * SnmpMessage :=
  if (capacity <? length (varBindList (request ctx)))%nat
  then (ERROR_BUFFER_OVERFLOW, response ctx)
  else (NO_ERROR,
        set_varBindList (response ctx) (varBindList (request ctx))).

Definition set_status (m : SnmpMessage) (status index : Z) : SnmpMessage :=
  mkMessage (version m) (msgId m) (msgMaxSize m) (msgFlags m)
    (msgSecurityModel m) (msgAuthEngineId m) (msgAuthEngineBoots m)
    (msgAuthEngineTime m) (msgUserName m) (msgUserNameLen m)
    (msgAuthParameters m) (msgAuthParametersLen m) (msgPrivParameters m)
    (msgPrivParametersLen m) (contextEngineId m) (contextName m) (pduType m)
    (requestId m) status index (nonRepeaters m) (maxRepetitions m)
    (varBindList m).

Definition translateStatusCode (m : SnmpMessage) (status : error_t)
    (index : Z) : error_t * SnmpMessage :=
  let legacy s := if version m =? SNMP_VERSION_1 then SNMP_ERROR_NO_SUCH_NAME
                  else s in
  match status with
  | NO_ERROR => (NO_ERROR, set_status m SNMP_ERROR_NONE 0)
  | ERROR_OBJECT_NOT_FOUND | ERROR_INSTANCE_NOT_FOUND | ERROR_ACCESS_DENIED =>
      (NO_ERROR, set_status m (legacy SNMP_ERROR_NO_ACCESS) index)
  | ERROR_WRONG_VALUE =>
      (NO_ERROR, set_status m (legacy SNMP_ERROR_WRONG_VALUE) index)
  | ERROR_BUFFER_OVERFLOW => (NO_ERROR, set_status m SNMP_ERROR_TOO_BIG 0)
  | ERROR_INVALID_TAG | ERROR_INVALID_LENGTH => (status, m)
  | _ => (NO_ERROR, set_status m SNMP_ERROR_GENERIC index)
  end.

Definition parsePduHeader (m : SnmpMessage) : error_t * SnmpMessage :=
  (NO_ERROR, m).

Definition encodeUnsignedInt32 (c : Z) : error_t * list Z :=
  (NO_ERROR,
   [c / 2 ^ 24 mod 256; c / 2 ^ 16 mod 256; c / 2 ^ 8 mod 256; c mod 256]).

Definition usmStats (k : Z) : list Z := [43; 6; 1; 6; 3; 15; 1; 1; k; 0].

Definition agent : Externals Store :=
  mkExternals false 1452 4294967295 parsePduHeader (fun _ => blankMessage)
    initResponse parseVarBinding checkOid getObjectValue getNextObject setObjectValue
    writeVarBinding translateStatusCode copyList (fun m => (NO_ERROR, m))
    (fun m => (NO_ERROR, m)) encodeUnsignedInt32
    (fun ctx => (NO_ERROR, ctx)) (fun ctx => (NO_ERROR, ctx))
    (usmStats 1) (usmStats 2) (usmStats 3) (usmStats 4) (usmStats 5)
    (usmStats 6).

(** Four objects, one of them under the faulty arc. *)
Definition store0 : Store :=
  [([1; 1], [10]); ([1; 2], [20]); ([1; 3], [30]); ([66; 1], [60])].

(** A binding of a request: an identifier with a NULL value, or with the
    value to set. *)
Definition nameOf (o : list Z) : SnmpVarBind :=
  mkVarBind o ASN1_CLASS_UNIVERSAL 5 [].

Definition assign (o v : list Z) : SnmpVarBind :=
  mkVarBind o ASN1_CLASS_UNIVERSAL 4 v.

Definition encodeList (l : list SnmpVarBind) : list Z :=
  flat_map encodeVarBind l.

Definition requestOf (v : Z) (t : SnmpPduType) (nonRep maxRep : Z)
    (l : list SnmpVarBind) : SnmpMessage :=
  mkMessage v 7 1452 0 0 [] 0 0 [] 0 None 0 [] 0 [] [] t 1234
    SNMP_ERROR_NONE 0 nonRep maxRep (encodeList l).

Definition contextOf (mode : SnmpAccess) (req : SnmpMessage) (s : Store)
    : SnmpAgentContext Store :=
  mkContext req blankMessage mode [128; 0; 1] 3 500 [] [9; 9] s
    (fun _ => 0) (fun _ => 0) (fun _ => 0).

(** The bindings of a list, decoded one after the other. *)
Fixpoint decodeList (fuel : nat) (octets : list Z) : list SnmpVarBind :=
  match fuel with
  | O => []
  | S fuel' =>
      match octets with
      | [] => []
      | _ =>
          match parseVarBinding octets with
          | (NO_ERROR, v, n) => v :: decodeList fuel' (skipn n octets)
          | _ => []
          end
      end
  end.

(** What is looked at in a context after a handler ran: error-status,
    error-index and the decoded bindings of the response, the request's
    max-repetitions, and the store. *)
Definition observe (ctx : SnmpAgentContext Store)
    : Z * Z * list SnmpVarBind * Z * Store :=
  (errorStatus (response ctx), errorIndex (response ctx),
   decodeList 50 (varBindList (response ctx)),
   maxRepetitions (request ctx), mib ctx).

Definition outcome (r : option (error_t * SnmpAgentContext Store))
    : option (error_t * (Z * Z * list SnmpVarBind * Z * Store)) :=
  option_map (fun ec => (fst ec, observe (snd ec))) r.

(** A context whose response is initialised, as the handlers have it when
    their loop starts. *)
Definition started (ctx : SnmpAgentContext Store) : SnmpAgentContext Store :=
  set_response ctx (snd (initResponse ctx)).

(** A GetRequest for three objects, the second of which does not exist,
    under v1 and under v2c. *)
Definition threeNames : list SnmpVarBind :=
  [nameOf [1; 1]; nameOf [1; 5]; nameOf [1; 3]].

Definition getV1 : SnmpAgentContext Store :=
  contextOf SNMP_ACCESS_READ_ONLY
    (requestOf SNMP_VERSION_1 SNMP_PDU_GET_REQUEST 0 0 threeNames) store0.

Definition getV2 : SnmpAgentContext Store :=
  contextOf SNMP_ACCESS_READ_ONLY
    (requestOf SNMP_VERSION_2C SNMP_PDU_GET_REQUEST 0 0 threeNames) store0.

(** A GetRequest under v2c whose first object does not exist. *)
Definition getMissing : SnmpAgentContext Store :=
  contextOf SNMP_ACCESS_READ_ONLY
    (requestOf SNMP_VERSION_2C SNMP_PDU_GET_REQUEST 0 0
       [nameOf [1; 5]; nameOf [1; 3]]) store0.

(** A SetRequest for three objects whose second value is refused by the
    validation, and one whose second object refuses to store its value. *)
Definition setRefused : SnmpAgentContext Store :=
  contextOf SNMP_ACCESS_READ_WRITE
    (requestOf SNMP_VERSION_2C SNMP_PDU_SET_REQUEST 0 0
       [assign [1; 1] [11]; assign [1; 2] []; assign [1; 3] [33]]) store0.

Definition setFaulty : SnmpAgentContext Store :=
  contextOf SNMP_ACCESS_READ_WRITE
    (requestOf SNMP_VERSION_2C SNMP_PDU_SET_REQUEST 0 0
       [assign [1; 1] [11]; assign [66; 1] [61]; assign [1; 3] [33]]) store0.

(** A store with an object whose identifier [checkOid] refuses, and the
    SetRequest and GetRequest that name it. *)
Definition store1 : Store := store0 ++ [([200], [5])].

Definition setBadOid : SnmpAgentContext Store :=
  contextOf SNMP_ACCESS_READ_WRITE
    (requestOf SNMP_VERSION_2C SNMP_PDU_SET_REQUEST 0 0 [assign [200] [9]])
    store1.

Definition getBadOid : SnmpAgentContext Store :=
  contextOf SNMP_ACCESS_READ_WRITE
    (requestOf SNMP_VERSION_2C SNMP_PDU_GET_REQUEST 0 0 [nameOf [200]])
    store1.

(** An authenticated and encrypted SNMPv3 request (msgFlags: auth, priv
    and reportable), as the security layer hands it over when it is outside
    of the time window. *)
Definition secureRequest : SnmpMessage :=
  mkMessage SNMP_VERSION_3 77 1452 7 SNMP_SECURITY_MODEL_USM [128; 0; 1] 3
    400 [117; 115; 114] 3 (Some [1; 2; 3; 4]) 4 [5; 6; 7; 8] 4 [128; 0; 1]
    [] SNMP_PDU_GET_REQUEST 4321 SNMP_ERROR_NONE 0 0 0
    (encodeList [nameOf [1; 1]]).

Definition secureContext : SnmpAgentContext Store :=
  contextOf SNMP_ACCESS_READ_ONLY secureRequest store0.

Definition usmCounters : list UsmCounter :=
  [usmStatsUnsupportedSecLevels; usmStatsNotInTimeWindows;
   usmStatsUnknownUserNames; usmStatsUnknownEngineIDs; usmStatsWrongDigests;
   usmStatsDecryptionErrors].

(** What is looked at after a report was formatted: the status code, the
    decoded bindings of the report and the six counters. *)
Definition reported (r : error_t * SnmpAgentContext Store)
    : error_t * list SnmpVarBind * list Z :=
  (fst r, decodeList 5 (varBindList (response (snd r))),
   map (snmpUsmMibBase (snd r)) usmCounters).

(** GetBulk requests: one non-repeater and one repeating variable with two
    repetitions; two repeating variables with more repetitions than the
    response has room for; and a request with no repetition whose
    non-repeater is outside of the caller's view. *)
Definition bulkTwo : SnmpAgentContext Store :=
  contextOf SNMP_ACCESS_READ_ONLY
    (requestOf SNMP_VERSION_2C SNMP_PDU_GET_BULK_REQUEST 1 2
       [nameOf [1; 1]; nameOf [1; 1]]) store0.


Definition bulkAbort : SnmpAgentContext Store :=
  contextOf SNMP_ACCESS_READ_ONLY
    (requestOf SNMP_VERSION_2C SNMP_PDU_GET_BULK_REQUEST 1 0
       [nameOf [99; 1]; nameOf [1; 1]]) store0.

(** A GetRequest presented with the write-only access mode. *)
Definition getDenied : SnmpAgentContext Store :=
  contextOf SNMP_ACCESS_WRITE_ONLY
    (requestOf SNMP_VERSION_2C SNMP_PDU_GET_REQUEST 0 0 [nameOf [1; 1]])
    store0.

(** A GetBulkRequest under v1 and a SetRequest, each presented with an
    access mode that does not allow it. *)
Definition bulkV1 : SnmpAgentContext Store :=
  contextOf SNMP_ACCESS_NONE
    (requestOf SNMP_VERSION_1 SNMP_PDU_GET_BULK_REQUEST 0 1
       [nameOf [1; 1]]) store0.

Definition setDenied : SnmpAgentContext Store :=
  contextOf SNMP_ACCESS_READ_ONLY
    (requestOf SNMP_VERSION_2C SNMP_PDU_SET_REQUEST 0 0
       [assign [1; 1] [11]]) store0.

(** A TrapV2 PDU handed to the agent. *)
Definition trapReceived : SnmpAgentContext Store :=
  contextOf SNMP_ACCESS_READ_ONLY
    (requestOf SNMP_VERSION_2C SNMP_PDU_TRAP_V2 0 0 []) store0.

(** A GetBulkRequest whose two bindings are both non-repeaters, and a
    GetNextRequest for the last object of the store, under v1 and under
    v2c. *)
Definition bulkFlat : SnmpAgentContext Store :=
  contextOf SNMP_ACCESS_READ_ONLY
    (requestOf SNMP_VERSION_2C SNMP_PDU_GET_BULK_REQUEST 2 5
       [nameOf [1; 1]; nameOf [1; 3]]) store0.

Definition nextPastEndV1 : SnmpAgentContext Store :=
  contextOf SNMP_ACCESS_READ_ONLY
    (requestOf SNMP_VERSION_1 SNMP_PDU_GET_NEXT_REQUEST 0 0
       [nameOf [66; 1]]) store0.

Definition nextPastEndV2 : SnmpAgentContext Store :=
  contextOf SNMP_ACCESS_READ_ONLY
    (requestOf SNMP_VERSION_2C SNMP_PDU_GET_NEXT_REQUEST 0 0
       [nameOf [66; 1]]) store0.

(** A request with no binding, presented with the read-write access
    mode. *)
Definition emptyRequest : SnmpAgentContext Store :=
  contextOf SNMP_ACCESS_READ_WRITE
    (requestOf SNMP_VERSION_2C SNMP_PDU_GET_BULK_REQUEST 0 3 [])
    store0.

(** A GetBulkRequest for two repeating variables near the end of the
    store. *)
Definition bulkTail : SnmpAgentContext Store :=
  contextOf SNMP_ACCESS_READ_ONLY
    (requestOf SNMP_VERSION_2C SNMP_PDU_GET_BULK_REQUEST 0 5
       [nameOf [1; 3]; nameOf [66; 1]]) store0.

(** A GetNextRequest under v2c that names an object the agent does not
    show, and then one it has. *)
Definition nextHidden : SnmpAgentContext Store :=
  contextOf SNMP_ACCESS_READ_ONLY
    (requestOf SNMP_VERSION_2C SNMP_PDU_GET_NEXT_REQUEST 0 0
       [nameOf [99; 1]; nameOf [1; 1]]) store0.

(** A context with other octets for the list of its request. *)
Definition withList (ctx : SnmpAgentContext Store) (octets : list Z)
    : SnmpAgentContext Store :=
  set_request ctx (set_varBindList (request ctx) octets).

(** Requests whose list ends in an octet that is no binding: a SetRequest
    with a binding the store accepts and one it refuses before that octet, a
    SetRequest with one binding the store accepts, and a GetRequest with one
    name. *)
Definition setRefusedCut : SnmpAgentContext Store :=
  withList setRefused
    (encodeList [assign [1; 1] [11]; assign [1; 2] []] ++ [7]).

Definition setCut : SnmpAgentContext Store :=
  withList setRefused (encodeList [assign [1; 1] [11]] ++ [7]).


End Demo.


(** * KSZ8794 Ethernet switch driver (ksz8794_driver.c)

    A shallow embedding of the functions of the driver.  The driver talks
    to the switch through the SPI driver or the MDC/MDIO interface of the
    network controller, and to the TCP/IP stack through
    [nicNotifyLinkChange] and [osSetEvent]: every such call is recorded as
    an [Event] in a trace, and what the hardware answers to a read is given
    by a [Device], a function of the trace so far.  Two of the calls are
    handed an interface, [updateMacConfig] and [nicNotifyLinkChange]: what
    they make of the interfaces is given by a [Stack]. *)
Module Ksz8794.

(** The members of [error_t] the driver returns, and [ERROR_FAILURE] for
    the failures that [ethPadFrame] and [netBufferAppend] hand to it. *)
Inductive error_t : Set :=
| NO_ERROR
| ERROR_FAILURE
| ERROR_WRONG_IDENTIFIER
| ERROR_INVALID_LENGTH.

Definition isError (e : error_t) : bool :=
  match e with NO_ERROR => false | _ => true end.

(** The members of [NicLinkSpeed] and [NicDuplexMode] the driver assigns,
    and the member a link that was never up has. *)
Inductive NicLinkSpeed : Set :=
| NIC_LINK_SPEED_UNKNOWN
| NIC_LINK_SPEED_10MBPS
| NIC_LINK_SPEED_100MBPS.

Inductive NicDuplexMode : Set :=
| NIC_UNKNOWN_DUPLEX_MODE
| NIC_HALF_DUPLEX_MODE
| NIC_FULL_DUPLEX_MODE.

(** [uint8_t] and [uint16_t] values after a conversion. *)
Definition u8 (z : Z) : Z := z mod 2 ^ 8.
Definition u16 (z : Z) : Z := z mod 2 ^ 16.

(** The constants and macros of ksz8794_driver.h, os_port.h, ethernet.h and
    the build configuration that the driver uses.  These headers are not
    part of the sources at hand: the driver is a function of their
    values. *)
Record Header : Type := mkHeader {
  ETH_PORT_TAGGING_SUPPORT : bool;
  TRACE_DEBUG_ENABLED : bool;
  KSZ8794_PORT1 : Z;
  KSZ8794_PORT3 : Z;
  KSZ8794_CHIP_ID0 : Z;
  KSZ8794_CHIP_ID0_FAMILY_ID_DEFAULT : Z;
  KSZ8794_GLOBAL_CTRL10 : Z;
  KSZ8794_GLOBAL_CTRL10_TAIL_TAG_EN : Z;
  KSZ8794_PORTn_CTRL2 : Z -> Z;
  KSZ8794_PORTn_CTRL2_TRANSMIT_EN : Z;
  KSZ8794_PORTn_CTRL2_RECEIVE_EN : Z;
  KSZ8794_PORTn_CTRL2_LEARNING_DIS : Z;
  KSZ8794_PORTn_STAT2 : Z -> Z;
  KSZ8794_PORTn_STAT2_LINK_GOOD : Z;
  KSZ8794_PORTn_CTRL11_STAT3 : Z -> Z;
  KSZ8794_PORTn_CTRL11_STAT3_OP_MODE : Z;
  KSZ8794_PORTn_CTRL11_STAT3_OP_MODE_10BT_HD : Z;
  KSZ8794_PORTn_CTRL11_STAT3_OP_MODE_10BT_FD : Z;
  KSZ8794_PORTn_CTRL11_STAT3_OP_MODE_100BTX_HD : Z;
  KSZ8794_PORTn_CTRL11_STAT3_OP_MODE_100BTX_FD : Z;
  KSZ8794_BMSR : Z;
  KSZ8794_BMSR_LINK_STATUS : Z;
  KSZ8794_SPI_CMD_WRITE : Z;
  KSZ8794_SPI_CMD_READ : Z;
  KSZ8794_SPI_CMD_ADDR : Z;
  KSZ8794_TAIL_TAG_ENCODE : Z -> Z;
  KSZ8794_TAIL_TAG_DECODE : Z -> Z;
  SMI_OPCODE_WRITE : Z;
  SMI_OPCODE_READ : Z;
  MSB : Z -> Z;
  LSB : Z -> Z;
  sizeof_EthHeader : nat;
  sizeof_size_t : Z
}.

(** [NetInterface], restricted to the fields the driver reads or writes.
    [spiDriver] tells whether the pointer of that name is not NULL;
    [parent] is the index of the parent interface in [netInterface]. *)
Record NetInterface : Set := mkInterface {
  spiDriver : bool;
  port : Z;
  parent : option nat;
  linkState : bool;
  linkSpeed : NicLinkSpeed;
  duplexMode : NicDuplexMode;
  phyEvent : bool
}.

Definition set_linkState (n : NetInterface) (b : bool) : NetInterface :=
  mkInterface (spiDriver n) (port n) (parent n) b (linkSpeed n)
    (duplexMode n) (phyEvent n).

Definition set_linkSpeed (n : NetInterface) (s : NicLinkSpeed)
    : NetInterface :=
  mkInterface (spiDriver n) (port n) (parent n) (linkState n) s
    (duplexMode n) (phyEvent n).

Definition set_duplexMode (n : NetInterface) (d : NicDuplexMode)
    : NetInterface :=
  mkInterface (spiDriver n) (port n) (parent n) (linkState n) (linkSpeed n)
    d (phyEvent n).

Definition set_phyEvent (n : NetInterface) (b : bool) : NetInterface :=
  mkInterface (spiDriver n) (port n) (parent n) (linkState n) (linkSpeed n)
    (duplexMode n) b.

(** The calls the driver makes out of its own file. *)
Inductive Event : Set :=
| SpiInit
| SpiAssertCs
| SpiDeassertCs
| SpiTransfer (sent received : Z)
| PhyWrite (opcode port address data : Z)
| PhyRead (opcode port address value : Z)
| UpdateMacConfig (interface : nat) (speed : NicLinkSpeed)
    (duplex : NicDuplexMode)
| NotifyLinkChange (interface : nat) (state : bool)
| SetEvent.

(** What the hardware answers: the octet the switch shifts out during an
    SPI transfer, and the value of a PHY register read through the
    controller, given the calls made so far. *)
Record Device : Type := mkDevice {
  spiAnswer : list Event -> Z -> Z;
  phyAnswer : list Event -> Z -> Z -> Z -> Z
}.

(** The state the driver works on: the array [netInterface] of the stack
    and the trace of the calls made.  An interface handed to the driver is
    the index of an entry of [netInterface]. *)
Record World : Set := mkWorld {
  netInterface : list NetInterface;
  trace : list Event
}.

Definition nullInterface : NetInterface :=
  mkInterface false 0 None false NIC_LINK_SPEED_UNKNOWN
    NIC_UNKNOWN_DUPLEX_MODE false.

Definition interfaceAt (w : World) (i : nat) : NetInterface :=
  nth i (netInterface w) nullInterface.

Fixpoint updateAt (l : list NetInterface) (i : nat)
    (f : NetInterface -> NetInterface) : list NetInterface :=
  match l, i with
  | [], _ => []
  | n :: l', O => f n :: l'
  | n :: l', S i' => n :: updateAt l' i' f
  end.

Definition update (w : World) (i : nat) (f : NetInterface -> NetInterface)
    : World :=
  mkWorld (updateAt (netInterface w) i f) (trace w).

Definition record (e : Event) (w : World) : World :=
  mkWorld (netInterface w) (trace w ++ [e]).

(** The functions the event handler hands an interface to:
    interface->nicDriver->updateMacConfig of the driver of the network
    controller and nicNotifyLinkChange of the stack.  They are handed a
    pointer into [netInterface]: what they leave in the array, given the
    index of the interface, is theirs to choose. *)
Record Stack : Type := mkStack {
  updateMacConfig : nat -> list NetInterface -> list NetInterface;
  nicNotifyLinkChange : nat -> list NetInterface -> list NetInterface
}.

(** The world after a function that was handed an interface returned. *)
Definition handOver (f : list NetInterface -> list NetInterface) (w : World)
    : World :=
  mkWorld (f (netInterface w)) (trace w).

(** The functions of the stack that work on a multi-part buffer. *)
Record BufferOps (NetBuffer : Type) : Type := mkBufferOps {
  netBufferGetLength : NetBuffer -> Z;
  ethPadFrame : NetBuffer -> Z -> error_t * NetBuffer * Z;
  netBufferAppend : NetBuffer -> list Z -> error_t * NetBuffer
}.

Arguments netBufferGetLength {NetBuffer}.
Arguments ethPadFrame {NetBuffer}.
Arguments netBufferAppend {NetBuffer}.

Section Driver.

Variable H : Header.
Variable D : Device.
Variable K : Stack.

(** interface->spiDriver->transfer *)
Definition transfer (sent : Z) (w : World) : Z * World :=
  let received := u8 (spiAnswer D (trace w) (u8 sent)) in
  (received, record (SpiTransfer (u8 sent) received) w).

(** ksz8794IngressTailTag *)
Definition ksz8794IngressTailTag : list Z :=
  [0; u8 (KSZ8794_TAIL_TAG_ENCODE H 1); u8 (KSZ8794_TAIL_TAG_ENCODE H 2);
   u8 (KSZ8794_TAIL_TAG_ENCODE H 3)].

(** ** ksz8794WritePhyReg, ksz8794ReadPhyReg, ksz8794DumpPhyReg *)

Definition ksz8794WritePhyReg (i : nat) (port address data : Z) (w : World)
    : World :=
  record (PhyWrite (SMI_OPCODE_WRITE H) (u8 port) (u8 address) (u16 data)) w.

Definition ksz8794ReadPhyReg (i : nat) (port address : Z) (w : World)
    : Z * World :=
  let value :=
    u16 (phyAnswer D (trace w) (SMI_OPCODE_READ H) (u8 port) (u8 address)) in
  (value,
   record (PhyRead (SMI_OPCODE_READ H) (u8 port) (u8 address) value) w).

(** The registers are read as arguments of TRACE_DEBUG: they are read when
    the debug trace level is compiled in. *)
Definition ksz8794DumpPhyReg (i : nat) (port : Z) (w : World) : World :=
  if TRACE_DEBUG_ENABLED H then
    fold_left (fun w r => snd (ksz8794ReadPhyReg i port (Z.of_nat r) w))
      (seq 0 32) w
  else w.

(** ** ksz8794WriteSwitchReg, ksz8794ReadSwitchReg, ksz8794DumpSwitchReg *)

(** The 16-bit command of a register access: "command = opcode; command |=
    (address << 1) & KSZ8794_SPI_CMD_ADDR". *)
Definition spiCommand (opcode address : Z) : Z :=
  u16 (Z.lor (u16 opcode)
         (Z.land (Z.shiftl (u16 address) 1) (KSZ8794_SPI_CMD_ADDR H))).

Definition ksz8794WriteSwitchReg (i : nat) (address data : Z) (w : World)
    : World :=
  if spiDriver (interfaceAt w i) then
    let command := spiCommand (KSZ8794_SPI_CMD_WRITE H) address in
    let w := record SpiAssertCs w in
    let w := snd (transfer (MSB H command) w) in
    let w := snd (transfer (LSB H command) w) in
    let w := snd (transfer (u8 data) w) in
    record SpiDeassertCs w
  else w.

Definition ksz8794ReadSwitchReg (i : nat) (address : Z) (w : World)
    : Z * World :=
  if spiDriver (interfaceAt w i) then
    let command := spiCommand (KSZ8794_SPI_CMD_READ H) address in
    let w := record SpiAssertCs w in
    let w := snd (transfer (MSB H command) w) in
    let w := snd (transfer (LSB H command) w) in
    let '(data, w) := transfer 255 w in
    (data, record SpiDeassertCs w)
  else (0, w).

Definition ksz8794DumpSwitchReg (i : nat) (w : World) : World :=
  if TRACE_DEBUG_ENABLED H then
    fold_left (fun w r => snd (ksz8794ReadSwitchReg i (Z.of_nat r) w))
      (seq 0 256) w
  else w.

(** ** ksz8794Init *)

(** The ports a loop "for(port = KSZ8794_PORT1; port <= KSZ8794_PORT3;
    port++)" goes through. *)
Definition ports : list Z :=
  map (fun k => KSZ8794_PORT1 H + Z.of_nat k)
    (seq 0 (Z.to_nat (KSZ8794_PORT3 H - KSZ8794_PORT1 H + 1))).

(** "Wait for the serial interface to be ready": the do-while loop, run for
    at most [fuel] reads of CHIP_ID0. *)
Fixpoint waitReady (fuel : nat) (i : nat) (w : World) : option World :=
  match fuel with
  | O => None
  | S fuel' =>
      let '(temp, w) := ksz8794ReadSwitchReg i (KSZ8794_CHIP_ID0 H) w in
      if temp =? KSZ8794_CHIP_ID0_FAMILY_ID_DEFAULT H then Some w
      else waitReady fuel' i w
  end.

(** [temp |= mask] and [temp &= ~mask] on an [uint8_t]. *)
Definition setBits (temp mask : Z) : Z := u8 (Z.lor temp mask).
Definition clearBits (temp mask : Z) : Z := u8 (Z.land temp (Z.lnot mask)).

(** "Enable tail tag feature" or "Disable tail tag feature". *)
Definition initTailTag (i : nat) (w : World) : World :=
  let '(temp, w) := ksz8794ReadSwitchReg i (KSZ8794_GLOBAL_CTRL10 H) w in
  let temp :=
    if ETH_PORT_TAGGING_SUPPORT H then
      setBits temp (KSZ8794_GLOBAL_CTRL10_TAIL_TAG_EN H)
    else clearBits temp (KSZ8794_GLOBAL_CTRL10_TAIL_TAG_EN H) in
  ksz8794WriteSwitchReg i (KSZ8794_GLOBAL_CTRL10 H) temp w.

(** The value written to the control register 2 of a port. *)
Definition portControl (separation : bool) (temp : Z) : Z :=
  if separation then
    let temp := clearBits temp (KSZ8794_PORTn_CTRL2_TRANSMIT_EN H) in
    let temp := setBits temp (KSZ8794_PORTn_CTRL2_RECEIVE_EN H) in
    setBits temp (KSZ8794_PORTn_CTRL2_LEARNING_DIS H)
  else
    let temp := setBits temp (KSZ8794_PORTn_CTRL2_TRANSMIT_EN H) in
    let temp := setBits temp (KSZ8794_PORTn_CTRL2_RECEIVE_EN H) in
    clearBits temp (KSZ8794_PORTn_CTRL2_LEARNING_DIS H).

(** "Port separation mode?" *)
Definition portSeparation (w : World) (i : nat) : bool :=
  ETH_PORT_TAGGING_SUPPORT H && negb (port (interfaceAt w i) =? 0).

(** The body of "Loop through ports" in SPI slave mode. *)
Definition initPort (i : nat) (w : World) (p : Z) : World :=
  let '(temp, w') := ksz8794ReadSwitchReg i (KSZ8794_PORTn_CTRL2 H p) w in
  ksz8794WriteSwitchReg i (KSZ8794_PORTn_CTRL2 H p)
    (portControl (portSeparation w i) temp) w'.

Definition ksz8794Init (fuel : nat) (i : nat) (w : World)
    : option (error_t * World) :=
  let configured :=
    if spiDriver (interfaceAt w i) then
      match waitReady fuel i (record SpiInit w) with
      | None => None
      | Some w =>
          let w := initTailTag i w in
          let w := fold_left (initPort i) ports w in
          Some (ksz8794DumpSwitchReg i w)
      end
    else Some (fold_left (fun w p => ksz8794DumpPhyReg i p w) ports w) in
  match configured with
  | None => None
  | Some w =>
      let w := update w i (fun n => set_phyEvent n true) in
      Some (NO_ERROR, record SetEvent w)
  end.

(** ** ksz8794GetLinkState *)

Definition ksz8794GetLinkState (i : nat) (p : Z) (w : World) : bool * World :=
  let p := u8 p in
  if (KSZ8794_PORT1 H <=? p) && (p <=? KSZ8794_PORT3 H) then
    if spiDriver (interfaceAt w i) then
      let '(status, w) := ksz8794ReadSwitchReg i (KSZ8794_PORTn_STAT2 H p) w in
      (negb (Z.land status (KSZ8794_PORTn_STAT2_LINK_GOOD H) =? 0), w)
    else
      let '(status, w) := ksz8794ReadPhyReg i p (KSZ8794_BMSR H) w in
      (negb (Z.land status (KSZ8794_BMSR_LINK_STATUS H) =? 0), w)
  else (false, w).

(** "Loop through ports": the state of the link is TRUE when one port has
    its link up. *)
Definition anyLinkUp (i : nat) (w : World) : bool * World :=
  fold_left
    (fun '(link, w) p =>
       let '(up, w) := ksz8794GetLinkState i p w in
       (if up then true else link, w))
    ports (false, w).

(** "Check whether the current virtual interface is attached to the
    physical interface" *)
Definition attached (w : World) (i k : nat) : bool :=
  (k =? i)%nat
  || match parent (interfaceAt w k) with
     | Some j => (j =? i)%nat
     | None => false
     end.

(** ** ksz8794Tick *)

Definition raiseEvent (i : nat) (w : World) : World :=
  record SetEvent (update w i (fun n => set_phyEvent n true)).

(** The body of "Loop through network interfaces" in the timer handler. *)
Definition tickInterface (i : nat) (w : World) (k : nat) : World :=
  if attached w i k then
    let '(link, w) := ksz8794GetLinkState i (port (interfaceAt w k)) w in
    if negb (Bool.eqb link (linkState (interfaceAt w k)))
    then raiseEvent i w
    else w
  else w.

Definition ksz8794Tick (i : nat) (w : World) : World :=
  if portSeparation w i then
    fold_left (tickInterface i) (seq 0 (length (netInterface w))) w
  else
    let '(link, w) := anyLinkUp i w in
    if negb (Bool.eqb link (linkState (interfaceAt w i)))
    then raiseEvent i w
    else w.

(** ** ksz8794EventHandler *)

(** "Adjust MAC configuration parameters for proper operation" *)
Definition adjustMac (i : nat) (w : World) : World :=
  let w :=
    update w i
      (fun n =>
         set_duplexMode (set_linkSpeed n NIC_LINK_SPEED_100MBPS)
           NIC_FULL_DUPLEX_MODE) in
  let w :=
    record
      (UpdateMacConfig i (linkSpeed (interfaceAt w i))
         (duplexMode (interfaceAt w i))) w in
  handOver (updateMacConfig K i) w.

(** "Check current operation mode" *)
Definition operationMode (status : Z) (n : NetInterface) : NetInterface :=
  let mode := Z.land status (KSZ8794_PORTn_CTRL11_STAT3_OP_MODE H) in
  let both speed duplex := set_duplexMode (set_linkSpeed n speed) duplex in
  if mode =? KSZ8794_PORTn_CTRL11_STAT3_OP_MODE_10BT_HD H then
    both NIC_LINK_SPEED_10MBPS NIC_HALF_DUPLEX_MODE
  else if mode =? KSZ8794_PORTn_CTRL11_STAT3_OP_MODE_10BT_FD H then
    both NIC_LINK_SPEED_10MBPS NIC_FULL_DUPLEX_MODE
  else if mode =? KSZ8794_PORTn_CTRL11_STAT3_OP_MODE_100BTX_HD H then
    both NIC_LINK_SPEED_100MBPS NIC_HALF_DUPLEX_MODE
  else if mode =? KSZ8794_PORTn_CTRL11_STAT3_OP_MODE_100BTX_FD H then
    both NIC_LINK_SPEED_100MBPS NIC_FULL_DUPLEX_MODE
  else n.

Definition notifyLinkChange (k : nat) (w : World) : World :=
  let w := record (NotifyLinkChange k (linkState (interfaceAt w k))) w in
  handOver (nicNotifyLinkChange K k) w.

(** The body of "Loop through network interfaces" in the event handler.
    The physical interface [i] and the virtual interface [k] are entries of
    the same array: they are the same entry when [k] is [i]. *)
Definition eventInterface (i : nat) (w : World) (k : nat) : World :=
  if attached w i k then
    let p := port (interfaceAt w k) in
    if (KSZ8794_PORT1 H <=? p) && (p <=? KSZ8794_PORT3 H) then
      let '(link, w) := ksz8794GetLinkState i p w in
      if link && negb (linkState (interfaceAt w k)) then
        let w := adjustMac i w in
        let '(status, w) :=
          ksz8794ReadSwitchReg i (KSZ8794_PORTn_CTRL11_STAT3 H p) w in
        let w := update w k (operationMode status) in
        let w := update w k (fun n => set_linkState n true) in
        notifyLinkChange k w
      else if negb link && linkState (interfaceAt w k) then
        let w := update w k (fun n => set_linkState n false) in
        notifyLinkChange k w
      else w
    else w
  else w.

Definition ksz8794EventHandler (i : nat) (w : World) : World :=
  if portSeparation w i then
    fold_left (eventInterface i) (seq 0 (length (netInterface w))) w
  else
    let '(link, w) := anyLinkUp i w in
    let w :=
      if link then
        let w := adjustMac i w in
        update w i (fun n => set_linkState n true)
      else update w i (fun n => set_linkState n false) in
    notifyLinkChange i w.

(** ** ksz8794EnableIrq, ksz8794DisableIrq *)

Definition ksz8794EnableIrq (i : nat) (w : World) : World := w.
Definition ksz8794DisableIrq (i : nat) (w : World) : World := w.

(** ** ksz8794TagFrame, ksz8794UntagFrame *)

(** A [size_t] value after an arithmetic step. *)
Definition size_t (z : Z) : Z := z mod 2 ^ (8 * sizeof_size_t H).

(** [offset] and [type] are passed by address and are not written.  The
    result is [None] when the tail tag would be taken outside of
    [ksz8794IngressTailTag]. *)
Definition ksz8794TagFrame {NetBuffer : Type} (B : BufferOps NetBuffer)
    (n : NetInterface) (buffer : NetBuffer) (offset p type : Z)
    : option (error_t * NetBuffer) :=
  if ETH_PORT_TAGGING_SUPPORT H && spiDriver n then
    let p := u8 p in
    if p <=? KSZ8794_PORT3 H then
      match nth_error ksz8794IngressTailTag (Z.to_nat p) with
      | None => None
      | Some tailTag =>
          let length := size_t (netBufferGetLength B buffer - offset) in
          let '(error, buffer, length) := ethPadFrame B buffer length in
          if isError error then Some (error, buffer)
          else Some (netBufferAppend B buffer [tailTag])
      end
    else Some (ERROR_WRONG_IDENTIFIER, buffer)
  else Some (NO_ERROR, buffer).

(** The frame is the octets [*frame] points to; the pointer is not
    written.  The result is the status code with the values of [*length]
    and [*port] when the function returns, and [None] when the tail tag
    would be read outside of the frame. *)
Definition ksz8794UntagFrame (n : NetInterface) (frame : list Z)
    (length p : Z) : option (error_t * Z * Z) :=
  if ETH_PORT_TAGGING_SUPPORT H && spiDriver n then
    if Z.of_nat (sizeof_EthHeader H) + 1 <=? length then
      match nth_error frame (Z.to_nat (length - 1)) with
      | None => None
      | Some tailTag =>
          Some (NO_ERROR, length - 1, u8 (KSZ8794_TAIL_TAG_DECODE H tailTag))
      end
    else Some (ERROR_INVALID_LENGTH, length, p)
  else Some (NO_ERROR, length, 0).

End Driver.

(** ** What the properties of the driver are stated with *)

(** A trace in which every access of the SPI bus is a complete register
    access: chip select asserted, three octets exchanged, chip select
    released. *)
Fixpoint bracketed (t : list Event) : bool :=
  match t with
  | [] => true
  | SpiAssertCs :: SpiTransfer _ _ :: SpiTransfer _ _ :: SpiTransfer _ _
      :: SpiDeassertCs :: rest => bracketed rest
  | SpiAssertCs :: _ => false
  | SpiDeassertCs :: _ => false
  | SpiTransfer _ _ :: _ => false
  | _ :: rest => bracketed rest
  end.

(** [w'] is [w] after calls were made that left the SPI bus released. *)
Definition Extends (w w' : World) : Prop :=
  exists more : list Event,
    trace w' = trace w ++ more /\ bracketed more = true.

Definition isSetEvent (e : Event) : bool :=
  match e with SetEvent => true | _ => false end.

(** The events of a function that only looks at the hardware: register
    accesses and the signalling of the stack's event. *)
Definition onlyLooks (e : Event) : bool :=
  match e with
  | SpiInit | PhyWrite _ _ _ _ | UpdateMacConfig _ _ _
  | NotifyLinkChange _ _ => false
  | _ => true
  end.

(** A trace made of reads: accesses of the SPI bus that are reads of a
    switch register, with the 16-bit command of a read and 0xFF shifted out
    for the data, reads of PHY registers and the signalling of the stack's
    event. *)
Inductive ReadsOnly (H : Header) : list Event -> Prop :=
| reads_nothing : ReadsOnly H []
| reads_switch (address r1 r2 data : Z) (rest : list Event) :
    ReadsOnly H rest ->
    ReadsOnly H
      (SpiAssertCs
       :: SpiTransfer
            (u8 (MSB H (spiCommand H (KSZ8794_SPI_CMD_READ H) address))) r1
       :: SpiTransfer
            (u8 (LSB H (spiCommand H (KSZ8794_SPI_CMD_READ H) address))) r2
       :: SpiTransfer 255 data :: SpiDeassertCs :: rest)
| reads_phy (port address value : Z) (rest : list Event) :
    ReadsOnly H rest ->
    ReadsOnly H (PhyRead (SMI_OPCODE_READ H) port address value :: rest)
| reads_event (rest : list Event) :
    ReadsOnly H rest -> ReadsOnly H (SetEvent :: rest).

(** [w'] is [w] after reads. *)
Definition Reading (H : Header) (w w' : World) : Prop :=
  exists more : list Event,
    trace w' = trace w ++ more /\ ReadsOnly H more.

(** [w'] is [w] after the hardware was looked at: the interfaces are as
    they were, the SPI bus is released and the stack was not signalled. *)
Definition Looks (w w' : World) : Prop :=
  netInterface w' = netInterface w
  /\ exists more : list Event,
       trace w' = trace w ++ more
       /\ bracketed more = true
       /\ forallb onlyLooks more = true
       /\ existsb isSetEvent more = false.

(** [w'] is [w] after the hardware was looked at and the event of the
    interface [i] was raised or not: nothing else changed. *)
Definition Raises (i : nat) (w w' : World) : Prop :=
  exists more : list Event,
    trace w' = trace w ++ more
    /\ bracketed more = true
    /\ forallb onlyLooks more = true
    /\ netInterface w'
       = if existsb isSetEvent more then
           updateAt (netInterface w) i (fun n => set_phyEvent n true)
         else netInterface w.

(** The events of the initialization of an interface that has no SPI
    driver: reads of PHY registers. *)
Definition mdioOnly (e : Event) : bool :=
  match e with PhyRead _ _ _ _ => true | _ => false end.

(** The states of the links of the ports, read one port after the other as
    "Loop through ports" does. *)
Fixpoint portLinks (H : Header) (D : Device) (i : nat) (ps : list Z)
    (w : World) : list bool * World :=
  match ps with
  | [] => ([], w)
  | p :: ps' =>
      let '(up, w) := ksz8794GetLinkState H D i p w in
      let '(ups, w) := portLinks H D i ps' w in
      (up :: ups, w)
  end.

(** The fields of an interface the driver never writes but phyEvent. *)
Definition wiring (n : NetInterface) : bool * Z * option nat :=
  (spiDriver n, port n, parent n).

(** [w'] has the interfaces of [w], wired as they were and with the events
    they had. *)
Definition SameWiring (w w' : World) : Prop :=
  length (netInterface w') = length (netInterface w)
  /\ forall j : nat,
       wiring (interfaceAt w' j) = wiring (interfaceAt w j)
       /\ phyEvent (interfaceAt w' j) = phyEvent (interfaceAt w j).

(** A stack that leaves the interface it is handed as it is, in an array
    of the same size: what it does with the state of the interface, it does
    to other interfaces or elsewhere. *)
Definition KeepsHanded (K : Stack) : Prop :=
  forall (k : nat) (l : list NetInterface),
    (length (updateMacConfig K k l) = length l
     /\ nth k (updateMacConfig K k l) nullInterface = nth k l nullInterface)
    /\ (length (nicNotifyLinkChange K k l) = length l
        /\ nth k (nicNotifyLinkChange K k l) nullInterface
           = nth k l nullInterface).

(** A stack that keeps the wiring of the interfaces and the events they
    have. *)
Definition KeepsWiring (K : Stack) : Prop :=
  forall (k : nat) (w : World),
    SameWiring w (handOver (updateMacConfig K k) w)
    /\ SameWiring w (handOver (nicNotifyLinkChange K k) w).

(** A stack that writes no field of [NetInterface] kept here. *)
Definition Silent (K : Stack) : Prop :=
  forall (k : nat) (l : list NetInterface),
    updateMacConfig K k l = l /\ nicNotifyLinkChange K k l = l.

(** The calls of nicNotifyLinkChange. *)
Definition isNotify (e : Event) : bool :=
  match e with NotifyLinkChange _ _ => true | _ => false end.

(** An interface the event handler looks at when the ports are separated:
    it is attached to the interface of the switch and its port is a port of
    the switch. *)
Definition watched (H : Header) (w : World) (i k : nat) : bool :=
  attached w i k
  && (KSZ8794_PORT1 H <=? port (interfaceAt w k))
  && (port (interfaceAt w k) <=? KSZ8794_PORT3 H).

(** The notification of a link change of the interface [k], when the state
    of the link of its port is [links] of the port: none when the interface
    is not looked at or has that state. *)
Definition linkChange (H : Header) (links : Z -> bool) (w : World)
    (i k : nat) : list Event :=
  if watched H w i k
     && negb (Bool.eqb (links (port (interfaceAt w k)))
                (linkState (interfaceAt w k)))
  then [NotifyLinkChange k (links (port (interfaceAt w k)))]
  else [].

(** Links that stay as they are: as long as interface->spiDriver is [spi],
    the state the driver reads for the link of a port through the interface
    [i] is [links] of the port, whatever was done before. *)
Definition SteadyLinks (H : Header) (D : Device) (i : nat) (spi : bool)
    (links : Z -> bool) : Prop :=
  forall (p : Z) (w : World),
    spiDriver (interfaceAt w i) = spi ->
    fst (ksz8794GetLinkState H D i p w) = links p.

(** A switch that never shifts out its family identifier. *)
Definition NeverReady (H : Header) (D : Device) : Prop :=
  forall (t : list Event) (sent : Z),
    u8 (spiAnswer D t sent) <> KSZ8794_CHIP_ID0_FAMILY_ID_DEFAULT H.

(** ** A switch to run the driver on

    Values for the constants of the headers, two devices and a buffer made
    of a list of octets, used to evaluate the driver. *)

Definition sampleHeader (tagging : bool) : Header :=
  mkHeader tagging false 1 3 0 135 12 2 (fun p => 2 + p * 16) 4 2 1
    (fun p => 14 + p * 16) 32 (fun p => 9 + p * 16) 7 1 2 3 4 1 4
    16384 24576 8190 (fun p => Z.lor 64 (Z.shiftl 1 (p - 1)))
    (fun t => Z.land t 3 + 1) 1 2 (fun x => Z.land (Z.shiftr x 8) 255)
    (fun x => Z.land x 255) 14 4.

(** A switch that answers every transfer with its family identifier, and
    whose port 2 has its link up when it is read through the PHY
    registers. *)
Definition readyDevice : Device :=
  mkDevice (fun _ _ => 135)
    (fun _ _ p _ => if p =? 2 then 4 else 0).

(** A switch that shifts out nothing but zeros. *)
Definition deadDevice : Device :=
  mkDevice (fun _ _ => 0) (fun _ _ _ _ => 0).

(** A stack that leaves the interfaces alone. *)
Definition quietStack : Stack :=
  mkStack (fun _ l => l) (fun _ l => l).

(** A stack that hands the state of the link of a notified interface on to
    the interfaces it is the parent of. *)
Definition copyLink (k : nat) (n v : NetInterface) : NetInterface :=
  match parent v with
  | Some j =>
      if (j =? k)%nat then
        mkInterface (spiDriver v) (port v) (parent v) (linkState n)
          (linkSpeed n) (duplexMode n) (phyEvent v)
      else v
  | None => v
  end.

Definition copyStack : Stack :=
  mkStack (fun _ l => l)
    (fun k l => map (copyLink k (nth k l nullInterface)) l).

(** A switch in SPI slave mode whose ports all have a good link at
    100 Mbit/s, full duplex. *)
Definition linkedDevice : Device :=
  mkDevice (fun _ _ => 36) (fun _ _ _ _ => 0).

(** One interface, with or without SPI driver, and no call made yet. *)
Definition sampleWorld (spi : bool) : World :=
  mkWorld
    [mkInterface spi 0 None false NIC_LINK_SPEED_UNKNOWN
       NIC_UNKNOWN_DUPLEX_MODE false] [].

(** The interface of the switch, on port 1, a virtual interface attached
    to it on port 2 and an interface of its own, and no call made yet. *)
Definition separatedWorld : World :=
  mkWorld
    [mkInterface true 1 None false NIC_LINK_SPEED_UNKNOWN
       NIC_UNKNOWN_DUPLEX_MODE false;
     mkInterface false 2 (Some 0%nat) false NIC_LINK_SPEED_UNKNOWN
       NIC_UNKNOWN_DUPLEX_MODE false;
     mkInterface false 3 None false NIC_LINK_SPEED_UNKNOWN
       NIC_UNKNOWN_DUPLEX_MODE false] [].

(** A buffer that is a list of octets, padded with zeros to 60 octets. *)
Definition listBuffer : BufferOps (list Z) :=
  mkBufferOps (list Z) (fun b => Z.of_nat (length b))
    (fun b len =>
       let pad := repeat 0 (60 - length b) in
       (NO_ERROR, b ++ pad, len + Z.of_nat (length pad)))
    (fun b octets => (NO_ERROR, b ++ octets)).

End Ksz8794.


(** * Properties *)

Ltac break_match :=
  match goal with
  | |- context [match ?x with _ => _ end] => destruct x eqn:?
  | H : context [match ?x with _ => _ end] |- _ => destruct x eqn:?
  end.

Ltac inv H := inversion H; subst; clear H.

Section Loops.

Context {S : Type} (cond : S -> bool) (body : S -> Flow S) (incr : S -> S).

(** More fuel does not change the outcome of a loop that ended. *)
Lemma forLoop_more (fuel : nat) : forall (k : nat) (s r : S),
  forLoop cond body incr fuel s = Some r ->
  forLoop cond body incr (fuel + k) s = Some r.
Proof.
  induction fuel as [|fuel IH]; intros k s r H; simpl in *.
  - discriminate.
  - destruct (cond s); [|exact H].
    destruct (body s); [exact H| |discriminate].
    apply IH. exact H.
Qed.

Lemma forLoop_le (fuel fuel' : nat) (s r : S) :
  forLoop cond body incr fuel s = Some r -> (fuel <= fuel')%nat ->
  forLoop cond body incr fuel' s = Some r.
Proof.
  intros H Hle. replace fuel' with (fuel + (fuel' - fuel))%nat by lia.
  apply forLoop_more. exact H.
Qed.


(** A loop ends when its body makes a measure decrease and reads no local
    that holds no value, in the states an invariant of the loop head
    allows. *)
Lemma forLoop_measure_under (mu : S -> nat) (I : S -> Prop) :
  (forall s s', I s -> cond s = true -> body s = Next s' ->
                I (incr s') /\ (mu (incr s') < mu s)%nat) ->
  (forall s s', I s -> cond s = true -> body s <> Fault s') ->
  forall fuel s, I s -> (mu s < fuel)%nat ->
  exists r, forLoop cond body incr fuel s = Some r.
Proof.
  intros Hdec Hsafe. induction fuel as [|fuel IH]; intros s Hi Hs; [lia|].
  simpl. destruct (cond s) eqn:Hc; [|eauto].
  destruct (body s) as [s'|s'|s'] eqn:Hb; [eauto| |].
  - destruct (Hdec s s' Hi Hc Hb) as [Hi' Hlt]. apply IH; [exact Hi'|lia].
  - exfalso. exact (Hsafe s s' Hi Hc Hb).
Qed.

(** The same for a body that never comes to such a read. *)
Lemma forLoop_measure (mu : S -> nat) :
  (forall s s', cond s = true -> body s = Next s' ->
                (mu (incr s') < mu s)%nat) ->
  (forall s s', body s <> Fault s') ->
  forall fuel s, (mu s < fuel)%nat ->
  exists r, forLoop cond body incr fuel s = Some r.
Proof.
  intros Hdec Hsafe fuel s Hs.
  apply (forLoop_measure_under mu (fun _ => True)); auto.
Qed.

(** An invariant of the loop head that the body and the increment keep
    holds of the state the loop ends in. *)
Lemma forLoop_invariant (P : S -> Prop) :
  (forall s s', P s -> cond s = true -> body s = Next s' -> P (incr s')) ->
  (forall s s', P s -> cond s = true -> body s = Break s' -> P s') ->
  forall fuel s r, P s -> forLoop cond body incr fuel s = Some r -> P r.
Proof.
  intros Hn Hb. induction fuel as [|fuel IH]; intros s r Hs H; simpl in H.
  - discriminate.
  - destruct (cond s) eqn:Hc; [|inv H; exact Hs].
    destruct (body s) as [s'|s'|s'] eqn:Hbody.
    + inv H. eapply Hb; eauto.
    + eapply IH; [|exact H]. eapply Hn; eauto.
    + discriminate.
Qed.

(** The same with a postcondition of its own for the state the loop ends
    in. *)
Lemma forLoop_post (I Post : S -> Prop) :
  (forall s s', I s -> cond s = true -> body s = Next s' -> I (incr s')) ->
  (forall s s', I s -> cond s = true -> body s = Break s' -> Post s') ->
  (forall s, I s -> cond s = false -> Post s) ->
  forall fuel s r, I s -> forLoop cond body incr fuel s = Some r -> Post r.
Proof.
  intros Hn Hb He. induction fuel as [|fuel IH]; intros s r Hs H; simpl in H.
  - discriminate.
  - destruct (cond s) eqn:Hc; [|inv H; apply He; assumption].
    destruct (body s) as [s'|s'|s'] eqn:Hbody.
    + inv H. eapply Hb; eauto.
    + eapply IH; [|exact H]. eapply Hn; eauto.
    + discriminate.
Qed.

(** The run of a loop from one of its heads gives the same final state. *)
Lemma forLoop_from_head (s0 t r : S) :
  loopHead cond body incr s0 t ->
  forall fuel, forLoop cond body incr fuel s0 = Some r ->
  exists fuel', forLoop cond body incr fuel' t = Some r.
Proof.
  induction 1 as [|s s' Hhead IH Hc Hb]; intros fuel Hrun; [eauto|].
  destruct (IH fuel Hrun) as [fuel' Hrun'].
  destruct fuel' as [|fuel']; [discriminate|].
  simpl in Hrun'. rewrite Hc, Hb in Hrun'. eauto.
Qed.

Lemma loopHead_invariant (I : S -> Prop) (s0 t : S) :
  (forall s s', I s -> cond s = true -> body s = Next s' -> I (incr s')) ->
  I s0 -> loopHead cond body incr s0 t -> I t.
Proof.
  intros Hn H0. induction 1 as [|s s' Hhead IH Hc Hb]; [exact H0|].
  eapply Hn; eauto.
Qed.

(** The state after some passes is a head of the loop. *)
Lemma loopPasses_head (s0 t : S) (entered : list S) :
  loopPasses cond body incr s0 entered t -> loopHead cond body incr s0 t.
Proof.
  induction 1 as [|entered s s' Hp IH Hc Hb]; [constructor|].
  econstructor; eauto.
Qed.

(** Passes that follow passes. *)
Lemma loopPasses_app (s0 s1 t : S) (before after : list S) :
  loopPasses cond body incr s0 before s1 ->
  loopPasses cond body incr s1 after t ->
  loopPasses cond body incr s0 (before ++ after) t.
Proof.
  intros H0. induction 1 as [|entered s s' Hp IH Hc Hb].
  - rewrite app_nil_r. exact H0.
  - rewrite app_assoc. econstructor; eauto.
Qed.

(** A loop that ended went through its passes and then found its condition
    false, or left by [break] from one more pass. *)
Lemma forLoop_passes (fuel : nat) : forall (s0 r : S),
  forLoop cond body incr fuel s0 = Some r ->
  exists (entered : list S) (s : S),
    loopPasses cond body incr s0 entered s
    /\ ((cond s = false /\ r = s) \/ (cond s = true /\ body s = Break r)).
Proof.
  induction fuel as [|fuel IH]; intros s0 r H; simpl in H; [discriminate|].
  destruct (cond s0) eqn:Hc.
  - destruct (body s0) as [s'|s'|s'] eqn:Hb.
    + injection H as <-. exists [], s0. split; [constructor|right; auto].
    + destruct (IH _ _ H) as (entered & s & Hp & Hend).
      exists ([s0] ++ entered), s. split; [|exact Hend].
      eapply loopPasses_app; [|exact Hp].
      apply (passes_more cond body incr s0 [] s0 s'); [constructor|auto..].
    + discriminate.
  - injection H as <-. exists [], s0. split; [constructor|left; auto].
Qed.

(** A loop that ended has a run. *)
Lemma forLoop_run (fuel : nat) (s0 r : S) :
  forLoop cond body incr fuel s0 = Some r ->
  exists entered : list S, loopRun cond body incr s0 entered r.
Proof.
  intros H. apply forLoop_passes in H.
  destruct H as (entered & s & Hp & [[Hc ->]|[Hc Hb]]).
  - exists entered. apply run_done; assumption.
  - exists (entered ++ [s]). eapply run_break; eassumption.
Qed.

End Loops.

(** ** The Get handler *)

Section GetProperties.

Context {Mib : Type} (X : Externals Mib).

(** On [size_t], taking away no more than there is is the subtraction of
    the naturals. *)
Lemma sizeSub_within (a n : nat) :
  (n <= a)%nat -> sizeSub X a n = (a - n)%nat.
Proof.
  intros H. unfold sizeSub. apply Nat.leb_le in H. rewrite H. reflexivity.
Qed.

(** The body of the Get loop reads no local that holds no value. *)
Lemma getBody_sound (st st' : GetLoop Mib) : getBody X st <> Fault st'.
Proof.
  unfold getBody. repeat break_match; discriminate.
Qed.

Lemma getCount_fields (ctx : SnmpAgentContext Mib) :
  request (getCount ctx) = request ctx
  /\ response (getCount ctx) = response ctx
  /\ user_mode (getCount ctx) = user_mode ctx
  /\ mib (getCount ctx) = mib ctx.
Proof.
  unfold getCount. repeat break_match; simpl; auto.
Qed.

Lemma getCatch_frame (ctx ctx' : SnmpAgentContext Mib) (e : error_t)
    (v v' : SnmpVarBind) (leave : bool) :
  getCatch ctx e v = (leave, ctx', v') ->
  request ctx' = request ctx /\ response ctx' = response ctx
  /\ mib ctx' = mib ctx.
Proof.
  unfold getCatch. intros H. repeat break_match; inv H; simpl; auto.
Qed.

(** The body of the Get loop never writes the request or the MIB. *)
Lemma getBody_frame (st st' : GetLoop Mib) :
  getBody X st = Break st' \/ getBody X st = Next st' ->
  request (gl_ctx st') = request (gl_ctx st)
  /\ mib (gl_ctx st') = mib (gl_ctx st)
  /\ gl_index st' = gl_index st.
Proof.
  unfold getBody.
  destruct (snmpParseVarBinding X _) as [[e v] n].
  destruct (getRetrieve X (gl_ctx st) v) as [[l1 e1] v1].
  destruct (getCatch (gl_ctx st) e1 v1) as [[l2 c2] v2] eqn:Hc.
  apply getCatch_frame in Hc. destruct Hc as (A & B & C).
  destruct (snmpWriteVarBinding X c2 v2) as [e3 r3].
  intros [H|H]; repeat break_match; inv H; simpl; auto.
Qed.

Lemma getBody_next (st st' : GetLoop Mib) :
  ParseProgress X -> getBody X st = Next st' ->
  (gl_length st' < gl_length st)%nat /\ gl_error st' = NO_ERROR.
Proof.
  intros HP H. unfold getBody in H.
  destruct (snmpParseVarBinding X _) as [[e v] n] eqn:Hparse.
  destruct (isError e) eqn:He; [discriminate|].
  apply HP in Hparse. specialize (Hparse He).
  unfold octetsAt in Hparse. rewrite length_firstn in Hparse.
  repeat break_match; inv H; simpl.
  rewrite sizeSub_within by lia.
  split; [lia|]. destruct e1; simpl in *; congruence.
Qed.

(** The loop of the Get handler ends: every pass consumes a binding. *)
Lemma getLoop_ends (fuel : nat) (st : GetLoop Mib) :
  ParseProgress X -> (gl_length st < fuel)%nat ->
  exists st', forLoop getCond (getBody X) getIncr fuel st = Some st'.
Proof.
  intros HP. apply (forLoop_measure getCond (getBody X) getIncr gl_length).
  - intros s s' _ Hb. apply (getBody_next _ _ HP) in Hb. simpl. lia.
  - apply getBody_sound.
Qed.

Lemma getLoop_frame (fuel : nat) (st st' : GetLoop Mib) :
  forLoop getCond (getBody X) getIncr fuel st = Some st' ->
  request (gl_ctx st') = request (gl_ctx st)
  /\ mib (gl_ctx st') = mib (gl_ctx st).
Proof.
  apply (forLoop_invariant getCond (getBody X) getIncr
           (fun s => request (gl_ctx s) = request (gl_ctx st)
                     /\ mib (gl_ctx s) = mib (gl_ctx st))); [| |auto].
  - intros s s' [H1 H2] _ Hb.
    destruct (getBody_frame s s' (or_intror Hb)) as (A & B & _).
    simpl. split; congruence.
  - intros s s' [H1 H2] _ Hb.
    destruct (getBody_frame s s' (or_introl Hb)) as (A & B & _).
    split; congruence.
Qed.

(** Once the access mode allows reading and the response is initialised,
    the handler runs its loop to the end and returns what [getFinish]
    makes of the state the loop stopped in. *)
Lemma get_runs (fuel : nat) (ctx : SnmpAgentContext Mib) (r0 : SnmpMessage) :
  ParseProgress X ->
  readAllowed (user_mode ctx) = true ->
  snmpInitResponse X (getCount ctx) = (NO_ERROR, r0) ->
  (length (varBindList (request ctx)) < fuel)%nat ->
  exists st,
    forLoop getCond (getBody X) getIncr fuel
      (getStart (set_response (getCount ctx) r0) NO_ERROR) = Some st
    /\ snmpProcessGetRequestPdu X fuel ctx = Some (getFinish X st)
    /\ request (gl_ctx st) = request ctx
    /\ mib (gl_ctx st) = mib ctx.
Proof.
  intros HP Hmode Hinit Hfuel.
  destruct (getCount_fields ctx) as (Hreq & _ & Hm & Hmib).
  destruct (getLoop_ends fuel
              (getStart (set_response (getCount ctx) r0) NO_ERROR) HP)
    as [st Hst].
  { simpl. unfold varBindListLen. rewrite Hreq. exact Hfuel. }
  exists st. split; [exact Hst|].
  destruct (getLoop_frame _ _ _ Hst) as [A B]. simpl in A, B.
  split; [|split; congruence].
  unfold snmpProcessGetRequestPdu. rewrite Hm, Hmode. simpl.
  rewrite Hinit. simpl. rewrite Hst. reflexivity.
Qed.

(** C8.  When the variable-binding loop of the Get handler stops on a
    failure and the status translator accepts it, the response's list is
    emptied if the response's version is not v1 and the status assigned is
    tooBig; in every other case the handler returns what
    snmpCopyVarBindingList returns, and when that succeeds the response's
    list is the request's list, error-status and error-index being the ones
    the translator assigned. *)
Theorem get_abort_reformats_response (fuel : nat)
    (ctx : SnmpAgentContext Mib) (r0 : SnmpMessage) :
  ParseProgress X -> CopyEchoes X ->
  readAllowed (user_mode ctx) = true ->
  snmpInitResponse X (getCount ctx) = (NO_ERROR, r0) ->
  (length (varBindList (request ctx)) < fuel)%nat ->
  exists st,
    forLoop getCond (getBody X) getIncr fuel
      (getStart (set_response (getCount ctx) r0) NO_ERROR) = Some st
    /\ snmpProcessGetRequestPdu X fuel ctx = Some (getFinish X st)
    /\ forall ctx2,
         isError (gl_error st) = true ->
         translateStatus X (gl_ctx st) (gl_error st) (gl_index st)
           = (NO_ERROR, ctx2) ->
         let result := getFinish X st in
         if negb (version (response ctx2) =? SNMP_VERSION_1)
            && (errorStatus (response ctx2) =? SNMP_ERROR_TOO_BIG)
         then fst result = NO_ERROR
              /\ response (snd result) = set_varBindList (response ctx2) []
         else (fst result, response (snd result))
                = snmpCopyVarBindingList X ctx2
              /\ (fst result = NO_ERROR ->
                  varBindList (response (snd result))
                    = varBindList (request ctx)
                  /\ errorStatus (response (snd result))
                       = errorStatus (response ctx2)
                  /\ errorIndex (response (snd result))
                       = errorIndex (response ctx2)).
Proof.
  intros HP HC Hmode Hinit Hfuel.
  destruct (get_runs fuel ctx r0 HP Hmode Hinit Hfuel)
    as (st & Hloop & Hrun & Hreq & _).
  exists st. split; [exact Hloop|]. split; [exact Hrun|].
  intros ctx2 Herr Htr. unfold getFinish. rewrite Herr, Htr. simpl.
  assert (Hreq2 : request ctx2 = request ctx).
  { unfold translateStatus in Htr.
    destruct (snmpTranslateStatusCode X _ _ _) as [e m].
    inv Htr. simpl. exact Hreq. }
  destruct (negb (version (response ctx2) =? SNMP_VERSION_1)
            && (errorStatus (response ctx2) =? SNMP_ERROR_TOO_BIG)).
  - simpl. auto.
  - unfold copyVarBindingList.
    destruct (snmpCopyVarBindingList X ctx2) as [e m] eqn:Hcopy.
    assert (Hres : (if isError e then (e, set_response ctx2 m)
                    else (NO_ERROR, set_response ctx2 m))
                   = (e, set_response ctx2 m)) by (destruct e; reflexivity).
    rewrite Hres. simpl. split; [reflexivity|].
    intros He. subst e. apply HC in Hcopy. rewrite <- Hreq2. exact Hcopy.
Qed.

Lemma valueRetrieval_getRetrieve (ctx : SnmpAgentContext Mib)
    (var var' : SnmpVarBind) (e : error_t) :
  ValueRetrieval X ctx var e var' ->
  getRetrieve X ctx var = (false, e, var').
Proof.
  unfold getRetrieve. intros [[Ht Hg]|[Ht (found & Hn & Hg)]].
  - rewrite Ht. simpl. rewrite Hg. reflexivity.
  - destruct (SnmpPduType_beq (pduType (request ctx)) SNMP_PDU_GET_REQUEST)
      eqn:Hb.
    + apply internal_SnmpPduType_dec_bl in Hb. contradiction.
    + rewrite Hn. simpl. rewrite Hg. destruct (version (request ctx) =? _);
        reflexivity.
Qed.

Lemma isError_false (e : error_t) : isError e = false -> e = NO_ERROR.
Proof. destruct e; simpl; congruence. Qed.

(** C5.  In the loop of the Get handler, once a binding is parsed and its
    identifier accepted, a value retrieval ([snmpGetObjectValue], on the
    binding of a GetRequest or on the object the search of a GetNextRequest
    found) that fails with [e] is handled as follows.  Under v1 the loop
    stops on [e].  Under v2c or v3, ERROR_ACCESS_DENIED and
    ERROR_OBJECT_NOT_FOUND make the binding of the same name, of class
    context-specific, of type noSuchObject and with no value, and
    ERROR_INSTANCE_NOT_FOUND the same with type noSuchInstance: that binding
    is appended, error-status and error-index stay as they were, and the
    loop goes on with the next binding and status NO_ERROR (it stops only if
    appending fails); any other [e] stops the loop on [e].  A failure of the
    search of a GetNextRequest ([snmpGetNextObject]) is not handled that
    way: other than ERROR_OBJECT_NOT_FOUND under v2c or v3, it stops the
    loop on that failure, ERROR_ACCESS_DENIED included, whatever the
    version; ERROR_OBJECT_NOT_FOUND from the search under v2c or v3 makes
    the binding of the name the search returned, of class context-specific,
    of type endOfMibView and with no value, which is counted in
    snmpInTotalReqVars and appended in the same way.  A loop that ends with
    status NO_ERROR leaves the response as it is: the status translator is
    not run. *)
Theorem get_retrieval_failure_handling (enc : SnmpVarBind -> list Z)
    (fuel : nat) (st : GetLoop Mib) (var : SnmpVarBind) (n : nat) :
  WriteAppends X enc -> ParseProgress X ->
  (0 < gl_length st)%nat ->
  snmpParseVarBinding X
    (octetsAt (varBindList (request (gl_ctx st))) (gl_p st) (gl_length st))
    = (NO_ERROR, var, n) ->
  oidCheck X (oid var) = NO_ERROR ->
  let ctx := gl_ctx st in
  let loop := forLoop getCond (getBody X) getIncr in
  let stopped e :=
    loop (S fuel) st
      = Some (mkGetLoop ctx (gl_p st) (gl_length st) (gl_index st) e) in
  let caught c name exception :=
    let binding := mkVarBind name ASN1_CLASS_CONTEXT_SPECIFIC exception [] in
    let written := snmpWriteVarBinding X c binding in
    let ctx' := set_response c (snd written) in
    errorStatus (response ctx') = errorStatus (response ctx)
    /\ errorIndex (response ctx') = errorIndex (response ctx)
    /\ varBindList (response ctx')
       = (if isError (fst written) then varBindList (response ctx)
          else varBindList (response ctx) ++ enc binding)
    /\ loop (S fuel) st
       = if isError (fst written) then
           Some (mkGetLoop ctx' (gl_p st) (gl_length st) (gl_index st)
                   (fst written))
         else
           loop fuel
             (mkGetLoop ctx' (gl_p st + n) (gl_length st - n)
                (gl_index st + 1) NO_ERROR) in
  (forall e var',
     ValueRetrieval X ctx var e var' -> isError e = true ->
     if version (request ctx) =? SNMP_VERSION_1 then stopped e
     else if error_t_beq e ERROR_ACCESS_DENIED
             || error_t_beq e ERROR_OBJECT_NOT_FOUND
          then caught ctx (oid var') SNMP_EXCEPTION_NO_SUCH_OBJECT
     else if error_t_beq e ERROR_INSTANCE_NOT_FOUND
          then caught ctx (oid var') SNMP_EXCEPTION_NO_SUCH_INSTANCE
     else stopped e)
  /\ (forall e found,
        pduType (request ctx) <> SNMP_PDU_GET_REQUEST ->
        snmpGetNextObject X ctx (request ctx) var = (e, found) ->
        isError e = true ->
        e <> ERROR_OBJECT_NOT_FOUND \/ version (request ctx) = SNMP_VERSION_1 ->
        stopped e)
  /\ (forall found,
        pduType (request ctx) <> SNMP_PDU_GET_REQUEST ->
        snmpGetNextObject X ctx (request ctx) var
        = (ERROR_OBJECT_NOT_FOUND, found) ->
        version (request ctx) <> SNMP_VERSION_1 ->
        caught
          (set_mib2Base ctx
             (MIB2_INC_COUNTER32 snmpInTotalReqVars 1 (mib2Base ctx)))
          (oid found) SNMP_EXCEPTION_END_OF_MIB_VIEW)
  /\ forall st', gl_error st' = NO_ERROR ->
                 getFinish X st' = (NO_ERROR, gl_ctx st').
Proof.
  intros HW HP Hlen Hparse Hoid ctx loop stopped caught.
  assert (Hcond : getCond st = true).
  { unfold getCond. apply Nat.ltb_lt. exact Hlen. }
  assert (Hn : (n <= gl_length st)%nat).
  { generalize (HP _ _ _ _ Hparse eq_refl). unfold octetsAt.
    rewrite length_firstn. lia. }
  split; [|split; [|split;
           [|intros st' H; unfold getFinish; rewrite H; reflexivity]]].
  - intros e var' Hret He.
    apply valueRetrieval_getRetrieve in Hret. unfold ctx in Hret.
    assert (Hstop :
      getCatch (gl_ctx st) e var' = (true, gl_ctx st, var') -> stopped e).
    { intros Hc. unfold stopped, loop. simpl. rewrite Hcond.
      unfold getBody. rewrite Hparse. simpl. rewrite Hoid. simpl.
      rewrite Hret. rewrite Hc. reflexivity. }
    assert (Hcaught : forall x,
      getCatch (gl_ctx st) e var' = (false, gl_ctx st, setException var' x) ->
      caught ctx (oid var') x).
    { intros x Hc. unfold caught, loop. unfold setException in Hc.
      destruct (snmpWriteVarBinding X ctx
                  (mkVarBind (oid var') ASN1_CLASS_CONTEXT_SPECIFIC x []))
        as [e2 r] eqn:Hw.
      destruct (HW _ _ _ _ Hw) as (A & B & C). simpl.
      split; [exact A|]. split; [exact B|]. split; [exact C|].
      rewrite Hcond. unfold getBody. rewrite Hparse. simpl. rewrite Hoid.
      simpl. rewrite Hret. rewrite Hc. fold ctx. rewrite Hw.
      destruct (isError e2) eqn:He2; [reflexivity|].
      apply isError_false in He2. subst e2.
      rewrite (sizeSub_within _ _ Hn). reflexivity. }
    unfold getCatch in Hstop, Hcaught. rewrite He in Hstop, Hcaught.
    fold ctx in Hstop, Hcaught.
    destruct (version (request ctx) =? SNMP_VERSION_1); [auto|].
    destruct (error_t_beq e ERROR_ACCESS_DENIED
              || error_t_beq e ERROR_OBJECT_NOT_FOUND); [auto|].
    destruct (error_t_beq e ERROR_INSTANCE_NOT_FOUND); auto.
  - intros e found Htype Hnext He Hwhy.
    unfold ctx in Htype, Hnext, Hwhy.
    assert (Hret : getRetrieve X (gl_ctx st) var = (true, e, found)).
    { unfold getRetrieve.
      destruct (SnmpPduType_beq (pduType (request (gl_ctx st)))
                  SNMP_PDU_GET_REQUEST) eqn:Hb.
      { apply internal_SnmpPduType_dec_bl in Hb. contradiction. }
      rewrite Hnext.
      destruct (error_t_beq e NO_ERROR) eqn:H0.
      { apply internal_error_t_dec_bl in H0. subst e. discriminate. }
      destruct (error_t_beq e ERROR_OBJECT_NOT_FOUND) eqn:H1.
      - apply internal_error_t_dec_bl in H1.
        destruct Hwhy as [Hne|Hv1]; [contradiction|].
        rewrite Hv1. reflexivity.
      - destruct (version (request (gl_ctx st)) =? SNMP_VERSION_1);
          reflexivity. }
    unfold stopped, loop. simpl. rewrite Hcond.
    unfold getBody. rewrite Hparse. simpl. rewrite Hoid. simpl.
    rewrite Hret. reflexivity.
  - intros found Htype Hnext Hv.
    unfold ctx in Htype, Hnext, Hv.
    assert (Hret : getRetrieve X (gl_ctx st) var
                   = (false, NO_ERROR,
                      setException found SNMP_EXCEPTION_END_OF_MIB_VIEW)).
    { unfold getRetrieve.
      destruct (SnmpPduType_beq (pduType (request (gl_ctx st)))
                  SNMP_PDU_GET_REQUEST) eqn:Hb.
      { apply internal_SnmpPduType_dec_bl in Hb. contradiction. }
      rewrite Hnext.
      destruct (version (request (gl_ctx st)) =? SNMP_VERSION_1) eqn:Hv1.
      { apply Z.eqb_eq in Hv1. contradiction. }
      reflexivity. }
    unfold caught, loop.
    destruct (snmpWriteVarBinding X
                (set_mib2Base ctx
                   (MIB2_INC_COUNTER32 snmpInTotalReqVars 1 (mib2Base ctx)))
                (mkVarBind (oid found) ASN1_CLASS_CONTEXT_SPECIFIC
                   SNMP_EXCEPTION_END_OF_MIB_VIEW []))
      as [e2 r] eqn:Hw.
    destruct (HW _ _ _ _ Hw) as (A & B & C). simpl.
    split; [exact A|]. split; [exact B|]. split; [exact C|].
    rewrite Hcond. unfold getBody. rewrite Hparse. simpl. rewrite Hoid.
    simpl. rewrite Hret. unfold getCatch, setException. simpl.
    fold ctx. rewrite Hw.
    destruct (isError e2) eqn:He2; [reflexivity|].
    apply isError_false in He2. subst e2.
    rewrite (sizeSub_within _ _ Hn). reflexivity.
Qed.

End GetProperties.

(** ** The demo agent meets the contracts *)

Lemma demo_parse_progress : ParseProgress Demo.agent.
Proof.
  intros octets e v n H He. simpl in H. unfold Demo.parseVarBinding in H.
  destruct octets as [|t [|l rest]]; try (inv H; discriminate).
  destruct ((4 + Z.to_nat l <=? Z.to_nat t)%nat
            && (Z.to_nat t <=? length (t :: l :: rest))%nat) eqn:Hc;
    [|inv H; discriminate].
  apply andb_prop in Hc. destruct Hc as [H1 H2].
  apply Nat.leb_le in H1. apply Nat.leb_le in H2.
  destruct (skipn (Z.to_nat l) rest) as [|c [|ty val]];
    try (inv H; discriminate).
  inv H. lia.
Qed.

Lemma demo_copy_echoes : CopyEchoes Demo.agent.
Proof.
  intros ctx m H. simpl in H. unfold Demo.copyList in H.
  break_match; inv H. simpl. auto.
Qed.

Lemma demo_write_appends : WriteAppends Demo.agent Demo.encodeVarBind.
Proof.
  intros ctx v e m H. simpl in H. unfold Demo.writeVarBinding in H.
  destruct (_ <? _)%nat in H; inv H; simpl; auto.
Qed.

Lemma demo_check_keeps_mib : CheckKeepsMib Demo.agent.
Proof.
  intros ctx msg v e s H. simpl in H. unfold Demo.setObjectValue in H.
  repeat break_match; inv H; reflexivity.
Qed.

Lemma demo_translate_stores_index : TranslateStoresIndex Demo.agent.
Proof.
  intros m e k m' He Hne H. simpl in H. unfold Demo.translateStatusCode in H.
  destruct e; try discriminate; try congruence; inv H; reflexivity.
Qed.

Lemma demo_parse_spans_encoding :
  ParseSpansEncoding Demo.agent Demo.encodeVarBind.
Proof.
  intros v e v' n H He. simpl in H.
  unfold Demo.parseVarBinding, Demo.encodeVarBind in H.
  rewrite !Nat2Z.id in H.
  repeat break_match; inv H; try discriminate.
  simpl. rewrite length_app. simpl. lia.
Qed.


(** ** The Set handler *)

Section SetProperties.

Context {Mib : Type} (X : Externals Mib).

Lemma octetsAt_advance (buf : list Z) (p len n : nat) :
  octetsAt buf (p + n) (len - n) = skipn n (octetsAt buf p len).
Proof.
  unfold octetsAt.
  destruct (Nat.le_gt_cases n len) as [Hle|Hgt].
  - replace len with (n + (len - n))%nat at 2 by lia.
    rewrite <- firstn_skipn_comm, skipn_skipn.
    f_equal. f_equal. lia.
  - replace (len - n)%nat with 0%nat by lia. simpl.
    symmetry. apply skipn_all2. rewrite length_firstn. lia.
Qed.

Lemma octetsAt_length (buf : list Z) (p len : nat) :
  (len <= length buf - p)%nat -> length (octetsAt buf p len) = len.
Proof.
  intros H. unfold octetsAt. rewrite length_firstn, length_skipn. lia.
Qed.

Lemma set_mib_same (ctx : SnmpAgentContext Mib) : set_mib ctx (mib ctx) = ctx.
Proof. destruct ctx. reflexivity. Qed.

(** What a list that decodes starts with. *)
Lemma decode_cons (fuelD : nat) (octets : list Z) (v : SnmpVarBind)
    (rest : list SnmpVarBind) :
  decodeVarBinds X fuelD octets = Some (v :: rest) ->
  exists k n,
    fuelD = S k /\ octets <> []
    /\ snmpParseVarBinding X octets = (NO_ERROR, v, n)
    /\ (n <= length octets)%nat
    /\ decodeVarBinds X k (skipn n octets) = Some rest.
Proof.
  destruct fuelD as [|k]; [discriminate|]. simpl.
  destruct octets as [|b octets]; [discriminate|].
  destruct (snmpParseVarBinding X (b :: octets)) as [[e u] n] eqn:Hp.
  destruct (isError e) eqn:He; [discriminate|].
  destruct (length (b :: octets) <? n)%nat eqn:Hn; [discriminate|].
  destruct (decodeVarBinds X k (skipn n (b :: octets))) as [l|] eqn:Hd;
    [|discriminate].
  simpl. intros H. inv H. apply isError_false in He. subst e.
  apply Nat.ltb_ge in Hn.
  exists k, n. repeat split; [discriminate|exact Hn|exact Hd].
Qed.

Lemma decode_nil (fuelD : nat) (octets : list Z) :
  decodeVarBinds X fuelD octets = Some [] -> octets = [].
Proof.
  destruct fuelD as [|k]; [discriminate|]. simpl.
  destruct octets as [|b octets]; [reflexivity|].
  destruct (snmpParseVarBinding X (b :: octets)) as [[e u] n].
  destruct (isError e); [discriminate|].
  destruct (length (b :: octets) <? n)%nat; [discriminate|].
  destruct (decodeVarBinds X k (skipn n (b :: octets))); discriminate.
Qed.

(** The body of the Set loops reads no local that holds no value. *)
Lemma setBody_sound (commit : bool) (st st' : SetLoop Mib) :
  setBody X commit st <> Fault st'.
Proof.
  unfold setBody. repeat break_match; discriminate.
Qed.

(** Each loop of the Set handler does what [setAll] tells over the decoded
    bindings. *)
Lemma setLoop_refines (commit : bool) (vs : list SnmpVarBind) :
  forall (fuelD fuel : nat) (st : SetLoop Mib),
    sl_error st = NO_ERROR ->
    (sl_length st
       <= length (varBindList (request (sl_ctx st))) - sl_p st)%nat ->
    decodeVarBinds X fuelD
      (octetsAt (varBindList (request (sl_ctx st))) (sl_p st) (sl_length st))
      = Some vs ->
    (length vs < fuel)%nat ->
    exists st',
      forLoop setCond (setBody X commit) setIncr fuel st = Some st'
      /\ (sl_error st', sl_index st', sl_ctx st')
         = setAll X commit (sl_ctx st) vs (sl_index st).
Proof.
  induction vs as [|v vs IH]; intros fuelD fuel st Herr Hinv Hdec Hfuel.
  - apply decode_nil in Hdec.
    apply (f_equal (@length Z)) in Hdec.
    rewrite octetsAt_length in Hdec by exact Hinv. simpl in Hdec.
    destruct fuel as [|fuel]; [lia|]. exists st. simpl.
    unfold setCond. rewrite Hdec. simpl. rewrite Herr.
    split; reflexivity.
  - apply decode_cons in Hdec.
    destruct Hdec as (k & n & -> & Hne & Hparse & Hn & Hrest).
    rewrite octetsAt_length in Hn by exact Hinv.
    assert (Hlen : (0 < sl_length st)%nat).
    { destruct (octetsAt _ _ _) eqn:Hoct in Hne; [congruence|].
      apply (f_equal (@length Z)) in Hoct.
      rewrite octetsAt_length in Hoct by exact Hinv. simpl in Hoct. lia. }
    destruct fuel as [|fuel]; [simpl in Hfuel; lia|].
    simpl. unfold setCond at 1.
    replace (0 <? sl_length st)%nat with true
      by (symmetry; apply Nat.ltb_lt; exact Hlen).
    unfold setBody at 1. rewrite Hparse. cbn [isError].
    destruct (snmpSetObjectValue X (sl_ctx st) (request (sl_ctx st)) v commit)
      as [e1 store] eqn:Hset.
    destruct (isError e1) eqn:He1.
    + eexists. split; [reflexivity|]. reflexivity.
    + apply isError_false in He1. subst e1.
      rewrite (sizeSub_within X _ _ Hn).
      match goal with
      | |- exists st', forLoop _ _ _ _ ?s = _ /\ _ =>
          destruct (IH k fuel s) as (st' & Hloop & Hres)
      end.
      * reflexivity.
      * simpl. destruct commit; simpl; lia.
      * simpl.
        replace (request (if commit then _ else _))
          with (request (sl_ctx st)) by (destruct commit; reflexivity).
        rewrite octetsAt_advance. exact Hrest.
      * simpl in Hfuel. lia.
      * exists st'. split; [exact Hloop|]. rewrite Hres. reflexivity.
Qed.

(** The same for a list that need not parse to its end: the loop goes
    through the bindings that parse as [setAll] tells, and stops on the
    parser's failure when it gets that far. *)
Lemma setLoop_follows (commit : bool) (vs : list SnmpVarBind)
    (rest : error_t) :
  ParseProgress X ->
  forall (fuelD fuel : nat) (st : SetLoop Mib),
    sl_error st = NO_ERROR ->
    (sl_length st
       <= length (varBindList (request (sl_ctx st))) - sl_p st)%nat ->
    parsedBinds X fuelD
      (octetsAt (varBindList (request (sl_ctx st))) (sl_p st) (sl_length st))
      = (vs, rest) ->
    (sl_length st < fuelD)%nat ->
    (length vs < fuel)%nat ->
    exists st',
      forLoop setCond (setBody X commit) setIncr fuel st = Some st'
      /\ (sl_error st', sl_index st', sl_ctx st')
         = setThen (setAll X commit (sl_ctx st) vs (sl_index st)) rest.
Proof.
  intros HP.
  induction vs as [|v vs IH]; intros fuelD fuel st Herr Hinv Hdec HfD Hfuel;
    (destruct fuelD as [|fuelD]; [lia|]); simpl in Hdec;
    (destruct fuel as [|fuel]; [simpl in Hfuel; lia|]);
    destruct (octetsAt _ _ _) as [|b octets] eqn:Hoct.
  - inv Hdec. apply (f_equal (@length Z)) in Hoct.
    rewrite octetsAt_length in Hoct by exact Hinv. simpl in Hoct.
    exists st. simpl. unfold setCond. rewrite Hoct. simpl. rewrite Herr.
    split; reflexivity.
  - assert (Hlen : (0 < sl_length st)%nat).
    { apply (f_equal (@length Z)) in Hoct.
      rewrite octetsAt_length in Hoct by exact Hinv. simpl in Hoct. lia. }
    destruct (snmpParseVarBinding X (b :: octets)) as [[e u] n] eqn:Hparse.
    destruct (isError e) eqn:He.
    + inv Hdec. simpl. unfold setCond at 1.
      replace (0 <? sl_length st)%nat with true
        by (symmetry; apply Nat.ltb_lt; exact Hlen).
      unfold setBody at 1. rewrite Hoct, Hparse, He.
      eexists. split; [reflexivity|]. reflexivity.
    + destruct (parsedBinds X fuelD (skipn n (b :: octets))); discriminate.
  - discriminate.
  - assert (Hlen : length (b :: octets) = sl_length st).
    { rewrite <- Hoct. apply octetsAt_length. exact Hinv. }
    destruct (snmpParseVarBinding X (b :: octets)) as [[e u] n] eqn:Hparse.
    destruct (isError e) eqn:He; [discriminate|].
    destruct (parsedBinds X fuelD (skipn n (b :: octets)))
      as [vs' rest'] eqn:Hrest.
    inv Hdec.
    generalize (HP _ _ _ _ Hparse He). rewrite Hlen. intros Hn.
    simpl. unfold setCond at 1.
    replace (0 <? sl_length st)%nat with true
      by (symmetry; apply Nat.ltb_lt; simpl in Hlen; lia).
    unfold setBody at 1. rewrite Hoct, Hparse, He.
    destruct (snmpSetObjectValue X (sl_ctx st) (request (sl_ctx st)) v commit)
      as [e1 store] eqn:Hset.
    destruct (isError e1) eqn:He1.
    + eexists. split; [reflexivity|]. unfold setThen. simpl. rewrite He1.
      reflexivity.
    + apply isError_false in He1. subst e1.
      rewrite sizeSub_within by lia.
      match goal with
      | |- exists st', forLoop _ _ _ _ ?s = _ /\ _ =>
          destruct (IH fuelD fuel s) as (st' & Hloop & Hres)
      end.
      * reflexivity.
      * simpl. destruct commit; simpl; lia.
      * simpl.
        replace (request (if commit then _ else _))
          with (request (sl_ctx st)) by (destruct commit; reflexivity).
        rewrite octetsAt_advance, Hoct. exact Hrest.
      * simpl. lia.
      * simpl in Hfuel. lia.
      * exists st'. split; [exact Hloop|]. rewrite Hres. reflexivity.
Qed.

(** Validation over the decoded bindings, when it leaves the MIB alone:
    the context never changes, and the phase stops at the first binding the
    store refuses. *)
Lemma setAll_validate_ctx (ctx : SnmpAgentContext Mib)
    (vs : list SnmpVarBind) :
  CheckKeepsMib X ->
  forall k, snd (setAll X false ctx vs k) = ctx.
Proof.
  intros HK. induction vs as [|v vs IH]; intros k; simpl; [reflexivity|].
  destruct (snmpSetObjectValue X ctx (request ctx) v false) as [e s] eqn:Hs.
  apply HK in Hs. subst s. rewrite set_mib_same.
  destruct (isError e); [reflexivity|]. apply IH.
Qed.

Lemma setAll_validate_fail (ctx : SnmpAgentContext Mib)
    (pre post : list SnmpVarBind) (v : SnmpVarBind) :
  CheckKeepsMib X ->
  Forall (fun u => fst (snmpSetObjectValue X ctx (request ctx) u false)
                   = NO_ERROR) pre ->
  isError (fst (snmpSetObjectValue X ctx (request ctx) v false)) = true ->
  forall k,
    setAll X false ctx (pre ++ v :: post) k
    = (fst (snmpSetObjectValue X ctx (request ctx) v false),
       k + Z.of_nat (length pre), ctx).
Proof.
  intros HK Hpre Hv. induction Hpre as [|u pre Hu Hpre IH]; intros k; simpl.
  - destruct (snmpSetObjectValue X ctx (request ctx) v false)
      as [e s] eqn:Hs.
    simpl in Hv. rewrite Hv. apply HK in Hs. subst s.
    rewrite set_mib_same. f_equal. f_equal. lia.
  - destruct (snmpSetObjectValue X ctx (request ctx) u false)
      as [e s] eqn:Hs.
    simpl in Hu. subst e. simpl. apply HK in Hs. subst s.
    rewrite set_mib_same, IH. f_equal. f_equal. lia.
Qed.

Lemma setAll_validate_pass (ctx : SnmpAgentContext Mib)
    (vs : list SnmpVarBind) :
  CheckKeepsMib X ->
  Forall (fun u => fst (snmpSetObjectValue X ctx (request ctx) u false)
                   = NO_ERROR) vs ->
  forall k,
    setAll X false ctx vs k = (NO_ERROR, k + Z.of_nat (length vs), ctx).
Proof.
  intros HK Hvs. induction Hvs as [|u vs Hu Hvs IH]; intros k; simpl.
  - f_equal. f_equal. lia.
  - destruct (snmpSetObjectValue X ctx (request ctx) u false)
      as [e s] eqn:Hs.
    simpl in Hu. subst e. simpl. apply HK in Hs. subst s.
    rewrite set_mib_same, IH. f_equal. f_equal. lia.
Qed.

Lemma triple_eq {A B C : Type} (a a' : A) (b b' : B) (c c' : C) :
  (a, b, c) = (a', b', c') -> a = a' /\ b = b' /\ c = c'.
Proof. intros H. inversion H. auto. Qed.

(** What follows the loops only writes the response. *)
Lemma setFinish_frame (st : SetLoop Mib) :
  mib (snd (setFinish X st)) = mib (sl_ctx st)
  /\ request (snd (setFinish X st)) = request (sl_ctx st).
Proof.
  unfold setFinish, translateStatus, copyVarBindingList.
  repeat break_match; simpl; repeat match goal with
  | H : (_, _) = (_, _) |- _ => inv H
  end; simpl; auto.
Qed.

(** The index and the list of a response that reports a failed phase. *)
Lemma setFinish_reports (st : SetLoop Mib) :
  TranslateStoresIndex X -> CopyEchoes X ->
  isError (sl_error st) = true ->
  sl_error st <> ERROR_BUFFER_OVERFLOW ->
  fst (setFinish X st) = NO_ERROR ->
  errorIndex (response (snd (setFinish X st))) = sl_index st
  /\ varBindList (response (snd (setFinish X st)))
     = varBindList (request (sl_ctx st)).
Proof.
  intros HT HC He Hne. unfold setFinish, translateStatus, copyVarBindingList.
  rewrite He.
  destruct (snmpTranslateStatusCode X _ _ _) as [e2 m2] eqn:Htr.
  destruct (isError e2) eqn:He2.
  - simpl. intros ->. discriminate.
  - apply isError_false in He2. subst e2.
    destruct (snmpCopyVarBindingList X _) as [e3 m3] eqn:Hc. simpl.
    intros ->. apply HC in Hc. simpl in Hc. destruct Hc as (A & _ & C).
    apply (HT _ _ _ _ He Hne) in Htr. split; congruence.
Qed.

(** The bindings a phase of the Set handler goes through are the same for
    both phases: validation leaves the context as it is, whatever becomes of
    the phase. *)
Lemma setThen_validate_ctx (ctx : SnmpAgentContext Mib)
    (vs : list SnmpVarBind) (rest : error_t) (k : Z) :
  CheckKeepsMib X -> snd (setThen (setAll X false ctx vs k) rest) = ctx.
Proof.
  intros HK. generalize (setAll_validate_ctx ctx vs HK k). unfold setThen.
  destruct (setAll X false ctx vs k) as [[e i] c]. simpl. intros ->.
  destruct (isError e); reflexivity.
Qed.

Lemma setThen_stops (phase : error_t * Z * SnmpAgentContext Mib)
    (e rest : error_t) (i : Z) (c : SnmpAgentContext Mib) :
  phase = (e, i, c) -> isError e = true -> setThen phase rest = (e, i, c).
Proof.
  intros -> He. unfold setThen. rewrite He. reflexivity.
Qed.

Lemma setThen_passes (phase : error_t * Z * SnmpAgentContext Mib)
    (rest : error_t) (i : Z) (c : SnmpAgentContext Mib) :
  phase = (NO_ERROR, i, c) -> setThen phase rest = (rest, i, c).
Proof.
  intros ->. reflexivity.
Qed.

(** C1, as the code has it.  For a SetRequest, [vs] being the bindings of
    its list that parse and [rest] the parser's status for what follows
    them: when a binding fails the validation of phase 1, or when every
    binding of [vs] passes it and what follows does not parse, phase 1 stops
    there, no commit has been attempted, the MIB is as it was before the
    request, the failure is translated with the 1-based index of that
    binding, and, unless the failure is ERROR_BUFFER_OVERFLOW, the response
    that is returned carries that index with the request's list; when every
    binding parses and passes phase 1, phase 2 commits the bindings in
    request order and stops at the first commit that fails, the commits made
    before it staying in the MIB. *)
Theorem set_validates_then_commits (fuel : nat)
    (ctx : SnmpAgentContext Mib) (r0 : SnmpMessage)
    (vs : list SnmpVarBind) (rest : error_t) :
  ParseProgress X ->
  CheckKeepsMib X -> TranslateStoresIndex X -> CopyEchoes X ->
  writeAllowed (user_mode ctx) = true ->
  snmpInitResponse X (setCount ctx) = (NO_ERROR, r0) ->
  parsedBinds X (S (length (varBindList (request ctx))))
    (varBindList (request ctx)) = (vs, rest) ->
  (length vs < fuel)%nat ->
  let ctx1 := set_response (setCount ctx) r0 in
  let check v := fst (snmpSetObjectValue X ctx1 (request ctx) v false) in
  let refused st e k :=
    sl_ctx st = ctx1
    /\ sl_error st = e
    /\ sl_index st = k
    /\ mib (snd (setFinish X st)) = mib ctx
    /\ (e <> ERROR_BUFFER_OVERFLOW ->
        fst (setFinish X st) = NO_ERROR ->
        errorIndex (response (snd (setFinish X st))) = k
        /\ varBindList (response (snd (setFinish X st)))
           = varBindList (request ctx)) in
  exists st,
    snmpProcessSetRequestPdu X fuel ctx = Some (setFinish X st)
    /\ (forall pre v post,
          vs = pre ++ v :: post ->
          Forall (fun u => check u = NO_ERROR) pre ->
          isError (check v) = true ->
          refused st (check v) (Z.of_nat (length pre) + 1))
    /\ (Forall (fun u => check u = NO_ERROR) vs ->
        isError rest = true ->
        refused st rest (Z.of_nat (length vs) + 1))
    /\ (Forall (fun u => check u = NO_ERROR) vs ->
        rest = NO_ERROR ->
        (sl_error st, sl_index st, sl_ctx st) = setAll X true ctx1 vs 1).
Proof.
  intros HP HK HT HC Hmode Hinit Hdec Hfuel ctx1 check refused.
  destruct (setLoop_follows false vs rest HP
              (S (length (varBindList (request ctx))))
              fuel (setStart ctx1 NO_ERROR)) as (st1 & Hloop1 & Hres1);
    try reflexivity.
  { simpl. unfold varBindListLen. simpl. lia. }
  { unfold setStart, octetsAt, varBindListLen. simpl.
    rewrite firstn_all. exact Hdec. }
  { simpl. unfold varBindListLen. simpl. lia. }
  { exact Hfuel. }
  simpl sl_ctx in Hres1. simpl sl_index in Hres1.
  assert (Hctx : sl_ctx st1 = ctx1).
  { rewrite <- (setThen_validate_ctx ctx1 vs rest 1 HK), <- Hres1.
    reflexivity. }
  assert (Hrun : snmpProcessSetRequestPdu X fuel ctx
                 = if isError (sl_error st1) then Some (setFinish X st1)
                   else match forLoop setCond (setBody X true) setIncr fuel
                                (setStart (sl_ctx st1) (sl_error st1)) with
                        | None => None
                        | Some st2 => Some (setFinish X st2)
                        end).
  { unfold snmpProcessSetRequestPdu. simpl user_mode. rewrite Hmode.
    simpl. rewrite Hinit. simpl. fold ctx1. rewrite Hloop1. reflexivity. }
  assert (Hrefused : forall e k,
            isError e = true -> sl_error st1 = e -> sl_index st1 = k ->
            isError (sl_error st1) = true -> refused st1 e k).
  { intros e k He Herr Hidx He1. unfold refused.
    split; [exact Hctx|]. split; [exact Herr|]. split; [exact Hidx|].
    destruct (setFinish_frame st1) as [Hm _].
    split; [rewrite Hm, Hctx; reflexivity|].
    intros Hne Hok.
    destruct (setFinish_reports st1 HT HC He1) as [A B];
      [rewrite Herr; exact Hne|exact Hok|].
    rewrite A, B, Hidx, Hctx. split; reflexivity. }
  destruct (isError (sl_error st1)) eqn:He1.
  - exists st1. split; [exact Hrun|]. split; [|split].
    + intros pre v post Hvs Hpre Hv. subst vs.
      rewrite (setThen_stops _ (check v) rest _ ctx1
                 (setAll_validate_fail ctx1 pre post v HK Hpre Hv 1) Hv)
        in Hres1.
      apply triple_eq in Hres1. destruct Hres1 as (Herr & Hidx & _).
      apply Hrefused; [exact Hv|exact Herr|rewrite Hidx; lia|reflexivity].
    + intros Hall Hrest.
      rewrite (setThen_passes _ rest _ ctx1
                 (setAll_validate_pass ctx1 vs HK Hall 1)) in Hres1.
      apply triple_eq in Hres1. destruct Hres1 as (Herr & Hidx & _).
      apply Hrefused; [exact Hrest|exact Herr|rewrite Hidx; lia|reflexivity].
    + intros Hall Hrest.
      rewrite (setThen_passes _ rest _ ctx1
                 (setAll_validate_pass ctx1 vs HK Hall 1)) in Hres1.
      apply triple_eq in Hres1. destruct Hres1 as (Herr & _ & _).
      rewrite Herr, Hrest in He1. discriminate.
  - apply isError_false in He1.
    rewrite He1, Hctx in Hrun.
    destruct (setLoop_follows true vs rest HP
                (S (length (varBindList (request ctx))))
                fuel (setStart ctx1 NO_ERROR)) as (st2 & Hloop2 & Hres2);
      try reflexivity.
    { simpl. unfold varBindListLen. simpl. lia. }
    { unfold setStart, octetsAt, varBindListLen. simpl.
      rewrite firstn_all. exact Hdec. }
    { simpl. unfold varBindListLen. simpl. lia. }
    { exact Hfuel. }
    rewrite Hloop2 in Hrun. exists st2. split; [exact Hrun|]. split; [|split].
    + intros pre v post Hvs Hpre Hv. subst vs.
      rewrite (setThen_stops _ (check v) rest _ ctx1
                 (setAll_validate_fail ctx1 pre post v HK Hpre Hv 1) Hv)
        in Hres1.
      apply triple_eq in Hres1. destruct Hres1 as (Herr & _ & _).
      rewrite Herr in He1. rewrite He1 in Hv. discriminate.
    + intros Hall Hrest.
      rewrite (setThen_passes _ rest _ ctx1
                 (setAll_validate_pass ctx1 vs HK Hall 1)) in Hres1.
      apply triple_eq in Hres1. destruct Hres1 as (Herr & _ & _).
      rewrite Herr in He1. rewrite He1 in Hrest. discriminate.
    + intros _ Hrest. subst rest. simpl sl_ctx in Hres2.
      simpl sl_index in Hres2. rewrite Hres2. unfold setThen.
      destruct (setAll X true ctx1 vs 1) as [[e i] c].
      destruct (isError e) eqn:He; [reflexivity|].
      apply isError_false in He. subst e. reflexivity.
Qed.

End SetProperties.

(** ** The handlers on the demo agent *)

(** Reads one component [f] of the state a loop ended in. *)
Ltac observe_run H f v He :=
  match type of H with
  | ?L = Some ?st =>
      assert (He : option_map f L = Some v) by (vm_compute; reflexivity);
      rewrite H in He; simpl in He; injection He as He
  end.

Lemma get_abort_reformats_response_witness :
  Demo.outcome (snmpProcessGetRequestPdu Demo.agent 50 Demo.getV1)
    = Some (NO_ERROR,
            (SNMP_ERROR_NO_SUCH_NAME, 2, Demo.threeNames, 0, Demo.store0))
  /\ exists st,
       snmpProcessGetRequestPdu Demo.agent 50 Demo.getV1
         = Some (getFinish Demo.agent st)
       /\ gl_error st = ERROR_OBJECT_NOT_FOUND
       /\ gl_index st = 2.
Proof.
  split; [vm_compute; reflexivity|].
  destruct (get_abort_reformats_response Demo.agent 50 Demo.getV1
              (snd (Demo.initResponse (getCount Demo.getV1)))
              demo_parse_progress demo_copy_echoes)
    as (st & Hloop & Hrun & _).
  - reflexivity.
  - reflexivity.
  - vm_compute. lia.
  - exists st. split; [exact Hrun|].
    observe_run Hloop (@gl_error Demo.Store) ERROR_OBJECT_NOT_FOUND He.
    observe_run Hloop (@gl_index Demo.Store) 2 Hi.
    split; assumption.
Defined.

Lemma get_retrieval_failure_handling_witness :
  Demo.outcome (snmpProcessGetRequestPdu Demo.agent 50 Demo.getMissing)
    = Some (NO_ERROR,
            (SNMP_ERROR_NONE, 0,
             [mkVarBind [1; 5] ASN1_CLASS_CONTEXT_SPECIFIC
                SNMP_EXCEPTION_NO_SUCH_OBJECT [];
              Demo.assign [1; 3] [30]], 0, Demo.store0))
  /\ forLoop getCond (getBody Demo.agent) getIncr 5
       (getStart (Demo.started Demo.getMissing) NO_ERROR)
     = forLoop getCond (getBody Demo.agent) getIncr 4
         (mkGetLoop
            (set_response (Demo.started Demo.getMissing)
               (snd (Demo.writeVarBinding (Demo.started Demo.getMissing)
                       (mkVarBind [1; 5] ASN1_CLASS_CONTEXT_SPECIFIC
                          SNMP_EXCEPTION_NO_SUCH_OBJECT []))))
            6 6 2 NO_ERROR)
  /\ forLoop getCond (getBody Demo.agent) getIncr 5
       (getStart (Demo.started Demo.nextHidden) NO_ERROR)
     = Some (mkGetLoop (Demo.started Demo.nextHidden) 0 12 1
               ERROR_ACCESS_DENIED)
  /\ (let ctx := Demo.started Demo.nextPastEndV2 in
      let counted :=
        set_mib2Base ctx
          (MIB2_INC_COUNTER32 snmpInTotalReqVars 1 (mib2Base ctx)) in
      let written :=
        Demo.writeVarBinding counted
          (mkVarBind [66; 1] ASN1_CLASS_CONTEXT_SPECIFIC
             SNMP_EXCEPTION_END_OF_MIB_VIEW []) in
      forLoop getCond (getBody Demo.agent) getIncr 5 (getStart ctx NO_ERROR)
      = forLoop getCond (getBody Demo.agent) getIncr 4
          (mkGetLoop (set_response counted (snd written)) 6 0 2 NO_ERROR)).
Proof.
  split; [vm_compute; reflexivity|]. split; [|split].
  - destruct (get_retrieval_failure_handling Demo.agent Demo.encodeVarBind
                4 (getStart (Demo.started Demo.getMissing) NO_ERROR)
                (Demo.nameOf [1; 5]) 6
                demo_write_appends demo_parse_progress)
      as (Hvalue & _ & _).
    + vm_compute. lia.
    + reflexivity.
    + reflexivity.
    + destruct (Hvalue ERROR_OBJECT_NOT_FOUND (Demo.nameOf [1; 5]))
        as (_ & _ & _ & Hloop).
      * left. split; reflexivity.
      * reflexivity.
      * exact Hloop.
  - destruct (get_retrieval_failure_handling Demo.agent Demo.encodeVarBind
                4 (getStart (Demo.started Demo.nextHidden) NO_ERROR)
                (Demo.nameOf [99; 1]) 6
                demo_write_appends demo_parse_progress)
      as (_ & Hsearch & _).
    + vm_compute. lia.
    + reflexivity.
    + reflexivity.
    + apply (Hsearch ERROR_ACCESS_DENIED (Demo.nameOf [99; 1])).
      * discriminate.
      * reflexivity.
      * reflexivity.
      * left. discriminate.
  - destruct (get_retrieval_failure_handling Demo.agent Demo.encodeVarBind
                4 (getStart (Demo.started Demo.nextPastEndV2) NO_ERROR)
                (Demo.nameOf [66; 1]) 6
                demo_write_appends demo_parse_progress)
      as (_ & _ & Hend & _).
    + vm_compute. lia.
    + reflexivity.
    + reflexivity.
    + destruct (Hend (Demo.nameOf [66; 1])) as (_ & _ & _ & Hloop).
      * discriminate.
      * reflexivity.
      * discriminate.
      * exact Hloop.
Defined.

(** C5, as stated, fails for the search of a GetNextRequest.  Under v2c a
    search that fails with ERROR_ACCESS_DENIED makes no noSuchObject
    binding: the request is aborted, and the response reports the failure
    at index 1 with the request's list.  Under v2c a search that fails with
    ERROR_OBJECT_NOT_FOUND makes no noSuchObject binding either: the
    binding of the response is of type endOfMibView. *)
Lemma getnext_access_denied_counterexample :
  version (request Demo.nextHidden) = SNMP_VERSION_2C
  /\ pduType (request Demo.nextHidden) = SNMP_PDU_GET_NEXT_REQUEST
  /\ snmpGetNextObject Demo.agent (Demo.started Demo.nextHidden)
       (request Demo.nextHidden) (Demo.nameOf [99; 1])
     = (ERROR_ACCESS_DENIED, Demo.nameOf [99; 1])
  /\ Demo.outcome (snmpProcessGetRequestPdu Demo.agent 50 Demo.nextHidden)
     = Some (NO_ERROR,
             (SNMP_ERROR_NO_ACCESS, 1,
              [Demo.nameOf [99; 1]; Demo.nameOf [1; 1]], 0, Demo.store0))
  /\ version (request Demo.nextPastEndV2) = SNMP_VERSION_2C
  /\ pduType (request Demo.nextPastEndV2) = SNMP_PDU_GET_NEXT_REQUEST
  /\ snmpGetNextObject Demo.agent (Demo.started Demo.nextPastEndV2)
       (request Demo.nextPastEndV2) (Demo.nameOf [66; 1])
     = (ERROR_OBJECT_NOT_FOUND, Demo.nameOf [66; 1])
  /\ Demo.outcome
       (snmpProcessGetRequestPdu Demo.agent 50 Demo.nextPastEndV2)
     = Some (NO_ERROR,
             (SNMP_ERROR_NONE, 0,
              [mkVarBind [66; 1] ASN1_CLASS_CONTEXT_SPECIFIC
                 SNMP_EXCEPTION_END_OF_MIB_VIEW []], 0, Demo.store0)).
Proof.
  repeat split; vm_compute; reflexivity.
Qed.

(** C1, as stated, fails: the three bindings pass the validation, the commit
    of the second one fails, and the first binding stays committed while the
    second and the third are not. *)
Lemma set_partial_commit_counterexample :
  Demo.outcome (snmpProcessSetRequestPdu Demo.agent 50 Demo.setFaulty)
    = Some (NO_ERROR,
            (SNMP_ERROR_GENERIC, 2,
             [Demo.assign [1; 1] [11]; Demo.assign [66; 1] [61];
              Demo.assign [1; 3] [33]], 0,
             [([1; 1], [11]); ([1; 2], [20]); ([1; 3], [30]);
              ([66; 1], [60])]))
  /\ mib Demo.setFaulty
     = [([1; 1], [10]); ([1; 2], [20]); ([1; 3], [30]); ([66; 1], [60])].
Proof.
  split; [vm_compute; reflexivity|reflexivity].
Qed.

Lemma set_validates_then_commits_witness :
  Demo.outcome (snmpProcessSetRequestPdu Demo.agent 50 Demo.setRefusedCut)
    = Some (NO_ERROR,
            (SNMP_ERROR_WRONG_VALUE, 2,
             [Demo.assign [1; 1] [11]; Demo.assign [1; 2] []], 0,
             Demo.store0))
  /\ (exists st,
        snmpProcessSetRequestPdu Demo.agent 50 Demo.setRefusedCut
          = Some (setFinish Demo.agent st)
        /\ sl_error st = ERROR_WRONG_VALUE
        /\ sl_index st = 2
        /\ mib (snd (setFinish Demo.agent st)) = Demo.store0
        /\ errorIndex (response (snd (setFinish Demo.agent st))) = 2
        /\ varBindList (response (snd (setFinish Demo.agent st)))
           = varBindList (request Demo.setRefusedCut))
  /\ (exists st,
        snmpProcessSetRequestPdu Demo.agent 50 Demo.setCut
          = Some (setFinish Demo.agent st)
        /\ sl_error st = ERROR_INVALID_TAG
        /\ sl_index st = 2
        /\ mib (snd (setFinish Demo.agent st)) = Demo.store0).
Proof.
  split; [vm_compute; reflexivity|]. split.
  - destruct (set_validates_then_commits Demo.agent 50 Demo.setRefusedCut
                (snd (Demo.initResponse (setCount Demo.setRefusedCut)))
                [Demo.assign [1; 1] [11]; Demo.assign [1; 2] []]
                ERROR_INVALID_TAG
                demo_parse_progress demo_check_keeps_mib
                demo_translate_stores_index demo_copy_echoes)
      as (st & Hrun & Hfail & _).
    + reflexivity.
    + reflexivity.
    + reflexivity.
    + simpl. lia.
    + destruct (Hfail [Demo.assign [1; 1] [11]] (Demo.assign [1; 2] []) [])
        as (_ & Herr & Hidx & Hmib & Hreport).
      * reflexivity.
      * repeat constructor.
      * reflexivity.
      * exists st. split; [exact Hrun|]. split; [exact Herr|].
        split; [exact Hidx|]. split; [exact Hmib|].
        apply Hreport; [discriminate|].
        assert (Ho : option_map fst
                       (snmpProcessSetRequestPdu Demo.agent 50
                          Demo.setRefusedCut) = Some NO_ERROR)
          by (vm_compute; reflexivity).
        rewrite Hrun in Ho. simpl in Ho. injection Ho as Ho. exact Ho.
  - destruct (set_validates_then_commits Demo.agent 50 Demo.setCut
                (snd (Demo.initResponse (setCount Demo.setCut)))
                [Demo.assign [1; 1] [11]] ERROR_INVALID_TAG
                demo_parse_progress demo_check_keeps_mib
                demo_translate_stores_index demo_copy_echoes)
      as (st & Hrun & _ & Hcut & _).
    + reflexivity.
    + reflexivity.
    + reflexivity.
    + simpl. lia.
    + destruct Hcut as (_ & Herr & Hidx & Hmib & _).
      * repeat constructor.
      * reflexivity.
      * exists st. split; [exact Hrun|]. split; [exact Herr|].
        split; [exact Hidx|exact Hmib].
Defined.

(** C4, as the code has it.  In the loops of the Get and GetBulk handlers
    a binding whose identifier [oidCheck] refuses stops the loop on that
    error before the MIB is consulted.  The Set handler never calls
    [oidCheck]: it returns the same result whatever the validation of
    identifiers is, and on the demo agent a SetRequest naming an identifier
    that [oidCheck] refuses is validated and committed by the store, while
    the GetRequest naming it is aborted. *)
Theorem set_skips_oid_validation :
  (forall (Mib : Type) (X : Externals Mib) (st : GetLoop Mib)
          (var : SnmpVarBind) (n : nat),
     snmpParseVarBinding X
       (octetsAt (varBindList (request (gl_ctx st))) (gl_p st)
          (gl_length st)) = (NO_ERROR, var, n) ->
     isError (oidCheck X (oid var)) = true ->
     getBody X st
     = Break (mkGetLoop (gl_ctx st) (gl_p st) (gl_length st) (gl_index st)
                (oidCheck X (oid var))))
  /\ (forall (Mib : Type) (X : Externals Mib) (st : BulkLoop Mib)
             (var : SnmpVarBind) (n : nat),
        snmpParseVarBinding X
          (octetsAt (bulkBuffer (bl_ctx st) (bl_region st)) (bl_p st)
             (bl_length st)) = (NO_ERROR, var, n) ->
        isError (oidCheck X (oid var)) = true ->
        (bl_index st - 1 =? nonRepeaters (request (bl_ctx st)))
        && (maxRepetitions (request (bl_ctx st)) =? 0) = false ->
        exists st',
          bulkBody X st = Break st'
          /\ bl_ctx st' = bl_ctx st
          /\ bl_index st' = bl_index st
          /\ bl_error st' = oidCheck X (oid var))
  /\ (forall (Mib : Type) (X : Externals Mib) (check : list Z -> error_t)
             (fuel : nat) (ctx : SnmpAgentContext Mib),
        snmpProcessSetRequestPdu (withOidCheck X check) fuel ctx
        = snmpProcessSetRequestPdu X fuel ctx)
  /\ Demo.checkOid [200] = ERROR_INVALID_SYNTAX
  /\ Demo.outcome (snmpProcessSetRequestPdu Demo.agent 50 Demo.setBadOid)
     = Some (NO_ERROR,
             (SNMP_ERROR_NONE, 0, [Demo.assign [200] [9]], 0,
              Demo.store0 ++ [([200], [9])]))
  /\ Demo.outcome (snmpProcessGetRequestPdu Demo.agent 50 Demo.getBadOid)
     = Some (NO_ERROR,
             (SNMP_ERROR_GENERIC, 1, [Demo.nameOf [200]], 0, Demo.store1)).
Proof.
  split.
  { intros Mib X st var n Hparse Hoid. unfold getBody.
    rewrite Hparse. simpl. rewrite Hoid. reflexivity. }
  split.
  { intros Mib X st var n Hparse Hoid Hfirst. unfold bulkBody, bulkAnswer.
    rewrite Hfirst, Hparse. simpl. rewrite Hoid.
    eexists. split; [reflexivity|]. simpl. auto. }
  split; [intros; reflexivity|].
  split; [reflexivity|].
  split; vm_compute; reflexivity.
Qed.

(** ** The Report handler *)

Section ReportProperties.

Context {Mib : Type} (X : Externals Mib).

Lemma UsmCounter_beq_refl (c : UsmCounter) : UsmCounter_beq c c = true.
Proof. destruct c; reflexivity. Qed.

Lemma UsmCounter_beq_neq (k c : UsmCounter) :
  k <> c -> UsmCounter_beq k c = false.
Proof. destruct k, c; simpl; congruence. Qed.

(** The switch of [snmpFormatReportPdu] against the table of causes. *)
Lemma reportSelect_table (cause : error_t) (base : UsmCounter -> Z) :
  In cause reportCauses ->
  reportSelect X cause base
  = (match causeCounter cause with
     | Some c => SNMP_USM_MIB_INC_COUNTER32 c 1 base
     | None => base
     end,
     match causeCounter cause with
     | Some c => wrapU32 (base c + 1)
     | None => 1
     end,
     causeObject X cause).
Proof.
  intros Hin. simpl in Hin.
  repeat (destruct Hin as [Hin|Hin]; [subst cause; reflexivity|]).
  contradiction.
Qed.

(** C6, as the code has it.  For each of the eight causes the report names
    the object of the cause, and the binding that is written, once, holds
    the encoded value of the local counter.  For the six USM causes that
    value is the counter of the cause read back after it was incremented
    (modulo 2^32), no other counter changing; for unavailableContext and
    unknownContext it is the constant 1 and no counter is touched. *)
Theorem report_binding_of_cause (enc : SnmpVarBind -> list Z)
    (ctx : SnmpAgentContext Mib) (cause : error_t) (r1 : SnmpMessage)
    (octets : list Z) :
  WriteAppends X enc ->
  In cause reportCauses ->
  snmpComputeMessageOverhead X (reportMessage X ctx cause)
    = (NO_ERROR, r1) ->
  varBindList r1 = [] ->
  let base := snmpUsmMibBase ctx in
  let counter :=
    match causeCounter cause with
    | Some c => wrapU32 (base c + 1)
    | None => 1
    end in
  snmpEncodeUnsignedInt32 X counter = (NO_ERROR, octets) ->
  let var := reportVarBind (causeObject X cause) octets in
  exists ctx1,
    response ctx1 = r1
    /\ match causeCounter cause with
       | Some c =>
           snmpUsmMibBase ctx1 c = counter
           /\ forall k, k <> c -> snmpUsmMibBase ctx1 k = base k
       | None => snmpUsmMibBase ctx1 = base
       end
    /\ snmpFormatReportPdu X ctx cause
       = (let written := snmpWriteVarBinding X ctx1 var in
          let ctx2 := set_response ctx1 (snd written) in
          if isError (fst written) then (fst written, ctx2)
          else
            let header := snmpWritePduHeader X (response ctx2) in
            (fst header, set_response ctx2 (snd header)))
    /\ (fst (snmpWriteVarBinding X ctx1 var) = NO_ERROR ->
        varBindList (snd (snmpWriteVarBinding X ctx1 var)) = enc var).
Proof.
  intros HW Hin Hover Hempty base counter Henc var.
  pose proof (reportSelect_table cause base Hin) as Hsel.
  exists (set_snmpUsmMibBase (set_response ctx r1)
            (match causeCounter cause with
             | Some c => SNMP_USM_MIB_INC_COUNTER32 c 1 base
             | None => base
             end)).
  split; [reflexivity|]. split.
  { destruct (causeCounter cause) as [c|]; [|reflexivity]. simpl.
    unfold SNMP_USM_MIB_INC_COUNTER32, incCounter. split.
    - rewrite UsmCounter_beq_refl. reflexivity.
    - intros k Hk. rewrite (UsmCounter_beq_neq k c Hk). reflexivity. }
  split.
  { unfold snmpFormatReportPdu. fold (reportMessage X ctx cause).
    rewrite Hover. simpl. fold base. rewrite Hsel. fold counter.
    rewrite Henc. simpl. fold var.
    destruct (snmpWriteVarBinding X _ var) as [e r2]. simpl.
    destruct (isError e); [reflexivity|].
    destruct (snmpWritePduHeader X r2); reflexivity. }
  { intros Hok.
    destruct (snmpWriteVarBinding X _ var) as [e r2] eqn:Hw.
    simpl in Hok. subst e. apply HW in Hw. destruct Hw as (_ & _ & Hl).
    simpl in Hl. rewrite Hempty in Hl. exact Hl. }
Qed.

(** C2, as the code has it.  For a message outside of the time window the
    flags of the report are the authentication and privacy flags of the
    request, whatever they are: they are not forced to authNoPriv.  The
    report takes the user name and its length from the request, drops the
    authentication parameters, and points its privacy parameters at the
    buffer of the context, with the length the request gave.  On the demo
    agent a request flagged auth and priv gets a report flagged auth and
    priv. *)
Theorem report_time_window_flags :
  (forall (Mib : Type) (X : Externals Mib) (ctx : SnmpAgentContext Mib),
     let r := reportMessage X ctx ERROR_NOT_IN_TIME_WINDOW in
     msgFlags r
     = Z.land (msgFlags (request ctx))
         (Z.lor SNMP_MSG_FLAG_AUTH SNMP_MSG_FLAG_PRIV)
     /\ msgUserName r = msgUserName (request ctx)
     /\ msgUserNameLen r = msgUserNameLen (request ctx)
     /\ msgAuthParameters r = None
     /\ msgPrivParameters r = privParameters ctx
     /\ msgPrivParametersLen r = msgPrivParametersLen (request ctx))
  /\ msgFlags (request Demo.secureContext)
     = Z.lor (Z.lor SNMP_MSG_FLAG_AUTH SNMP_MSG_FLAG_PRIV)
         SNMP_MSG_FLAG_REPORTABLE
  /\ msgFlags
       (response
          (snd (snmpFormatReportPdu Demo.agent Demo.secureContext
                  ERROR_NOT_IN_TIME_WINDOW)))
     = Z.lor SNMP_MSG_FLAG_AUTH SNMP_MSG_FLAG_PRIV
  /\ Z.lor SNMP_MSG_FLAG_AUTH SNMP_MSG_FLAG_PRIV <> SNMP_MSG_FLAG_AUTH.
Proof.
  split; [intros; repeat split; reflexivity|].
  split; [reflexivity|]. split; [vm_compute; reflexivity|].
  vm_compute. discriminate.
Qed.

End ReportProperties.

(** C6, as stated, fails: two reports in a row for an unavailable context
    both carry the value 1 and leave the six counters at zero, where two
    reports for a message outside of the time window carry 1 and then 2. *)
Lemma report_context_cause_counterexample :
  let first :=
    snmpFormatReportPdu Demo.agent Demo.secureContext
      ERROR_UNAVAILABLE_CONTEXT in
  let second :=
    snmpFormatReportPdu Demo.agent (snd first) ERROR_UNAVAILABLE_CONTEXT in
  let window :=
    snmpFormatReportPdu Demo.agent
      (snd (snmpFormatReportPdu Demo.agent Demo.secureContext
              ERROR_NOT_IN_TIME_WINDOW))
      ERROR_NOT_IN_TIME_WINDOW in
  Demo.reported first
  = (NO_ERROR,
     [reportVarBind snmpUnavailableContextsObject [0; 0; 0; 1]],
     [0; 0; 0; 0; 0; 0])
  /\ Demo.reported second
     = (NO_ERROR,
        [reportVarBind snmpUnavailableContextsObject [0; 0; 0; 1]],
        [0; 0; 0; 0; 0; 0])
  /\ Demo.reported window
     = (NO_ERROR, [reportVarBind (Demo.usmStats 2) [0; 0; 0; 2]],
        [0; 2; 0; 0; 0; 0]).
Proof.
  repeat split; vm_compute; reflexivity.
Qed.

Lemma report_binding_of_cause_witness :
  Demo.reported
    (snmpFormatReportPdu Demo.agent Demo.secureContext
       ERROR_UNKNOWN_USER_NAME)
  = (NO_ERROR, [reportVarBind (Demo.usmStats 3) [0; 0; 0; 1]],
     [0; 0; 1; 0; 0; 0])
  /\ exists ctx1,
       snmpUsmMibBase ctx1 usmStatsUnknownUserNames = 1
       /\ varBindList
            (snd (snmpWriteVarBinding Demo.agent ctx1
                    (reportVarBind (Demo.usmStats 3) [0; 0; 0; 1])))
          = Demo.encodeVarBind
              (reportVarBind (Demo.usmStats 3) [0; 0; 0; 1]).
Proof.
  split; [vm_compute; reflexivity|].
  destruct (report_binding_of_cause Demo.agent Demo.encodeVarBind
              Demo.secureContext ERROR_UNKNOWN_USER_NAME
              (reportMessage Demo.agent Demo.secureContext
                 ERROR_UNKNOWN_USER_NAME)
              [0; 0; 0; 1] demo_write_appends)
    as (ctx1 & Hresp & [Hc _] & _ & Hlist).
  - simpl. tauto.
  - reflexivity.
  - reflexivity.
  - reflexivity.
  - exists ctx1. split; [exact Hc|]. apply Hlist.
    simpl. unfold Demo.writeVarBinding. rewrite Hresp. reflexivity.
Defined.

(** ** The GetBulk handler *)

Section BulkProperties.

Context {Mib : Type} (X : Externals Mib).

Lemma bulkCatch_frame (ctx ctx' : SnmpAgentContext Mib) (e : error_t)
    (v v' : SnmpVarBind) (leave : bool) :
  bulkCatch ctx e v = (leave, ctx', v') ->
  request ctx' = request ctx /\ response ctx' = response ctx
  /\ mib ctx' = mib ctx.
Proof.
  unfold bulkCatch. intros H. repeat break_match; inv H; simpl; auto.
Qed.

(** What the search makes of [endOfMibView] in a pass that goes on: the
    flag is kept when no next object is found and cleared otherwise. *)
Lemma bulkRetrieve_flag (ctx : SnmpAgentContext Mib) (v v' : SnmpVarBind)
    (eom eom' : option bool) (e : error_t) :
  bulkRetrieve X ctx v eom = (false, eom', e, v') ->
  eom' = if error_t_beq (fst (snmpGetNextObject X ctx (request ctx) v))
              ERROR_OBJECT_NOT_FOUND
         then eom else Some false.
Proof.
  unfold bulkRetrieve.
  destruct (snmpGetNextObject X ctx (request ctx) v) as [e1 v1]. simpl.
  destruct (error_t_beq e1 NO_ERROR) eqn:H0.
  - apply internal_error_t_dec_bl in H0. subst e1.
    destruct (snmpGetObjectValue X ctx (request ctx) v1).
    intros H. inv H. reflexivity.
  - destruct (error_t_beq e1 ERROR_OBJECT_NOT_FOUND); intros H; inv H.
    reflexivity.
Qed.

(** A pass that leaves the loop before "Advance data pointer" keeps the
    request, the MIB, the cursor and the index. *)
Lemma bulkAnswer_inl (st s : BulkLoop Mib) :
  bulkAnswer X st = inl s ->
  request (bl_ctx s) = request (bl_ctx st)
  /\ mib (bl_ctx s) = mib (bl_ctx st)
  /\ bl_index s = bl_index st.
Proof.
  unfold bulkAnswer.
  destruct (snmpParseVarBinding X _) as [[e v] n].
  destruct (bulkRetrieve X (bl_ctx st) v _) as [[[l1 eom1] e1] v1].
  destruct (bulkCatch (bl_ctx st) e1 v1) as [[l2 c2] v2] eqn:Hc.
  apply bulkCatch_frame in Hc. destruct Hc as (A & B & C).
  destruct (snmpWriteVarBinding X c2 v2) as [e3 r3].
  repeat break_match; intros H; inv H; simpl; auto.
Qed.

(** Such a pass leaves on a failure, unless it is the pass for the first
    repeating variable of a request whose max-repetitions is zero. *)
Lemma bulkAnswer_inl_error (st s : BulkLoop Mib) :
  bulkAnswer X st = inl s ->
  (bl_index st - 1 =? nonRepeaters (request (bl_ctx st)))
  && (maxRepetitions (request (bl_ctx st)) =? 0) = false ->
  isError (bl_error s) = true.
Proof.
  unfold bulkAnswer. intros H Hfz. rewrite Hfz in H.
  destruct (snmpParseVarBinding X _) as [[e v] n].
  destruct (isError e) eqn:He; [inv H; exact He|].
  destruct (isError (oidCheck X (oid v))) eqn:Hoid; [inv H; exact Hoid|].
  destruct (bulkRetrieve X (bl_ctx st) v _) as [[[l1 eom1] e1] v1] eqn:Hret.
  destruct l1.
  { inv H. simpl. unfold bulkRetrieve in Hret.
    destruct (snmpGetNextObject X _ _ v) as [e2 v2].
    destruct (error_t_beq e2 NO_ERROR) eqn:Hne.
    { destruct (snmpGetObjectValue X _ _ v2). discriminate. }
    destruct (error_t_beq e2 ERROR_OBJECT_NOT_FOUND); [discriminate|].
    inv Hret. destruct e1; simpl in *; congruence. }
  destruct (bulkCatch (bl_ctx st) e1 v1) as [[l2 c2] v2] eqn:Hc.
  destruct l2.
  { inv H. simpl. unfold bulkCatch in Hc.
    destruct (isError e1); [reflexivity|discriminate]. }
  destruct (snmpWriteVarBinding X c2 v2) as [e3 r3].
  destruct (isError e3) eqn:He3; [inv H; exact He3|discriminate].
Qed.

(** It adds nothing to the response. *)
Lemma bulkAnswer_inl_response (enc : SnmpVarBind -> list Z)
    (st s : BulkLoop Mib) :
  WriteAppends X enc ->
  bulkAnswer X st = inl s ->
  errorStatus (response (bl_ctx s)) = errorStatus (response (bl_ctx st))
  /\ errorIndex (response (bl_ctx s)) = errorIndex (response (bl_ctx st))
  /\ varBindList (response (bl_ctx s))
     = varBindList (response (bl_ctx st)).
Proof.
  intros HW. unfold bulkAnswer.
  destruct (snmpParseVarBinding X _) as [[e v] n].
  destruct (bulkRetrieve X (bl_ctx st) v _) as [[[l1 eom1] e1] v1].
  destruct (bulkCatch (bl_ctx st) e1 v1) as [[l2 c2] v2] eqn:Hc.
  apply bulkCatch_frame in Hc. destruct Hc as (A & B & C).
  destruct (snmpWriteVarBinding X c2 v2) as [e3 r3] eqn:Hw.
  apply HW in Hw. rewrite B in Hw. destruct Hw as (S1 & S2 & S3).
  destruct (_ && _); [intros H; inv H; auto|].
  destruct (isError e); [intros H; inv H; auto|].
  destruct (isError (oidCheck X (oid v))); [intros H; inv H; auto|].
  destruct l1; [intros H; inv H; auto|].
  destruct l2; [intros H; inv H; simpl; rewrite B; auto|].
  destruct (isError e3); [|discriminate].
  intros H. inv H. simpl. auto.
Qed.

(** A pass that comes to "Advance data pointer": what it went through. *)
Lemma bulkAnswer_inr (st : BulkLoop Mib) (a : BulkAnswer Mib) :
  bulkAnswer X st = inr a ->
  let ctx := bl_ctx st in
  let first := bl_index st - 1 =? nonRepeaters (request ctx) in
  let len0 := varBindListLen (response ctx) in
  first && (maxRepetitions (request ctx) =? 0) = false
  /\ ba_error a = NO_ERROR
  /\ ba_next a = (if first then Some len0 else bl_next st)
  /\ ba_m a = (if first then Some len0 else bl_m st)
  /\ exists v e1 v1 c2 w r3,
       snmpParseVarBinding X
         (octetsAt (bulkBuffer ctx (bl_region st)) (bl_p st) (bl_length st))
       = (NO_ERROR, v, ba_n a)
       /\ isError (oidCheck X (oid v)) = false
       /\ bulkRetrieve X ctx v
            (if first then Some true else bl_endOfMibView st)
          = (false, ba_endOfMibView a, e1, v1)
       /\ bulkCatch ctx e1 v1 = (false, c2, w)
       /\ snmpWriteVarBinding X c2 w = (NO_ERROR, r3)
       /\ ba_ctx a = set_response c2 r3.
Proof.
  intros H. cbv zeta. unfold bulkAnswer in H.
  destruct ((bl_index st - 1 =? nonRepeaters (request (bl_ctx st)))
            && (maxRepetitions (request (bl_ctx st)) =? 0)) eqn:Hfz;
    [discriminate|].
  destruct (snmpParseVarBinding X _) as [[e v] n] eqn:Hparse.
  destruct (isError e) eqn:He; [discriminate|].
  destruct (isError (oidCheck X (oid v))) eqn:Hoid; [discriminate|].
  destruct (bulkRetrieve X (bl_ctx st) v _) as [[[l1 eom1] e1] v1] eqn:Hret.
  destruct l1; [discriminate|].
  destruct (bulkCatch (bl_ctx st) e1 v1) as [[l2 c2] w] eqn:Hc.
  destruct l2; [discriminate|].
  destruct (snmpWriteVarBinding X c2 w) as [e3 r3] eqn:Hw.
  destruct (isError e3) eqn:He3; [discriminate|].
  apply isError_false in He. apply isError_false in He3. subst e e3.
  inv H. simpl.
  split; [reflexivity|]. split; [reflexivity|]. split; [reflexivity|].
  split; [reflexivity|].
  exists v, e1, v1, c2, w, r3. repeat split; assumption.
Qed.

Lemma bulkAnswer_inr_frame (st : BulkLoop Mib) (a : BulkAnswer Mib) :
  bulkAnswer X st = inr a ->
  request (ba_ctx a) = request (bl_ctx st)
  /\ mib (ba_ctx a) = mib (bl_ctx st).
Proof.
  intros H. apply bulkAnswer_inr in H.
  destruct H as (_ & _ & _ & _ & v & e1 & v1 & c2 & w & r3 & _ & _ & _ & Hc
                 & _ & Hctx).
  apply bulkCatch_frame in Hc. destruct Hc as (A & B & C).
  rewrite Hctx. simpl. auto.
Qed.

(** It appends one binding to the response. *)
Lemma bulkAnswer_inr_response (enc : SnmpVarBind -> list Z)
    (st : BulkLoop Mib) (a : BulkAnswer Mib) :
  WriteAppends X enc ->
  bulkAnswer X st = inr a ->
  errorStatus (response (ba_ctx a)) = errorStatus (response (bl_ctx st))
  /\ errorIndex (response (ba_ctx a)) = errorIndex (response (bl_ctx st))
  /\ exists w,
       varBindList (response (ba_ctx a))
       = varBindList (response (bl_ctx st)) ++ enc w.
Proof.
  intros HW H. apply bulkAnswer_inr in H.
  destruct H as (_ & _ & _ & _ & v & e1 & v1 & c2 & w & r3 & _ & _ & _ & Hc
                 & Hw & Hctx).
  apply bulkCatch_frame in Hc. destruct Hc as (A & B & C).
  apply HW in Hw. rewrite B in Hw. destruct Hw as (S1 & S2 & S3).
  rewrite Hctx. simpl in *.
  split; [exact S1|]. split; [exact S2|]. exists w. exact S3.
Qed.

(** The flag after the search, from the flag before it. *)
Lemma bulkAnswer_flag (st : BulkLoop Mib) (a : BulkAnswer Mib) (b : bool) :
  bulkAnswer X st = inr a ->
  (if bl_index st - 1 =? nonRepeaters (request (bl_ctx st))
   then Some true else bl_endOfMibView st) = Some b ->
  ba_endOfMibView a = Some (b && searchFails X st).
Proof.
  intros H Hb. apply bulkAnswer_inr in H.
  destruct H as (_ & _ & _ & _ & v & e1 & v1 & c2 & w & r3 & Hparse & _
                 & Hret & _).
  apply bulkRetrieve_flag in Hret. rewrite Hret, Hb.
  unfold searchFails. rewrite Hparse.
  destruct (error_t_beq _ _).
  - rewrite andb_true_r. reflexivity.
  - rewrite andb_false_r. reflexivity.
Qed.

Lemma bulkBody_inl (st s : BulkLoop Mib) :
  bulkAnswer X st = inl s -> bulkBody X st = Break s.
Proof. intros H. unfold bulkBody. rewrite H. reflexivity. Qed.

Lemma bulkBody_inr (st : BulkLoop Mib) (a : BulkAnswer Mib) :
  bulkAnswer X st = inr a ->
  bulkBody X st
  = bulkRepeat X (ba_ctx a) (bl_region st) (bl_p st + ba_n a)
      (sizeSub X (bl_length st) (ba_n a)) (bl_index st) (ba_error a)
      (ba_next a) (ba_m a) (ba_endOfMibView a).
Proof. intros H. unfold bulkBody. rewrite H. reflexivity. Qed.

(** "Next iteration?" lowers max-repetitions by one exactly when the pass
    reached the end of the list being walked with a repeating variable, and
    touches nothing else of the context. *)
Lemma bulkRepeat_request (ctx : SnmpAgentContext Mib) (region : Region)
    (p len : nat) (index : Z) (error : error_t) (next m : option nat)
    (eom : option bool) :
  let ctx' :=
    bl_ctx (flowState
              (bulkRepeat X ctx region p len index error next m eom)) in
  response ctx' = response ctx /\ mib ctx' = mib ctx
  /\ request ctx'
     = if (len =? 0)%nat && (nonRepeaters (request ctx) <? index) then
         set_maxRepetitions (request ctx)
           (wrapS32 (maxRepetitions (request ctx) - 1))
       else request ctx.
Proof.
  unfold bulkRepeat.
  destruct ((len =? 0)%nat && (nonRepeaters (request ctx) <? index));
    repeat break_match; simpl; auto.
Qed.

(** A pass through the body of the GetBulk loop leaves the MIB alone, and
    leaves the request alone except for max-repetitions, which it either
    keeps or lowers by one. *)
Lemma bulkBody_frame (st : BulkLoop Mib) :
  let ctx := bl_ctx st in
  let ctx' := bl_ctx (flowState (bulkBody X st)) in
  mib ctx' = mib ctx
  /\ (request ctx' = request ctx
      \/ request ctx'
         = set_maxRepetitions (request ctx)
             (wrapS32 (maxRepetitions (request ctx) - 1))).
Proof.
  cbv zeta. destruct (bulkAnswer X st) as [s|a] eqn:Ha.
  - rewrite (bulkBody_inl _ _ Ha). apply bulkAnswer_inl in Ha.
    destruct Ha as (A & B & _). simpl. auto.
  - rewrite (bulkBody_inr _ _ Ha).
    destruct (bulkAnswer_inr_frame _ _ Ha) as [A B].
    match goal with
    | |- context [bulkRepeat X ?c ?r ?p ?l ?i ?e ?nx ?m ?eo] =>
        destruct (bulkRepeat_request c r p l i e nx m eo) as (_ & Hm & Hr);
        rewrite Hm, Hr, A, B
    end.
    match goal with
    | |- context [if ?c then _ else _] => destruct c
    end; auto.
Qed.

Lemma wrapS32_range (z : Z) : - 2 ^ 31 <= wrapS32 z < 2 ^ 31.
Proof.
  unfold wrapS32. change (2 ^ 31) with 2147483648.
  change (2 ^ 32) with 4294967296. Z.div_mod_to_equations. lia.
Qed.

Lemma wrapS32_small (z : Z) : - 2 ^ 31 <= z < 2 ^ 31 -> wrapS32 z = z.
Proof.
  unfold wrapS32. change (2 ^ 31) with 2147483648.
  change (2 ^ 32) with 4294967296. intros H. Z.div_mod_to_equations. lia.
Qed.

Lemma wrapS32_countdown (z : Z) :
  wrapS32 (z - 1) <> 0 ->
  (wrapS32 (z - 1) - 1) mod 2 ^ 32 = (z - 1) mod 2 ^ 32 - 1.
Proof.
  unfold wrapS32. change (2 ^ 31) with 2147483648.
  change (2 ^ 32) with 4294967296. intros H. Z.div_mod_to_equations. lia.
Qed.

(** A pass that goes on either consumed a binding of the list being walked
    or started a new repetition with one repetition less to make. *)
Lemma bulkBody_next (st st' : BulkLoop Mib) :
  ParseProgress X -> bulkBody X st = Next st' ->
  bl_error st' = NO_ERROR
  /\ ((repeatsLeft st' = repeatsLeft st
       /\ (bl_length st' < bl_length st)%nat)
      \/ (repeatsLeft st' < repeatsLeft st)%nat).
Proof.
  intros HP Hb. destruct (bulkAnswer X st) as [s|a] eqn:Ha.
  { rewrite (bulkBody_inl _ _ Ha) in Hb. discriminate. }
  rewrite (bulkBody_inr _ _ Ha) in Hb.
  destruct (bulkAnswer_inr_frame _ _ Ha) as [A _].
  destruct (bulkAnswer_inr _ _ Ha)
    as (_ & Herr & _ & _ & v & e1 & v1 & c2 & w & r3 & Hparse & _).
  pose proof (HP _ _ _ _ Hparse eq_refl) as Hn.
  unfold octetsAt in Hn. rewrite length_firstn in Hn.
  rewrite sizeSub_within in Hb by lia.
  unfold bulkRepeat in Hb.
  destruct (_ && _) in Hb.
  - cbn [maxRepetitions set_maxRepetitions] in Hb. rewrite A in Hb.
    destruct (wrapS32 (maxRepetitions (request (bl_ctx st)) - 1) =? 0)
      eqn:Hz; [discriminate|].
    destruct (ba_endOfMibView a) as [[|]|]; try discriminate.
    destruct (ba_next a); [|discriminate].
    destruct (ba_m a); [|discriminate].
    inv Hb. split; [exact Herr|]. right.
    unfold repeatsLeft.
    cbn [bl_ctx request set_request set_maxRepetitions maxRepetitions].
    apply Z.eqb_neq in Hz.
    rewrite (wrapS32_countdown _ Hz).
    assert (Hm := Z.mod_pos_bound (maxRepetitions (request (bl_ctx st)) - 1)
                    (2 ^ 32) eq_refl).
    assert (Hnz : (maxRepetitions (request (bl_ctx st)) - 1) mod 2 ^ 32 <> 0).
    { intros Hzero. apply Hz. unfold wrapS32.
      revert Hzero. change (2 ^ 31) with 2147483648.
      change (2 ^ 32) with 4294967296. intros Hzero.
      Z.div_mod_to_equations. lia. }
    lia.
  - inv Hb. split; [exact Herr|]. left. unfold repeatsLeft.
    cbn [bl_ctx bl_length]. rewrite A. split; [reflexivity|lia].
Qed.

(** Once the walk is past the first repeating variable the locals hold a
    value: a pass reads none that holds none, and a pass that goes on keeps
    it so. *)
Lemma bulkBody_locals (st : BulkLoop Mib) :
  BulkLocals st ->
  (forall s', bulkBody X st <> Fault s')
  /\ (forall s', bulkBody X st = Next s' -> BulkLocals (bulkIncr s')).
Proof.
  intros HL. destruct (bulkAnswer X st) as [s|a] eqn:Ha.
  { rewrite (bulkBody_inl _ _ Ha). split; intros s'; discriminate. }
  rewrite (bulkBody_inr _ _ Ha).
  destruct (bulkAnswer_inr_frame _ _ Ha) as [A _].
  destruct (bulkAnswer_inr _ _ Ha)
    as (_ & _ & Hnext & Hm & v & e1 & v1 & c2 & w & r3 & _ & _ & Hret & _).
  apply bulkRetrieve_flag in Hret.
  assert (Hsome : nonRepeaters (request (bl_ctx st)) < bl_index st ->
                  ba_next a <> None /\ ba_m a <> None
                  /\ ba_endOfMibView a <> None).
  { intros Hlt. rewrite Hnext, Hm, Hret.
    destruct (bl_index st - 1 =? nonRepeaters (request (bl_ctx st))) eqn:Hf.
    - repeat split; try discriminate.
      destruct (error_t_beq _ _); discriminate.
    - apply Z.eqb_neq in Hf. destruct HL as (L1 & L2 & L3); [lia|].
      repeat split; try assumption.
      destruct (error_t_beq _ _); [assumption|discriminate]. }
  unfold bulkRepeat. rewrite A.
  destruct ((sizeSub X (bl_length st) (ba_n a) =? 0)%nat
            && (nonRepeaters (request (bl_ctx st)) <? bl_index st)) eqn:Hr.
  - apply andb_prop in Hr. destruct Hr as [_ Hlt]. apply Z.ltb_lt in Hlt.
    destruct (Hsome Hlt) as (S1 & S2 & S3).
    cbn [maxRepetitions set_maxRepetitions].
    destruct (wrapS32 _ =? 0); [split; intros s'; discriminate|].
    destruct (ba_endOfMibView a) as [[|]|]; [split; intros s'; discriminate|
                                            |contradiction].
    destruct (ba_next a); [|contradiction].
    destruct (ba_m a); [|contradiction].
    split; [intros s'; discriminate|].
    intros s' H. inv H. unfold BulkLocals. simpl. lia.
  - split; [intros s'; discriminate|].
    intros s' H. inv H. unfold BulkLocals. simpl. rewrite A.
    intros Hlt. apply Hsome. lia.
Qed.

(** The loop of the GetBulk handler ends, from a state whose locals hold a
    value where they are read. *)
Lemma bulkLoop_ends :
  ParseProgress X ->
  forall st : BulkLoop Mib, BulkLocals st ->
  exists fuel st',
    forLoop bulkCond (bulkBody X) bulkIncr fuel st = Some st'.
Proof.
  intros HP.
  assert (H : forall reps len (st : BulkLoop Mib),
             BulkLocals st ->
             (repeatsLeft st <= reps)%nat -> (bl_length st <= len)%nat ->
             exists fuel st',
               forLoop bulkCond (bulkBody X) bulkIncr fuel st = Some st').
  { induction reps as [reps IHr] using lt_wf_ind.
    induction len as [len IHl] using lt_wf_ind.
    intros st HL Hr Hl.
    destruct (bulkBody_locals st HL) as [Hsafe Hkeep].
    destruct (bulkCond st) eqn:Hc.
    - destruct (bulkBody X st) as [s'|s'|s'] eqn:Hb.
      + exists 1%nat, s'. simpl. rewrite Hc, Hb. reflexivity.
      + specialize (Hkeep s' eq_refl).
        destruct (bulkBody_next st s' HP Hb) as [_ [[Hsame Hlt]|Hlt]].
        * destruct (IHl (bl_length s')) with (st := bulkIncr s')
            as (fuel & r & Hrun); [lia|exact Hkeep
                                  |unfold repeatsLeft in *; simpl; lia
                                  |simpl; lia|].
          exists (S fuel), r. simpl. rewrite Hc, Hb. exact Hrun.
        * destruct (IHr (repeatsLeft s')) with (len := bl_length s')
                                               (st := bulkIncr s')
            as (fuel & r & Hrun); [lia|exact Hkeep
                                  |unfold repeatsLeft; simpl; lia
                                  |simpl; lia|].
          exists (S fuel), r. simpl. rewrite Hc, Hb. exact Hrun.
      + exfalso. exact (Hsafe s' eq_refl).
    - exists 1%nat, st. simpl. rewrite Hc. reflexivity. }
  intros st HL. apply (H (repeatsLeft st) (bl_length st)); [exact HL|lia|lia].
Qed.

Lemma bulkStart_locals (ctx : SnmpAgentContext Mib) (e : error_t) :
  0 <= nonRepeaters (request ctx) -> BulkLocals (bulkStart ctx e).
Proof.
  intros Hn. unfold BulkLocals. simpl. lia.
Qed.

(** Once the version and the access mode allow it and the response is
    initialised, the handler runs its loop to the end and returns what
    [bulkFinish] makes of the state the loop stopped in. *)
Lemma bulk_runs (ctx : SnmpAgentContext Mib) (r0 : SnmpMessage) :
  ParseProgress X ->
  (version (request ctx) =? SNMP_VERSION_1) = false ->
  readAllowed (user_mode ctx) = true ->
  snmpInitResponse X ctx = (NO_ERROR, r0) ->
  0 <= nonRepeaters (request ctx) ->
  exists fuel st,
    forall fuel', (fuel <= fuel')%nat ->
      forLoop bulkCond (bulkBody X) bulkIncr fuel'
        (bulkStart (set_response ctx r0) NO_ERROR) = Some st
      /\ snmpProcessGetBulkRequestPdu X fuel' ctx = Some (bulkFinish X st).
Proof.
  intros HP Hv Hmode Hinit Hnr.
  destruct (bulkLoop_ends HP (bulkStart (set_response ctx r0) NO_ERROR))
    as (fuel & st & Hrun).
  { apply bulkStart_locals. exact Hnr. }
  exists fuel, st. intros fuel' Hle.
  apply (forLoop_le _ _ _ _ fuel' _ _ Hrun) in Hle.
  split; [exact Hle|].
  unfold snmpProcessGetBulkRequestPdu. rewrite Hv, Hmode. simpl.
  rewrite Hinit. simpl. rewrite Hle. reflexivity.
Qed.

Lemma set_maxRepetitions_same (r : SnmpMessage) :
  set_maxRepetitions r (maxRepetitions r) = r.
Proof. destruct r. reflexivity. Qed.


(** A pass that comes to the end of a repetition finds max-repetitions
    positive. *)
Lemma bulkHead_positive (req0 : SnmpMessage) (M : Z) (st : BulkLoop Mib) :
  BulkHead req0 M st ->
  (bl_index st - 1 =? nonRepeaters (request (bl_ctx st)))
  && (maxRepetitions (request (bl_ctx st)) =? 0) = false ->
  nonRepeaters req0 < bl_index st ->
  1 <= maxRepetitions (request (bl_ctx st)).
Proof.
  intros (Hreq & Hrange & Hpos) Hfirst Hlt.
  assert (Hnr : nonRepeaters (request (bl_ctx st)) = nonRepeaters req0)
    by (rewrite Hreq; reflexivity).
  destruct (Z.eq_dec (bl_index st - 1) (nonRepeaters req0)) as [Heq|Hne].
  - apply andb_false_iff in Hfirst. destruct Hfirst as [Hf|Hf].
    + apply Z.eqb_neq in Hf. rewrite Hnr in Hf. contradiction.
    + apply Z.eqb_neq in Hf. lia.
  - apply Hpos. lia.
Qed.

(** Max-repetitions after a pass: one less when the pass ended a
    repetition, the same otherwise. *)
Lemma bulkBody_count (req0 : SnmpMessage) (M : Z) (st : BulkLoop Mib) :
  M < 2 ^ 31 -> BulkHead req0 M st ->
  let req' := request (bl_ctx (flowState (bulkBody X st))) in
  req' = set_maxRepetitions req0 (maxRepetitions req')
  /\ maxRepetitions req'
     = maxRepetitions (request (bl_ctx st))
       - (if roundEnds X st then 1 else 0)
  /\ (roundEnds X st = true -> 1 <= maxRepetitions (request (bl_ctx st))).
Proof.
  intros HM Hhead. pose proof Hhead as (Hreq & Hrange & Hpos).
  assert (Hnr : nonRepeaters (request (bl_ctx st)) = nonRepeaters req0)
    by (rewrite Hreq; reflexivity).
  cbv zeta. unfold roundEnds. destruct (bulkAnswer X st) as [s|a] eqn:Ha.
  - rewrite (bulkBody_inl _ _ Ha). apply bulkAnswer_inl in Ha.
    destruct Ha as (A & _). simpl. rewrite A.
    split; [exact Hreq|]. split; [lia|discriminate].
  - rewrite (bulkBody_inr _ _ Ha).
    destruct (bulkAnswer_inr_frame _ _ Ha) as [A _].
    destruct (bulkAnswer_inr _ _ Ha) as (Hfz & _).
    match goal with
    | |- context [bulkRepeat X ?c ?r ?p ?l ?i ?e ?nx ?m ?eo] =>
        destruct (bulkRepeat_request c r p l i e nx m eo) as (_ & _ & Hr);
        rewrite Hr
    end.
    rewrite A.
    destruct ((sizeSub X (bl_length st) (ba_n a) =? 0)%nat
              && (nonRepeaters (request (bl_ctx st)) <? bl_index st))
      eqn:Hround.
    + apply andb_prop in Hround. destruct Hround as [_ Hlt].
      apply Z.ltb_lt in Hlt. rewrite Hnr in Hlt.
      pose proof (bulkHead_positive req0 M st Hhead Hfz Hlt) as Hone.
      rewrite wrapS32_small by (change (2 ^ 31) with 2147483648 in *; lia).
      cbn [maxRepetitions set_maxRepetitions].
      split; [rewrite Hreq at 1; reflexivity|]. split; [reflexivity|].
      intros _. exact Hone.
    + split; [exact Hreq|]. split; [lia|discriminate].
Qed.

(** The head invariant of the GetBulk loop is kept by a pass that goes on,
    and gives the end invariant when the pass leaves the loop. *)
Lemma bulkBody_head (req0 : SnmpMessage) (M : Z) (st : BulkLoop Mib) :
  M < 2 ^ 31 -> BulkHead req0 M st ->
  BulkEnd req0 M (flowState (bulkBody X st))
  /\ forall st', bulkBody X st = Next st' -> BulkHead req0 M (bulkIncr st').
Proof.
  intros HM Hhead. pose proof Hhead as (Hreq & Hrange & Hpos).
  destruct (bulkBody_count req0 M st HM Hhead) as (Hframe & Hcount & Hone).
  assert (Hnr : nonRepeaters (request (bl_ctx st)) = nonRepeaters req0)
    by (rewrite Hreq; reflexivity).
  split.
  - split; [exact Hframe|]. rewrite Hcount.
    destruct (roundEnds X st); [specialize (Hone eq_refl)|]; lia.
  - intros st' Hb. rewrite Hb in Hframe, Hcount. simpl in Hframe, Hcount.
    unfold BulkHead. cbn [bulkIncr bl_ctx bl_index].
    split; [exact Hframe|]. rewrite Hcount.
    destruct (bulkAnswer X st) as [s|a] eqn:Ha.
    { rewrite (bulkBody_inl _ _ Ha) in Hb. discriminate. }
    destruct (bulkAnswer_inr_frame _ _ Ha) as [A _].
    destruct (bulkAnswer_inr _ _ Ha) as (Hfz & _).
    rewrite (bulkBody_inr _ _ Ha) in Hb. unfold bulkRepeat in Hb.
    unfold roundEnds in *. rewrite Ha in *. rewrite A in *.
    destruct ((sizeSub X (bl_length st) (ba_n a) =? 0)%nat
              && (nonRepeaters (request (bl_ctx st)) <? bl_index st))
      eqn:Hround.
    + specialize (Hone eq_refl).
      cbn [maxRepetitions set_maxRepetitions] in Hb.
      destruct (wrapS32 _ =? 0); [discriminate|].
      destruct (ba_endOfMibView a) as [[|]|]; try discriminate.
      destruct (ba_next a); [|discriminate].
      destruct (ba_m a); [|discriminate].
      inv Hb. cbn [bl_index request set_request nonRepeaters
                   set_maxRepetitions].
      split; [lia|]. intros Hlt. exfalso.
      replace (nonRepeaters (set_maxRepetitions (request (bl_ctx st))
                 (wrapS32 (maxRepetitions (request (bl_ctx st)) - 1))))
        with (nonRepeaters req0) in Hlt by (rewrite Hreq; reflexivity).
      lia.
    + inv Hb. cbn [bl_index]. split; [lia|]. intros Hlt.
      rewrite Z.sub_0_r.
      apply (bulkHead_positive req0 M st Hhead Hfz). lia.
Qed.

(** The end invariant holds of the state the loop of the handler ends
    in. *)
Lemma bulkLoop_end (req0 : SnmpMessage) (M : Z) (fuel : nat)
    (st st' : BulkLoop Mib) :
  M < 2 ^ 31 -> BulkHead req0 M st ->
  forLoop bulkCond (bulkBody X) bulkIncr fuel st = Some st' ->
  BulkEnd req0 M st'.
Proof.
  intros HM. apply (forLoop_post bulkCond (bulkBody X) bulkIncr
                      (BulkHead req0 M) (BulkEnd req0 M)).
  - intros s s' Hs _ Hb. apply (bulkBody_head req0 M s HM Hs). exact Hb.
  - intros s s' Hs _ Hb.
    destruct (bulkBody_head req0 M s HM Hs) as [He _].
    rewrite Hb in He. exact He.
  - intros s (A & B & _) _. split; assumption.
Qed.

Lemma bulkFinish_frame (st : BulkLoop Mib) :
  request (snd (bulkFinish X st)) = request (bl_ctx st)
  /\ mib (snd (bulkFinish X st)) = mib (bl_ctx st).
Proof.
  unfold bulkFinish, translateStatus, copyVarBindingList.
  repeat break_match; simpl; repeat match goal with
  | H : (_, _) = (_, _) |- _ => inv H
  end; simpl; auto.
Qed.




Lemma bulkStart_head (ctx : SnmpAgentContext Mib) :
  0 <= nonRepeaters (request ctx) -> 0 <= maxRepetitions (request ctx) ->
  BulkHead (request ctx) (maxRepetitions (request ctx))
    (bulkStart ctx NO_ERROR).
Proof.
  intros Hn Hm. unfold BulkHead. simpl.
  rewrite set_maxRepetitions_same. repeat split; lia.
Qed.

Lemma bulkHead_tighten (req0 : SnmpMessage) (M : Z) (st : BulkLoop Mib) :
  BulkHead req0 M st ->
  BulkHead req0 (maxRepetitions (request (bl_ctx st))) st.
Proof.
  intros (A & B & C). unfold BulkHead. repeat split; auto; lia.
Qed.

Lemma indexesFrom_snoc (from : Z) (n : nat) :
  indexesFrom from (S n) = indexesFrom from n ++ [from + Z.of_nat n].
Proof.
  unfold indexesFrom. rewrite seq_S, map_app. reflexivity.
Qed.

(** The passes of the repetition under way, the pass entered in [st]
    included, and what the locals hold when that pass comes to "Next
    iteration?". *)
Lemma bulkAnswer_round (N M : Z) (entered : list (BulkLoop Mib))
    (st : BulkLoop Mib) (a : BulkAnswer Mib) :
  nonRepeaters (request (bl_ctx st)) = N ->
  BulkRounds X N M entered st ->
  bulkAnswer X st = inr a ->
  N < bl_index st ->
  exists before round : list (BulkLoop Mib),
    entered ++ [st] = before ++ round
    /\ map (@bl_index Mib) round
       = indexesFrom (N + 1) (Z.to_nat (bl_index st - N))
    /\ ba_endOfMibView a = Some (forallb (searchFails X) round)
    /\ ba_next a <> None /\ ba_m a <> None.
Proof.
  intros HN (Hcount & before & round & Hent & Hidx & Hflag) Ha Hlt.
  destruct (bulkAnswer_inr _ _ Ha) as (_ & _ & Hnext & Hm & _).
  rewrite HN in Hnext, Hm.
  destruct (Z.eq_dec (bl_index st - 1) N) as [Hf|Hf].
  - assert (Hfb : (bl_index st - 1 =? N) = true)
      by (apply Z.eqb_eq; exact Hf).
    exists entered, [st]. split; [reflexivity|]. split.
    { replace (Z.to_nat (bl_index st - N)) with 1%nat by lia.
      unfold indexesFrom. simpl. f_equal. lia. }
    rewrite (bulkAnswer_flag st a true Ha) by (rewrite HN, Hfb; reflexivity).
    rewrite Hnext, Hm, Hfb. simpl. rewrite andb_true_r.
    split; [reflexivity|]. split; discriminate.
  - assert (Hfb : (bl_index st - 1 =? N) = false)
      by (apply Z.eqb_neq; exact Hf).
    assert (Hk : Z.to_nat (bl_index st - N)
                 = S (Z.to_nat (bl_index st - 1 - N))) by lia.
    assert (Hne : round <> []).
    { intros ->.
      destruct (Z.to_nat (bl_index st - 1 - N)) eqn:Hk0; [lia|].
      unfold indexesFrom in Hidx. simpl in Hidx. discriminate. }
    destruct (Hflag Hne) as (F1 & F2 & F3).
    exists before, (round ++ [st]).
    split; [rewrite Hent, app_assoc; reflexivity|]. split.
    { rewrite map_app, Hidx, Hk, indexesFrom_snoc. simpl.
      f_equal. f_equal. lia. }
    rewrite (bulkAnswer_flag st a (forallb (searchFails X) round) Ha)
      by (rewrite HN, Hfb; exact F1).
    rewrite forallb_app, Hnext, Hm, Hfb. simpl. rewrite andb_true_r.
    split; [reflexivity|]. split; assumption.
Qed.

(** The invariant on the repetitions is kept by a pass that goes on. *)
Lemma bulkBody_rounds (req0 : SnmpMessage) (M : Z)
    (entered : list (BulkLoop Mib)) (st s' : BulkLoop Mib) :
  M < 2 ^ 31 -> BulkHead req0 M st ->
  BulkRounds X (nonRepeaters req0) M entered st ->
  bulkBody X st = Next s' ->
  BulkRounds X (nonRepeaters req0) M (entered ++ [st]) (bulkIncr s').
Proof.
  intros HM Hhead HR Hb. pose proof Hhead as (Hreq & _).
  assert (HN : nonRepeaters (request (bl_ctx st)) = nonRepeaters req0)
    by (rewrite Hreq; reflexivity).
  destruct (bulkBody_count req0 M st HM Hhead) as (_ & Hcount & _).
  rewrite Hb in Hcount. simpl in Hcount.
  destruct (bulkAnswer X st) as [s|a] eqn:Ha.
  { rewrite (bulkBody_inl _ _ Ha) in Hb. discriminate. }
  destruct (bulkAnswer_inr_frame _ _ Ha) as [A _].
  pose proof HR as (Hc0 & _).
  split.
  { cbn [bulkIncr bl_ctx]. rewrite Hcount, Hc0, filter_app, length_app.
    simpl. destruct (roundEnds X st); simpl; lia. }
  rewrite (bulkBody_inr _ _ Ha) in Hb. unfold bulkRepeat in Hb.
  rewrite A, HN in Hb.
  destruct ((sizeSub X (bl_length st) (ba_n a) =? 0)%nat
            && (nonRepeaters req0 <? bl_index st)) eqn:Hround.
  - cbn [maxRepetitions set_maxRepetitions] in Hb.
    destruct (wrapS32 _ =? 0); [discriminate|].
    destruct (ba_endOfMibView a) as [[|]|]; try discriminate.
    destruct (ba_next a); [|discriminate].
    destruct (ba_m a); [|discriminate].
    inv Hb. exists (entered ++ [st]), [].
    split; [rewrite app_nil_r; reflexivity|]. split.
    + cbn [bulkIncr bl_index nonRepeaters set_maxRepetitions].
      replace (nonRepeaters (request (bl_ctx st))) with (nonRepeaters req0).
      replace (Z.to_nat (nonRepeaters req0 + 1 - 1 - nonRepeaters req0))
        with 0%nat by lia.
      reflexivity.
    + intros Hne. contradiction.
  - inv Hb. cbn [bulkIncr bl_index bl_endOfMibView bl_next bl_m].
    destruct (Z_lt_le_dec (nonRepeaters req0) (bl_index st)) as [Hlt|Hge].
    + destruct (bulkAnswer_round _ M entered st a HN HR Ha Hlt)
        as (before' & round' & E & I & F & N1 & N2).
      exists before', round'. split; [exact E|]. split.
      * replace (bl_index st + 1 - 1 - nonRepeaters req0)
          with (bl_index st - nonRepeaters req0) by lia.
        exact I.
      * intros _. auto.
    + exists (entered ++ [st]), [].
      split; [rewrite app_nil_r; reflexivity|]. split.
      * replace (Z.to_nat (bl_index st + 1 - 1 - nonRepeaters req0))
          with 0%nat by lia.
        reflexivity.
      * intros Hne. contradiction.
Qed.

(** The pass that ends a repetition: the loop stops there when this was
    the last repetition to make or when the search found no next object
    for any variable of the repetition, and goes back to the first binding
    the repetition appended otherwise. *)
Lemma bulkBody_round_end (req0 : SnmpMessage) (M : Z)
    (entered : list (BulkLoop Mib)) (st : BulkLoop Mib) :
  M < 2 ^ 31 -> BulkHead req0 M st ->
  BulkRounds X (nonRepeaters req0) M entered st ->
  roundEnds X st = true ->
  exists before round : list (BulkLoop Mib),
    entered ++ [st] = before ++ round
    /\ map (@bl_index Mib) round
       = indexesFrom (nonRepeaters req0 + 1)
           (Z.to_nat (bl_index st - nonRepeaters req0))
    /\ if (maxRepetitions (request (bl_ctx st)) =? 1)
          || forallb (searchFails X) round
       then exists s', bulkBody X st = Break s' /\ bl_error s' = NO_ERROR
       else exists s',
              bulkBody X st = Next s' /\ bl_region s' = InResponse
              /\ bl_index s' = nonRepeaters req0.
Proof.
  intros HM Hhead HR Hre. pose proof Hhead as (Hreq & _).
  assert (HN : nonRepeaters (request (bl_ctx st)) = nonRepeaters req0)
    by (rewrite Hreq; reflexivity).
  unfold roundEnds in Hre.
  destruct (bulkAnswer X st) as [s|a] eqn:Ha; [discriminate|].
  destruct (bulkAnswer_inr_frame _ _ Ha) as [A _].
  destruct (bulkAnswer_inr _ _ Ha) as (Hfz & Herr & _).
  rewrite A, HN in Hre. pose proof Hre as Hre'.
  apply andb_prop in Hre'. destruct Hre' as [_ Hlt]. apply Z.ltb_lt in Hlt.
  destruct (bulkAnswer_round _ M entered st a HN HR Ha Hlt)
    as (before & round & E & I & F & N1 & N2).
  exists before, round. split; [exact E|]. split; [exact I|].
  pose proof (bulkHead_positive req0 M st Hhead Hfz Hlt) as Hone.
  destruct Hhead as (_ & Hrange & _).
  rewrite (bulkBody_inr _ _ Ha). unfold bulkRepeat. rewrite A, HN, Hre.
  rewrite wrapS32_small by (change (2 ^ 31) with 2147483648 in *; lia).
  cbn [maxRepetitions set_maxRepetitions]. rewrite F, Herr.
  destruct (maxRepetitions (request (bl_ctx st)) =? 1) eqn:H1.
  - apply Z.eqb_eq in H1. rewrite H1. simpl.
    eexists. split; reflexivity.
  - apply Z.eqb_neq in H1.
    replace (maxRepetitions (request (bl_ctx st)) - 1 =? 0) with false
      by (symmetry; apply Z.eqb_neq; lia).
    simpl orb. destruct (forallb (searchFails X) round).
    + eexists. split; reflexivity.
    + destruct (ba_next a); [|contradiction].
      destruct (ba_m a); [|contradiction].
      eexists. split; [reflexivity|]. simpl. split; [reflexivity|].
      exact HN.
Qed.

Lemma bulkStart_rounds (ctx : SnmpAgentContext Mib) (e : error_t) :
  0 <= nonRepeaters (request ctx) ->
  BulkRounds X (nonRepeaters (request ctx)) (maxRepetitions (request ctx)) []
    (bulkStart ctx e).
Proof.
  intros Hn. split; [simpl; lia|]. exists [], [].
  split; [reflexivity|]. split.
  - simpl bl_index.
    replace (Z.to_nat (1 - 1 - nonRepeaters (request ctx))) with 0%nat by lia.
    reflexivity.
  - intros Hne. contradiction.
Qed.

(** Both invariants hold after the passes of the loop. *)
Lemma bulkPasses_rounds (req0 : SnmpMessage) (M : Z)
    (start t : BulkLoop Mib) (entered : list (BulkLoop Mib)) :
  M < 2 ^ 31 -> BulkHead req0 M start ->
  BulkRounds X (nonRepeaters req0) M [] start ->
  loopPasses bulkCond (bulkBody X) bulkIncr start entered t ->
  BulkHead req0 M t /\ BulkRounds X (nonRepeaters req0) M entered t.
Proof.
  intros HM H0 R0. induction 1 as [|entered s s' Hp IH Hc Hb].
  - split; assumption.
  - destruct IH as [Hh Hr]. split.
    + apply (bulkBody_head req0 M s HM Hh). exact Hb.
    + apply (bulkBody_rounds req0 M entered s s' HM Hh Hr Hb).
Qed.

(** Max-repetitions at the end of a run: the value the request arrived
    with less the number of passes that ended a repetition. *)
Lemma bulkRun_count (req0 : SnmpMessage) (M : Z)
    (start st : BulkLoop Mib) (passes : list (BulkLoop Mib)) :
  M < 2 ^ 31 -> BulkHead req0 M start ->
  BulkRounds X (nonRepeaters req0) M [] start ->
  loopRun bulkCond (bulkBody X) bulkIncr start passes st ->
  request (bl_ctx st)
  = set_maxRepetitions req0
      (M - Z.of_nat (length (filter (roundEnds X) passes)))
  /\ Z.of_nat (length (filter (roundEnds X) passes)) <= M.
Proof.
  intros HM H0 R0 Hrun.
  destruct Hrun as [entered s Hp Hc|entered s r Hp Hc Hb].
  - destruct (bulkPasses_rounds req0 M start s entered HM H0 R0 Hp)
      as [(Hreq & Hrange & _) (Hcount & _)].
    rewrite Hreq, Hcount. split; [reflexivity|lia].
  - destruct (bulkPasses_rounds req0 M start s entered HM H0 R0 Hp)
      as [Hh (Hcount & _)].
    destruct (bulkBody_count req0 M s HM Hh) as (Hframe & Hstep & _).
    destruct (bulkBody_head req0 M s HM Hh) as [(_ & Hrange) _].
    rewrite Hb in Hframe, Hstep, Hrange. simpl in Hframe, Hstep, Hrange.
    assert (Hlen : Z.of_nat (length (filter (roundEnds X) (entered ++ [s])))
                   = Z.of_nat (length (filter (roundEnds X) entered))
                     + (if roundEnds X s then 1 else 0)).
    { rewrite filter_app, length_app. simpl.
      destruct (roundEnds X s); simpl; lia. }
    rewrite Hlen. split; [|lia].
    rewrite Hframe. f_equal. lia.
Qed.

(** C10, as the code has it.  In the GetBulk loop the request is written
    in one place only: a pass that reaches the end of the list being walked
    with a repeating variable ("Next iteration?") lowers its
    max-repetitions by one, and no pass changes any other field of the
    request or the MIB.  For a request that arrives with non-negative
    non-repeaters and max-repetitions, the handler returns with the request
    it was given but for max-repetitions, which is the value it arrived
    with less the number of passes of the loop that ended a repetition:
    below that value when there was one, and unchanged when there was
    none. *)
Theorem bulk_lowers_max_repetitions (ctx : SnmpAgentContext Mib)
    (r0 : SnmpMessage) :
  ParseProgress X ->
  (version (request ctx) =? SNMP_VERSION_1) = false ->
  readAllowed (user_mode ctx) = true ->
  snmpInitResponse X ctx = (NO_ERROR, r0) ->
  0 <= nonRepeaters (request ctx) ->
  0 <= maxRepetitions (request ctx) < 2 ^ 31 ->
  let start := bulkStart (set_response ctx r0) NO_ERROR in
  let lowered (before after : SnmpAgentContext Mib) :=
    request after
    = set_maxRepetitions (request before)
        (wrapS32 (maxRepetitions (request before) - 1)) in
  (forall (c : SnmpAgentContext Mib) region p len index error next m eom,
     let c' :=
       bl_ctx (flowState
                 (bulkRepeat X c region p len index error next m eom)) in
     if (len =? 0)%nat && (nonRepeaters (request c) <? index)
     then lowered c c' else request c' = request c)
  /\ (forall st : BulkLoop Mib,
        let c' := bl_ctx (flowState (bulkBody X st)) in
        mib c' = mib (bl_ctx st)
        /\ (request c' = request (bl_ctx st) \/ lowered (bl_ctx st) c'))
  /\ exists fuel st passes,
       (forall fuel', (fuel <= fuel')%nat ->
          forLoop bulkCond (bulkBody X) bulkIncr fuel' start = Some st
          /\ snmpProcessGetBulkRequestPdu X fuel' ctx
             = Some (bulkFinish X st))
       /\ loopRun bulkCond (bulkBody X) bulkIncr start passes st
       /\ let final := request (snd (bulkFinish X st)) in
          let rounds := Z.of_nat (length (filter (roundEnds X) passes)) in
          final
          = set_maxRepetitions (request ctx)
              (maxRepetitions (request ctx) - rounds)
          /\ rounds <= maxRepetitions (request ctx)
          /\ (rounds = 0 -> final = request ctx)
          /\ (0 < rounds ->
              maxRepetitions final < maxRepetitions (request ctx))
          /\ mib (snd (bulkFinish X st)) = mib ctx.
Proof.
  intros HP Hv Hmode Hinit Hnr [Hm0 HM] start lowered.
  split.
  { intros c region p len index error next m eom.
    destruct (bulkRepeat_request c region p len index error next m eom)
      as (_ & _ & Hr).
    cbv zeta. unfold lowered. destruct (_ && _); exact Hr. }
  split; [intros st; apply bulkBody_frame|].
  destruct (bulk_runs ctx r0 HP Hv Hmode Hinit Hnr) as (fuel & st & Hrun).
  destruct (Hrun fuel (Nat.le_refl fuel)) as [Hloop _].
  destruct (forLoop_run _ _ _ _ _ _ Hloop) as [passes Hpasses].
  exists fuel, st, passes. split; [exact Hrun|]. split; [exact Hpasses|].
  destruct (bulkFinish_frame st) as [Hfr Hfm].
  assert (Hhead : BulkHead (request ctx) (maxRepetitions (request ctx)) start).
  { apply (bulkStart_head (set_response ctx r0)); assumption. }
  assert (Hrounds : BulkRounds X (nonRepeaters (request ctx))
                      (maxRepetitions (request ctx)) [] start).
  { apply (bulkStart_rounds (set_response ctx r0)). exact Hnr. }
  destruct (bulkRun_count _ _ _ _ _ HM Hhead Hrounds Hpasses)
    as [Hfinal Hle].
  cbv zeta. rewrite Hfr, Hfm, Hfinal.
  split; [reflexivity|]. split; [exact Hle|]. split.
  { intros H0. rewrite H0, Z.sub_0_r. apply set_maxRepetitions_same. }
  split.
  { intros Hpos. simpl. lia. }
  assert (Hmib : forall s : BulkLoop Mib,
            mib (bl_ctx s) = mib ctx ->
            mib (bl_ctx (flowState (bulkBody X s))) = mib ctx).
  { intros s Hs. destruct (bulkBody_frame s) as [A _]. congruence. }
  apply (forLoop_invariant bulkCond (bulkBody X) bulkIncr
           (fun s => mib (bl_ctx s) = mib ctx) ) with (fuel := fuel)
                                                       (s := start);
    [| |reflexivity|exact Hloop].
  - intros s s' Hs _ Hb. specialize (Hmib s Hs). rewrite Hb in Hmib.
    exact Hmib.
  - intros s s' Hs _ Hb. specialize (Hmib s Hs). rewrite Hb in Hmib.
    exact Hmib.
Qed.

Lemma octetsAt_app (a b : list Z) :
  octetsAt (a ++ b) (length a) (length b) = b.
Proof.
  unfold octetsAt. rewrite skipn_app, skipn_all, Nat.sub_diag. simpl.
  apply firstn_all.
Qed.

(** A pass through the body whose binding parses: it leaves the loop on a
    failure, with the request and the list of the response as they were, or
    it appends a binding and comes to "Next iteration?". *)
Lemma bulkBody_parsed (enc : SnmpVarBind -> list Z) (st : BulkLoop Mib)
    (v : SnmpVarBind) (n : nat) :
  WriteAppends X enc ->
  let first := bl_index st - 1 =? nonRepeaters (request (bl_ctx st)) in
  let len0 := varBindListLen (response (bl_ctx st)) in
  first && (maxRepetitions (request (bl_ctx st)) =? 0) = false ->
  snmpParseVarBinding X
    (octetsAt (bulkBuffer (bl_ctx st) (bl_region st)) (bl_p st)
       (bl_length st)) = (NO_ERROR, v, n) ->
  (exists s',
     bulkBody X st = Break s' /\ isError (bl_error s') = true
     /\ request (bl_ctx s') = request (bl_ctx st)
     /\ varBindList (response (bl_ctx s'))
        = varBindList (response (bl_ctx st)))
  \/ (exists c' w eom,
        request c' = request (bl_ctx st)
        /\ varBindList (response c')
           = varBindList (response (bl_ctx st)) ++ enc w
        /\ (first = true -> exists b, eom = Some b)
        /\ bulkBody X st
           = bulkRepeat X c' (bl_region st) (bl_p st + n)
               (sizeSub X (bl_length st) n) (bl_index st) NO_ERROR
               (if first then Some len0 else bl_next st)
               (if first then Some len0 else bl_m st) eom).
Proof.
  intros HW first len0 Hfz Hparse. subst first len0.
  destruct (bulkAnswer X st) as [s|a] eqn:Ha.
  - left. exists s. split; [apply bulkBody_inl; exact Ha|].
    split; [apply (bulkAnswer_inl_error _ _ Ha Hfz)|].
    split; [apply (bulkAnswer_inl _ _ Ha)
           |apply (bulkAnswer_inl_response enc _ _ HW Ha)].
  - right. destruct (bulkAnswer_inr_frame _ _ Ha) as [A _].
    destruct (bulkAnswer_inr_response enc _ _ HW Ha) as (_ & _ & w & Hl).
    destruct (bulkAnswer_inr _ _ Ha)
      as (_ & Herr & Hnext & Hm & v' & e1 & v1 & c2 & w' & r3 & Hparse'
          & _ & Hret & _).
    rewrite Hparse in Hparse'. injection Hparse' as <- Hn.
    exists (ba_ctx a), w, (ba_endOfMibView a).
    split; [exact A|]. split; [exact Hl|]. split.
    + intros Hf. apply bulkRetrieve_flag in Hret. rewrite Hret, Hf.
      destruct (error_t_beq _ _); eauto.
    + rewrite (bulkBody_inr _ _ Ha), Herr, Hnext, Hm, Hn. reflexivity.
Qed.

Lemma bulkBody_first_zero (st : BulkLoop Mib) :
  let len0 := varBindListLen (response (bl_ctx st)) in
  (bl_index st - 1 =? nonRepeaters (request (bl_ctx st)))
  && (maxRepetitions (request (bl_ctx st)) =? 0) = true ->
  bulkBody X st
  = Break (mkBulkLoop (bl_ctx st) (bl_region st) (bl_p st) (bl_length st)
             (bl_index st) (bl_error st) (Some len0) (Some len0)
             (Some true)).
Proof.
  intros len0 H. unfold bulkBody, bulkAnswer. rewrite H.
  apply andb_prop in H. destruct H as [H _]. rewrite H. reflexivity.
Qed.

Lemma bulkBody_parse_error (st : BulkLoop Mib) (e : error_t)
    (v : SnmpVarBind) (n : nat) :
  (bl_index st - 1 =? nonRepeaters (request (bl_ctx st)))
  && (maxRepetitions (request (bl_ctx st)) =? 0) = false ->
  snmpParseVarBinding X
    (octetsAt (bulkBuffer (bl_ctx st) (bl_region st)) (bl_p st)
       (bl_length st)) = (e, v, n) ->
  isError e = true ->
  exists s',
    bulkBody X st = Break s' /\ bl_ctx s' = bl_ctx st /\ bl_error s' = e.
Proof.
  intros Hfz Hparse He. unfold bulkBody, bulkAnswer.
  rewrite Hfz, Hparse, He.
  eexists. split; [reflexivity|]. simpl. auto.
Qed.

Lemma bulkRepeat_round (c : SnmpAgentContext Mib) (region : Region)
    (p : nat) (index : Z) (error : error_t) (next m : nat) (eom : bool) :
  nonRepeaters (request c) < index ->
  1 <= maxRepetitions (request c) < 2 ^ 31 ->
  let c' :=
    set_request c
      (set_maxRepetitions (request c) (maxRepetitions (request c) - 1)) in
  bulkRepeat X c region p 0 index error (Some next) (Some m) (Some eom)
  = if (maxRepetitions (request c) - 1 =? 0) || eom then
      Break (mkBulkLoop c' region p 0 index error (Some next) (Some m)
               (Some eom))
    else
      Next (mkBulkLoop c' InResponse next
              (sizeSub X (varBindListLen (response c)) m)
              (nonRepeaters (request c)) error (Some next) (Some m)
              (Some eom)).
Proof.
  intros Hlt Hm c'. unfold bulkRepeat. simpl Nat.eqb.
  apply Z.ltb_lt in Hlt. rewrite Hlt. simpl andb.
  rewrite wrapS32_small by (change (2 ^ 31) with 2147483648 in *; lia).
  fold c'. cbn [maxRepetitions set_maxRepetitions].
  destruct (maxRepetitions (request c) - 1 =? 0); [reflexivity|].
  destruct eom; reflexivity.
Qed.

Lemma bulkRepeat_inside (c : SnmpAgentContext Mib) (region : Region)
    (p len : nat) (index : Z) (error : error_t) (next m : option nat)
    (eom : option bool) :
  (len =? 0)%nat && (nonRepeaters (request c) <? index) = false ->
  bulkRepeat X c region p len index error next m eom
  = Next (mkBulkLoop c region p len index error next m eom).
Proof. intros H. unfold bulkRepeat. rewrite H. reflexivity. Qed.

Lemma flat_map_snoc (enc : SnmpVarBind -> list Z) (ws : list SnmpVarBind)
    (w : SnmpVarBind) :
  flat_map enc (ws ++ [w]) = flat_map enc ws ++ enc w.
Proof. rewrite flat_map_app. simpl. rewrite app_nil_r. reflexivity. Qed.

(** The walk invariant is kept by a pass that goes on, and gives the bound
    on the bindings of the response when the pass leaves the loop. *)
Lemma bulkBody_walk (enc : SnmpVarBind -> list Z) (req0 : SnmpMessage)
    (M : Z) (st : BulkLoop Mib) :
  ParseProgress X -> WriteAppends X enc -> ParseSpansEncoding X enc ->
  M < 2 ^ 31 ->
  BulkHead req0 M st -> BulkWalk X enc req0 M st ->
  (forall s', bulkBody X st = Break s' -> BulkDone enc req0 M s')
  /\ (forall s', bulkBody X st = Next s' ->
                 BulkWalk X enc req0 M (bulkIncr s')).
Proof.
  intros HP HW HS HM (Hreq & Hrange & Hpos) (Herr & ws & Hlist & Hreg).
  assert (Hnr : nonRepeaters (request (bl_ctx st)) = nonRepeaters req0)
    by (rewrite Hreq; reflexivity).
  assert (Hbuf : varBindList (request (bl_ctx st)) = varBindList req0)
    by (rewrite Hreq; reflexivity).
  destruct ((bl_index st - 1 =? nonRepeaters (request (bl_ctx st)))
            && (maxRepetitions (request (bl_ctx st)) =? 0)) eqn:Hfz.
  { rewrite (bulkBody_first_zero st Hfz). split; [|discriminate].
    intros s' H. injection H as <-. intros _. exists ws. simpl.
    split; [exact Hlist|].
    apply andb_prop in Hfz. destruct Hfz as [Hf Hz].
    apply Z.eqb_eq in Hf. apply Z.eqb_eq in Hz.
    destruct (bl_region st).
    - destruct Hreg as (HmM & Hcnt & _). lia.
    - destruct Hreg as (_ & Hcnt & _). lia. }
  assert (Hone : bl_index st - 1 = nonRepeaters req0 ->
                 1 <= maxRepetitions (request (bl_ctx st))).
  { intros Hf. apply andb_false_iff in Hfz. destruct Hfz as [Hz|Hz].
    - apply Z.eqb_neq in Hz. lia.
    - apply Z.eqb_neq in Hz. lia. }
  assert (Hlen0 : varBindListLen (response (bl_ctx st))
                  = length (flat_map enc ws))
    by (unfold varBindListLen; rewrite Hlist; reflexivity).
  destruct (bl_region st) eqn:Hregion.
  - destruct Hreg as (HmM & Hcnt & Hlen & fuelD & v & rest & Hdec & Hidx).
    destruct (decode_cons X _ _ _ _ Hdec)
      as (k & n & _ & Hne & Hparse & _ & Hrest).
    assert (Hol : length (octetsAt (varBindList req0) (bl_p st)
                            (bl_length st)) = bl_length st)
      by (apply octetsAt_length; exact Hlen).
    pose proof (HP _ _ _ _ Hparse eq_refl) as Hn. rewrite Hol in Hn.
    destruct (bulkBody_parsed enc st v n HW Hfz)
      as [(s1 & Hb & He & Hr & Hl)|(c' & w & eom & Hr & Hl & Hsome & Hb)].
    { rewrite Hregion. simpl. rewrite Hbuf. exact Hparse. }
    + rewrite Hb. split; [|discriminate]. intros s' H. injection H as <-.
      intros [Hc|Hc]; [congruence|].
      exists ws. split; [congruence|]. rewrite Hr, HmM. lia.
    + rewrite Hb. rewrite sizeSub_within by lia.
      destruct rest as [|r rest'].
      * apply decode_nil in Hrest.
        assert (Hzero : (bl_length st - n = 0)%nat).
        { apply (f_equal (@length Z)) in Hrest.
          rewrite length_skipn, Hol in Hrest. simpl in Hrest. lia. }
        simpl in Hidx. rewrite Hzero.
        assert (Hf : bl_index st - 1 = nonRepeaters req0) by lia.
        specialize (Hone Hf).
        assert (Hfb : (bl_index st - 1
                       =? nonRepeaters (request (bl_ctx st))) = true)
          by (apply Z.eqb_eq; lia).
        destruct (Hsome Hfb) as [b ->]. rewrite Hfb.
        rewrite bulkRepeat_round; [|rewrite Hr, Hnr; lia|rewrite Hr; lia].
        rewrite Hr, Hnr.
        assert (Hnew : flat_map enc (ws ++ [w])
                       = varBindList (response c')).
        { rewrite Hl, Hlist. apply flat_map_snoc. }
        assert (Hcount : Z.of_nat (length (ws ++ [w]))
                         = nonRepeaters req0 + 1).
        { rewrite length_app. simpl. lia. }
        destruct ((maxRepetitions (request (bl_ctx st)) - 1 =? 0) || b).
        -- split; [|discriminate]. intros s' H. injection H as <-. intros _.
           exists (ws ++ [w]). simpl. split; [symmetry; exact Hnew|]. lia.
        -- split; [discriminate|]. intros s' H. injection H as <-.
           unfold BulkWalk. simpl. split; [reflexivity|].
           exists (ws ++ [w]). split; [symmetry; exact Hnew|].
           split; [reflexivity|]. split; [lia|].
           exists ws, w. split; [reflexivity|].
           split; [exact Hlen0|].
           unfold varBindListLen at 1. rewrite Hl, Hlist, length_app, Hlen0.
           rewrite sizeSub_within by lia. lia.
      * simpl in Hidx.
        rewrite bulkRepeat_inside.
        2:{ rewrite Hr, Hnr.
            replace (nonRepeaters req0 <? bl_index st) with false
              by (symmetry; apply Z.ltb_ge; lia).
            apply andb_false_r. }
        split; [discriminate|]. intros s' H. injection H as <-.
        unfold BulkWalk. simpl. rewrite Hregion. split; [reflexivity|].
        exists (ws ++ [w]). split; [rewrite Hl, Hlist, flat_map_snoc;
                                    reflexivity|].
        rewrite Hr. split; [exact HmM|].
        split; [rewrite length_app; simpl; lia|]. split; [lia|].
        exists k, r, rest'. rewrite octetsAt_advance.
        split; [exact Hrest|lia].
  - destruct Hreg as (Hidx & Hcnt & ws' & w0 & Hws & Hp & Hl0).
    assert (Hf : bl_index st - 1 = nonRepeaters req0) by lia.
    specialize (Hone Hf).
    assert (Hfb : (bl_index st - 1
                   =? nonRepeaters (request (bl_ctx st))) = true)
      by (apply Z.eqb_eq; lia).
    assert (Hoct : octetsAt (bulkBuffer (bl_ctx st) InResponse) (bl_p st)
                     (bl_length st) = enc w0).
    { simpl. rewrite Hlist, Hws, flat_map_snoc, Hp, Hl0.
      apply octetsAt_app. }
    destruct (snmpParseVarBinding X (enc w0)) as [[e v] n] eqn:Hparse.
    destruct (isError e) eqn:He.
    + destruct (bulkBody_parse_error st e v n Hfz) as (s1 & Hb & Hc & He1).
      { rewrite Hregion, Hoct. exact Hparse. }
      { exact He. }
      rewrite Hb. split; [|discriminate]. intros s' H. injection H as <-.
      intros [Hx|Hx]; [congruence|].
      exists ws. rewrite Hc. split; [exact Hlist|]. lia.
    + pose proof (HS _ _ _ _ Hparse He) as Hn.
      apply isError_false in He. subst e.
      destruct (bulkBody_parsed enc st v n HW Hfz)
        as [(s1 & Hb & He & Hr & Hl)|(c' & w & eom & Hr & Hl & Hsome & Hb)].
      { rewrite Hregion, Hoct. exact Hparse. }
      * rewrite Hb. split; [|discriminate]. intros s' H. injection H as <-.
        intros [Hc|Hc]; [congruence|].
        exists ws. split; [congruence|]. rewrite Hr. lia.
      * rewrite Hb. rewrite sizeSub_within by lia.
        replace (bl_length st - n)%nat with 0%nat by lia.
        destruct (Hsome Hfb) as [b ->]. rewrite Hfb.
        rewrite bulkRepeat_round; [|rewrite Hr, Hnr; lia|rewrite Hr; lia].
        rewrite Hr, Hnr.
        assert (Hnew : flat_map enc (ws ++ [w])
                       = varBindList (response c')).
        { rewrite Hl, Hlist. apply flat_map_snoc. }
        assert (Hcount : Z.of_nat (length (ws ++ [w]))
                         = Z.of_nat (length ws) + 1).
        { rewrite length_app. simpl. lia. }
        destruct ((maxRepetitions (request (bl_ctx st)) - 1 =? 0) || b).
        -- split; [|discriminate]. intros s' H. injection H as <-. intros _.
           exists (ws ++ [w]). simpl. split; [symmetry; exact Hnew|]. lia.
        -- split; [discriminate|]. intros s' H. injection H as <-.
           unfold BulkWalk. simpl. split; [reflexivity|].
           exists (ws ++ [w]). split; [symmetry; exact Hnew|].
           split; [reflexivity|]. split; [lia|].
           exists ws, w. split; [reflexivity|].
           split; [exact Hlen0|].
           unfold varBindListLen at 1. rewrite Hl, Hlist, length_app, Hlen0.
           rewrite sizeSub_within by lia. lia.
Qed.

Lemma bulkWalk_exit (enc : SnmpVarBind -> list Z) (req0 : SnmpMessage)
    (M : Z) (st : BulkLoop Mib) :
  BulkWalk X enc req0 M st -> bulkCond st = false ->
  BulkDone enc req0 M st.
Proof.
  intros (Herr & ws & Hlist & Hreg) Hc _. exists ws.
  split; [exact Hlist|]. unfold bulkCond in Hc. apply Nat.ltb_ge in Hc.
  destruct (bl_region st).
  - destruct Hreg as (_ & _ & _ & fuelD & v & rest & Hdec & _).
    apply decode_cons in Hdec. destruct Hdec as (k & n & _ & Hne & _).
    replace (bl_length st) with 0%nat in Hne by lia.
    unfold octetsAt in Hne. simpl in Hne. contradiction.
  - destruct Hreg as (_ & Hcnt & _). lia.
Qed.

(** A pass in which the search finds no next object appends the
    endOfMibView exception for the name the search returned: a binding of
    class context-specific with no value. *)
Lemma bulkAnswer_end_of_mib_view (st : BulkLoop Mib) (a : BulkAnswer Mib) :
  bulkAnswer X st = inr a -> searchFails X st = true ->
  let ctx := bl_ctx st in
  exists v found,
    snmpParseVarBinding X
      (octetsAt (bulkBuffer ctx (bl_region st)) (bl_p st) (bl_length st))
    = (NO_ERROR, v, ba_n a)
    /\ snmpGetNextObject X ctx (request ctx) v
       = (ERROR_OBJECT_NOT_FOUND, found)
    /\ snmpWriteVarBinding X
         (set_mib2Base ctx
            (MIB2_INC_COUNTER32 snmpInTotalReqVars 1 (mib2Base ctx)))
         (mkVarBind (oid found) ASN1_CLASS_CONTEXT_SPECIFIC
            SNMP_EXCEPTION_END_OF_MIB_VIEW [])
       = (NO_ERROR, response (ba_ctx a)).
Proof.
  intros Ha Hs. cbv zeta.
  destruct (bulkAnswer_inr _ _ Ha)
    as (_ & _ & _ & _ & v & e1 & v1 & c2 & w & r3 & Hparse & _ & Hret & Hc
        & Hw & Hctx).
  unfold searchFails in Hs. rewrite Hparse in Hs.
  unfold bulkRetrieve in Hret.
  destruct (snmpGetNextObject X (bl_ctx st) (request (bl_ctx st)) v)
    as [e2 found] eqn:Hnext.
  simpl in Hs. apply internal_error_t_dec_bl in Hs. subst e2.
  simpl in Hret. inv Hret.
  unfold bulkCatch, setException in Hc. simpl in Hc. inv Hc.
  exists v, found. split; [exact Hparse|]. split; [exact Hnext|].
  rewrite Hctx. exact Hw.
Qed.

(** C9, as the code has it.  For every GetBulkRequest with non-negative
    non-repeaters and max-repetitions that passes the gates of the handler,
    the loop ends and the handler returns; max-repetitions is lowered by
    one at the end of each repetition and is between 0 and its initial
    value when the loop ends, so at most max-repetitions repetitions are
    made.  The pass that ends a repetition stops the loop when this was the
    last repetition to make or when, for every variable of the repetition,
    the search found no next object, the binding appended for it being the
    endOfMibView exception; otherwise the loop goes back to the first
    binding that repetition appended.  When the request holds
    [nonRepeaters] non-repeating variables and one repeating variable:
    unless the loop stops on a failure other than ERROR_BUFFER_OVERFLOW,
    the handler returns NO_ERROR and the response holds at most one binding
    for each non-repeater and each repetition made, hence at most
    nonRepeaters plus maxRepetitions bindings; on such a failure the
    response that is returned echoes the request's list instead. *)
Theorem bulk_repetitions_are_bounded (ctx : SnmpAgentContext Mib)
    (r0 : SnmpMessage) :
  ParseProgress X ->
  (version (request ctx) =? SNMP_VERSION_1) = false ->
  readAllowed (user_mode ctx) = true ->
  snmpInitResponse X ctx = (NO_ERROR, r0) ->
  0 <= nonRepeaters (request ctx) ->
  0 <= maxRepetitions (request ctx) < 2 ^ 31 ->
  let N := nonRepeaters (request ctx) in
  let M := maxRepetitions (request ctx) in
  let start := bulkStart (set_response ctx r0) NO_ERROR in
  (exists fuel st passes,
     (forall fuel', (fuel <= fuel')%nat ->
        forLoop bulkCond (bulkBody X) bulkIncr fuel' start = Some st
        /\ snmpProcessGetBulkRequestPdu X fuel' ctx
           = Some (bulkFinish X st))
     /\ loopRun bulkCond (bulkBody X) bulkIncr start passes st
     /\ Z.of_nat (length (filter (roundEnds X) passes)) <= M
     /\ let final := snd (bulkFinish X st) in
        0 <= maxRepetitions (request final) <= M
        /\ forall (enc : SnmpVarBind -> list Z) (vs : list SnmpVarBind),
             WriteAppends X enc -> ParseSpansEncoding X enc ->
             CopyEchoes X ->
             varBindList r0 = [] ->
             decodeVarBinds X (S (length (varBindList (request ctx))))
               (varBindList (request ctx)) = Some vs ->
             Z.of_nat (length vs) = N + 1 ->
             (isError (bl_error st) = false
              \/ bl_error st = ERROR_BUFFER_OVERFLOW ->
              fst (bulkFinish X st) = NO_ERROR
              /\ exists ws,
                   varBindList (response final) = flat_map enc ws
                   /\ Z.of_nat (length ws)
                      <= N + (M - maxRepetitions (request final))
                   /\ Z.of_nat (length ws) <= N + M)
             /\ (isError (bl_error st) = true ->
                 bl_error st <> ERROR_BUFFER_OVERFLOW ->
                 fst (bulkFinish X st) = NO_ERROR ->
                 varBindList (response final)
                 = varBindList (request ctx)))
  /\ (forall (entered : list (BulkLoop Mib)) (t : BulkLoop Mib),
        loopPasses bulkCond (bulkBody X) bulkIncr start entered t ->
        bulkCond t = true -> roundEnds X t = true ->
        exists before round : list (BulkLoop Mib),
          entered ++ [t] = before ++ round
          /\ map (@bl_index Mib) round
             = indexesFrom (N + 1) (Z.to_nat (bl_index t - N))
          /\ if (maxRepetitions (request (bl_ctx t)) =? 1)
                || forallb (searchFails X) round
             then exists s',
                    bulkBody X t = Break s' /\ bl_error s' = NO_ERROR
             else exists s',
                    bulkBody X t = Next s' /\ bl_region s' = InResponse
                    /\ bl_index s' = N)
  /\ (forall (t : BulkLoop Mib) (a : BulkAnswer Mib),
        bulkAnswer X t = inr a -> searchFails X t = true ->
        exists v found,
          snmpParseVarBinding X
            (octetsAt (bulkBuffer (bl_ctx t) (bl_region t)) (bl_p t)
               (bl_length t)) = (NO_ERROR, v, ba_n a)
          /\ snmpGetNextObject X (bl_ctx t) (request (bl_ctx t)) v
             = (ERROR_OBJECT_NOT_FOUND, found)
          /\ snmpWriteVarBinding X
               (set_mib2Base (bl_ctx t)
                  (MIB2_INC_COUNTER32 snmpInTotalReqVars 1
                     (mib2Base (bl_ctx t))))
               (mkVarBind (oid found) ASN1_CLASS_CONTEXT_SPECIFIC
                  SNMP_EXCEPTION_END_OF_MIB_VIEW [])
             = (NO_ERROR, response (ba_ctx a))).
Proof.
  intros HP Hv Hmode Hinit Hnr [Hm0 HM] N M start.
  assert (Hhead : BulkHead (request ctx) M start).
  { apply (bulkStart_head (set_response ctx r0)); assumption. }
  assert (Hrounds : BulkRounds X N M [] start).
  { apply (bulkStart_rounds (set_response ctx r0)). exact Hnr. }
  split; [|split; [|apply bulkAnswer_end_of_mib_view]].
  2:{ intros entered t Hp _ Hre.
      destruct (bulkPasses_rounds _ _ _ _ _ HM Hhead Hrounds Hp)
        as [Hh Hr].
      apply (bulkBody_round_end (request ctx) M entered t HM Hh Hr Hre). }
  destruct (bulk_runs ctx r0 HP Hv Hmode Hinit Hnr) as (fuel & st & Hrun).
  destruct (Hrun fuel (Nat.le_refl fuel)) as [Hloop _].
  destruct (forLoop_run _ _ _ _ _ _ Hloop) as [passes Hpasses].
  exists fuel, st, passes. split; [exact Hrun|]. split; [exact Hpasses|].
  destruct (bulkRun_count _ _ _ _ _ HM Hhead Hrounds Hpasses) as [_ Hle].
  split; [exact Hle|].
  destruct (bulkLoop_end _ _ _ _ _ HM Hhead Hloop) as [Hframe Hrange].
  destruct (bulkFinish_frame st) as [Hfr _].
  cbv zeta. rewrite Hfr. split; [exact Hrange|].
  intros enc vs HW HS HC Hempty Hdec Hlen.
  assert (Hwalk : BulkWalk X enc (request ctx) M start).
  { unfold BulkWalk. simpl. split; [reflexivity|]. exists [].
    split; [exact Hempty|]. split; [reflexivity|]. split; [reflexivity|].
    split; [unfold varBindListLen; simpl; lia|].
    destruct vs as [|v rest]; [simpl in Hlen; lia|].
    exists (S (length (varBindList (request ctx)))), v, rest.
    unfold octetsAt, varBindListLen. simpl skipn. rewrite firstn_all.
    split; [exact Hdec|].
    change (1 + Z.of_nat (length rest) = nonRepeaters (request ctx) + 1).
    cbn [length] in Hlen. lia. }
  assert (Hdone : BulkDone enc (request ctx) M st).
  { apply (forLoop_post bulkCond (bulkBody X) bulkIncr
             (fun s => BulkHead (request ctx) M s
                       /\ BulkWalk X enc (request ctx) M s)
             (BulkDone enc (request ctx) M)) with (fuel := fuel)
                                                  (s := start);
      [| | |split; assumption|exact Hloop].
    - intros s s' [H1 H2] _ Hb. split.
      + apply (bulkBody_head _ _ s HM H1). exact Hb.
      + apply (bulkBody_walk enc _ _ s HP HW HS HM H1 H2). exact Hb.
    - intros s s' [H1 H2] _ Hb.
      apply (bulkBody_walk enc _ _ s HP HW HS HM H1 H2). exact Hb.
    - intros s [_ H2] Hc. apply (bulkWalk_exit enc _ _ s H2 Hc). }
  split.
  - intros Hok.
    assert (Hfin : bulkFinish X st = (NO_ERROR, bl_ctx st)).
    { unfold bulkFinish. destruct Hok as [Hok|Hok].
      - apply isError_false in Hok. rewrite Hok. reflexivity.
      - rewrite Hok. reflexivity. }
    rewrite Hfin. simpl. split; [reflexivity|].
    destruct (Hdone Hok) as (ws & Hl & Hcnt). exists ws.
    split; [exact Hl|]. fold N in Hcnt. split; lia.
  - intros He Hne. unfold bulkFinish.
    replace (error_t_beq (bl_error st) ERROR_BUFFER_OVERFLOW) with false.
    2:{ symmetry. destruct (error_t_beq _ _) eqn:Hb; [|reflexivity].
        apply internal_error_t_dec_bl in Hb. contradiction. }
    rewrite He. unfold translateStatus, copyVarBindingList.
    destruct (snmpTranslateStatusCode X _ _ _) as [e2 m2].
    destruct (isError e2) eqn:He2.
    { simpl. intros ->. discriminate. }
    destruct (snmpCopyVarBindingList X _) as [e3 m3] eqn:Hc.
    destruct (isError e3) eqn:He3.
    { simpl. intros ->. discriminate. }
    simpl. intros _. apply isError_false in He3. subst e3.
    apply HC in Hc. destruct Hc as (A & _). rewrite A. simpl.
    rewrite Hframe. reflexivity.
Qed.

End BulkProperties.

(** ** The GetBulk handler on the demo agent *)


(** The state the GetBulk loop ends in is the one it ends in with 50 tests
    of its condition, when it ends with that many. *)
Lemma bulkLoop_at_fifty (start st : BulkLoop Demo.Store) (fuel : nat)
    (f : BulkLoop Demo.Store -> Z) (z : Z) :
  (forall fuel', (fuel <= fuel')%nat ->
     forLoop bulkCond (bulkBody Demo.agent) bulkIncr fuel' start = Some st) ->
  option_map f (forLoop bulkCond (bulkBody Demo.agent) bulkIncr 50 start)
  = Some z ->
  f st = z.
Proof.
  intros Hrun H50.
  destruct (forLoop bulkCond (bulkBody Demo.agent) bulkIncr 50 start)
    as [s50|] eqn:Hs; [|discriminate].
  simpl in H50. injection H50 as <-.
  apply (forLoop_le _ _ _ _ (Nat.max fuel 50)) in Hs; [|lia].
  rewrite (Hrun (Nat.max fuel 50)) in Hs by lia.
  injection Hs as <-. reflexivity.
Qed.

Lemma bulk_lowers_max_repetitions_witness :
  maxRepetitions (request Demo.bulkTwo) = 2
  /\ Demo.outcome (snmpProcessGetBulkRequestPdu Demo.agent 50 Demo.bulkTwo)
     = Some (NO_ERROR,
             (SNMP_ERROR_NONE, 0,
              [Demo.assign [1; 2] [20]; Demo.assign [1; 2] [20];
               Demo.assign [1; 3] [30]], 0, Demo.store0))
  /\ exists fuel st passes,
       (forall fuel', (fuel <= fuel')%nat ->
          snmpProcessGetBulkRequestPdu Demo.agent fuel' Demo.bulkTwo
          = Some (bulkFinish Demo.agent st))
       /\ loopRun bulkCond (bulkBody Demo.agent) bulkIncr
            (bulkStart (Demo.started Demo.bulkTwo) NO_ERROR) passes st
       /\ length (filter (roundEnds Demo.agent) passes) = 2%nat
       /\ maxRepetitions (request (snd (bulkFinish Demo.agent st))) = 0.
Proof.
  split; [reflexivity|]. split; [vm_compute; reflexivity|].
  destruct (bulk_lowers_max_repetitions Demo.agent Demo.bulkTwo
              (snd (Demo.initResponse Demo.bulkTwo)) demo_parse_progress)
    as (_ & _ & fuel & st & passes & Hrun & Hpasses & Hfinal & _).
  - reflexivity.
  - reflexivity.
  - reflexivity.
  - simpl. lia.
  - simpl. lia.
  - exists fuel, st, passes.
    split; [intros fuel' Hle; apply Hrun; exact Hle|].
    split; [exact Hpasses|].
    assert (Hzero : maxRepetitions (request (bl_ctx st)) = 0).
    { apply (bulkLoop_at_fifty _ st fuel
               (fun s => maxRepetitions (request (bl_ctx s))) 0
               (fun fuel' Hle => proj1 (Hrun fuel' Hle))).
      vm_compute. reflexivity. }
    destruct (bulkFinish_frame Demo.agent st) as [Hfr _].
    rewrite Hfr in Hfinal |- *. pose proof Hzero as Hcount.
    rewrite Hfinal in Hcount.
    change (2 - Z.of_nat (length (filter (roundEnds Demo.agent) passes)) = 0)
      in Hcount.
    split; [lia|exact Hzero].
Defined.

(** C10, as stated, fails: a GetBulkRequest whose variables are all
    non-repeaters completes no repetition, and comes back with the
    max-repetitions it arrived with. *)
Lemma bulk_keeps_max_repetitions_counterexample :
  nonRepeaters (request Demo.bulkFlat) = 2
  /\ maxRepetitions (request Demo.bulkFlat) = 5
  /\ Demo.outcome (snmpProcessGetBulkRequestPdu Demo.agent 50 Demo.bulkFlat)
     = Some (NO_ERROR,
             (SNMP_ERROR_NONE, 0,
              [Demo.assign [1; 2] [20]; Demo.assign [66; 1] [60]], 5,
              Demo.store0)).
Proof.
  split; [reflexivity|]. split; [reflexivity|]. vm_compute. reflexivity.
Qed.

Lemma bulk_repetitions_are_bounded_witness :
  Demo.outcome (snmpProcessGetBulkRequestPdu Demo.agent 50 Demo.bulkTwo)
    = Some (NO_ERROR,
            (SNMP_ERROR_NONE, 0,
             [Demo.assign [1; 2] [20]; Demo.assign [1; 2] [20];
              Demo.assign [1; 3] [30]], 0, Demo.store0))
  /\ (exists fuel st,
        (forall fuel', (fuel <= fuel')%nat ->
           snmpProcessGetBulkRequestPdu Demo.agent fuel' Demo.bulkTwo
           = Some (bulkFinish Demo.agent st))
        /\ (isError (bl_error st) = false ->
            exists ws,
              varBindList (response (snd (bulkFinish Demo.agent st)))
              = flat_map Demo.encodeVarBind ws
              /\ Z.of_nat (length ws) <= 1 + 2))
  /\ Demo.outcome (snmpProcessGetBulkRequestPdu Demo.agent 50 Demo.bulkTail)
     = Some (NO_ERROR,
             (SNMP_ERROR_NONE, 0,
              [Demo.assign [66; 1] [60];
               mkVarBind [66; 1] ASN1_CLASS_CONTEXT_SPECIFIC
                 SNMP_EXCEPTION_END_OF_MIB_VIEW [];
               mkVarBind [66; 1] ASN1_CLASS_CONTEXT_SPECIFIC
                 SNMP_EXCEPTION_END_OF_MIB_VIEW [];
               mkVarBind [66; 1] ASN1_CLASS_CONTEXT_SPECIFIC
                 SNMP_EXCEPTION_END_OF_MIB_VIEW []], 3, Demo.store0))
  /\ (let start := bulkStart (Demo.started Demo.bulkTail) NO_ERROR in
      let second := bulkIncr (flowState (bulkBody Demo.agent start)) in
      searchFails Demo.agent start = false
      /\ searchFails Demo.agent second = true
      /\ exists s',
           bulkBody Demo.agent second = Next s'
           /\ bl_region s' = InResponse /\ bl_index s' = 0).
Proof.
  split; [vm_compute; reflexivity|]. split; [|split].
  - destruct (bulk_repetitions_are_bounded Demo.agent Demo.bulkTwo
                (snd (Demo.initResponse Demo.bulkTwo)) demo_parse_progress)
      as ((fuel & st & passes & Hrun & _ & _ & _ & Hcount) & _).
    + reflexivity.
    + reflexivity.
    + reflexivity.
    + simpl. lia.
    + simpl. lia.
    + exists fuel, st. split; [intros fuel' Hle; apply Hrun; exact Hle|].
      intros Hok.
      destruct (Hcount Demo.encodeVarBind
                  [Demo.nameOf [1; 1]; Demo.nameOf [1; 1]]
                  demo_write_appends demo_parse_spans_encoding
                  demo_copy_echoes) as [Hbound _];
        [reflexivity|reflexivity|reflexivity|].
      destruct (Hbound (or_introl Hok)) as (_ & ws & Hl & _ & Hle).
      exists ws. split; [exact Hl|exact Hle].
  - vm_compute. reflexivity.
  - intros start second.
    split; [vm_compute; reflexivity|]. split; [vm_compute; reflexivity|].
    destruct (bulk_repetitions_are_bounded Demo.agent Demo.bulkTail
                (snd (Demo.initResponse Demo.bulkTail)) demo_parse_progress)
      as (_ & Hstop & _).
    + reflexivity.
    + reflexivity.
    + reflexivity.
    + simpl. lia.
    + simpl. lia.
    + assert (Hb1 : bulkBody Demo.agent start
                    = Next (flowState (bulkBody Demo.agent start)))
        by (vm_compute; reflexivity).
      destruct (Hstop [start] second) as (before & round & E & I & Hif).
      * apply (passes_more bulkCond (bulkBody Demo.agent) bulkIncr _ []
                 start (flowState (bulkBody Demo.agent start)));
          [constructor|reflexivity|exact Hb1].
      * vm_compute. reflexivity.
      * vm_compute. reflexivity.
      * assert (Hround : round = [start; second]).
        { apply (f_equal (@length Z)) in I.
          rewrite length_map in I.
          change (length round = 2%nat) in I.
          destruct before as [|b0 [|b1 before]].
          - simpl in E. congruence.
          - apply (f_equal (@length _)) in E. simpl in E. lia.
          - apply (f_equal (@length _)) in E. simpl in E.
            rewrite length_app in E. lia. }
        subst round.
        replace ((maxRepetitions (request (bl_ctx second)) =? 1)
                 || forallb (searchFails Demo.agent) [start; second])
          with false in Hif by (vm_compute; reflexivity).
        exact Hif.
Defined.

(** C9, as stated, fails: with one non-repeater, max-repetitions 0 and two
    variables, a non-repeater outside of the caller's view aborts the walk
    and the response echoes the two bindings of the request, more than
    nonRepeaters plus maxRepetitions. *)
Lemma bulk_abort_echo_counterexample :
  nonRepeaters (request Demo.bulkAbort) = 1
  /\ maxRepetitions (request Demo.bulkAbort) = 0
  /\ Demo.decodeList 50 (varBindList (request Demo.bulkAbort))
     = [Demo.nameOf [99; 1]; Demo.nameOf [1; 1]]
  /\ Demo.outcome (snmpProcessGetBulkRequestPdu Demo.agent 50 Demo.bulkAbort)
     = Some (NO_ERROR,
             (SNMP_ERROR_NO_ACCESS, 1,
              [Demo.nameOf [99; 1]; Demo.nameOf [1; 1]], 0, Demo.store0))
  /\ ~ Z.of_nat (length [Demo.nameOf [99; 1]; Demo.nameOf [1; 1]]) <= 1 + 0.
Proof.
  split; [reflexivity|]. split; [reflexivity|].
  split; [vm_compute; reflexivity|]. split; [vm_compute; reflexivity|].
  simpl. lia.
Qed.

(** ** The dispatcher *)

Section DispatchProperties.

Context {Mib : Type} (X : Externals Mib).

Lemma setBody_next (commit : bool) (st st' : SetLoop Mib) :
  ParseProgress X -> setBody X commit st = Next st' ->
  (sl_length st' < sl_length st)%nat.
Proof.
  intros HP H. unfold setBody in H.
  destruct (snmpParseVarBinding X _) as [[e v] n] eqn:Hparse.
  destruct (isError e) eqn:He; [discriminate|].
  apply HP in Hparse. specialize (Hparse He).
  unfold octetsAt in Hparse. rewrite length_firstn in Hparse.
  destruct (snmpSetObjectValue X _ _ _ _) as [e1 s1].
  destruct (isError e1); [discriminate|].
  injection H as <-. simpl. rewrite sizeSub_within by lia. lia.
Qed.

Lemma setLoop_ends (commit : bool) (fuel : nat) (st : SetLoop Mib) :
  ParseProgress X -> (sl_length st < fuel)%nat ->
  exists st', forLoop setCond (setBody X commit) setIncr fuel st = Some st'.
Proof.
  intros HP.
  apply (forLoop_measure setCond (setBody X commit) setIncr sl_length).
  - intros s s' _ Hb. apply (setBody_next _ _ _ HP) in Hb. simpl. lia.
  - apply setBody_sound.
Qed.

Lemma setBody_request (commit : bool) (st : SetLoop Mib) :
  request (sl_ctx (flowState (setBody X commit st))) = request (sl_ctx st).
Proof.
  unfold setBody.
  destruct (snmpParseVarBinding X _) as [[e v] n].
  destruct (snmpSetObjectValue X _ _ _ _) as [e1 s1].
  destruct (isError e); [reflexivity|].
  destruct (isError e1); [reflexivity|]. destruct commit; reflexivity.
Qed.

Lemma setLoop_request (commit : bool) (fuel : nat) (st st' : SetLoop Mib) :
  forLoop setCond (setBody X commit) setIncr fuel st = Some st' ->
  request (sl_ctx st') = request (sl_ctx st).
Proof.
  apply (forLoop_invariant setCond (setBody X commit) setIncr
           (fun s => request (sl_ctx s) = request (sl_ctx st)));
    [| |reflexivity].
  - intros s s' Hs _ Hb. pose proof (setBody_request commit s) as H.
    rewrite Hb in H. simpl in *. congruence.
  - intros s s' Hs _ Hb. pose proof (setBody_request commit s) as H.
    rewrite Hb in H. simpl in *. congruence.
Qed.




Lemma finish_frames :
  (forall st : GetLoop Mib,
     request (snd (getFinish X st)) = request (gl_ctx st))
  /\ (forall st : SetLoop Mib,
        request (snd (setFinish X st)) = request (sl_ctx st)).
Proof.
  split; intros st; [|apply setFinish_frame].
  unfold getFinish, translateStatus, copyVarBindingList.
  destruct (isError (gl_error st)); [|reflexivity].
  destruct (snmpTranslateStatusCode X _ _ _) as [e2 m2].
  destruct (isError e2); [reflexivity|].
  destruct (_ && _); [reflexivity|]. simpl.
  destruct (snmpCopyVarBindingList X _) as [e3 m3].
  destruct (isError e3); reflexivity.
Qed.






End DispatchProperties.

(** ** The dispatcher on the demo agent *)



Section GetWalkProperties.
Context {Mib : Type} (X : Externals Mib).

Lemma countedUp_S (k : nat) (z : Z) :
  wrapU32 (countedUp k z + 1) = countedUp (S k) z.
Proof. reflexivity. Qed.

Lemma inc_same (name : Mib2Counter) (base : Mib2Counter -> Z) :
  MIB2_INC_COUNTER32 name 1 base name = wrapU32 (base name + 1).
Proof.
  unfold MIB2_INC_COUNTER32, incCounter.
  destruct name; reflexivity.
Qed.

Lemma inc_other (name k : Mib2Counter) (base : Mib2Counter -> Z) :
  k <> name -> MIB2_INC_COUNTER32 name 1 base k = base k.
Proof.
  unfold MIB2_INC_COUNTER32, incCounter. intros H.
  destruct (Mib2Counter_beq k name) eqn:E; [|reflexivity].
  apply internal_Mib2Counter_dec_bl in E. contradiction.
Qed.

Lemma decode_empty (fuelD : nat) (rest : list SnmpVarBind) :
  decodeVarBinds X fuelD [] = Some rest -> rest = [].
Proof. destruct fuelD; simpl; congruence. Qed.

Lemma flat_map_last {A B : Type} (f : A -> list B) (l : list A) (a : A) :
  flat_map f (l ++ [a]) = flat_map f l ++ f a.
Proof. rewrite flat_map_app. simpl. rewrite app_nil_r. reflexivity. Qed.

Lemma getRetrieve_leave (ctx : SnmpAgentContext Mib) (v v' : SnmpVarBind)
    (e : error_t) :
  getRetrieve X ctx v = (true, e, v') -> isError e = true.
Proof.
  unfold getRetrieve.
  destruct (SnmpPduType_beq _ _).
  { destruct (snmpGetObjectValue X ctx (request ctx) v). discriminate. }
  destruct (snmpGetNextObject X ctx (request ctx) v) as [e1 v1].
  destruct (error_t_beq e1 NO_ERROR) eqn:Hne.
  { destruct (snmpGetObjectValue X ctx (request ctx) v1).
    destruct (version _ =? _); discriminate. }
  destruct (version _ =? _).
  - intros H. injection H as <- _. destruct e1; simpl in *; congruence.
  - destruct (error_t_beq e1 ERROR_OBJECT_NOT_FOUND); [discriminate|].
    intros H. injection H as <- _. destruct e1; simpl in *; congruence.
Qed.

(** One pass of the Get loop from a head where [GetWalk] holds. *)
Lemma getBody_walk (enc : SnmpVarBind -> list Z) (req0 r0 : SnmpMessage)
    (vs : list SnmpVarBind) (total0 : Z) (st : GetLoop Mib) :
  WriteAppends X enc ->
  GetWalk X enc req0 r0 vs total0 st -> getCond st = true ->
  match getBody X st with
  | Break st' => GetDone enc r0 vs total0 st' /\ isError (gl_error st') = true
  | Next st' => GetWalk X enc req0 r0 vs total0 (getIncr st')
  | Fault _ => False
  end.
Proof.
  intros HW (Hreq & Herr & Hbound & ws & rest & fuelD & k & Hl & Hi & Hd
             & Hn & Hk & Hc) Hcond.
  unfold getCond in Hcond. apply Nat.ltb_lt in Hcond.
  assert (Hlen : length (octetsAt (varBindList req0) (gl_p st)
                           (gl_length st)) = gl_length st)
    by (apply octetsAt_length; exact Hbound).
  destruct rest as [|v rest].
  { apply (decode_nil X) in Hd. rewrite Hd in Hlen. simpl in Hlen. lia. }
  destruct (decode_cons X _ _ _ _ Hd) as (fuelD' & n & _ & _ & Hp & Hle & Hd').
  rewrite Hlen in Hle.
  assert (Hstop : forall (c : SnmpAgentContext Mib) e,
            varBindList (response c)
              = varBindList (response (gl_ctx st)) ->
            (exists k', (k' <= S (length ws))%nat
                        /\ mib2Base c snmpInTotalReqVars
                           = countedUp k' total0) ->
            isError e = true ->
            GetDone enc r0 vs total0
              (mkGetLoop c (gl_p st) (gl_length st) (gl_index st) e)
            /\ isError e = true).
  { intros c e Hr (k' & Hk' & Hc') He. split; [|exact He].
    exists ws, k'. simpl. rewrite Hr, He. simpl in Hn.
    repeat split; try assumption; lia. }
  unfold getBody. rewrite Hreq, Hp. simpl isError. cbv iota.
  destruct (isError (oidCheck X (oid v))) eqn:Ho.
  { apply Hstop; [reflexivity| |exact Ho]. exists k. split; [lia|exact Hc]. }
  destruct (getRetrieve X (gl_ctx st) v) as [[l1 e1] v1] eqn:Hr.
  destruct l1.
  { apply Hstop; [reflexivity| |].
    - exists k. split; [lia|exact Hc].
    - apply getRetrieve_leave in Hr. exact Hr. }
  destruct (getCatch (gl_ctx st) e1 v1) as [[l2 c2] v2] eqn:Hcatch.
  assert (Hc2 : response c2 = response (gl_ctx st)
                /\ request c2 = request (gl_ctx st)
                /\ exists k', (k' <= S (length ws))%nat
                     /\ mib2Base c2 snmpInTotalReqVars = countedUp k' total0
                     /\ (l2 = true -> isError e1 = true)).
  { unfold getCatch in Hcatch.
    destruct (isError e1) eqn:He1.
    - repeat break_match; inv Hcatch; (split; [reflexivity|]);
        (split; [reflexivity|]); exists k; repeat split; auto; lia.
    - inv Hcatch. simpl. split; [reflexivity|]. split; [reflexivity|].
      exists (S k). split; [lia|]. split; [|discriminate].
      rewrite inc_same, Hc. reflexivity. }
  destruct Hc2 as (Hresp & Hreq2 & k' & Hk' & Hc' & Hleave).
  destruct l2.
  { apply Hstop; [rewrite Hresp; reflexivity| |apply Hleave; reflexivity].
    exists k'. split; assumption. }
  destruct (snmpWriteVarBinding X c2 v2) as [e3 r3] eqn:Hw.
  apply HW in Hw. destruct Hw as (_ & _ & Hlist).
  rewrite Hresp in Hlist.
  destruct (isError e3) eqn:He3.
  { apply Hstop; [exact Hlist| |exact He3].
    exists k'. split; assumption. }
  apply isError_false in He3. subst e3.
  rewrite (sizeSub_within X _ _ Hle).
  unfold GetWalk, getIncr. cbn [gl_ctx gl_p gl_length gl_index gl_error].
  cbn [request response mib2Base set_response].
  split; [congruence|]. split; [reflexivity|]. split; [lia|].
  exists (ws ++ [v2]), rest, fuelD', k'.
  rewrite flat_map_last, length_app, octetsAt_advance. cbn [length].
  repeat split.
  - rewrite Hlist, Hl, app_assoc. reflexivity.
  - lia.
  - exact Hd'.
  - cbn [length] in Hn. lia.
  - lia.
  - exact Hc'.
Qed.

(** The Get handler answers the bindings of a request in order: when the
    loop ends without error, the response holds one binding for each binding
    of the request; when it stops on a failure, [index] is the position of
    the binding that failed, the bindings before it having been answered.
    snmpInTotalReqVars is incremented at most once for each binding. *)
Theorem get_answers_bindings_in_order (enc : SnmpVarBind -> list Z)
    (fuel : nat) (ctx : SnmpAgentContext Mib) (r0 : SnmpMessage)
    (vs : list SnmpVarBind) :
  ParseProgress X -> WriteAppends X enc ->
  readAllowed (user_mode ctx) = true ->
  snmpInitResponse X (getCount ctx) = (NO_ERROR, r0) ->
  decodeVarBinds X (S (length (varBindList (request ctx))))
    (varBindList (request ctx)) = Some vs ->
  (length (varBindList (request ctx)) < fuel)%nat ->
  exists (st : GetLoop Mib) (ws : list SnmpVarBind) (k : nat),
    snmpProcessGetRequestPdu X fuel ctx = Some (getFinish X st)
    /\ varBindList (response (gl_ctx st)) = varBindList r0 ++ flat_map enc ws
    /\ gl_index st = Z.of_nat (length ws) + 1
    /\ (k <= length vs)%nat
    /\ mib2Base (gl_ctx st) snmpInTotalReqVars
       = countedUp k (mib2Base ctx snmpInTotalReqVars)
    /\ (if isError (gl_error st) then (length ws < length vs)%nat
        else length ws = length vs /\ (k <= length ws)%nat
             /\ getFinish X st = (NO_ERROR, gl_ctx st)).
Proof.
  intros HP HW Hmode Hinit Hdec Hfuel.
  destruct (get_runs X fuel ctx r0 HP Hmode Hinit Hfuel)
    as (st & Hloop & Hrun & _).
  destruct (getCount_fields ctx) as (Hreq & _).
  set (total0 := mib2Base ctx snmpInTotalReqVars).
  assert (Hdone : GetDone enc r0 vs total0 st).
  { apply (forLoop_post getCond (getBody X) getIncr
             (GetWalk X enc (request ctx) r0 vs total0)
             (GetDone enc r0 vs total0)) with (fuel := fuel)
             (s := getStart (set_response (getCount ctx) r0) NO_ERROR);
      [| | | |exact Hloop].
    - intros s s' Hw Hc Hb.
      pose proof (getBody_walk enc _ _ _ _ s HW Hw Hc) as H.
      rewrite Hb in H. exact H.
    - intros s s' Hw Hc Hb.
      pose proof (getBody_walk enc _ _ _ _ s HW Hw Hc) as H.
      rewrite Hb in H. apply H.
    - intros s (Hr & He & Hbound & ws & rest & fuelD & k & Hl & Hi & Hd
                & Hn & Hk & Hc) Hcond.
      unfold getCond in Hcond. apply Nat.ltb_ge in Hcond.
      assert (Hz : gl_length s = 0%nat) by lia.
      rewrite Hz in Hd. unfold octetsAt in Hd. simpl in Hd.
      apply decode_empty in Hd. subst rest. simpl in Hn.
      exists ws, k. rewrite He. simpl.
      repeat split; try assumption; lia.
    - unfold GetWalk, getStart. simpl. split; [exact Hreq|].
      split; [reflexivity|]. split; [unfold varBindListLen; rewrite Hreq; lia|].
      exists [], vs, (S (length (varBindList (request ctx)))), 0%nat.
      simpl app. rewrite app_nil_r.
      unfold varBindListLen, octetsAt. rewrite Hreq. simpl skipn.
      rewrite firstn_all. repeat split; auto.
      unfold getCount. repeat break_match; simpl; unfold total0;
        rewrite ?inc_other; auto; discriminate. }
  destruct Hdone as (ws & k & Hl & Hi & Hk & Hc & Hcase).
  exists st, ws, k. repeat split; try assumption.
  destruct (isError (gl_error st)) eqn:He; [exact Hcase|].
  destruct Hcase as [A B]. repeat split; try assumption.
  unfold getFinish. rewrite He. reflexivity.
Qed.

End GetWalkProperties.

Lemma get_answers_bindings_in_order_witness :
  Demo.outcome (snmpProcessGetRequestPdu Demo.agent 50 Demo.getV2)
    = Some (NO_ERROR,
            (SNMP_ERROR_NONE, 0,
             [Demo.assign [1; 1] [10];
              setException (Demo.nameOf [1; 5]) SNMP_EXCEPTION_NO_SUCH_OBJECT;
              Demo.assign [1; 3] [30]], 0, Demo.store0))
  /\ exists (st : GetLoop Demo.Store) (ws : list SnmpVarBind) (k : nat),
       snmpProcessGetRequestPdu Demo.agent 50 Demo.getV2
         = Some (getFinish Demo.agent st)
       /\ varBindList (response (gl_ctx st)) = Demo.encodeList ws
       /\ gl_index st = Z.of_nat (length ws) + 1
       /\ (k <= 3)%nat
       /\ mib2Base (gl_ctx st) snmpInTotalReqVars = countedUp k 0.
Proof.
  split; [vm_compute; reflexivity|].
  destruct (get_answers_bindings_in_order Demo.agent Demo.encodeVarBind 50
              Demo.getV2 (snd (Demo.initResponse (getCount Demo.getV2)))
              Demo.threeNames demo_parse_progress demo_write_appends)
    as (st & ws & k & Hrun & Hl & Hi & Hk & Hc & _).
  - reflexivity.
  - reflexivity.
  - vm_compute. reflexivity.
  - vm_compute. lia.
  - exists st, ws, k. repeat split; assumption.
Defined.

Section CounterProperties.
Context {Mib : Type} (X : Externals Mib).

Lemma onlyCounts_refl (name : Mib2Counter) (c : SnmpAgentContext Mib) :
  OnlyCounts name c c.
Proof. repeat split. Qed.

Lemma onlyCounts_response (name : Mib2Counter) (c0 c : SnmpAgentContext Mib)
    (r : SnmpMessage) :
  OnlyCounts name c0 c -> OnlyCounts name c0 (set_response c r).
Proof. intros H. exact H. Qed.

Lemma onlyCounts_inc (name : Mib2Counter) (c0 c : SnmpAgentContext Mib) :
  OnlyCounts name c0 c ->
  OnlyCounts name c0
    (set_mib2Base c (MIB2_INC_COUNTER32 name 1 (mib2Base c))).
Proof.
  intros (A & B & C). split; [|split; assumption].
  intros k Hk. simpl. rewrite inc_other by exact Hk. apply A, Hk.
Qed.

Lemma getBody_counters (c0 : SnmpAgentContext Mib) (st : GetLoop Mib) :
  OnlyCounts snmpInTotalReqVars c0 (gl_ctx st) ->
  OnlyCounts snmpInTotalReqVars c0 (gl_ctx (flowState (getBody X st))).
Proof.
  intros H. unfold getBody.
  destruct (snmpParseVarBinding X _) as [[e v] n].
  destruct (isError e); [exact H|].
  destruct (isError (oidCheck X (oid v))); [exact H|].
  destruct (getRetrieve X (gl_ctx st) v) as [[l1 e1] v1].
  destruct l1; [exact H|].
  destruct (getCatch (gl_ctx st) e1 v1) as [[l2 c2] v2] eqn:Hc.
  assert (H2 : OnlyCounts snmpInTotalReqVars c0 c2).
  { unfold getCatch in Hc. repeat break_match; inv Hc; try exact H.
    apply onlyCounts_inc. exact H. }
  destruct l2; [exact H2|].
  destruct (snmpWriteVarBinding X c2 v2) as [e3 r3].
  destruct (isError e3); exact H2.
Qed.

Lemma getFinish_counters (c0 : SnmpAgentContext Mib) (st : GetLoop Mib) :
  OnlyCounts snmpInTotalReqVars c0 (gl_ctx st) ->
  OnlyCounts snmpInTotalReqVars c0 (snd (getFinish X st)).
Proof.
  intros H. unfold getFinish, translateStatus, copyVarBindingList.
  destruct (isError (gl_error st)); [|exact H].
  destruct (snmpTranslateStatusCode X _ _ _) as [e1 r1].
  destruct (isError e1); [exact H|]. simpl.
  destruct (_ && _); [exact H|].
  destruct (snmpCopyVarBindingList X _) as [e2 r2].
  destruct (isError e2); exact H.
Qed.

(** With the access mode allowing it, the Get handler changes no counter
    but snmpInTotalReqVars once the request is counted. *)
Lemma get_counts (fuel : nat) (ctx : SnmpAgentContext Mib)
    (result : error_t * SnmpAgentContext Mib) :
  readAllowed (user_mode ctx) = true ->
  snmpProcessGetRequestPdu X fuel ctx = Some result ->
  OnlyCounts snmpInTotalReqVars (getCount ctx) (snd result).
Proof.
  intros Hmode Hrun. unfold snmpProcessGetRequestPdu in Hrun.
  destruct (getCount_fields ctx) as (_ & _ & Hm & _).
  rewrite Hm, Hmode in Hrun. simpl negb in Hrun. cbv iota in Hrun.
  destruct (snmpInitResponse X (getCount ctx)) as [e r0].
  destruct (isError e).
  { inv Hrun. apply onlyCounts_response, onlyCounts_refl. }
  destruct (forLoop _ _ _ _ _) as [st|] eqn:Hloop; [|discriminate].
  inv Hrun. apply getFinish_counters.
  apply (forLoop_invariant getCond (getBody X) getIncr
           (fun s => OnlyCounts snmpInTotalReqVars (getCount ctx)
                       (gl_ctx s))) with (fuel := fuel)
           (s := getStart (set_response (getCount ctx) r0) e);
    [| | |exact Hloop].
  - intros s s' Hi _ Hb. pose proof (getBody_counters _ s Hi) as H.
    rewrite Hb in H. exact H.
  - intros s s' Hi _ Hb. pose proof (getBody_counters _ s Hi) as H.
    rewrite Hb in H. exact H.
  - apply onlyCounts_response, onlyCounts_refl.
Qed.

(** The request counters of the Get handler.  The request is counted in
    snmpInGetRequests or snmpInGetNexts before the access mode is looked
    at, so a request that is then refused is counted as well; a refused
    request adds one to snmpInBadCommunityUses in the MIB-II and in the
    SNMP-MIB groups and retrieves nothing.  No other counter changes but
    snmpInTotalReqVars. *)
Theorem get_request_counters (fuel : nat) (ctx : SnmpAgentContext Mib)
    (result : error_t * SnmpAgentContext Mib) :
  snmpProcessGetRequestPdu X fuel ctx = Some result ->
  let before := mib2Base ctx in
  let after := mib2Base (snd result) in
  let type := pduType (request ctx) in
  let allowed := readAllowed (user_mode ctx) in
  let once (cond : bool) (z : Z) := if cond then wrapU32 (z + 1) else z in
  after snmpInGetRequests
  = once (SnmpPduType_beq type SNMP_PDU_GET_REQUEST)
      (before snmpInGetRequests)
  /\ after snmpInGetNexts
     = once (SnmpPduType_beq type SNMP_PDU_GET_NEXT_REQUEST)
         (before snmpInGetNexts)
  /\ after snmpInBadCommunityUses
     = once (negb allowed) (before snmpInBadCommunityUses)
  /\ snmpMibBase (snd result) snmpInBadCommunityUses
     = once (negb allowed) (snmpMibBase ctx snmpInBadCommunityUses)
  /\ (forall k, k <> snmpInBadCommunityUses ->
        snmpMibBase (snd result) k = snmpMibBase ctx k)
  /\ after snmpInSetRequests = before snmpInSetRequests
  /\ after snmpInTotalSetVars = before snmpInTotalSetVars
  /\ after snmpOutGetResponses = before snmpOutGetResponses
  /\ snmpUsmMibBase (snd result) = snmpUsmMibBase ctx
  /\ (allowed = false ->
      fst result = ERROR_ACCESS_DENIED
      /\ after snmpInTotalReqVars = before snmpInTotalReqVars
      /\ mib (snd result) = mib ctx
      /\ response (snd result) = response ctx).
Proof.
  intros Hrun. cbv zeta. pose proof Hrun as Hrun0.
  assert (Hcount : forall k, mib2Base (getCount ctx) k =
            if Mib2Counter_beq k snmpInGetRequests
               && SnmpPduType_beq (pduType (request ctx)) SNMP_PDU_GET_REQUEST
            then wrapU32 (mib2Base ctx k + 1)
            else if Mib2Counter_beq k snmpInGetNexts
                    && SnmpPduType_beq (pduType (request ctx))
                         SNMP_PDU_GET_NEXT_REQUEST
            then wrapU32 (mib2Base ctx k + 1)
            else mib2Base ctx k).
  { intros k. unfold getCount, MIB2_INC_COUNTER32, incCounter.
    destruct (pduType (request ctx)); destruct k; reflexivity. }
  assert (Hother : snmpMibBase (getCount ctx) = snmpMibBase ctx
                   /\ snmpUsmMibBase (getCount ctx) = snmpUsmMibBase ctx
                   /\ user_mode (getCount ctx) = user_mode ctx
                   /\ mib (getCount ctx) = mib ctx
                   /\ response (getCount ctx) = response ctx).
  { unfold getCount. repeat break_match; repeat split. }
  destruct Hother as (Hs & Hu & Hm & Hmib & Hresp).
  unfold snmpProcessGetRequestPdu in Hrun. rewrite Hm in Hrun.
  destruct (readAllowed (user_mode ctx)) eqn:Hmode; simpl negb in *;
    cbv iota in Hrun.
  - pose proof (get_counts fuel ctx result Hmode Hrun0) as Hres.
    destruct Hres as (A & B & C).
    rewrite !A, !Hcount, B, C, Hs, Hu by discriminate. simpl.
    repeat split; try reflexivity; discriminate.
  - inv Hrun. unfold badCommunityUse. simpl.
    rewrite Hs, Hu, Hmib, Hresp.
    rewrite !inc_same, !inc_other, !Hcount by discriminate. simpl.
    repeat split; try reflexivity.
    intros k Hk. unfold SNMP_MIB_INC_COUNTER32.
    fold MIB2_INC_COUNTER32. apply inc_other. exact Hk.
Qed.

Lemma bulkBody_counters (c0 : SnmpAgentContext Mib) (st : BulkLoop Mib) :
  OnlyCounts snmpInTotalReqVars c0 (bl_ctx st) ->
  OnlyCounts snmpInTotalReqVars c0 (bl_ctx (flowState (bulkBody X st))).
Proof.
  intros H. unfold bulkBody, bulkAnswer.
  destruct (_ && _); [exact H|].
  destruct (snmpParseVarBinding X _) as [[e v] n].
  destruct (isError e); [exact H|].
  destruct (isError (oidCheck X (oid v))); [exact H|].
  destruct (bulkRetrieve X (bl_ctx st) v _) as [[[l1 eom] e1] v1].
  destruct l1; [exact H|].
  destruct (bulkCatch (bl_ctx st) e1 v1) as [[l2 c2] v2] eqn:Hc.
  assert (H2 : OnlyCounts snmpInTotalReqVars c0 c2).
  { unfold bulkCatch in Hc. repeat break_match; inv Hc; try exact H.
    apply onlyCounts_inc. exact H. }
  destruct l2; [exact H2|].
  destruct (snmpWriteVarBinding X c2 v2) as [e3 r3].
  destruct (isError e3); [exact H2|].
  unfold bulkRepeat. cbn [ba_ctx]. repeat break_match; exact H2.
Qed.

Lemma bulkFinish_counters (c0 : SnmpAgentContext Mib) (st : BulkLoop Mib) :
  OnlyCounts snmpInTotalReqVars c0 (bl_ctx st) ->
  OnlyCounts snmpInTotalReqVars c0 (snd (bulkFinish X st)).
Proof.
  intros H. unfold bulkFinish, translateStatus, copyVarBindingList.
  destruct (error_t_beq _ _); [exact H|].
  destruct (isError (bl_error st)); [|exact H].
  destruct (snmpTranslateStatusCode X _ _ _) as [e1 r1].
  destruct (isError e1); [exact H|]. simpl.
  destruct (snmpCopyVarBindingList X _) as [e2 r2].
  destruct (isError e2); exact H.
Qed.

Lemma bulk_counts (fuel : nat) (ctx : SnmpAgentContext Mib)
    (result : error_t * SnmpAgentContext Mib) :
  (version (request ctx) =? SNMP_VERSION_1) = false ->
  readAllowed (user_mode ctx) = true ->
  snmpProcessGetBulkRequestPdu X fuel ctx = Some result ->
  OnlyCounts snmpInTotalReqVars ctx (snd result).
Proof.
  intros Hv Hmode Hrun. unfold snmpProcessGetBulkRequestPdu in Hrun.
  rewrite Hv, Hmode in Hrun. simpl negb in Hrun. cbv iota in Hrun.
  destruct (snmpInitResponse X ctx) as [e r0].
  destruct (isError e).
  { inv Hrun. apply onlyCounts_response, onlyCounts_refl. }
  destruct (forLoop _ _ _ _ _) as [st|] eqn:Hloop; [|discriminate].
  inv Hrun. apply bulkFinish_counters.
  apply (forLoop_invariant bulkCond (bulkBody X) bulkIncr
           (fun s => OnlyCounts snmpInTotalReqVars ctx (bl_ctx s)))
    with (fuel := fuel) (s := bulkStart (set_response ctx r0) e);
    [| | |exact Hloop].
  - intros s s' Hi _ Hb. pose proof (bulkBody_counters _ s Hi) as H.
    rewrite Hb in H. exact H.
  - intros s s' Hi _ Hb. pose proof (bulkBody_counters _ s Hi) as H.
    rewrite Hb in H. exact H.
  - apply onlyCounts_response, onlyCounts_refl.
Qed.

(** The counters of the GetBulk handler.  A GetBulkRequest is counted in no
    request counter.  Under v1 it is refused before the access mode is
    looked at and the context is left as it is: the request is not counted
    in snmpInBadCommunityUses even when the access mode does not allow
    reading.  Otherwise a request whose access mode does not allow reading
    adds one to snmpInBadCommunityUses in both groups and retrieves
    nothing.  No other counter changes but snmpInTotalReqVars. *)
Theorem bulk_request_counters (fuel : nat) (ctx : SnmpAgentContext Mib)
    (result : error_t * SnmpAgentContext Mib) :
  snmpProcessGetBulkRequestPdu X fuel ctx = Some result ->
  let before := mib2Base ctx in
  let after := mib2Base (snd result) in
  let v1 := version (request ctx) =? SNMP_VERSION_1 in
  let refused := negb v1 && negb (readAllowed (user_mode ctx)) in
  let once (cond : bool) (z : Z) := if cond then wrapU32 (z + 1) else z in
  (forall k, k <> snmpInTotalReqVars -> k <> snmpInBadCommunityUses ->
     after k = before k)
  /\ after snmpInBadCommunityUses
     = once refused (before snmpInBadCommunityUses)
  /\ snmpMibBase (snd result) snmpInBadCommunityUses
     = once refused (snmpMibBase ctx snmpInBadCommunityUses)
  /\ (forall k, k <> snmpInBadCommunityUses ->
        snmpMibBase (snd result) k = snmpMibBase ctx k)
  /\ snmpUsmMibBase (snd result) = snmpUsmMibBase ctx
  /\ (v1 = true -> result = (ERROR_INVALID_TYPE, ctx))
  /\ (refused = true ->
      fst result = ERROR_ACCESS_DENIED
      /\ after snmpInTotalReqVars = before snmpInTotalReqVars
      /\ mib (snd result) = mib ctx
      /\ request (snd result) = request ctx
      /\ response (snd result) = response ctx).
Proof.
  intros Hrun. cbv zeta. pose proof Hrun as Hrun0.
  unfold snmpProcessGetBulkRequestPdu in Hrun.
  destruct (version (request ctx) =? SNMP_VERSION_1) eqn:Hv.
  { inv Hrun. simpl. repeat split; try reflexivity; discriminate. }
  destruct (readAllowed (user_mode ctx)) eqn:Hmode; simpl negb in *;
    cbv iota in Hrun.
  - pose proof (bulk_counts fuel ctx result Hv Hmode Hrun0) as Hres.
    destruct Hres as (A & B & C). rewrite B, C. simpl.
    repeat split; try reflexivity; try discriminate.
    + intros k H1 _. apply A, H1.
    + apply A. discriminate.
  - inv Hrun. unfold badCommunityUse. simpl.
    rewrite !inc_same. repeat split; try reflexivity; try discriminate.
    + intros k _ H2. apply inc_other, H2.
    + intros k Hk. unfold SNMP_MIB_INC_COUNTER32.
      fold MIB2_INC_COUNTER32. apply inc_other. exact Hk.
Qed.

Lemma setBody_counters (commit : bool) (c0 : SnmpAgentContext Mib)
    (st : SetLoop Mib) :
  OnlyCounts snmpInTotalSetVars c0 (sl_ctx st) ->
  OnlyCounts snmpInTotalSetVars c0
    (sl_ctx (flowState (setBody X commit st))).
Proof.
  intros H. unfold setBody.
  destruct (snmpParseVarBinding X _) as [[e v] n].
  destruct (isError e); [exact H|].
  destruct (snmpSetObjectValue X _ _ _ _) as [e1 s1].
  destruct (isError e1); [exact H|].
  destruct commit; [|exact H].
  apply (onlyCounts_inc snmpInTotalSetVars c0 (set_mib (sl_ctx st) s1)).
  exact H.
Qed.

Lemma setLoop_counters (commit : bool) (c0 : SnmpAgentContext Mib)
    (fuel : nat) (st st' : SetLoop Mib) :
  OnlyCounts snmpInTotalSetVars c0 (sl_ctx st) ->
  forLoop setCond (setBody X commit) setIncr fuel st = Some st' ->
  OnlyCounts snmpInTotalSetVars c0 (sl_ctx st').
Proof.
  intros H0.
  apply (forLoop_invariant setCond (setBody X commit) setIncr
           (fun s => OnlyCounts snmpInTotalSetVars c0 (sl_ctx s)));
    [| |exact H0].
  - intros s s' Hi _ Hb. pose proof (setBody_counters commit _ s Hi) as H.
    rewrite Hb in H. exact H.
  - intros s s' Hi _ Hb. pose proof (setBody_counters commit _ s Hi) as H.
    rewrite Hb in H. exact H.
Qed.

Lemma setFinish_counters (c0 : SnmpAgentContext Mib) (st : SetLoop Mib) :
  OnlyCounts snmpInTotalSetVars c0 (sl_ctx st) ->
  OnlyCounts snmpInTotalSetVars c0 (snd (setFinish X st)).
Proof.
  intros H. unfold setFinish, translateStatus, copyVarBindingList.
  destruct (isError (sl_error st)).
  - destruct (snmpTranslateStatusCode X _ _ _) as [e1 r1].
    destruct (isError e1); [exact H|]. simpl.
    destruct (snmpCopyVarBindingList X _) as [e2 r2]. exact H.
  - destruct (snmpCopyVarBindingList X _) as [e2 r2]. exact H.
Qed.

Lemma set_counts (fuel : nat) (ctx : SnmpAgentContext Mib)
    (result : error_t * SnmpAgentContext Mib) :
  writeAllowed (user_mode ctx) = true ->
  snmpProcessSetRequestPdu X fuel ctx = Some result ->
  OnlyCounts snmpInTotalSetVars (setCount ctx) (snd result).
Proof.
  intros Hmode Hrun. unfold snmpProcessSetRequestPdu in Hrun.
  change (user_mode (setCount ctx)) with (user_mode ctx) in Hrun.
  rewrite Hmode in Hrun. simpl negb in Hrun. cbv iota in Hrun.
  destruct (snmpInitResponse X (setCount ctx)) as [e r0].
  destruct (isError e).
  { inv Hrun. apply onlyCounts_response, onlyCounts_refl. }
  destruct (forLoop setCond (setBody X false) _ _ _) as [st1|] eqn:Hloop1;
    [|discriminate].
  assert (H1 : OnlyCounts snmpInTotalSetVars (setCount ctx) (sl_ctx st1)).
  { apply (setLoop_counters false _ _ _ _
             (onlyCounts_response _ _ _ r0 (onlyCounts_refl _ _)) Hloop1). }
  destruct (isError (sl_error st1)).
  { inv Hrun. apply setFinish_counters. exact H1. }
  destruct (forLoop setCond (setBody X true) _ _ _) as [st2|] eqn:Hloop2;
    [|discriminate].
  inv Hrun. apply setFinish_counters.
  apply (setLoop_counters true _ _ (setStart (sl_ctx st1) (sl_error st1))
           _ H1 Hloop2).
Qed.

(** The request counters of the Set handler.  The request is counted in
    snmpInSetRequests before the access mode is looked at; a request whose
    access mode does not allow writing adds one to snmpInBadCommunityUses
    in both groups and leaves the MIB as it is.  No other counter changes
    but snmpInTotalSetVars. *)
Theorem set_request_counters (fuel : nat) (ctx : SnmpAgentContext Mib)
    (result : error_t * SnmpAgentContext Mib) :
  snmpProcessSetRequestPdu X fuel ctx = Some result ->
  let before := mib2Base ctx in
  let after := mib2Base (snd result) in
  let allowed := writeAllowed (user_mode ctx) in
  let once (cond : bool) (z : Z) := if cond then wrapU32 (z + 1) else z in
  after snmpInSetRequests = wrapU32 (before snmpInSetRequests + 1)
  /\ after snmpInBadCommunityUses
     = once (negb allowed) (before snmpInBadCommunityUses)
  /\ snmpMibBase (snd result) snmpInBadCommunityUses
     = once (negb allowed) (snmpMibBase ctx snmpInBadCommunityUses)
  /\ (forall k, k <> snmpInBadCommunityUses ->
        snmpMibBase (snd result) k = snmpMibBase ctx k)
  /\ (forall k, k <> snmpInSetRequests -> k <> snmpInBadCommunityUses ->
        k <> snmpInTotalSetVars -> after k = before k)
  /\ snmpUsmMibBase (snd result) = snmpUsmMibBase ctx
  /\ (allowed = false ->
      fst result = ERROR_ACCESS_DENIED
      /\ after snmpInTotalSetVars = before snmpInTotalSetVars
      /\ mib (snd result) = mib ctx
      /\ response (snd result) = response ctx).
Proof.
  intros Hrun. cbv zeta. pose proof Hrun as Hrun0.
  unfold snmpProcessSetRequestPdu in Hrun.
  change (user_mode (setCount ctx)) with (user_mode ctx) in Hrun.
  destruct (writeAllowed (user_mode ctx)) eqn:Hmode; simpl negb in *;
    cbv iota in Hrun.
  - pose proof (set_counts fuel ctx result Hmode Hrun0) as Hres.
    destruct Hres as (A & B & C). rewrite B, C.
    rewrite !A by discriminate. unfold setCount. simpl.
    rewrite inc_same, inc_other by discriminate.
    repeat split; try reflexivity; try discriminate.
    intros k H1 H2 H3. rewrite A by exact H3. simpl.
    apply inc_other, H1.
  - inv Hrun. unfold badCommunityUse, setCount. simpl.
    rewrite !inc_same, !inc_other by discriminate. rewrite inc_same.
    repeat split; try reflexivity.
    + intros k Hk. unfold SNMP_MIB_INC_COUNTER32.
      fold MIB2_INC_COUNTER32. apply inc_other. exact Hk.
    + intros k H1 H2 _. rewrite !inc_other by assumption. reflexivity.
Qed.

End CounterProperties.

Lemma get_request_counters_witness :
  snmpProcessGetRequestPdu Demo.agent 50 Demo.getDenied
    = Some (ERROR_ACCESS_DENIED, badCommunityUse (getCount Demo.getDenied))
  /\ mib2Base (badCommunityUse (getCount Demo.getDenied)) snmpInGetRequests
     = 1
  /\ mib2Base (badCommunityUse (getCount Demo.getDenied))
       snmpInBadCommunityUses = 1
  /\ snmpMibBase (badCommunityUse (getCount Demo.getDenied))
       snmpInBadCommunityUses = 1.
Proof.
  split; [reflexivity|].
  destruct (get_request_counters Demo.agent 50 Demo.getDenied _ eq_refl)
    as (A & _ & B & C & _).
  split; [exact A|]. split; [exact B|exact C].
Defined.

Lemma bulk_request_counters_witness :
  snmpProcessGetBulkRequestPdu Demo.agent 50 Demo.bulkV1
    = Some (ERROR_INVALID_TYPE, Demo.bulkV1)
  /\ readAllowed (user_mode Demo.bulkV1) = false
  /\ mib2Base Demo.bulkV1 snmpInBadCommunityUses = 0
  /\ snmpMibBase Demo.bulkV1 snmpInBadCommunityUses = 0.
Proof.
  split; [reflexivity|]. split; [reflexivity|].
  destruct (bulk_request_counters Demo.agent 50 Demo.bulkV1 _ eq_refl)
    as (_ & A & B & _).
  split; [exact A|exact B].
Defined.

Lemma set_request_counters_witness :
  snmpProcessSetRequestPdu Demo.agent 50 Demo.setDenied
    = Some (ERROR_ACCESS_DENIED, badCommunityUse (setCount Demo.setDenied))
  /\ mib2Base (badCommunityUse (setCount Demo.setDenied)) snmpInSetRequests = 1
  /\ mib2Base (badCommunityUse (setCount Demo.setDenied)) snmpInBadCommunityUses
     = 1
  /\ mib (badCommunityUse (setCount Demo.setDenied)) = Demo.store0.
Proof.
  split; [reflexivity|].
  destruct (set_request_counters Demo.agent 50 Demo.setDenied _ eq_refl)
    as (A & B & _ & _ & _ & _ & C).
  split; [exact A|]. split; [exact B|].
  destruct (C eq_refl) as (_ & _ & D & _). exact D.
Defined.

Section SetCountProperties.
Context {Mib : Type} (X : Externals Mib).

Lemma countedUp_first (j : nat) (z : Z) :
  countedUp j (wrapU32 (z + 1)) = countedUp (S j) z.
Proof. unfold countedUp. rewrite Nat.iter_succ_r. reflexivity. Qed.

(** A phase of the Set handler counts the bindings it commits: [j] bindings
    are passed before the phase ends, all of them when it ends without
    error. *)
Lemma setAll_counts (commit : bool) (vs : list SnmpVarBind) :
  forall (ctx ctx' : SnmpAgentContext Mib) (k0 idx : Z) (e : error_t),
    setAll X commit ctx vs k0 = (e, idx, ctx') ->
    exists j : nat,
      idx = k0 + Z.of_nat j
      /\ (if isError e then (j < length vs)%nat else j = length vs)
      /\ mib2Base ctx' snmpInTotalSetVars
         = countedUp (if commit then j else 0%nat)
             (mib2Base ctx snmpInTotalSetVars).
Proof.
  induction vs as [|v vs IH]; intros ctx ctx' k0 idx e H; simpl in H.
  - inv H. exists 0%nat. simpl. repeat split; try lia.
    destruct commit; reflexivity.
  - destruct (snmpSetObjectValue X ctx (request ctx) v commit) as [e1 s1].
    destruct (isError e1) eqn:He1.
    + inv H. exists 0%nat. rewrite He1. simpl.
      repeat split; try lia. destruct commit; reflexivity.
    + apply IH in H. destruct H as (j & Hi & Hj & Hc).
      exists (S j). split; [lia|]. split.
      * destruct (isError e); simpl; lia.
      * rewrite Hc. destruct commit; [|reflexivity].
        simpl mib2Base. rewrite inc_same. apply countedUp_first.
Qed.

(** snmpInTotalSetVars counts the bindings the Set handler committed,
    [vs] being the bindings of the request's list that parse and [rest] the
    parser's status for what follows them.  When the validation phase fails
    (a binding is refused, or what follows [vs] does not parse) the handler
    stops there and the counter is left as it was.  When the validation
    phase passes, the commit phase ends at an index [i]: the counter has
    then counted the [i - 1] bindings committed before it, which are fewer
    than the bindings of the request when the commit at [i] failed, and all
    of them otherwise. *)
Theorem set_counts_committed_bindings (fuel : nat)
    (ctx : SnmpAgentContext Mib) (r0 : SnmpMessage)
    (vs : list SnmpVarBind) (rest : error_t) :
  ParseProgress X ->
  writeAllowed (user_mode ctx) = true ->
  snmpInitResponse X (setCount ctx) = (NO_ERROR, r0) ->
  parsedBinds X (S (length (varBindList (request ctx))))
    (varBindList (request ctx)) = (vs, rest) ->
  (length vs < fuel)%nat ->
  let ctx1 := set_response (setCount ctx) r0 in
  let total := mib2Base ctx snmpInTotalSetVars in
  let validation := setThen (setAll X false ctx1 vs 1) rest in
  exists st : SetLoop Mib,
    snmpProcessSetRequestPdu X fuel ctx = Some (setFinish X st)
    /\ let counted := mib2Base (snd (setFinish X st)) snmpInTotalSetVars in
       if isError (fst (fst validation)) then
         (sl_error st, sl_index st, sl_ctx st) = validation
         /\ counted = total
       else
         (sl_error st, sl_index st, sl_ctx st)
         = setAll X true (snd validation) vs 1
         /\ counted = countedUp (Z.to_nat (sl_index st - 1)) total
         /\ if isError (sl_error st)
            then (Z.to_nat (sl_index st - 1) < length vs)%nat
            else Z.to_nat (sl_index st - 1) = length vs.
Proof.
  intros HP Hmode Hinit Hdec Hfuel ctx1 total validation.
  assert (Hfin : forall st : SetLoop Mib,
            mib2Base (snd (setFinish X st)) snmpInTotalSetVars
            = mib2Base (sl_ctx st) snmpInTotalSetVars).
  { intros st. unfold setFinish, translateStatus, copyVarBindingList.
    destruct (isError (sl_error st)).
    - destruct (snmpTranslateStatusCode X _ _ _) as [e1 r1].
      destruct (isError e1); [reflexivity|]. simpl.
      destruct (snmpCopyVarBindingList X _). reflexivity.
    - destruct (snmpCopyVarBindingList X _). reflexivity. }
  assert (Htotal : mib2Base ctx1 snmpInTotalSetVars = total).
  { unfold ctx1, total, setCount. simpl. apply inc_other. discriminate. }
  destruct (setLoop_follows X false vs rest HP
              (S (length (varBindList (request ctx)))) fuel
              (setStart ctx1 NO_ERROR)) as (st1 & Hloop1 & Hres1);
    try reflexivity.
  { simpl. unfold varBindListLen. simpl. lia. }
  { unfold setStart, octetsAt, varBindListLen. simpl.
    rewrite firstn_all. exact Hdec. }
  { simpl. unfold varBindListLen. simpl. lia. }
  { exact Hfuel. }
  simpl sl_ctx in Hres1. simpl sl_index in Hres1.
  fold validation in Hres1.
  assert (Hrun : snmpProcessSetRequestPdu X fuel ctx
                 = if isError (sl_error st1) then Some (setFinish X st1)
                   else match forLoop setCond (setBody X true) setIncr fuel
                                (setStart (sl_ctx st1) (sl_error st1)) with
                        | None => None
                        | Some st2 => Some (setFinish X st2)
                        end).
  { unfold snmpProcessSetRequestPdu. simpl user_mode. rewrite Hmode.
    simpl. rewrite Hinit. simpl. fold ctx1. rewrite Hloop1. reflexivity. }
  assert (Hkeep : mib2Base (snd validation) snmpInTotalSetVars = total).
  { unfold validation, setThen.
    destruct (setAll X false ctx1 vs 1) as [[e1 i1] c1] eqn:Hv.
    destruct (setAll_counts false vs _ _ _ _ _ Hv) as (j1 & _ & _ & Hc1).
    rewrite Htotal in Hc1.
    destruct (isError e1); exact Hc1. }
  assert (Hst1 : sl_error st1 = fst (fst validation)
                 /\ sl_ctx st1 = snd validation).
  { rewrite <- Hres1. split; reflexivity. }
  destruct Hst1 as [Herr1 Hctx1]. rewrite <- Herr1.
  destruct (isError (sl_error st1)) eqn:He1.
  - exists st1. split; [exact Hrun|]. cbv zeta.
    split; [exact Hres1|]. rewrite Hfin, Hctx1. exact Hkeep.
  - apply isError_false in He1. rewrite He1 in Hrun.
    assert (Hrest : rest = NO_ERROR).
    { revert Herr1. unfold validation, setThen.
      destruct (setAll X false ctx1 vs 1) as [[e1 i1] c1].
      destruct (isError e1) eqn:Hx; simpl; intros Hy.
      - rewrite <- Hy, He1 in Hx. discriminate.
      - congruence. }
    assert (Hreq : request (sl_ctx st1) = request ctx).
    { apply (setLoop_request X) in Hloop1. exact Hloop1. }
    destruct (setLoop_follows X true vs rest HP
                (S (length (varBindList (request ctx)))) fuel
                (setStart (sl_ctx st1) NO_ERROR)) as (st2 & Hloop2 & Hres2);
      try reflexivity.
    { simpl. unfold varBindListLen. lia. }
    { unfold setStart, octetsAt, varBindListLen.
      cbn [sl_ctx sl_p sl_length]. rewrite Hreq. simpl skipn.
      rewrite firstn_all. exact Hdec. }
    { simpl. unfold varBindListLen. rewrite Hreq. lia. }
    { exact Hfuel. }
    rewrite Hloop2 in Hrun. exists st2. split; [exact Hrun|]. cbv zeta.
    cbn [sl_ctx sl_index setStart] in Hres2. rewrite Hctx1, Hrest in Hres2.
    assert (Hcommit : (sl_error st2, sl_index st2, sl_ctx st2)
                      = setAll X true (snd validation) vs 1).
    { rewrite Hres2. unfold setThen.
      destruct (setAll X true (snd validation) vs 1) as [[e i] c].
      destruct (isError e) eqn:He; [reflexivity|].
      apply isError_false in He. subst e. reflexivity. }
    split; [exact Hcommit|]. symmetry in Hcommit.
    destruct (setAll_counts true vs _ _ _ _ _ Hcommit) as (j & Hi & Hj & Hc).
    replace (Z.to_nat (sl_index st2 - 1)) with j by lia.
    split; [|exact Hj]. rewrite Hfin, Hc, Hkeep. reflexivity.
Qed.

End SetCountProperties.

Lemma set_counts_committed_bindings_witness :
  Demo.outcome (snmpProcessSetRequestPdu Demo.agent 50 Demo.setFaulty)
    = Some (NO_ERROR,
            (SNMP_ERROR_GENERIC, 2,
             [Demo.assign [1; 1] [11]; Demo.assign [66; 1] [61];
              Demo.assign [1; 3] [33]], 0,
             [([1; 1], [11]); ([1; 2], [20]); ([1; 3], [30]);
              ([66; 1], [60])]))
  /\ (exists st : SetLoop Demo.Store,
        snmpProcessSetRequestPdu Demo.agent 50 Demo.setFaulty
          = Some (setFinish Demo.agent st)
        /\ sl_error st = ERROR_FAILURE
        /\ sl_index st = 2
        /\ mib2Base (snd (setFinish Demo.agent st)) snmpInTotalSetVars
           = countedUp 1 0)
  /\ (exists st : SetLoop Demo.Store,
        snmpProcessSetRequestPdu Demo.agent 50 Demo.setRefusedCut
          = Some (setFinish Demo.agent st)
        /\ sl_error st = ERROR_WRONG_VALUE
        /\ sl_index st = 2
        /\ mib2Base (snd (setFinish Demo.agent st)) snmpInTotalSetVars = 0).
Proof.
  split; [vm_compute; reflexivity|]. split.
  - destruct (set_counts_committed_bindings Demo.agent 50 Demo.setFaulty
                (snd (Demo.initResponse (setCount Demo.setFaulty)))
                [Demo.assign [1; 1] [11]; Demo.assign [66; 1] [61];
                 Demo.assign [1; 3] [33]] NO_ERROR demo_parse_progress)
      as (st & Hrun & Hcase).
    + reflexivity.
    + reflexivity.
    + vm_compute. reflexivity.
    + simpl. lia.
    + cbv zeta in Hcase.
      match type of Hcase with
      | if ?b then _ else _ =>
          replace b with false in Hcase by (vm_compute; reflexivity)
      end.
      destruct Hcase as (Hstop & Hcount & _).
      assert (Herr : sl_error st = ERROR_FAILURE)
        by (apply (f_equal (fun t => fst (fst t))) in Hstop; exact Hstop).
      assert (Hidx : sl_index st = 2)
        by (apply (f_equal (fun t => snd (fst t))) in Hstop; exact Hstop).
      exists st. split; [exact Hrun|]. split; [exact Herr|].
      split; [exact Hidx|]. rewrite Hcount, Hidx. reflexivity.
  - destruct (set_counts_committed_bindings Demo.agent 50 Demo.setRefusedCut
                (snd (Demo.initResponse (setCount Demo.setRefusedCut)))
                [Demo.assign [1; 1] [11]; Demo.assign [1; 2] []]
                ERROR_INVALID_TAG demo_parse_progress)
      as (st & Hrun & Hcase).
    + reflexivity.
    + reflexivity.
    + vm_compute. reflexivity.
    + simpl. lia.
    + cbv zeta in Hcase.
      match type of Hcase with
      | if ?b then _ else _ =>
          replace b with true in Hcase by (vm_compute; reflexivity)
      end.
      destruct Hcase as (Hstop & Hcount).
      assert (Herr : sl_error st = ERROR_WRONG_VALUE)
        by (apply (f_equal (fun t => fst (fst t))) in Hstop; exact Hstop).
      assert (Hidx : sl_index st = 2)
        by (apply (f_equal (fun t => snd (fst t))) in Hstop; exact Hstop).
      exists st. split; [exact Hrun|]. split; [exact Herr|].
      split; [exact Hidx|]. rewrite Hcount. reflexivity.
Defined.

Section ReturnProperties.
Context {Mib : Type} (X : Externals Mib).

(** The Get and Set handlers return: their loops make at most one pass for
    each octet of the request's list, whatever the list holds, as long as
    the parser reports, for each binding it accepts, at least one octet and
    no more octets than it was given. *)
Theorem get_and_set_handlers_return (ctx : SnmpAgentContext Mib) :
  ParseProgress X ->
  let enough fuel := (length (varBindList (request ctx)) < fuel)%nat in
  (exists result, forall fuel, enough fuel ->
     snmpProcessGetRequestPdu X fuel ctx = Some result)
  /\ (exists result, forall fuel, enough fuel ->
        snmpProcessSetRequestPdu X fuel ctx = Some result).
Proof.
  intros HP. cbv zeta.
  set (len := length (varBindList (request ctx))). split.
  - unfold snmpProcessGetRequestPdu.
    destruct (negb (readAllowed (user_mode (getCount ctx)))); [eauto|].
    destruct (snmpInitResponse X (getCount ctx)) as [e r0].
    destruct (isError e); [eauto|].
    destruct (getLoop_ends X (S len)
                (getStart (set_response (getCount ctx) r0) e) HP)
      as [st Hst].
    { destruct (getCount_fields ctx) as (Hreq & _).
      simpl. unfold varBindListLen. rewrite Hreq. fold len. lia. }
    exists (getFinish X st). intros fuel Hf.
    rewrite (forLoop_le _ _ _ _ _ _ _ Hst) by lia. reflexivity.
  - unfold snmpProcessSetRequestPdu.
    destruct (negb (writeAllowed (user_mode (setCount ctx)))); [eauto|].
    destruct (snmpInitResponse X (setCount ctx)) as [e r0].
    destruct (isError e); [eauto|].
    destruct (setLoop_ends X false (S len)
                (setStart (set_response (setCount ctx) r0) e) HP)
      as [st1 Hst1].
    { simpl. unfold varBindListLen. simpl. fold len. lia. }
    destruct (isError (sl_error st1)) eqn:He1.
    { exists (setFinish X st1). intros fuel Hf.
      rewrite (forLoop_le _ _ _ _ _ _ _ Hst1) by lia.
      rewrite He1. reflexivity. }
    destruct (setLoop_ends X true (S len)
                (setStart (sl_ctx st1) (sl_error st1)) HP) as [st2 Hst2].
    { apply (setLoop_request X) in Hst1. simpl in Hst1.
      simpl. unfold varBindListLen. rewrite Hst1. fold len. lia. }
    exists (setFinish X st2). intros fuel Hf.
    rewrite (forLoop_le _ _ _ _ _ _ _ Hst1) by lia.
    rewrite He1. rewrite (forLoop_le _ _ _ _ _ _ _ Hst2) by lia.
    reflexivity.
Qed.

End ReturnProperties.

Lemma get_and_set_handlers_return_witness :
  (exists result, forall fuel,
     (length (varBindList (request Demo.getV1)) < fuel)%nat ->
     snmpProcessGetRequestPdu Demo.agent fuel Demo.getV1 = Some result)
  /\ (exists result, forall fuel,
        (length (varBindList (request Demo.getV1)) < fuel)%nat ->
        snmpProcessSetRequestPdu Demo.agent fuel Demo.getV1 = Some result).
Proof.
  exact (get_and_set_handlers_return Demo.agent Demo.getV1
           demo_parse_progress).
Defined.

Section ResponseProperties.
Context {Mib : Type} (X : Externals Mib).

Lemma bulkLoop_type (fuel : nat) (st st' : BulkLoop Mib) :
  forLoop bulkCond (bulkBody X) bulkIncr fuel st = Some st' ->
  pduType (request (bl_ctx st')) = pduType (request (bl_ctx st)).
Proof.
  assert (Hstep : forall s : BulkLoop Mib,
            pduType (request (bl_ctx (flowState (bulkBody X s))))
            = pduType (request (bl_ctx s))).
  { intros s. destruct (bulkBody_frame X s) as [_ [H|H]]; rewrite H;
      reflexivity. }
  apply (forLoop_invariant bulkCond (bulkBody X) bulkIncr
           (fun s => pduType (request (bl_ctx s))
                     = pduType (request (bl_ctx st)))); [| |reflexivity].
  - intros s s' Hi _ Hb. pose proof (Hstep s) as H. rewrite Hb in H.
    simpl in *. congruence.
  - intros s s' Hi _ Hb. pose proof (Hstep s) as H. rewrite Hb in H.
    simpl in *. congruence.
Qed.

(** What the dispatcher relies on: a handler that returns leaves the type
    of the request and the counter snmpOutGetResponses as they were. *)
Lemma get_keeps (fuel : nat) (ctx : SnmpAgentContext Mib)
    (result : error_t * SnmpAgentContext Mib) :
  snmpProcessGetRequestPdu X fuel ctx = Some result ->
  pduType (request (snd result)) = pduType (request ctx)
  /\ mib2Base (snd result) snmpOutGetResponses
     = mib2Base ctx snmpOutGetResponses.
Proof.
  intros Hrun. destruct (getCount_fields ctx) as (Hreq & _ & Hm & _).
  assert (Hcount : mib2Base (getCount ctx) snmpOutGetResponses
                   = mib2Base ctx snmpOutGetResponses).
  { unfold getCount. repeat break_match; simpl; rewrite ?inc_other;
      auto; discriminate. }
  destruct (readAllowed (user_mode ctx)) eqn:Hmode.
  - destruct (get_counts X fuel ctx result Hmode Hrun) as (A & _).
    rewrite A, Hcount by discriminate. split; [|reflexivity].
    unfold snmpProcessGetRequestPdu in Hrun. rewrite Hm, Hmode in Hrun.
    simpl negb in Hrun. cbv iota in Hrun.
    destruct (snmpInitResponse X (getCount ctx)) as [e r0].
    destruct (isError e); [inv Hrun; simpl; rewrite Hreq; reflexivity|].
    destruct (forLoop _ _ _ _ _) as [st|] eqn:Hloop; [|discriminate].
    inv Hrun. destruct (finish_frames X) as [F _]. rewrite F.
    apply getLoop_frame in Hloop. destruct Hloop as [R _].
    rewrite R. simpl. rewrite Hreq. reflexivity.
  - unfold snmpProcessGetRequestPdu in Hrun. rewrite Hm, Hmode in Hrun.
    inv Hrun. unfold badCommunityUse. simpl.
    rewrite Hreq, inc_other, Hcount by discriminate. split; reflexivity.
Qed.

Lemma bulk_keeps (fuel : nat) (ctx : SnmpAgentContext Mib)
    (result : error_t * SnmpAgentContext Mib) :
  snmpProcessGetBulkRequestPdu X fuel ctx = Some result ->
  pduType (request (snd result)) = pduType (request ctx)
  /\ mib2Base (snd result) snmpOutGetResponses
     = mib2Base ctx snmpOutGetResponses.
Proof.
  intros Hrun.
  destruct (version (request ctx) =? SNMP_VERSION_1) eqn:Hv.
  { unfold snmpProcessGetBulkRequestPdu in Hrun. rewrite Hv in Hrun.
    inv Hrun. split; reflexivity. }
  destruct (readAllowed (user_mode ctx)) eqn:Hmode.
  - destruct (bulk_counts X fuel ctx result Hv Hmode Hrun) as (A & _).
    rewrite A by discriminate. split; [|reflexivity].
    unfold snmpProcessGetBulkRequestPdu in Hrun. rewrite Hv, Hmode in Hrun.
    simpl negb in Hrun. cbv iota in Hrun.
    destruct (snmpInitResponse X ctx) as [e r0].
    destruct (isError e); [inv Hrun; reflexivity|].
    destruct (forLoop _ _ _ _ _) as [st|] eqn:Hloop; [|discriminate].
    inv Hrun. destruct (bulkFinish_frame X st) as [F _]. rewrite F.
    apply bulkLoop_type in Hloop. exact Hloop.
  - unfold snmpProcessGetBulkRequestPdu in Hrun. rewrite Hv, Hmode in Hrun.
    inv Hrun. unfold badCommunityUse. simpl.
    rewrite inc_other by discriminate. split; reflexivity.
Qed.

Lemma set_keeps (fuel : nat) (ctx : SnmpAgentContext Mib)
    (result : error_t * SnmpAgentContext Mib) :
  snmpProcessSetRequestPdu X fuel ctx = Some result ->
  pduType (request (snd result)) = pduType (request ctx)
  /\ mib2Base (snd result) snmpOutGetResponses
     = mib2Base ctx snmpOutGetResponses.
Proof.
  intros Hrun.
  assert (Hcount : mib2Base (setCount ctx) snmpOutGetResponses
                   = mib2Base ctx snmpOutGetResponses).
  { unfold setCount. simpl. apply inc_other. discriminate. }
  destruct (writeAllowed (user_mode ctx)) eqn:Hmode.
  - destruct (set_counts X fuel ctx result Hmode Hrun) as (A & _).
    rewrite A, Hcount by discriminate. split; [|reflexivity].
    unfold snmpProcessSetRequestPdu in Hrun.
    change (user_mode (setCount ctx)) with (user_mode ctx) in Hrun.
    rewrite Hmode in Hrun. simpl negb in Hrun. cbv iota in Hrun.
    destruct (snmpInitResponse X (setCount ctx)) as [e r0].
    destruct (isError e); [inv Hrun; reflexivity|].
    destruct (forLoop setCond (setBody X false) _ _ _) as [st1|] eqn:Hloop1;
      [|discriminate].
    apply setLoop_request in Hloop1. simpl in Hloop1.
    destruct (isError (sl_error st1)).
    { inv Hrun. destruct (setFinish_frame X st1) as [_ F].
      rewrite F, Hloop1. reflexivity. }
    destruct (forLoop setCond (setBody X true) _ _ _) as [st2|] eqn:Hloop2;
      [|discriminate].
    apply setLoop_request in Hloop2. simpl in Hloop2.
    inv Hrun. destruct (setFinish_frame X st2) as [_ F].
    rewrite F, Hloop2, Hloop1. reflexivity.
  - unfold snmpProcessSetRequestPdu in Hrun.
    change (user_mode (setCount ctx)) with (user_mode ctx) in Hrun.
    rewrite Hmode in Hrun. inv Hrun. unfold badCommunityUse. simpl.
    rewrite inc_other, inc_other by discriminate. split; reflexivity.
Qed.

(** snmpOutGetResponses counts the responses whose PDU header is written:
    once the header of a Get, GetNext, GetBulk or Set request parsed,
    snmpProcessPdu returns what the handler of the request returned when
    that is an error, the counter being left alone and no header written;
    otherwise it adds one to the counter and returns the status of
    snmpWritePduHeader, applied to the response the handler left. *)
Theorem processPdu_counts_written_responses (fuel : nat)
    (ctx : SnmpAgentContext Mib) (req : SnmpMessage)
    (result : error_t * SnmpAgentContext Mib) :
  snmpParsePduHeader X (request ctx) = (NO_ERROR, req) ->
  isRequestPdu (pduType req) = true ->
  snmpProcessPdu X fuel ctx = Some result ->
  let ctx0 :=
    set_response (set_request ctx req) (snmpInitMessage X (response ctx)) in
  exists handled : error_t * SnmpAgentContext Mib,
    dispatchPdu X fuel ctx0 = Some handled
    /\ if isError (fst handled) then
         result = handled
         /\ mib2Base (snd result) snmpOutGetResponses
            = mib2Base ctx snmpOutGetResponses
       else
         mib2Base (snd result) snmpOutGetResponses
         = wrapU32 (mib2Base ctx snmpOutGetResponses + 1)
         /\ (fst result, response (snd result))
            = snmpWritePduHeader X (response (snd handled))
         /\ mib (snd result) = mib (snd handled)
         /\ request (snd result) = request (snd handled).
Proof.
  intros Hparse Htype Hrun. cbv zeta.
  unfold snmpProcessPdu in Hrun. rewrite Hparse in Hrun.
  simpl isError in Hrun. cbv iota in Hrun.
  change (response (set_request ctx req)) with (response ctx) in Hrun.
  set (ctx0 := set_response (set_request ctx req)
                 (snmpInitMessage X (response ctx))) in *.
  destruct (dispatchPdu X fuel ctx0) as [[e1 ctx1]|] eqn:Hd; [|discriminate].
  exists (e1, ctx1). split; [reflexivity|].
  assert (Hkeep : pduType (request ctx1) = pduType req
                  /\ mib2Base ctx1 snmpOutGetResponses
                     = mib2Base ctx snmpOutGetResponses).
  { unfold dispatchPdu in Hd.
    change (pduType (request ctx0)) with (pduType req) in Hd.
    destruct (pduType req) eqn:Ht; try (simpl in Htype; discriminate Htype).
    - apply get_keeps in Hd. simpl in Hd. rewrite Ht in Hd. exact Hd.
    - apply get_keeps in Hd. simpl in Hd. rewrite Ht in Hd. exact Hd.
    - apply set_keeps in Hd. simpl in Hd. rewrite Ht in Hd. exact Hd.
    - apply bulk_keeps in Hd. simpl in Hd. rewrite Ht in Hd. exact Hd. }
  destruct Hkeep as [Ht Hc]. simpl fst. simpl snd.
  destruct (isError e1).
  - inv Hrun. split; [reflexivity|exact Hc].
  - rewrite Ht, Htype in Hrun.
    destruct (snmpWritePduHeader X _) as [e2 r2] eqn:Hw.
    inv Hrun. simpl in Hw. simpl. rewrite inc_same, Hc.
    repeat split.
Qed.

(** A message whose PDU is not a request is answered by no response: for a
    Trap, TrapV2 or InformRequest PDU, and for a GetResponse or Report PDU
    when the agent is built without inform support, snmpProcessPdu returns
    ERROR_INVALID_TYPE, whatever the fuel, the context being left as it was
    but for the parsed request and the response, which snmpInitMessage
    cleared; no counter changes.  With inform support, a GetResponse or
    Report PDU is handed to its handler and the result of that handler is
    returned as it is, snmpOutGetResponses being left to it. *)
Theorem processPdu_other_pdu_types (fuel : nat)
    (ctx : SnmpAgentContext Mib) (req : SnmpMessage) :
  snmpParsePduHeader X (request ctx) = (NO_ERROR, req) ->
  isRequestPdu (pduType req) = false ->
  let ctx0 :=
    set_response (set_request ctx req) (snmpInitMessage X (response ctx)) in
  let informed :=
    SNMP_AGENT_INFORM_SUPPORT X
    && (SnmpPduType_beq (pduType req) SNMP_PDU_GET_RESPONSE
        || SnmpPduType_beq (pduType req) SNMP_PDU_REPORT) in
  if informed then
    forall handled,
      handled = (if SnmpPduType_beq (pduType req) SNMP_PDU_GET_RESPONSE
                 then snmpProcessGetResponsePdu X ctx0
                 else snmpProcessReportPdu X ctx0) ->
      (isError (fst handled) = true
       \/ isRequestPdu (pduType (request (snd handled))) = false) ->
      snmpProcessPdu X fuel ctx = Some handled
  else snmpProcessPdu X fuel ctx = Some (ERROR_INVALID_TYPE, ctx0).
Proof.
  intros Hparse Htype. cbv zeta.
  unfold snmpProcessPdu. rewrite Hparse. simpl isError. cbv iota.
  unfold dispatchPdu. cbn [request response set_response set_request].
  destruct (pduType req) eqn:Ht; try (simpl in Htype; discriminate Htype);
    destruct (SNMP_AGENT_INFORM_SUPPORT X); simpl; try reflexivity.
  - intros handled -> Hh.
    destruct (snmpProcessGetResponsePdu X _) as [e1 c1]. simpl in *.
    destruct (isError e1); [reflexivity|].
    destruct Hh as [Hh|Hh]; [discriminate|]. rewrite Hh. reflexivity.
  - intros handled -> Hh.
    destruct (snmpProcessReportPdu X _) as [e1 c1]. simpl in *.
    destruct (isError e1); [reflexivity|].
    destruct Hh as [Hh|Hh]; [discriminate|]. rewrite Hh. reflexivity.
Qed.

End ResponseProperties.

Lemma processPdu_counts_written_responses_witness :
  Demo.outcome (snmpProcessPdu Demo.agent 50 Demo.getV2)
    = Some (NO_ERROR,
            (SNMP_ERROR_NONE, 0,
             [Demo.assign [1; 1] [10];
              setException (Demo.nameOf [1; 5]) SNMP_EXCEPTION_NO_SUCH_OBJECT;
              Demo.assign [1; 3] [30]], 0, Demo.store0))
  /\ exists result,
       snmpProcessPdu Demo.agent 50 Demo.getV2 = Some result
       /\ mib2Base (snd result) snmpOutGetResponses = 1.
Proof.
  assert (Hout : Demo.outcome (snmpProcessPdu Demo.agent 50 Demo.getV2)
                 = Some (NO_ERROR,
                         (SNMP_ERROR_NONE, 0,
                          [Demo.assign [1; 1] [10];
                           setException (Demo.nameOf [1; 5])
                             SNMP_EXCEPTION_NO_SUCH_OBJECT;
                           Demo.assign [1; 3] [30]], 0, Demo.store0)))
    by (vm_compute; reflexivity).
  split; [exact Hout|].
  destruct (snmpProcessPdu Demo.agent 50 Demo.getV2) as [result|] eqn:Hrun;
    [|discriminate Hout].
  exists result. split; [reflexivity|].
  destruct (processPdu_counts_written_responses Demo.agent 50 Demo.getV2
              (request Demo.getV2) result eq_refl eq_refl Hrun)
    as (handled & Hd & Hcase).
  assert (He : option_map (fun h => isError (fst h))
                 (dispatchPdu Demo.agent 50
                    (set_response (set_request Demo.getV2
                                     (request Demo.getV2))
                       (snmpInitMessage Demo.agent (response Demo.getV2))))
               = Some false) by (vm_compute; reflexivity).
  rewrite Hd in He. simpl in He. injection He as He.
  rewrite He in Hcase. destruct Hcase as (Hc & _). exact Hc.
Defined.

Lemma processPdu_other_pdu_types_witness :
  snmpProcessPdu Demo.agent 0 Demo.trapReceived
  = Some (ERROR_INVALID_TYPE,
          set_response Demo.trapReceived Demo.blankMessage).
Proof.
  exact (processPdu_other_pdu_types Demo.agent 0 Demo.trapReceived
           (request Demo.trapReceived) eq_refl eq_refl).
Defined.

Section ReportCounterProperties.
Context {Mib : Type} (X : Externals Mib).

Lemma usm_inc_same (c : UsmCounter) (base : UsmCounter -> Z) :
  SNMP_USM_MIB_INC_COUNTER32 c 1 base c = wrapU32 (base c + 1).
Proof.
  unfold SNMP_USM_MIB_INC_COUNTER32, incCounter.
  rewrite UsmCounter_beq_refl. reflexivity.
Qed.

Lemma usm_inc_other (c k : UsmCounter) (base : UsmCounter -> Z) :
  k <> c -> SNMP_USM_MIB_INC_COUNTER32 c 1 base k = base k.
Proof.
  intros H. unfold SNMP_USM_MIB_INC_COUNTER32, incCounter.
  rewrite (UsmCounter_beq_neq k c H). reflexivity.
Qed.

(** The counters [reportSelect] leaves, for any error indication. *)
Lemma reportSelect_counters (cause : error_t) (base : UsmCounter -> Z) :
  match causeCounter cause with
  | Some c =>
      fst (fst (reportSelect X cause base)) c = wrapU32 (base c + 1)
      /\ forall k, k <> c -> fst (fst (reportSelect X cause base)) k = base k
  | None => fst (fst (reportSelect X cause base)) = base
  end.
Proof.
  destruct cause; simpl; try reflexivity;
    (split; [apply usm_inc_same|intros k Hk; apply usm_inc_other, Hk]).
Qed.

(** The effects of snmpFormatReportPdu on the agent, whatever the error
    indication and whether or not the report could be formatted: the
    request, the MIB and the MIB-II and SNMP-MIB counters are left alone.
    When snmpComputeMessageOverhead fails, no USM counter changes.
    Otherwise the counter of the indication is incremented before the
    report is encoded: it is incremented even when the encoding of the
    value, the writing of the binding or the writing of the PDU header then
    fails; no other USM counter changes, and none at all for an indication
    that has no counter. *)
Theorem report_counter_effects (ctx : SnmpAgentContext Mib)
    (cause : error_t) :
  let result := snmpFormatReportPdu X ctx cause in
  let sized := snmpComputeMessageOverhead X (reportMessage X ctx cause) in
  let before := snmpUsmMibBase ctx in
  let after := snmpUsmMibBase (snd result) in
  request (snd result) = request ctx
  /\ mib (snd result) = mib ctx
  /\ mib2Base (snd result) = mib2Base ctx
  /\ snmpMibBase (snd result) = snmpMibBase ctx
  /\ if isError (fst sized) then
       result = (fst sized, set_response ctx (snd sized))
       /\ after = before
     else
       match causeCounter cause with
       | Some c =>
           after c = wrapU32 (before c + 1)
           /\ forall k, k <> c -> after k = before k
       | None => after = before
       end.
Proof.
  cbv zeta. unfold snmpFormatReportPdu, reportMessage.
  destruct (snmpComputeMessageOverhead X _) as [e1 r1].
  cbn [fst snd]. destruct (isError e1).
  { repeat split. }
  pose proof (reportSelect_counters cause (snmpUsmMibBase ctx)) as Hsel.
  cbn [snmpUsmMibBase set_response].
  destruct (reportSelect X cause (snmpUsmMibBase ctx)) as [[base counter] object].
  cbn [fst] in Hsel.
  destruct (snmpEncodeUnsignedInt32 X counter) as [e2 octets].
  destruct (isError e2).
  { cbn. repeat split. exact Hsel. }
  destruct (snmpWriteVarBinding X _ _) as [e3 r3].
  destruct (isError e3).
  { cbn. repeat split. exact Hsel. }
  destruct (snmpWritePduHeader X _) as [e4 r4].
  cbn. repeat split. exact Hsel.
Qed.

(** snmpFormatReportPdu refuses no error indication.  For one that is not
    in the table of causes (NO_ERROR or ERROR_FAILURE for instance), it
    formats a report like any other, whose single binding has an object
    identifier of no octets and the counter value 1; no counter is
    touched. *)
Theorem report_cause_outside_table (enc : SnmpVarBind -> list Z)
    (ctx : SnmpAgentContext Mib) (cause : error_t) (r1 : SnmpMessage)
    (octets : list Z) :
  WriteAppends X enc ->
  ~ In cause reportCauses ->
  snmpComputeMessageOverhead X (reportInit X ctx) = (NO_ERROR, r1) ->
  snmpEncodeUnsignedInt32 X 1 = (NO_ERROR, octets) ->
  let ctx1 := set_response ctx r1 in
  let var := reportVarBind [] octets in
  let written := snmpWriteVarBinding X ctx1 var in
  let ctx2 := set_response ctx1 (snd written) in
  snmpFormatReportPdu X ctx cause
  = (if isError (fst written) then (fst written, ctx2)
     else
       let header := snmpWritePduHeader X (response ctx2) in
       (fst header, set_response ctx2 (snd header)))
  /\ (isError (fst written) = false ->
      varBindList (snd written) = varBindList r1 ++ enc var).
Proof.
  intros HW Hout Hsize Henc. cbv zeta. split.
  - unfold snmpFormatReportPdu.
    assert (Hsel : reportSelect X cause (snmpUsmMibBase ctx)
                   = (snmpUsmMibBase ctx, 1, [])).
    { destruct cause; try reflexivity; exfalso; apply Hout; simpl; tauto. }
    assert (Hw : error_t_beq cause ERROR_NOT_IN_TIME_WINDOW = false).
    { destruct cause; try reflexivity. exfalso; apply Hout; simpl; tauto. }
    rewrite Hw, Hsize. cbn [isError snmpUsmMibBase set_response].
    rewrite Hsel, Henc. cbn [isError].
    assert (Hc : set_snmpUsmMibBase (set_response ctx r1) (snmpUsmMibBase ctx)
                 = set_response ctx r1) by (destruct ctx; reflexivity).
    rewrite Hc.
    destruct (snmpWriteVarBinding X _ _) as [e3 r3]. cbn [fst snd].
    destruct (isError e3); [reflexivity|].
    cbn [response set_response].
    destruct (snmpWritePduHeader X r3). reflexivity.
  - intros He.
    destruct (snmpWriteVarBinding X _ _) as [e3 r3] eqn:Hwr.
    apply HW in Hwr. destruct Hwr as (_ & _ & Hl). cbn [fst snd] in *.
    rewrite He in Hl. exact Hl.
Qed.

End ReportCounterProperties.

Lemma report_cause_outside_table_witness :
  Demo.reported (snmpFormatReportPdu Demo.agent Demo.secureContext NO_ERROR)
  = (NO_ERROR, [reportVarBind [] [0; 0; 0; 1]], [0; 0; 0; 0; 0; 0])
  /\ snmpFormatReportPdu Demo.agent Demo.secureContext NO_ERROR
     = (NO_ERROR,
        set_response Demo.secureContext
          (set_varBindList (reportInit Demo.agent Demo.secureContext)
             (Demo.encodeVarBind (reportVarBind [] [0; 0; 0; 1])))).
Proof.
  split; [vm_compute; reflexivity|].
  destruct (report_cause_outside_table Demo.agent Demo.encodeVarBind
              Demo.secureContext NO_ERROR
              (reportInit Demo.agent Demo.secureContext) [0; 0; 0; 1]
              demo_write_appends) as [H _].
  - simpl. intuition discriminate.
  - reflexivity.
  - reflexivity.
  - rewrite H. reflexivity.
Defined.

Section LoopSimulation.
Context {S T : Type} (proj : S -> T).
Context (cond : S -> bool) (body : S -> Flow S) (incr : S -> S).
Context (cond' : T -> bool) (body' : T -> Flow T) (incr' : T -> T).

(** A loop whose passes are those of another loop, seen through [proj],
    ends as the other loop does. *)
Lemma forLoop_simulation (J : S -> Prop) :
  (forall s, J s -> cond' (proj s) = cond s) ->
  (forall s, J s -> cond s = true ->
     match body s with
     | Break s' => body' (proj s) = Break (proj s')
     | Next s' =>
         body' (proj s) = Next (proj s')
         /\ incr' (proj s') = proj (incr s') /\ J (incr s')
     | Fault _ => False
     end) ->
  forall fuel s, J s ->
    forLoop cond' body' incr' fuel (proj s)
    = option_map proj (forLoop cond body incr fuel s).
Proof.
  intros Hc Hb. induction fuel as [|fuel IH]; intros s Hs; [reflexivity|].
  simpl. rewrite (Hc s Hs). destruct (cond s) eqn:Hcond; [|reflexivity].
  specialize (Hb s Hs Hcond). destruct (body s) as [s'|s'|s'].
  - rewrite Hb. reflexivity.
  - destruct Hb as (Hb & Hi & Hj). rewrite Hb, Hi. apply IH. exact Hj.
  - contradiction.
Qed.

End LoopSimulation.

Section GetNextProperties.
Context {Mib : Type} (X : Externals Mib).

(** Outside of v1, the Get handler retrieves and catches for a request that
    is not a GetRequest as the GetBulk handler does. *)
Lemma getRetrieve_bulkRetrieve (ctx : SnmpAgentContext Mib)
    (v : SnmpVarBind) (eom : option bool) :
  pduType (request ctx) <> SNMP_PDU_GET_REQUEST ->
  (version (request ctx) =? SNMP_VERSION_1) = false ->
  getRetrieve X ctx v
  = (let '(leave, _, e, v') := bulkRetrieve X ctx v eom in (leave, e, v')).
Proof.
  intros Ht Hv. unfold getRetrieve, bulkRetrieve.
  destruct (SnmpPduType_beq _ _) eqn:Hb.
  { apply internal_SnmpPduType_dec_bl in Hb. contradiction. }
  rewrite Hv.
  destruct (snmpGetNextObject X ctx (request ctx) v) as [e1 v1].
  destruct (error_t_beq e1 NO_ERROR).
  { destruct (snmpGetObjectValue X ctx (request ctx) v1). reflexivity. }
  destruct (error_t_beq e1 ERROR_OBJECT_NOT_FOUND); reflexivity.
Qed.

Lemma getCatch_bulkCatch (ctx : SnmpAgentContext Mib) (e : error_t)
    (v : SnmpVarBind) :
  (version (request ctx) =? SNMP_VERSION_1) = false ->
  getCatch ctx e v = bulkCatch ctx e v.
Proof. intros Hv. unfold getCatch, bulkCatch. rewrite Hv. reflexivity. Qed.

Lemma bulkBody_nonRepeater (req0 : SnmpMessage) (vs : list SnmpVarBind)
    (st : BulkLoop Mib) :
  pduType req0 <> SNMP_PDU_GET_REQUEST ->
  (version req0 =? SNMP_VERSION_1) = false ->
  Z.of_nat (length vs) <= nonRepeaters req0 ->
  BulkNonRepeaters X req0 vs st -> bulkCond st = true ->
  match bulkBody X st with
  | Break st' => getBody X (asGetLoop st) = Break (asGetLoop st')
  | Next st' =>
      getBody X (asGetLoop st) = Next (asGetLoop st')
      /\ getIncr (asGetLoop st') = asGetLoop (bulkIncr st')
      /\ BulkNonRepeaters X req0 vs (bulkIncr st')
  | Fault _ => False
  end.
Proof.
  intros Ht Hv HN (Hreq & Hregion & Hbound & rest & fuelD & Hd & Hcount)
    Hcond.
  unfold bulkCond in Hcond. apply Nat.ltb_lt in Hcond.
  assert (Hlen : length (octetsAt (varBindList req0) (bl_p st)
                           (bl_length st)) = bl_length st)
    by (apply octetsAt_length; exact Hbound).
  destruct rest as [|v rest].
  { apply (decode_nil X) in Hd. rewrite Hd in Hlen. simpl in Hlen. lia. }
  destruct (decode_cons X _ _ _ _ Hd) as (fuelD' & n & _ & _ & Hp & Hle & Hd').
  rewrite Hlen in Hle.
  cbn [length] in Hcount.
  assert (Hfirst : (bl_index st - 1 =? nonRepeaters req0) = false)
    by (apply Z.eqb_neq; lia).
  unfold bulkBody, bulkAnswer, getBody, asGetLoop.
  cbn [gl_ctx gl_p gl_length gl_index gl_error].
  rewrite Hregion. cbn [bulkBuffer]. rewrite Hreq, Hfirst, Hp.
  cbn [andb isError].
  destruct (isError (oidCheck X (oid v))); [reflexivity|].
  rewrite (getRetrieve_bulkRetrieve (bl_ctx st) v (bl_endOfMibView st))
    by (rewrite Hreq; assumption).
  destruct (bulkRetrieve X (bl_ctx st) v _) as [[[l1 eom] e1] v1].
  destruct l1; [reflexivity|].
  rewrite getCatch_bulkCatch by (rewrite Hreq; exact Hv).
  destruct (bulkCatch (bl_ctx st) e1 v1) as [[l2 c2] v2] eqn:Hcatch.
  destruct l2; [reflexivity|].
  apply bulkCatch_frame in Hcatch. destruct Hcatch as (Hreq2 & _).
  destruct (snmpWriteVarBinding X c2 v2) as [e3 r3].
  destruct (isError e3); [reflexivity|].
  unfold bulkRepeat.
  cbn [request set_response ba_ctx ba_n ba_error ba_next ba_m
       ba_endOfMibView].
  rewrite Hreq2, Hreq.
  assert (Hlast : (nonRepeaters req0 <? bl_index st) = false)
    by (apply Z.ltb_ge; lia).
  rewrite Hlast, andb_false_r.
  split; [reflexivity|]. split; [reflexivity|].
  unfold BulkNonRepeaters, bulkIncr.
  cbn [bl_ctx bl_region bl_p bl_length bl_index request set_response].
  rewrite (sizeSub_within X _ _ Hle).
  split; [congruence|]. split; [reflexivity|]. split; [lia|].
  exists rest, fuelD'. rewrite octetsAt_advance. split; [exact Hd'|lia].
Qed.

(** A GetBulkRequest whose non-repeaters field is at least the number of
    its bindings is walked as a GetNextRequest: the loop of the GetBulk
    handler ends with the context, the cursor, the index and the status
    code the loop of the Get handler ends with on the same context (a
    request that is not a GetRequest being a GetNextRequest to it), and
    max-repetitions is not lowered. *)
Theorem bulk_of_non_repeaters_is_getnext (fuel : nat)
    (ctx : SnmpAgentContext Mib) (vs : list SnmpVarBind) (e : error_t) :
  pduType (request ctx) <> SNMP_PDU_GET_REQUEST ->
  (version (request ctx) =? SNMP_VERSION_1) = false ->
  decodeVarBinds X (S (length (varBindList (request ctx))))
    (varBindList (request ctx)) = Some vs ->
  Z.of_nat (length vs) <= nonRepeaters (request ctx) ->
  forLoop getCond (getBody X) getIncr fuel (getStart ctx e)
  = option_map asGetLoop
      (forLoop bulkCond (bulkBody X) bulkIncr fuel (bulkStart ctx e))
  /\ forall st,
       forLoop bulkCond (bulkBody X) bulkIncr fuel (bulkStart ctx e)
         = Some st ->
       request (bl_ctx st) = request ctx.
Proof.
  intros Ht Hv Hdec HN.
  assert (Hstart : BulkNonRepeaters X (request ctx) vs (bulkStart ctx e)).
  { unfold BulkNonRepeaters, bulkStart, varBindListLen, octetsAt.
    cbn [bl_ctx bl_region bl_p bl_length bl_index].
    split; [reflexivity|]. split; [reflexivity|]. split; [lia|].
    exists vs, (S (length (varBindList (request ctx)))).
    simpl skipn. rewrite firstn_all. split; [exact Hdec|lia]. }
  split.
  - apply (forLoop_simulation asGetLoop bulkCond (bulkBody X) bulkIncr
             getCond (getBody X) getIncr
             (BulkNonRepeaters X (request ctx) vs)
             (fun s _ => eq_refl)
             (fun s Hs Hc =>
                bulkBody_nonRepeater (request ctx) vs s Ht Hv HN Hs Hc)
             fuel (bulkStart ctx e) Hstart).
  - intros st Hloop.
    apply (forLoop_post bulkCond (bulkBody X) bulkIncr
             (BulkNonRepeaters X (request ctx) vs)
             (fun s => request (bl_ctx s) = request ctx))
      with (fuel := fuel) (s := bulkStart ctx e);
      [| | |exact Hstart|exact Hloop].
    + intros s s' Hs Hc Hb.
      pose proof (bulkBody_nonRepeater _ vs s Ht Hv HN Hs Hc) as H.
      rewrite Hb in H. apply H.
    + intros s s' Hs Hc Hb.
      pose proof (bulkBody_nonRepeater _ vs s Ht Hv HN Hs Hc) as H.
      rewrite Hb in H. destruct Hs as (Hreq & _).
      assert (Hg : request (gl_ctx (asGetLoop s'))
                   = request (gl_ctx (asGetLoop s))).
      { apply (getBody_frame X (asGetLoop s) (asGetLoop s')).
        left. exact H. }
      simpl in Hg. congruence.
    + intros s (Hreq & _) _. exact Hreq.
Qed.

(** A GetNextRequest whose search for the next object fails.  Under v1
    the loop stops on the failure, whatever it is.  Under v2c and v3 the
    failure ERROR_OBJECT_NOT_FOUND is caught: the binding is given the name
    the search returned, the class context-specific, the type endOfMibView
    and no value; it is counted in snmpInTotalReqVars although no value was
    retrieved, it is appended to the response and the loop goes on with the
    next binding; every other failure of the search, ERROR_ACCESS_DENIED
    included, stops the loop. *)
Theorem getnext_search_failure (fuel : nat) (st : GetLoop Mib)
    (var found : SnmpVarBind) (n : nat) (e : error_t) :
  ParseProgress X ->
  (0 < gl_length st)%nat ->
  pduType (request (gl_ctx st)) <> SNMP_PDU_GET_REQUEST ->
  snmpParseVarBinding X
    (octetsAt (varBindList (request (gl_ctx st))) (gl_p st) (gl_length st))
    = (NO_ERROR, var, n) ->
  oidCheck X (oid var) = NO_ERROR ->
  snmpGetNextObject X (gl_ctx st) (request (gl_ctx st)) var = (e, found) ->
  isError e = true ->
  let ctx := gl_ctx st in
  let loop := forLoop getCond (getBody X) getIncr in
  if negb (version (request ctx) =? SNMP_VERSION_1)
     && error_t_beq e ERROR_OBJECT_NOT_FOUND
  then
    let counted :=
      set_mib2Base ctx
        (MIB2_INC_COUNTER32 snmpInTotalReqVars 1 (mib2Base ctx)) in
    let written :=
      snmpWriteVarBinding X counted
        (mkVarBind (oid found) ASN1_CLASS_CONTEXT_SPECIFIC
           SNMP_EXCEPTION_END_OF_MIB_VIEW []) in
    let ctx' := set_response counted (snd written) in
    loop (S fuel) st
    = if isError (fst written) then
        Some (mkGetLoop ctx' (gl_p st) (gl_length st) (gl_index st)
                (fst written))
      else
        loop fuel
          (mkGetLoop ctx' (gl_p st + n) (gl_length st - n)
             (gl_index st + 1) NO_ERROR)
  else
    loop (S fuel) st
    = Some (mkGetLoop ctx (gl_p st) (gl_length st) (gl_index st) e).
Proof.
  intros HP Hlen Ht Hp Ho Hn He. cbv zeta.
  assert (Hle : (n <= gl_length st)%nat).
  { generalize (HP _ _ _ _ Hp eq_refl). unfold octetsAt.
    rewrite length_firstn. lia. }
  assert (Hcond : getCond st = true) by (apply Nat.ltb_lt; exact Hlen).
  assert (Hne : error_t_beq e NO_ERROR = false)
    by (destruct e; simpl in *; congruence).
  assert (Hb : SnmpPduType_beq (pduType (request (gl_ctx st)))
                 SNMP_PDU_GET_REQUEST = false).
  { destruct (SnmpPduType_beq _ _) eqn:Hb; [|reflexivity].
    apply internal_SnmpPduType_dec_bl in Hb. contradiction. }
  cbn [forLoop]. rewrite Hcond. unfold getBody. rewrite Hp.
  cbn [isError]. rewrite Ho. cbn [isError].
  unfold getRetrieve. rewrite Hb, Hn, Hne.
  destruct (version (request (gl_ctx st)) =? SNMP_VERSION_1); cbn [negb andb].
  { reflexivity. }
  destruct (error_t_beq e ERROR_OBJECT_NOT_FOUND); [|reflexivity].
  unfold getCatch, setException. cbn [isError].
  destruct (snmpWriteVarBinding X _ _) as [e3 r3]. cbn [fst snd].
  destruct (isError e3) eqn:He3; [reflexivity|].
  apply isError_false in He3. subst e3.
  rewrite (sizeSub_within X _ _ Hle). reflexivity.
Qed.

End GetNextProperties.

Lemma bulk_of_non_repeaters_is_getnext_witness :
  Demo.outcome (snmpProcessGetBulkRequestPdu Demo.agent 50 Demo.bulkFlat)
    = Some (NO_ERROR,
            (SNMP_ERROR_NONE, 0,
             [Demo.assign [1; 2] [20]; Demo.assign [66; 1] [60]], 5,
             Demo.store0))
  /\ forLoop getCond (getBody Demo.agent) getIncr 50
       (getStart (Demo.started Demo.bulkFlat) NO_ERROR)
     = option_map asGetLoop
         (forLoop bulkCond (bulkBody Demo.agent) bulkIncr 50
            (bulkStart (Demo.started Demo.bulkFlat) NO_ERROR)).
Proof.
  split; [vm_compute; reflexivity|].
  destruct (bulk_of_non_repeaters_is_getnext Demo.agent 50
              (Demo.started Demo.bulkFlat)
              [Demo.nameOf [1; 1]; Demo.nameOf [1; 3]] NO_ERROR) as [H _].
  - discriminate.
  - reflexivity.
  - vm_compute. reflexivity.
  - simpl. lia.
  - exact H.
Defined.

Lemma getnext_search_failure_witness :
  Demo.outcome (snmpProcessGetRequestPdu Demo.agent 50 Demo.nextPastEndV1)
    = Some (NO_ERROR,
            (SNMP_ERROR_NO_SUCH_NAME, 1, [Demo.nameOf [66; 1]], 0,
             Demo.store0))
  /\ Demo.outcome (snmpProcessGetRequestPdu Demo.agent 50 Demo.nextPastEndV2)
     = Some (NO_ERROR,
             (SNMP_ERROR_NONE, 0,
              [mkVarBind [66; 1] ASN1_CLASS_CONTEXT_SPECIFIC
                 SNMP_EXCEPTION_END_OF_MIB_VIEW []], 0, Demo.store0))
  /\ forLoop getCond (getBody Demo.agent) getIncr 2
       (getStart (Demo.started Demo.nextPastEndV1) NO_ERROR)
     = Some (mkGetLoop (Demo.started Demo.nextPastEndV1) 0 6 1
               ERROR_OBJECT_NOT_FOUND)
  /\ (let ctx := Demo.started Demo.nextPastEndV2 in
      let counted :=
        set_mib2Base ctx
          (MIB2_INC_COUNTER32 snmpInTotalReqVars 1 (mib2Base ctx)) in
      let written :=
        Demo.writeVarBinding counted
          (mkVarBind [66; 1] ASN1_CLASS_CONTEXT_SPECIFIC
             SNMP_EXCEPTION_END_OF_MIB_VIEW []) in
      forLoop getCond (getBody Demo.agent) getIncr 2 (getStart ctx NO_ERROR)
      = forLoop getCond (getBody Demo.agent) getIncr 1
          (mkGetLoop (set_response counted (snd written)) 6 0 2 NO_ERROR)).
Proof.
  split; [vm_compute; reflexivity|]. split; [vm_compute; reflexivity|].
  split.
  - exact (getnext_search_failure Demo.agent 1
             (getStart (Demo.started Demo.nextPastEndV1) NO_ERROR)
             (Demo.nameOf [66; 1]) (Demo.nameOf [66; 1]) 6
             ERROR_OBJECT_NOT_FOUND demo_parse_progress
             ltac:(vm_compute; lia) ltac:(discriminate)
             eq_refl eq_refl eq_refl eq_refl).
  - exact (getnext_search_failure Demo.agent 1
             (getStart (Demo.started Demo.nextPastEndV2) NO_ERROR)
             (Demo.nameOf [66; 1]) (Demo.nameOf [66; 1]) 6
             ERROR_OBJECT_NOT_FOUND demo_parse_progress
             ltac:(vm_compute; lia) ltac:(discriminate)
             eq_refl eq_refl eq_refl eq_refl).
Defined.

Section EmptyListProperties.
Context {Mib : Type} (X : Externals Mib).

(** A request whose variable-binding list is empty: no loop makes a pass,
    the codec and the MIB are not called.  The Get and GetBulk handlers
    return NO_ERROR with the response as snmpInitResponse left it, and
    GetBulk leaves max-repetitions alone; the Set handler returns what
    snmpCopyVarBindingList returns for that response. *)
Theorem empty_binding_list (fuel : nat) (ctx : SnmpAgentContext Mib) :
  varBindList (request ctx) = [] ->
  (forall r0,
     readAllowed (user_mode ctx) = true ->
     snmpInitResponse X (getCount ctx) = (NO_ERROR, r0) ->
     snmpProcessGetRequestPdu X (S fuel) ctx
     = Some (NO_ERROR, set_response (getCount ctx) r0))
  /\ (forall r0,
        (version (request ctx) =? SNMP_VERSION_1) = false ->
        readAllowed (user_mode ctx) = true ->
        snmpInitResponse X ctx = (NO_ERROR, r0) ->
        snmpProcessGetBulkRequestPdu X (S fuel) ctx
        = Some (NO_ERROR, set_response ctx r0))
  /\ (forall r0,
        writeAllowed (user_mode ctx) = true ->
        snmpInitResponse X (setCount ctx) = (NO_ERROR, r0) ->
        snmpProcessSetRequestPdu X (S fuel) ctx
        = Some (copyVarBindingList X (set_response (setCount ctx) r0))).
Proof.
  intros Hempty. split; [|split]; intros r0.
  - intros Hmode Hinit. unfold snmpProcessGetRequestPdu.
    destruct (getCount_fields ctx) as (Hreq & _ & Hm & _).
    rewrite Hm, Hmode, Hinit. cbn [negb isError forLoop].
    unfold getCond, getStart, varBindListLen.
    cbn [gl_length request set_response]. rewrite Hreq, Hempty.
    reflexivity.
  - intros Hv Hmode Hinit. unfold snmpProcessGetBulkRequestPdu.
    rewrite Hv, Hmode, Hinit. cbn [negb isError forLoop].
    unfold bulkCond, bulkStart, varBindListLen.
    cbn [bl_length request set_response]. rewrite Hempty. reflexivity.
  - intros Hmode Hinit. unfold snmpProcessSetRequestPdu.
    change (user_mode (setCount ctx)) with (user_mode ctx).
    rewrite Hmode, Hinit. cbn [negb isError forLoop].
    unfold setCond, setStart, varBindListLen.
    cbn [sl_length request set_response setCount set_mib2Base].
    rewrite Hempty. cbn [length Nat.ltb Nat.leb sl_error sl_ctx isError].
    cbn [forLoop sl_length request set_response set_mib2Base].
    change (request (setCount ctx)) with (request ctx). rewrite Hempty.
    reflexivity.
Qed.

End EmptyListProperties.

Lemma empty_binding_list_witness :
  snmpProcessGetBulkRequestPdu Demo.agent 1 Demo.emptyRequest
    = Some (NO_ERROR, Demo.started Demo.emptyRequest)
  /\ maxRepetitions (request (Demo.started Demo.emptyRequest)) = 3
  /\ Demo.outcome (snmpProcessSetRequestPdu Demo.agent 1 Demo.emptyRequest)
     = Some (NO_ERROR, (SNMP_ERROR_NONE, 0, [], 3, Demo.store0)).
Proof.
  destruct (empty_binding_list Demo.agent 0 Demo.emptyRequest eq_refl)
    as (_ & Hbulk & _).
  split; [|split; [reflexivity|vm_compute; reflexivity]].
  apply (Hbulk (snd (Demo.initResponse Demo.emptyRequest))); reflexivity.
Defined.


(** * Properties of the KSZ8794 driver *)

Section TraceProperties.
Import Ksz8794.

Lemma bracketed_app_le (n : nat) : forall a b : list Event,
  (length a <= n)%nat -> bracketed a = true ->
  bracketed (a ++ b) = bracketed b.
Proof.
  induction n as [|n IH]; intros a b Hlen Ha.
  - destruct a; [reflexivity|simpl in Hlen; lia].
  - destruct a as [|e a]; [reflexivity|].
    destruct e; simpl in Hlen;
      try discriminate Ha;
      try (simpl in *; apply IH; [lia|exact Ha]).
    destruct a as [|e1 a]; [discriminate Ha|].
    destruct e1; try discriminate Ha.
    destruct a as [|e2 a]; [discriminate Ha|].
    destruct e2; try discriminate Ha.
    destruct a as [|e3 a]; [discriminate Ha|].
    destruct e3; try discriminate Ha.
    destruct a as [|e4 a]; [discriminate Ha|].
    destruct e4; try discriminate Ha.
    simpl in *. apply IH; [lia|exact Ha].
Qed.

Lemma bracketed_app (a b : list Event) :
  bracketed a = true -> bracketed b = true -> bracketed (a ++ b) = true.
Proof.
  intros Ha Hb. rewrite (bracketed_app_le (length a)); auto.
Qed.

Lemma extends_refl (w : World) : Extends w w.
Proof. exists []. rewrite app_nil_r. split; reflexivity. Qed.

Lemma extends_trans (w1 w2 w3 : World) :
  Extends w1 w2 -> Extends w2 w3 -> Extends w1 w3.
Proof.
  intros (a & Ha & Ba) (b & Hb & Bb). exists (a ++ b).
  rewrite Hb, Ha, app_assoc. split; [reflexivity|].
  apply bracketed_app; assumption.
Qed.

Lemma extends_update (w w' : World) (i : nat)
    (f : NetInterface -> NetInterface) :
  Extends w w' -> Extends w (update w' i f).
Proof. intros E. exact E. Qed.

Lemma extends_record (e : Event) (w w' : World) :
  bracketed [e] = true -> Extends w w' -> Extends w (record e w').
Proof.
  intros He E. apply (extends_trans w w' _ E).
  exists [e]. split; [reflexivity|exact He].
Qed.

Lemma looks_refl (w : World) : Looks w w.
Proof.
  split; [reflexivity|]. exists []. rewrite app_nil_r. repeat split.
Qed.

Lemma looks_trans (w1 w2 w3 : World) :
  Looks w1 w2 -> Looks w2 w3 -> Looks w1 w3.
Proof.
  intros (F1 & a & Ha & Ba & La & Sa) (F2 & b & Hb & Bb & Lb & Sb).
  split; [congruence|]. exists (a ++ b).
  rewrite Hb, Ha, app_assoc, forallb_app, existsb_app, La, Lb, Sa, Sb.
  repeat split. apply bracketed_app; assumption.
Qed.

Lemma looks_extends (w w' : World) : Looks w w' -> Extends w w'.
Proof. intros (_ & a & Ha & Ba & _). exists a. split; assumption. Qed.

Lemma updateAt_length (l : list NetInterface) (i : nat)
    (f : NetInterface -> NetInterface) :
  length (updateAt l i f) = length l.
Proof.
  revert i. induction l as [|n l IH]; intros [|i]; simpl; auto.
Qed.

Lemma updateAt_same (l : list NetInterface) (i : nat)
    (f : NetInterface -> NetInterface) :
  (i < length l)%nat ->
  nth i (updateAt l i f) nullInterface = f (nth i l nullInterface).
Proof.
  revert i. induction l as [|n l IH]; intros [|i] Hi; simpl in *;
    try lia; [reflexivity|]. apply IH. lia.
Qed.

Lemma updateAt_other (l : list NetInterface) (i k : nat)
    (f : NetInterface -> NetInterface) :
  k <> i -> nth k (updateAt l i f) nullInterface = nth k l nullInterface.
Proof.
  revert i k. induction l as [|n l IH]; intros [|i] [|k] Hk; simpl;
    try reflexivity; try congruence. apply IH. congruence.
Qed.

Lemma updateAt_ext (l : list NetInterface) (i : nat)
    (f g : NetInterface -> NetInterface) :
  f (nth i l nullInterface) = g (nth i l nullInterface) ->
  updateAt l i f = updateAt l i g.
Proof.
  revert i. induction l as [|n l IH]; intros [|i] Hfg; simpl in *;
    try reflexivity; [congruence|]. rewrite (IH i Hfg). reflexivity.
Qed.

Lemma interfaceAt_update (w : World) (i : nat)
    (f : NetInterface -> NetInterface) :
  (i < length (netInterface w))%nat ->
  interfaceAt (update w i f) i = f (interfaceAt w i).
Proof. intros Hi. apply updateAt_same. exact Hi. Qed.

Lemma updateAt_twice (l : list NetInterface) (i : nat)
    (f g : NetInterface -> NetInterface) :
  updateAt (updateAt l i f) i g = updateAt l i (fun n => g (f n)).
Proof.
  revert i. induction l as [|n l IH]; intros [|i]; simpl; auto.
  rewrite IH. reflexivity.
Qed.

Lemma raises_refl (i : nat) (w : World) : Raises i w w.
Proof. exists []. rewrite app_nil_r. repeat split. Qed.

Lemma looks_raises (i : nat) (w w' : World) : Looks w w' -> Raises i w w'.
Proof.
  intros (F & a & Ha & Ba & La & Sa). exists a. rewrite Sa.
  repeat split; assumption.
Qed.

Lemma raises_trans (i : nat) (w1 w2 w3 : World) :
  Raises i w1 w2 -> Raises i w2 w3 -> Raises i w1 w3.
Proof.
  intros (a & Ha & Ba & La & Fa) (b & Hb & Bb & Lb & Fb).
  exists (a ++ b).
  rewrite Hb, Ha, app_assoc, forallb_app, existsb_app, La, Lb.
  split; [reflexivity|]. split; [apply bracketed_app; assumption|].
  split; [reflexivity|]. rewrite Fb, Fa.
  destruct (existsb isSetEvent a), (existsb isSetEvent b); simpl;
    try reflexivity.
  rewrite updateAt_twice. reflexivity.
Qed.

Lemma raiseEvent_raises (i : nat) (w : World) : Raises i w (raiseEvent i w).
Proof. exists [SetEvent]. repeat split. Qed.

(** What a loop keeps of the state it started in. *)
Lemma fold_left_keeps {A : Type} (P : World -> Prop)
    (f : World -> A -> World) (l : list A) :
  (forall w x, P w -> P (f w x)) ->
  forall w, P w -> P (fold_left f l w).
Proof.
  intros Hf. induction l as [|x l IH]; intros w Hw; [exact Hw|].
  simpl. apply IH, Hf, Hw.
Qed.

End TraceProperties.

Section DriverProperties.
Import Ksz8794.

Variable H : Header.
Variable D : Device.
Variable K : Stack.

Lemma read_switch_looks (i : nat) (address : Z) (w : World) :
  Looks w (snd (ksz8794ReadSwitchReg H D i address w)).
Proof.
  unfold ksz8794ReadSwitchReg. destruct (spiDriver _);
    [|apply looks_refl].
  split; [reflexivity|]. eexists. split.
  - cbn [snd transfer record trace fst]. rewrite <- !app_assoc.
    reflexivity.
  - repeat split.
Qed.

Lemma read_phy_looks (i : nat) (p address : Z) (w : World) :
  Looks w (snd (ksz8794ReadPhyReg H D i p address w)).
Proof.
  split; [reflexivity|]. eexists. split; [reflexivity|]. repeat split.
Qed.

Lemma write_switch_keeps (i : nat) (address data : Z) (w : World) :
  netInterface (ksz8794WriteSwitchReg H D i address data w)
  = netInterface w
  /\ Extends w (ksz8794WriteSwitchReg H D i address data w).
Proof.
  unfold ksz8794WriteSwitchReg. destruct (spiDriver _);
    [|split; [reflexivity|apply extends_refl]].
  split; [reflexivity|]. eexists. split.
  - cbn [snd transfer record trace fst]. rewrite <- !app_assoc.
    reflexivity.
  - reflexivity.
Qed.

Lemma getLinkState_looks (i : nat) (p : Z) (w : World) :
  Looks w (snd (ksz8794GetLinkState H D i p w)).
Proof.
  unfold ksz8794GetLinkState. destruct (_ && _); [|apply looks_refl].
  destruct (spiDriver _).
  - pose proof (read_switch_looks i (KSZ8794_PORTn_STAT2 H (u8 p)) w) as E.
    destruct (ksz8794ReadSwitchReg H D i _ w). exact E.
  - pose proof (read_phy_looks i (u8 p) (KSZ8794_BMSR H) w) as E.
    destruct (ksz8794ReadPhyReg H D i _ _ w). exact E.
Qed.

Lemma portLinks_looks (i : nat) (ps : list Z) (w : World) :
  Looks w (snd (portLinks H D i ps w))
  /\ length (fst (portLinks H D i ps w)) = length ps.
Proof.
  revert w. induction ps as [|p ps IH]; intros w; simpl.
  - split; [apply looks_refl|reflexivity].
  - pose proof (getLinkState_looks i p w) as E.
    destruct (ksz8794GetLinkState H D i p w) as [up w1]. simpl in E.
    specialize (IH w1). destruct (portLinks H D i ps w1) as [ups w2].
    simpl in *. destruct IH as (E2 & L2).
    split; [|congruence]. eapply looks_trans; eassumption.
Qed.

(** "Loop through ports" gives TRUE when the link of one port is up. *)
Lemma anyLinkUp_portLinks (i : nat) (w : World) :
  anyLinkUp H D i w
  = (existsb id (fst (portLinks H D i (ports H) w)),
     snd (portLinks H D i (ports H) w)).
Proof.
  unfold anyLinkUp.
  assert (Hgen : forall ps b w,
            fold_left
              (fun '(link, w) p =>
                 let '(up, w) := ksz8794GetLinkState H D i p w in
                 (if up then true else link, w)) ps (b, w)
            = (b || existsb id (fst (portLinks H D i ps w)),
               snd (portLinks H D i ps w))).
  { induction ps as [|p ps IH]; intros b w0; simpl.
    - rewrite orb_false_r. reflexivity.
    - destruct (ksz8794GetLinkState H D i p w0) as [up w1].
      rewrite IH. destruct (portLinks H D i ps w1) as [ups w2]. simpl.
      destruct up, b; reflexivity. }
  rewrite Hgen. reflexivity.
Qed.

Lemma tickInterface_raises (i k : nat) (w : World) :
  Raises i w (tickInterface H D i w k).
Proof.
  unfold tickInterface. destruct (attached w i k); [|apply raises_refl].
  pose proof (getLinkState_looks i (port (interfaceAt w k)) w) as E.
  destruct (ksz8794GetLinkState H D i _ w) as [link w1]. simpl in E.
  apply (looks_raises i) in E.
  destruct (negb _); [|exact E].
  eapply raises_trans; [exact E|apply raiseEvent_raises].
Qed.

Lemma tick_raises (i : nat) (w : World) : Raises i w (ksz8794Tick H D i w).
Proof.
  unfold ksz8794Tick. destruct (portSeparation H w i).
  - apply (fold_left_keeps (Raises i w)); [|apply raises_refl].
    intros w1 k E. eapply raises_trans; [exact E|].
    apply tickInterface_raises.
  - rewrite anyLinkUp_portLinks.
    destruct (portLinks_looks i (ports H) w) as [E _].
    apply (looks_raises i) in E.
    destruct (negb _); [|exact E].
    eapply raises_trans; [exact E|apply raiseEvent_raises].
Qed.

Lemma reads_app (a b : list Event) :
  ReadsOnly H a -> ReadsOnly H b -> ReadsOnly H (a ++ b).
Proof.
  intros Ha Hb. induction Ha; cbn [app]; [exact Hb| | |];
    constructor; assumption.
Qed.

Lemma reading_refl (w : World) : Reading H w w.
Proof. exists []. rewrite app_nil_r. split; [reflexivity|constructor]. Qed.

Lemma reading_trans (w1 w2 w3 : World) :
  Reading H w1 w2 -> Reading H w2 w3 -> Reading H w1 w3.
Proof.
  intros (a & Ha & Ra) (b & Hb & Rb). exists (a ++ b).
  rewrite Hb, Ha, app_assoc. split; [reflexivity|].
  apply reads_app; assumption.
Qed.

Lemma getLinkState_reads (i : nat) (p : Z) (w : World) :
  Reading H w (snd (ksz8794GetLinkState H D i p w)).
Proof.
  unfold ksz8794GetLinkState. destruct (_ && _); [|apply reading_refl].
  destruct (spiDriver (interfaceAt w i)) eqn:Hs.
  - unfold ksz8794ReadSwitchReg. rewrite Hs.
    eexists. split.
    + cbn [snd transfer record trace fst]. rewrite <- !app_assoc.
      reflexivity.
    + apply (reads_switch H (KSZ8794_PORTn_STAT2 H (u8 p)) _ _ _ []).
      constructor.
  - eexists. split; [reflexivity|]. repeat constructor.
Qed.

Lemma raiseEvent_reads (i : nat) (w : World) : Reading H w (raiseEvent i w).
Proof. exists [SetEvent]. split; [reflexivity|repeat constructor]. Qed.

Lemma tick_reads (i : nat) (w : World) : Reading H w (ksz8794Tick H D i w).
Proof.
  unfold ksz8794Tick. destruct (portSeparation H w i).
  - apply (fold_left_keeps (Reading H w)); [|apply reading_refl].
    intros w1 k E. eapply reading_trans; [exact E|].
    unfold tickInterface. destruct (attached w1 i k); [|apply reading_refl].
    pose proof (getLinkState_reads i (port (interfaceAt w1 k)) w1) as E1.
    destruct (ksz8794GetLinkState H D i _ w1) as [link w2]. cbn [snd] in E1.
    destruct (negb _); [|exact E1].
    eapply reading_trans; [exact E1|apply raiseEvent_reads].
  - unfold anyLinkUp.
    assert (Hgen : forall (ps : list Z) (b : bool) (w0 : World),
              Reading H w w0 ->
              Reading H w
                (snd
                   (fold_left
                      (fun '(link, w) p =>
                         let '(up, w) := ksz8794GetLinkState H D i p w in
                         (if up then true else link, w)) ps (b, w0)))).
    { induction ps as [|p ps IH]; intros b w0 E; [exact E|].
      cbn [fold_left].
      pose proof (getLinkState_reads i p w0) as E1.
      destruct (ksz8794GetLinkState H D i p w0) as [up w1]. cbn [snd] in E1.
      apply IH. eapply reading_trans; eassumption. }
    specialize (Hgen (ports H) false w (reading_refl w)).
    destruct (fold_left _ (ports H) (false, w)) as [link w1].
    cbn [snd] in Hgen.
    destruct (negb _); [|exact Hgen].
    eapply reading_trans; [exact Hgen|apply raiseEvent_reads].
Qed.

(** The timer handler only reads: it reads the state of the links and
    raises the event of the interface when a state differs from the one
    the stack has.  It changes no field of an interface but phyEvent of the
    interface it is called for, which it sets and never clears; it sets it
    exactly when it signals the stack with osSetEvent.  Every access of the
    SPI bus it makes is the read of a switch register; it writes no PHY
    register, does not reconfigure the MAC and does not notify the stack of
    a link change itself. *)
Theorem tick_only_raises_the_event (i : nat) (w : World) :
  exists more : list Event,
    trace (ksz8794Tick H D i w) = trace w ++ more
    /\ ReadsOnly H more
    /\ netInterface (ksz8794Tick H D i w)
       = if existsb isSetEvent more then
           updateAt (netInterface w) i (fun n => set_phyEvent n true)
         else netInterface w.
Proof.
  destruct (tick_raises i w) as (more & Ht & _ & _ & Hn).
  destruct (tick_reads i w) as (more' & Ht' & Hr).
  assert (Heq : more' = more)
    by (apply (app_inv_head (trace w)); congruence).
  subst more'. exists more. repeat split; assumption.
Qed.

(** ** The event handler *)

Lemma extends_handOver (w w' : World)
    (f : list NetInterface -> list NetInterface) :
  Extends w w' -> Extends w (handOver f w').
Proof. intros E. exact E. Qed.

Lemma adjustMac_extends (i : nat) (w : World) : Extends w (adjustMac K i w).
Proof.
  unfold adjustMac. apply extends_handOver, extends_record; [reflexivity|].
  apply extends_update, extends_refl.
Qed.

Lemma notify_extends (k : nat) (w w' : World) :
  Extends w w' -> Extends w (notifyLinkChange K k w').
Proof.
  intros E. unfold notifyLinkChange.
  apply extends_handOver, extends_record; [reflexivity|exact E].
Qed.

Lemma eventInterface_extends (i k : nat) (w : World) :
  Extends w (eventInterface H D K i w k).
Proof.
  unfold eventInterface. destruct (attached w i k); [|apply extends_refl].
  destruct (_ && _); [|apply extends_refl].
  pose proof (getLinkState_looks i (port (interfaceAt w k)) w) as E.
  destruct (ksz8794GetLinkState H D i _ w) as [link w1]. simpl in E.
  apply looks_extends in E.
  destruct (link && _).
  - pose proof (adjustMac_extends i w1) as E1.
    pose proof (read_switch_looks i
                  (KSZ8794_PORTn_CTRL11_STAT3 H (port (interfaceAt w k)))
                  (adjustMac K i w1)) as E2.
    destruct (ksz8794ReadSwitchReg H D i _ (adjustMac K i w1))
      as [status w2].
    simpl in E2. apply looks_extends in E2.
    apply notify_extends, extends_update, extends_update.
    eapply extends_trans; [exact E|].
    eapply extends_trans; eassumption.
  - destruct (negb link && _); [|exact E].
    apply notify_extends, extends_update. exact E.
Qed.

Lemma eventHandler_extends (i : nat) (w : World) :
  Extends w (ksz8794EventHandler H D K i w).
Proof.
  unfold ksz8794EventHandler. destruct (portSeparation H w i).
  - apply (fold_left_keeps (Extends w)); [|apply extends_refl].
    intros w1 k E. eapply extends_trans; [exact E|].
    apply eventInterface_extends.
  - rewrite anyLinkUp_portLinks.
    destruct (portLinks_looks i (ports H) w) as [E _].
    apply looks_extends in E.
    apply notify_extends.
    destruct (existsb id _).
    + apply extends_update. eapply extends_trans; [exact E|].
      apply adjustMac_extends.
    + apply extends_update. exact E.
Qed.

(** What a stack that leaves the interface it is handed as it is makes of
    the two calls. *)
Lemma adjustMac_handed (i : nat) (w : World) :
  KeepsHanded K -> (i < length (netInterface w))%nat ->
  length (netInterface (adjustMac K i w)) = length (netInterface w)
  /\ interfaceAt (adjustMac K i w) i
     = set_duplexMode (set_linkSpeed (interfaceAt w i) NIC_LINK_SPEED_100MBPS)
         NIC_FULL_DUPLEX_MODE
  /\ trace (adjustMac K i w)
     = trace w
       ++ [UpdateMacConfig i NIC_LINK_SPEED_100MBPS NIC_FULL_DUPLEX_MODE].
Proof.
  intros Hk Hi. unfold adjustMac. cbv zeta.
  set (f := fun n => set_duplexMode (set_linkSpeed n NIC_LINK_SPEED_100MBPS)
                       NIC_FULL_DUPLEX_MODE).
  destruct (Hk i (netInterface (update w i f))) as [[L A] _].
  split; [|split].
  - cbn [handOver netInterface record]. rewrite L. apply updateAt_length.
  - unfold interfaceAt. cbn [handOver netInterface record]. rewrite A.
    apply updateAt_same. exact Hi.
  - cbn [handOver trace record update].
    rewrite (interfaceAt_update w i f Hi). reflexivity.
Qed.

Lemma notify_handed (k : nat) (w : World) :
  KeepsHanded K ->
  length (netInterface (notifyLinkChange K k w)) = length (netInterface w)
  /\ interfaceAt (notifyLinkChange K k w) k = interfaceAt w k
  /\ trace (notifyLinkChange K k w)
     = trace w ++ [NotifyLinkChange k (linkState (interfaceAt w k))].
Proof.
  intros Hk. destruct (Hk k (netInterface w)) as [_ [L A]].
  unfold notifyLinkChange. cbv zeta.
  split; [exact L|]. split; [exact A|reflexivity].
Qed.

(** The interface the event handler leaves when the ports are not
    separated. *)
Lemma eventHandler_unseparated (i : nat) (w : World) :
  KeepsHanded K ->
  portSeparation H w i = false ->
  (i < length (netInterface w))%nat ->
  let up := existsb id (fst (portLinks H D i (ports H) w)) in
  let n := interfaceAt w i in
  interfaceAt (ksz8794EventHandler H D K i w) i
  = if up then
      mkInterface (spiDriver n) (port n) (parent n) true
        NIC_LINK_SPEED_100MBPS NIC_FULL_DUPLEX_MODE (phyEvent n)
    else
      mkInterface (spiDriver n) (port n) (parent n) false
        (linkSpeed n) (duplexMode n) (phyEvent n).
Proof.
  intros Hk Hsep Hi. cbv zeta.
  unfold ksz8794EventHandler. rewrite Hsep, anyLinkUp_portLinks.
  destruct (portLinks_looks i (ports H) w) as [(F & _) _].
  destruct (portLinks H D i (ports H) w) as [links w1].
  cbn [fst snd] in *.
  assert (Hi1 : (i < length (netInterface w1))%nat) by (rewrite F; exact Hi).
  assert (Hw1 : interfaceAt w1 i = interfaceAt w i)
    by (unfold interfaceAt; rewrite F; reflexivity).
  destruct (existsb id links).
  - destruct (adjustMac_handed i w1 Hk Hi1) as (L & A & _).
    destruct (notify_handed i
                (update (adjustMac K i w1) i (fun n => set_linkState n true))
                Hk) as (_ & B & _).
    rewrite B, interfaceAt_update by (rewrite L; exact Hi1).
    rewrite A, Hw1. reflexivity.
  - destruct (notify_handed i
                (update w1 i (fun n => set_linkState n false)) Hk)
      as (_ & B & _).
    rewrite B, interfaceAt_update by exact Hi1.
    rewrite Hw1. reflexivity.
Qed.

(** The event handler, when the ports are not separated and the stack
    leaves the interface it is handed as it is: the link of the interface
    is up when the link of one port of the switch is up.  When it is up the
    interface is set to 100 Mbit/s and full duplex, whatever the ports
    negotiated, and the MAC is reconfigured; when it is down the speed and
    the duplex mode are left as they are.  The stack is notified of a link
    change on every call, whether or not the state changed.  The
    interfaces the handler leaves are those nicNotifyLinkChange returns:
    when the link is up it is handed them after the state was stored in
    what updateMacConfig returned, updateMacConfig being handed them with
    the speed and the duplex mode set and the state of the link as it was,
    before the state is stored; when the link is down it is handed them
    with the state stored only. *)
Theorem event_handler_follows_the_ports (i : nat) (w : World) :
  KeepsHanded K ->
  portSeparation H w i = false ->
  (i < length (netInterface w))%nat ->
  let read := portLinks H D i (ports H) w in
  let up := existsb id (fst read) in
  let w' := ksz8794EventHandler H D K i w in
  let n := interfaceAt w i in
  interfaceAt w' i
  = (if up then
       mkInterface (spiDriver n) (port n) (parent n) true
         NIC_LINK_SPEED_100MBPS NIC_FULL_DUPLEX_MODE (phyEvent n)
     else
       mkInterface (spiDriver n) (port n) (parent n) false
         (linkSpeed n) (duplexMode n) (phyEvent n))
  /\ trace w'
     = trace (snd read)
       ++ (if up then
             [UpdateMacConfig i NIC_LINK_SPEED_100MBPS NIC_FULL_DUPLEX_MODE]
           else [])
       ++ [NotifyLinkChange i up]
  /\ netInterface w'
     = nicNotifyLinkChange K i
         (if up then
            updateAt
              (updateMacConfig K i
                 (updateAt (netInterface (snd read)) i
                    (fun n =>
                       set_duplexMode
                         (set_linkSpeed n NIC_LINK_SPEED_100MBPS)
                         NIC_FULL_DUPLEX_MODE)))
              i (fun n => set_linkState n true)
          else
            updateAt (netInterface (snd read)) i
              (fun n => set_linkState n false)).
Proof.
  intros Hk Hsep Hi. cbv zeta.
  split; [exact (eventHandler_unseparated i w Hk Hsep Hi)|].
  split.
  2:{ unfold ksz8794EventHandler. rewrite Hsep, anyLinkUp_portLinks.
      destruct (portLinks H D i (ports H) w) as [links w1].
      cbn [fst snd]. destruct (existsb id links); reflexivity. }
  unfold ksz8794EventHandler. rewrite Hsep, anyLinkUp_portLinks.
  destruct (portLinks_looks i (ports H) w) as [(F & _) _].
  destruct (portLinks H D i (ports H) w) as [links w1].
  cbn [fst snd] in *.
  assert (Hi1 : (i < length (netInterface w1))%nat) by (rewrite F; exact Hi).
  destruct (existsb id links).
  - destruct (adjustMac_handed i w1 Hk Hi1) as (L & A & T).
    destruct (notify_handed i
                (update (adjustMac K i w1) i (fun n => set_linkState n true))
                Hk) as (_ & _ & B).
    rewrite B, interfaceAt_update by (rewrite L; exact Hi1).
    cbn [trace update linkState set_linkState]. rewrite T, <- app_assoc.
    reflexivity.
  - destruct (notify_handed i
                (update w1 i (fun n => set_linkState n false)) Hk)
      as (_ & _ & B).
    rewrite B, interfaceAt_update by exact Hi1. reflexivity.
Qed.

Lemma steady_portLinks (i : nat) (spi : bool) (links : Z -> bool)
    (ps : list Z) (w : World) :
  SteadyLinks H D i spi links -> spiDriver (interfaceAt w i) = spi ->
  fst (portLinks H D i ps w) = map links ps.
Proof.
  intros Hs. revert w. induction ps as [|p ps IH]; intros w Hw; simpl.
  - reflexivity.
  - pose proof (Hs p w Hw) as Hp.
    pose proof (getLinkState_looks i p w) as (F & _).
    destruct (ksz8794GetLinkState H D i p w) as [up w1]. simpl in *.
    assert (Hw1 : spiDriver (interfaceAt w1 i) = spi)
      by (unfold interfaceAt; rewrite F; exact Hw).
    specialize (IH w1 Hw1). destruct (portLinks H D i ps w1) as [ups w2].
    simpl in *. congruence.
Qed.

(** The timer handler after the event handler, when the ports are not
    separated, the links stay as they are and the stack leaves the
    interface it is handed as it is: the state the event handler stored is
    the one the timer handler reads, so the timer handler raises no event
    and changes nothing in the interfaces. *)
Theorem tick_is_quiet_after_the_event_handler (i : nat) (w : World)
    (links : Z -> bool) :
  KeepsHanded K ->
  SteadyLinks H D i (spiDriver (interfaceAt w i)) links ->
  portSeparation H w i = false ->
  (i < length (netInterface w))%nat ->
  let w1 := ksz8794EventHandler H D K i w in
  linkState (interfaceAt w1 i) = existsb links (ports H)
  /\ netInterface (ksz8794Tick H D i w1) = netInterface w1
  /\ exists more : list Event,
       trace (ksz8794Tick H D i w1) = trace w1 ++ more
       /\ existsb isSetEvent more = false.
Proof.
  intros Hk Hs Hsep Hi. cbv zeta.
  assert (Hex : forall l, existsb id (map links l) = existsb links l).
  { induction l as [|p l IH]; simpl; [reflexivity|].
    rewrite IH. reflexivity. }
  pose proof (eventHandler_unseparated i w Hk Hsep Hi) as Hat.
  cbv zeta in Hat.
  rewrite (steady_portLinks i _ links (ports H) w Hs eq_refl), Hex in Hat.
  set (w1 := ksz8794EventHandler H D K i w) in *.
  assert (Hstate : linkState (interfaceAt w1 i) = existsb links (ports H)).
  { rewrite Hat. destruct (existsb links (ports H)); reflexivity. }
  assert (Hspi : spiDriver (interfaceAt w1 i) = spiDriver (interfaceAt w i)).
  { rewrite Hat. destruct (existsb links (ports H)); reflexivity. }
  assert (Hsep1 : portSeparation H w1 i = false).
  { unfold portSeparation in *. rewrite Hat.
    destruct (existsb links (ports H)); exact Hsep. }
  split; [exact Hstate|].
  unfold ksz8794Tick. rewrite Hsep1, anyLinkUp_portLinks.
  rewrite (steady_portLinks i _ links (ports H) w1 Hs Hspi), Hex.
  destruct (portLinks_looks i (ports H) w1) as [(F & more & Ht & _ & _ & Hse) _].
  assert (Hsame : interfaceAt (snd (portLinks H D i (ports H) w1)) i
                  = interfaceAt w1 i)
    by (unfold interfaceAt; rewrite F; reflexivity).
  rewrite Hsame, Hstate, eqb_reflx. cbn [negb].
  split; [exact F|]. exists more. split; assumption.
Qed.

(** What the event handler adds to the trace, and that it leaves the
    interfaces as they are when it does not notify the stack. *)
Lemma eventInterface_notifies (i k : nat) (w : World) :
  exists more : list Event,
    trace (eventInterface H D K i w k) = trace w ++ more
    /\ (existsb isNotify more = false ->
        netInterface (eventInterface H D K i w k) = netInterface w).
Proof.
  assert (Hnil : forall w0 : World,
            exists more : list Event,
              trace w0 = trace w0 ++ more
              /\ (existsb isNotify more = false ->
                  netInterface w0 = netInterface w0)).
  { intros w0. exists []. rewrite app_nil_r. split; reflexivity. }
  assert (Hnot : forall w0 : World,
            Extends w w0 ->
            exists more : list Event,
              trace (notifyLinkChange K k w0) = trace w ++ more
              /\ (existsb isNotify more = false ->
                  netInterface (notifyLinkChange K k w0) = netInterface w)).
  { intros w0 (m & Hm & _).
    exists (m ++ [NotifyLinkChange k (linkState (interfaceAt w0 k))]).
    split.
    - unfold notifyLinkChange. cbn [handOver trace record].
      rewrite Hm, <- app_assoc. reflexivity.
    - rewrite existsb_app. cbn [existsb isNotify].
      rewrite orb_true_r. discriminate. }
  unfold eventInterface. destruct (attached w i k); [|apply Hnil].
  destruct (_ && _); [|apply Hnil].
  pose proof (getLinkState_looks i (port (interfaceAt w k)) w) as E.
  destruct (ksz8794GetLinkState H D i _ w) as [link w1]. simpl in E.
  destruct (link && _).
  - apply looks_extends in E.
    pose proof (adjustMac_extends i w1) as E1.
    pose proof (read_switch_looks i
                  (KSZ8794_PORTn_CTRL11_STAT3 H (port (interfaceAt w k)))
                  (adjustMac K i w1)) as E2.
    destruct (ksz8794ReadSwitchReg H D i _ (adjustMac K i w1))
      as [status w2].
    simpl in E2. apply looks_extends in E2.
    apply Hnot, extends_update, extends_update.
    eapply extends_trans; [exact E|].
    eapply extends_trans; eassumption.
  - destruct (negb link && _).
    + apply Hnot, extends_update, looks_extends, E.
    + destruct E as (F & m & Hm & _). exists m.
      split; [exact Hm|]. intros _. exact F.
Qed.

(** The event handler writes an interface only on a call in which it
    notifies the stack of a link change, whatever the stack does with the
    interfaces: when nicNotifyLinkChange is not called, every interface is
    as it was.  When the ports are not separated nicNotifyLinkChange is
    called on every call of the handler. *)
Theorem event_handler_notifies_what_it_writes (i : nat) (w : World) :
  exists more : list Event,
    trace (ksz8794EventHandler H D K i w) = trace w ++ more
    /\ (existsb isNotify more = false ->
        netInterface (ksz8794EventHandler H D K i w) = netInterface w)
    /\ (portSeparation H w i = false -> existsb isNotify more = true).
Proof.
  unfold ksz8794EventHandler. destruct (portSeparation H w i).
  - assert (Hfold : forall (ks : list nat) (w0 : World),
              exists more : list Event,
                trace (fold_left (eventInterface H D K i) ks w0)
                = trace w0 ++ more
                /\ (existsb isNotify more = false ->
                    netInterface (fold_left (eventInterface H D K i) ks w0)
                    = netInterface w0)).
    { induction ks as [|k ks IH]; intros w0.
      - exists []. rewrite app_nil_r. split; reflexivity.
      - destruct (eventInterface_notifies i k w0) as (a & Ha & Na).
        destruct (IH (eventInterface H D K i w0 k)) as (b & Hb & Nb).
        exists (a ++ b). cbn [fold_left].
        split; [rewrite Hb, Ha, app_assoc; reflexivity|].
        rewrite existsb_app. intros Hab.
        apply orb_false_iff in Hab. destruct Hab as [Ea Eb].
        rewrite (Nb Eb). exact (Na Ea). }
    destruct (Hfold (seq 0 (length (netInterface w))) w) as (more & Ht & Hn).
    exists more. split; [exact Ht|]. split; [exact Hn|discriminate].
  - rewrite anyLinkUp_portLinks.
    destruct (portLinks_looks i (ports H) w) as [E _].
    apply looks_extends in E.
    set (w1 := snd (portLinks H D i (ports H) w)) in *. cbn [fst snd].
    assert (Hw2 : exists w2 : World,
              Extends w w2
              /\ (if existsb id (fst (portLinks H D i (ports H) w)) then
                    update (adjustMac K i w1) i
                      (fun n => set_linkState n true)
                  else update w1 i (fun n => set_linkState n false)) = w2).
    { eexists. split; [|reflexivity].
      destruct (existsb id _).
      - apply extends_update. eapply extends_trans; [exact E|].
        apply adjustMac_extends.
      - apply extends_update. exact E. }
    destruct Hw2 as (w2 & (m & Hm & _) & ->).
    exists (m ++ [NotifyLinkChange i (linkState (interfaceAt w2 i))]).
    assert (Hex : existsb isNotify
                    (m ++ [NotifyLinkChange i (linkState (interfaceAt w2 i))])
                  = true).
    { rewrite existsb_app. cbn [existsb isNotify]. apply orb_true_r. }
    split; [|split; [rewrite Hex; discriminate|intros _; exact Hex]].
    unfold notifyLinkChange. cbn [handOver trace record].
    rewrite Hm, <- app_assoc. reflexivity.
Qed.

(** ** Initialization *)

Lemma waitReady_never (fuel i : nat) (w : World) :
  NeverReady H D -> spiDriver (interfaceAt w i) = true ->
  waitReady H D fuel i w = None.
Proof.
  intros Hn. revert w. induction fuel as [|fuel IH]; intros w Hs;
    [reflexivity|].
  simpl. unfold ksz8794ReadSwitchReg. rewrite Hs.
  cbn [transfer snd fst].
  destruct (_ =? _) eqn:He.
  - apply Z.eqb_eq in He. exfalso. eapply Hn. exact He.
  - apply IH. exact Hs.
Qed.

(** A register read in SPI slave mode, on the bus. *)
Lemma read_switch_trace (i : nat) (address : Z) (w : World) :
  spiDriver (interfaceAt w i) = true ->
  exists x y : Z,
    trace (snd (ksz8794ReadSwitchReg H D i address w))
    = trace w
      ++ [SpiAssertCs;
          SpiTransfer
            (u8 (MSB H (spiCommand H (KSZ8794_SPI_CMD_READ H) address))) x;
          SpiTransfer
            (u8 (LSB H (spiCommand H (KSZ8794_SPI_CMD_READ H) address))) y;
          SpiTransfer 255 (fst (ksz8794ReadSwitchReg H D i address w));
          SpiDeassertCs].
Proof.
  intros Hs. unfold ksz8794ReadSwitchReg. rewrite Hs.
  cbn [transfer snd fst record trace]. change (u8 255) with 255.
  do 2 eexists. rewrite <- !app_assoc. reflexivity.
Qed.

Lemma waitReady_returns (fuel i : nat) (w w' : World) :
  waitReady H D fuel i w = Some w' ->
  netInterface w' = netInterface w
  /\ exists more : list Event,
       trace w' = trace w ++ more /\ bracketed more = true
       /\ (spiDriver (interfaceAt w i) = true ->
           In (SpiTransfer 255 (KSZ8794_CHIP_ID0_FAMILY_ID_DEFAULT H)) more).
Proof.
  revert w. induction fuel as [|fuel IH]; intros w Hr; [discriminate|].
  simpl in Hr.
  pose proof (read_switch_looks i (KSZ8794_CHIP_ID0 H) w)
    as (F & a & Ha & Ba & _).
  assert (Hlast : spiDriver (interfaceAt w i) = true ->
                  In (SpiTransfer 255
                        (fst (ksz8794ReadSwitchReg H D i
                                (KSZ8794_CHIP_ID0 H) w))) a).
  { intros Hs.
    destruct (read_switch_trace i (KSZ8794_CHIP_ID0 H) w Hs)
      as (x & y & Ht).
    rewrite Ht in Ha. apply app_inv_head in Ha. subst a.
    simpl. right. right. right. left. reflexivity. }
  destruct (ksz8794ReadSwitchReg H D i (KSZ8794_CHIP_ID0 H) w) as [temp w1].
  simpl in F, Ha, Hlast.
  destruct (temp =? _) eqn:He.
  - inversion Hr; subst w'. split; [exact F|]. exists a.
    split; [exact Ha|]. split; [exact Ba|].
    apply Z.eqb_eq in He. subst temp. exact Hlast.
  - apply IH in Hr. destruct Hr as (F2 & b & Hb & Bb & Hin).
    split; [congruence|]. exists (a ++ b). rewrite Hb, Ha, app_assoc.
    split; [reflexivity|]. split; [apply bracketed_app; assumption|].
    intros Hs. apply in_or_app. right. apply Hin.
    unfold interfaceAt in *. rewrite F. exact Hs.
Qed.

Lemma initPort_keeps (i : nat) (w : World) (p : Z) :
  netInterface (initPort H D i w p) = netInterface w
  /\ Extends w (initPort H D i w p).
Proof.
  unfold initPort.
  pose proof (read_switch_looks i (KSZ8794_PORTn_CTRL2 H p) w) as E.
  destruct (ksz8794ReadSwitchReg H D i _ w) as [temp w1]. simpl in E.
  destruct (write_switch_keeps i (KSZ8794_PORTn_CTRL2 H p)
              (portControl H (portSeparation H w i) temp) w1) as [F2 E2].
  destruct E as [F E]. split; [congruence|].
  eapply extends_trans; [|exact E2].
  apply looks_extends. split; assumption.
Qed.

Lemma dumpSwitchReg_looks (i : nat) (w : World) :
  Looks w (ksz8794DumpSwitchReg H D i w).
Proof.
  unfold ksz8794DumpSwitchReg. destruct (TRACE_DEBUG_ENABLED H);
    [|apply looks_refl].
  apply (fold_left_keeps (Looks w)); [|apply looks_refl].
  intros w1 r E. eapply looks_trans; [exact E|].
  apply read_switch_looks.
Qed.

Lemma dumpPhyReg_reads (i : nat) (p : Z) (w : World) :
  netInterface (ksz8794DumpPhyReg H D i p w) = netInterface w
  /\ exists more : list Event,
       trace (ksz8794DumpPhyReg H D i p w) = trace w ++ more
       /\ forallb mdioOnly more = true.
Proof.
  unfold ksz8794DumpPhyReg. destruct (TRACE_DEBUG_ENABLED H).
  - apply (fold_left_keeps
             (fun w' => netInterface w' = netInterface w
                        /\ exists more, trace w' = trace w ++ more
                                        /\ forallb mdioOnly more = true)).
    + intros w1 r (F & a & Ha & La). split; [exact F|].
      exists (a ++ [PhyRead (SMI_OPCODE_READ H) (u8 p) (u8 (Z.of_nat r))
                      (fst (ksz8794ReadPhyReg H D i p (Z.of_nat r) w1))]).
      cbn [ksz8794ReadPhyReg snd fst record trace].
      rewrite Ha, app_assoc, forallb_app, La. split; reflexivity.
    + split; [reflexivity|]. exists []. rewrite app_nil_r. split; reflexivity.
  - split; [reflexivity|]. exists []. rewrite app_nil_r. split; reflexivity.
Qed.

Lemma initTailTag_keeps (i : nat) (w : World) :
  netInterface (initTailTag H D i w) = netInterface w
  /\ Extends w (initTailTag H D i w).
Proof.
  unfold initTailTag.
  pose proof (read_switch_looks i (KSZ8794_GLOBAL_CTRL10 H) w) as E.
  destruct (ksz8794ReadSwitchReg H D i _ w) as [temp w1]. simpl in E.
  match goal with
  | |- context [ksz8794WriteSwitchReg H D i ?a ?d w1] =>
      destruct (write_switch_keeps i a d w1) as [F2 E2]
  end.
  destruct E as [F E]. split; [congruence|].
  eapply extends_trans; [|exact E2].
  apply looks_extends. split; assumption.
Qed.

Lemma init_spi_keeps (i : nat) (w : World) :
  let w' :=
    ksz8794DumpSwitchReg H D i
      (fold_left (initPort H D i) (ports H) (initTailTag H D i w)) in
  netInterface w' = netInterface w /\ Extends w w'.
Proof.
  cbv zeta. destruct (initTailTag_keeps i w) as [F1 E1].
  assert (H2 : netInterface
                 (fold_left (initPort H D i) (ports H) (initTailTag H D i w))
               = netInterface w
               /\ Extends w
                    (fold_left (initPort H D i) (ports H)
                       (initTailTag H D i w))).
  { apply (fold_left_keeps
             (fun w' => netInterface w' = netInterface w /\ Extends w w'));
      [|split; assumption].
    intros w1 p [F E]. destruct (initPort_keeps i w1 p) as [F' E'].
    split; [congruence|]. eapply extends_trans; eassumption. }
  destruct H2 as [F2 E2].
  pose proof (dumpSwitchReg_looks i
                (fold_left (initPort H D i) (ports H)
                   (initTailTag H D i w))) as E3.
  split; [destruct E3 as [F3 _]; congruence|].
  eapply extends_trans; [exact E2|]. apply looks_extends. exact E3.
Qed.

Lemma init_returns (fuel i : nat) (w : World)
    (r : error_t * World) :
  ksz8794Init H D fuel i w = Some r ->
  fst r = NO_ERROR
  /\ netInterface (snd r)
     = updateAt (netInterface w) i (fun n => set_phyEvent n true)
  /\ exists more : list Event,
       trace (snd r) = trace w ++ more ++ [SetEvent]
       /\ bracketed more = true
       /\ (if spiDriver (interfaceAt w i) then
             In (SpiTransfer 255 (KSZ8794_CHIP_ID0_FAMILY_ID_DEFAULT H)) more
           else forallb mdioOnly more = true).
Proof.
  unfold ksz8794Init. destruct (spiDriver (interfaceAt w i)) eqn:Hs.
  - destruct (waitReady H D fuel i (record SpiInit w)) as [w1|] eqn:Hw;
      [|discriminate].
    apply waitReady_returns in Hw.
    destruct Hw as (F1 & a & Ha & Ba & Hin).
    destruct (init_spi_keeps i w1) as [F2 (b & Hb & Bb)].
    cbv zeta in F2, Hb.
    intros Hr. inversion Hr; subst r; clear Hr.
    cbn [fst snd netInterface trace record update].
    split; [reflexivity|]. split; [rewrite F2, F1; reflexivity|].
    exists ((SpiInit :: a) ++ b).
    rewrite Hb, Ha. cbn [trace record]. rewrite <- !app_assoc.
    split; [reflexivity|]. split.
    + apply (bracketed_app (SpiInit :: a) b); [exact Ba|exact Bb].
    + apply in_or_app. left. right. apply Hin. exact Hs.
  - intros Hr. inversion Hr; subst r; clear Hr.
    cbn [fst snd netInterface trace record update].
    assert (Hd : netInterface
                   (fold_left (fun w p => ksz8794DumpPhyReg H D i p w)
                      (ports H) w) = netInterface w
                 /\ exists more,
                      trace (fold_left
                               (fun w p => ksz8794DumpPhyReg H D i p w)
                               (ports H) w) = trace w ++ more
                      /\ forallb mdioOnly more = true).
    { apply (fold_left_keeps
               (fun w' => netInterface w' = netInterface w
                          /\ exists more, trace w' = trace w ++ more
                               /\ forallb mdioOnly more = true)).
      - intros w1 p (F & a & Ha & La).
        destruct (dumpPhyReg_reads i p w1) as (F' & b & Hb & Lb).
        split; [congruence|]. exists (a ++ b).
        rewrite Hb, Ha, app_assoc, forallb_app, La, Lb.
        split; reflexivity.
      - split; [reflexivity|]. exists []. rewrite app_nil_r.
        split; reflexivity. }
    destruct Hd as (F & more & Hm & Lm).
    split; [reflexivity|]. split; [rewrite F; reflexivity|].
    exists more. rewrite Hm, <- app_assoc. split; [reflexivity|].
    split; [|exact Lm].
    clear Hm. induction more as [|e more IH]; [reflexivity|].
    simpl in Lm. apply andb_true_iff in Lm. destruct Lm as [Le Lm].
    destruct e; try discriminate; simpl; apply IH; exact Lm.
Qed.

(** The initialization waits for the switch without a time limit.  In SPI
    slave mode it reads CHIP_ID0 until the family identifier is read: it
    returns only after that value was shifted in, and never returns when
    the switch never shifts it out.  Without SPI driver it returns at once,
    having done nothing but read PHY registers.  When it returns it
    returns NO_ERROR, the interfaces are as they were but for phyEvent of
    the interface, which is set, the SPI bus is released, and the last
    thing done is the signalling of the stack. *)
Theorem init_waits_for_the_switch (i : nat) (w : World) :
  (forall fuel r,
     ksz8794Init H D fuel i w = Some r ->
     fst r = NO_ERROR
     /\ netInterface (snd r)
        = updateAt (netInterface w) i (fun n => set_phyEvent n true)
     /\ exists more : list Event,
          trace (snd r) = trace w ++ more ++ [SetEvent]
          /\ bracketed more = true
          /\ (if spiDriver (interfaceAt w i) then
                In (SpiTransfer 255 (KSZ8794_CHIP_ID0_FAMILY_ID_DEFAULT H))
                  more
              else forallb mdioOnly more = true))
  /\ (spiDriver (interfaceAt w i) = true -> NeverReady H D ->
      forall fuel, ksz8794Init H D fuel i w = None)
  /\ (spiDriver (interfaceAt w i) = false ->
      forall fuel, exists w', ksz8794Init H D fuel i w = Some (NO_ERROR, w')).
Proof.
  split; [intros fuel r; apply init_returns|]. split.
  - intros Hs Hn fuel. unfold ksz8794Init. rewrite Hs.
    rewrite (waitReady_never fuel i (record SpiInit w) Hn Hs).
    reflexivity.
  - intros Hs fuel. unfold ksz8794Init. rewrite Hs. eexists. reflexivity.
Qed.

(** Every access of the SPI bus is a complete register access: whatever
    the driver is called for, what it adds to the trace is made of accesses
    in which chip select is asserted, three octets are exchanged and chip
    select is released, and of calls that are not on the bus, whatever
    the stack does with the interfaces.  Chip select is never left asserted
    and no access starts inside another. *)
Theorem spi_accesses_are_complete (i : nat) (w : World) :
  (forall address, Extends w (snd (ksz8794ReadSwitchReg H D i address w)))
  /\ (forall address data,
        Extends w (ksz8794WriteSwitchReg H D i address data w))
  /\ (forall p, Extends w (snd (ksz8794GetLinkState H D i p w)))
  /\ Extends w (ksz8794DumpSwitchReg H D i w)
  /\ Extends w (ksz8794Tick H D i w)
  /\ Extends w (ksz8794EventHandler H D K i w)
  /\ (forall fuel r,
        ksz8794Init H D fuel i w = Some r -> Extends w (snd r)).
Proof.
  split; [intros a; apply looks_extends, read_switch_looks|].
  split; [intros a d; apply write_switch_keeps|].
  split; [intros p; apply looks_extends, getLinkState_looks|].
  split; [apply looks_extends, dumpSwitchReg_looks|].
  split.
  { destruct (tick_raises i w) as (more & Ht & Hb & _).
    exists more. split; assumption. }
  split; [apply eventHandler_extends|].
  intros fuel r Hr. apply init_returns in Hr.
  destruct Hr as (_ & _ & more & Ht & Hb & _).
  exists (more ++ [SetEvent]). split; [exact Ht|].
  apply bracketed_app; [exact Hb|reflexivity].
Qed.

(** ** Tail tags *)

(** ksz8794UntagFrame never reads outside of the frame: for a frame of
    which [len] octets can be read it returns.  With port tagging and an
    SPI driver, a frame longer than an Ethernet header loses its last
    octet, from which the port is decoded, and still holds a whole header;
    a shorter frame is refused with ERROR_INVALID_LENGTH, the length and
    the port being left alone.  Otherwise the frame is accepted as it is,
    whatever its length, and the port is 0. *)
Theorem untag_frame_strips_the_tail_tag (n : NetInterface)
    (frame : list Z) (len p : Z) :
  len <= Z.of_nat (length frame) ->
  exists (error : error_t) (len' port' : Z),
    ksz8794UntagFrame H n frame len p = Some (error, len', port')
    /\ if ETH_PORT_TAGGING_SUPPORT H && spiDriver n then
         if Z.of_nat (sizeof_EthHeader H) <? len then
           error = NO_ERROR /\ len' = len - 1
           /\ Z.of_nat (sizeof_EthHeader H) <= len'
           /\ exists tailTag,
                nth_error frame (Z.to_nat len') = Some tailTag
                /\ port' = u8 (KSZ8794_TAIL_TAG_DECODE H tailTag)
         else error = ERROR_INVALID_LENGTH /\ len' = len /\ port' = p
       else error = NO_ERROR /\ len' = len /\ port' = 0.
Proof.
  intros Hlen. unfold ksz8794UntagFrame.
  destruct (_ && _); [|do 3 eexists; repeat split].
  destruct (Z.of_nat (sizeof_EthHeader H) <? len) eqn:Hc.
  - apply Z.ltb_lt in Hc.
    assert (Hle : (Z.of_nat (sizeof_EthHeader H) + 1 <=? len) = true)
      by (apply Z.leb_le; lia).
    rewrite Hle.
    destruct (nth_error frame (Z.to_nat (len - 1))) as [tailTag|] eqn:Hn.
    + do 3 eexists. split; [reflexivity|].
      repeat split; [lia|]. exists tailTag. split; [exact Hn|reflexivity].
    + apply nth_error_None in Hn. lia.
  - apply Z.ltb_ge in Hc.
    assert (Hle : (Z.of_nat (sizeof_EthHeader H) + 1 <=? len) = false)
      by (apply Z.leb_gt; lia).
    rewrite Hle. do 3 eexists. repeat split.
Qed.

(** ksz8794TagFrame, when the last port of the switch is at most 3, takes
    the tail tag inside of ksz8794IngressTailTag and returns.  With port
    tagging and an SPI driver, a port past the last port is refused with
    ERROR_WRONG_IDENTIFIER and the buffer is left alone; for any other
    port, port 0 included, the frame is padded and, unless the padding
    failed, the one octet of the table for the port is appended: the
    status is the one of ethPadFrame when it failed and the one of
    netBufferAppend otherwise.  Without port tagging or without SPI driver
    the buffer is left alone and the port is not looked at. *)
Theorem tag_frame_checks_the_port {NetBuffer : Type}
    (B : BufferOps NetBuffer) (n : NetInterface) (buffer : NetBuffer)
    (offset p type : Z) :
  KSZ8794_PORT3 H <= 3 ->
  exists r : error_t * NetBuffer,
    ksz8794TagFrame H B n buffer offset p type = Some r
    /\ if ETH_PORT_TAGGING_SUPPORT H && spiDriver n then
         if u8 p <=? KSZ8794_PORT3 H then
           exists tailTag : Z,
             nth_error (ksz8794IngressTailTag H) (Z.to_nat (u8 p))
               = Some tailTag
             /\ let padded :=
                  ethPadFrame B buffer
                    (size_t H (netBufferGetLength B buffer - offset)) in
                r = if isError (fst (fst padded)) then
                      (fst (fst padded), snd (fst padded))
                    else netBufferAppend B (snd (fst padded)) [tailTag]
         else r = (ERROR_WRONG_IDENTIFIER, buffer)
       else r = (NO_ERROR, buffer).
Proof.
  intros Hp. unfold ksz8794TagFrame.
  destruct (_ && _); [|eexists; split; reflexivity].
  destruct (u8 p <=? KSZ8794_PORT3 H) eqn:Hc;
    [|eexists; split; reflexivity].
  apply Z.leb_le in Hc.
  assert (Hr : 0 <= u8 p) by (unfold u8; apply Z.mod_pos_bound; lia).
  destruct (nth_error (ksz8794IngressTailTag H) (Z.to_nat (u8 p)))
    as [tailTag|] eqn:Hn.
  - destruct (ethPadFrame B buffer _) as [[e b] l] eqn:Hpad.
    cbv zeta. cbn [fst snd].
    destruct (isError e); (eexists; split; [reflexivity|]);
      exists tailTag; split; reflexivity.
  - apply nth_error_None in Hn. simpl in Hn. lia.
Qed.

End DriverProperties.

Section WiringProperties.
Import Ksz8794.

Variable H : Header.
Variable D : Device.
Variable K : Stack.

Lemma updateAt_nth (l : list NetInterface) (i j : nat)
    (f : NetInterface -> NetInterface) :
  nth j (updateAt l i f) nullInterface
  = if (j =? i)%nat && (i <? length l)%nat then f (nth i l nullInterface)
    else nth j l nullInterface.
Proof.
  destruct (Nat.eqb_spec j i) as [->|Hne].
  - destruct (Nat.ltb_spec i (length l)) as [Hlt|Hge]; simpl.
    + apply updateAt_same. exact Hlt.
    + revert i Hge. induction l as [|n l IH]; intros [|i] Hge; simpl in *;
        try reflexivity; try lia. apply IH. lia.
  - simpl. apply updateAt_other. exact Hne.
Qed.

Lemma sameWiring_refl (w : World) : SameWiring w w.
Proof. split; [reflexivity|]. intros j. split; reflexivity. Qed.

Lemma sameWiring_trans (w1 w2 w3 : World) :
  SameWiring w1 w2 -> SameWiring w2 w3 -> SameWiring w1 w3.
Proof.
  intros [L1 F1] [L2 F2]. split; [congruence|]. intros j.
  destruct (F1 j) as [A1 B1]. destruct (F2 j) as [A2 B2].
  split; congruence.
Qed.

Lemma sameWiring_frame (w w' : World) :
  netInterface w' = netInterface w -> SameWiring w w'.
Proof.
  intros F. unfold SameWiring, interfaceAt. rewrite F.
  split; [reflexivity|]. intros j. split; reflexivity.
Qed.

Lemma sameWiring_update (w : World) (i : nat)
    (f : NetInterface -> NetInterface) :
  (forall n, wiring (f n) = wiring n /\ phyEvent (f n) = phyEvent n) ->
  SameWiring w (update w i f).
Proof.
  intros Hf. split; [apply updateAt_length|]. intros j.
  unfold interfaceAt. cbn [netInterface update]. rewrite updateAt_nth.
  destruct (_ && _) eqn:Hc; [|split; reflexivity].
  apply andb_true_iff in Hc. destruct Hc as [Hj _].
  apply Nat.eqb_eq in Hj. subst j. apply Hf.
Qed.

Lemma operationMode_wiring (status : Z) (n : NetInterface) :
  wiring (operationMode H status n) = wiring n
  /\ phyEvent (operationMode H status n) = phyEvent n.
Proof.
  unfold operationMode. repeat destruct (_ =? _); split; reflexivity.
Qed.

Lemma adjustMac_wiring (i : nat) (w : World) :
  KeepsWiring K -> SameWiring w (adjustMac K i w).
Proof.
  intros Hk. unfold adjustMac. cbv zeta.
  set (f := fun n => set_duplexMode (set_linkSpeed n NIC_LINK_SPEED_100MBPS)
                       NIC_FULL_DUPLEX_MODE).
  eapply sameWiring_trans;
    [apply (sameWiring_update w i f); intros n; split; reflexivity|].
  eapply sameWiring_trans; [|apply Hk].
  apply sameWiring_frame. reflexivity.
Qed.

Lemma notify_wiring (k : nat) (w : World) :
  KeepsWiring K -> SameWiring w (notifyLinkChange K k w).
Proof.
  intros Hk. unfold notifyLinkChange. cbv zeta.
  eapply sameWiring_trans; [|apply Hk].
  apply sameWiring_frame. reflexivity.
Qed.

Lemma adjustMac_silent (i : nat) (w : World) :
  Silent K ->
  netInterface (adjustMac K i w)
  = updateAt (netInterface w) i
      (fun n => set_duplexMode (set_linkSpeed n NIC_LINK_SPEED_100MBPS)
                  NIC_FULL_DUPLEX_MODE).
Proof.
  intros Hs. unfold adjustMac. cbn [handOver netInterface record update].
  apply Hs.
Qed.

Lemma notify_silent (k : nat) (w : World) :
  Silent K -> netInterface (notifyLinkChange K k w) = netInterface w.
Proof.
  intros Hs. unfold notifyLinkChange. cbn [handOver netInterface record].
  apply Hs.
Qed.

(** One pass of "Loop through network interfaces" of the event handler
    keeps the wiring when the stack does. *)
Lemma eventInterface_wiring (i k : nat) (w : World) :
  KeepsWiring K -> SameWiring w (eventInterface H D K i w k).
Proof.
  intros Hk. unfold eventInterface.
  destruct (attached w i k); [|apply sameWiring_refl].
  destruct (_ && _); [|apply sameWiring_refl].
  pose proof (getLinkState_looks H D i (port (interfaceAt w k)) w)
    as (F & _).
  destruct (ksz8794GetLinkState H D i _ w) as [link w1]. simpl in F.
  apply sameWiring_frame in F.
  destruct (link && _).
  - pose proof (read_switch_looks H D i
                  (KSZ8794_PORTn_CTRL11_STAT3 H (port (interfaceAt w k)))
                  (adjustMac K i w1)) as (F2 & _).
    destruct (ksz8794ReadSwitchReg H D i _ (adjustMac K i w1))
      as [status w2]. cbn [snd] in F2.
    eapply sameWiring_trans; [exact F|].
    eapply sameWiring_trans; [apply adjustMac_wiring; exact Hk|].
    eapply sameWiring_trans;
      [apply (sameWiring_frame _ w2); exact F2|].
    eapply sameWiring_trans;
      [apply (sameWiring_update w2 k (operationMode H status));
       apply operationMode_wiring|].
    eapply sameWiring_trans;
      [apply (sameWiring_update _ k (fun n => set_linkState n true));
       intros n; split; reflexivity|].
    apply notify_wiring. exact Hk.
  - destruct (negb link && _); [|exact F].
    eapply sameWiring_trans; [exact F|].
    eapply sameWiring_trans;
      [apply (sameWiring_update w1 k (fun n => set_linkState n false));
       intros n; split; reflexivity|].
    apply notify_wiring. exact Hk.
Qed.

(** What one pass leaves alone: the interfaces it is not about, when the
    stack writes none, and every interface when the interface is not
    attached or its port is not a port of the switch. *)
Lemma eventInterface_touches (i k : nat) (w : World) :
  (Silent K ->
   forall j, j <> i -> j <> k ->
     interfaceAt (eventInterface H D K i w k) j = interfaceAt w j)
  /\ (attached w i k
      && (KSZ8794_PORT1 H <=? port (interfaceAt w k))
      && (port (interfaceAt w k) <=? KSZ8794_PORT3 H) = false ->
      eventInterface H D K i w k = w).
Proof.
  unfold eventInterface. destruct (attached w i k);
    [|split; reflexivity].
  cbn [andb].
  destruct (_ && _); [|split; reflexivity].
  split; [|discriminate].
  intros Hs j Hi Hk.
  pose proof (getLinkState_looks H D i (port (interfaceAt w k)) w)
    as (F & _).
  destruct (ksz8794GetLinkState H D i _ w) as [link w1]. simpl in F.
  assert (Hw1 : interfaceAt w1 j = interfaceAt w j)
    by (unfold interfaceAt; rewrite F; reflexivity).
  destruct (link && _).
  - pose proof (read_switch_looks H D i
                  (KSZ8794_PORTn_CTRL11_STAT3 H (port (interfaceAt w k)))
                  (adjustMac K i w1)) as (F2 & _).
    destruct (ksz8794ReadSwitchReg H D i _ (adjustMac K i w1))
      as [status w2]. cbn [snd] in F2.
    unfold interfaceAt. rewrite notify_silent by exact Hs.
    cbn [netInterface update].
    rewrite !updateAt_other by exact Hk.
    rewrite F2, adjustMac_silent by exact Hs.
    rewrite updateAt_other by exact Hi. rewrite F. reflexivity.
  - destruct (negb link && _); [|exact Hw1].
    unfold interfaceAt. rewrite notify_silent by exact Hs.
    cbn [netInterface update].
    rewrite updateAt_other by exact Hk. rewrite F. reflexivity.
Qed.

Lemma attached_wiring (w w' : World) (i k : nat) :
  SameWiring w w' -> attached w' i k = attached w i k.
Proof.
  intros [_ F]. unfold attached. destruct (F k) as [A _].
  unfold wiring in A. injection A as _ _ A. rewrite A. reflexivity.
Qed.

(** The event handler keeps the wiring of the interfaces when the stack
    does: it leaves the number of interfaces, their ports, parents, SPI
    drivers and events as they are.  The interfaces the handler itself may
    write are the interface it is called for and, when the ports are
    separated, the interfaces attached to it whose port is a port of the
    switch: with a stack that writes none, every other interface is left
    as it is. *)
Theorem event_handler_keeps_the_wiring (i : nat) (w : World) :
  KeepsWiring K ->
  let w' := ksz8794EventHandler H D K i w in
  length (netInterface w') = length (netInterface w)
  /\ (forall j,
        spiDriver (interfaceAt w' j) = spiDriver (interfaceAt w j)
        /\ port (interfaceAt w' j) = port (interfaceAt w j)
        /\ parent (interfaceAt w' j) = parent (interfaceAt w j)
        /\ phyEvent (interfaceAt w' j) = phyEvent (interfaceAt w j))
  /\ (Silent K ->
      forall j,
        j <> i ->
        portSeparation H w i
        && attached w i j
        && (KSZ8794_PORT1 H <=? port (interfaceAt w j))
        && (port (interfaceAt w j) <=? KSZ8794_PORT3 H) = false ->
        interfaceAt w' j = interfaceAt w j).
Proof.
  intros Hk. cbv zeta.
  assert (Hall : SameWiring w (ksz8794EventHandler H D K i w)
                 /\ (Silent K ->
                     forall j,
                       j <> i ->
                       portSeparation H w i
                       && attached w i j
                       && (KSZ8794_PORT1 H <=? port (interfaceAt w j))
                       && (port (interfaceAt w j) <=? KSZ8794_PORT3 H)
                       = false ->
                       interfaceAt (ksz8794EventHandler H D K i w) j
                       = interfaceAt w j)).
  { unfold ksz8794EventHandler.
    destruct (portSeparation H w i) eqn:Hsep.
    - apply (fold_left_keeps
               (fun w1 =>
                  SameWiring w w1
                  /\ (Silent K ->
                      forall j,
                        j <> i ->
                        true && attached w i j
                        && (KSZ8794_PORT1 H <=? port (interfaceAt w j))
                        && (port (interfaceAt w j) <=? KSZ8794_PORT3 H)
                        = false ->
                        interfaceAt w1 j = interfaceAt w j)));
        [|split; [apply sameWiring_refl|reflexivity]].
      intros w1 k [S1 U1].
      pose proof (eventInterface_wiring i k w1 Hk) as S2.
      destruct (eventInterface_touches i k w1) as (O2 & N2).
      split; [eapply sameWiring_trans; eassumption|].
      intros Hs j Hj Hu. rewrite <- (U1 Hs j Hj Hu).
      destruct (Nat.eq_dec j k) as [->|Hne]; [|apply O2; assumption].
      rewrite N2; [reflexivity|].
      rewrite (attached_wiring w w1 i k S1).
      destruct S1 as [_ F1]. destruct (F1 k) as [A _].
      unfold wiring in A. injection A as _ A _. rewrite A.
      cbn [andb] in Hu. exact Hu.
    - rewrite anyLinkUp_portLinks.
      destruct (portLinks_looks H D i (ports H) w) as [(F & _) _].
      set (w1 := snd (portLinks H D i (ports H) w)) in *.
      cbn [fst snd].
      split.
      + eapply sameWiring_trans; [|apply notify_wiring; exact Hk].
        eapply sameWiring_trans; [apply sameWiring_frame; exact F|].
        destruct (existsb id _).
        * eapply sameWiring_trans; [apply adjustMac_wiring; exact Hk|].
          apply (sameWiring_update _ i (fun n => set_linkState n true)).
          intros n; split; reflexivity.
        * apply (sameWiring_update _ i (fun n => set_linkState n false)).
          intros n; split; reflexivity.
      + intros Hs j Hj _. unfold interfaceAt.
        rewrite notify_silent by exact Hs.
        destruct (existsb id _); cbn [netInterface update];
          rewrite ?adjustMac_silent by exact Hs;
          rewrite ?updateAt_other by exact Hj; rewrite F; reflexivity. }
  destruct Hall as [[L F] U]. split; [exact L|]. split; [|exact U].
  intros j. destruct (F j) as [A B]. unfold wiring in A.
  injection A as A1 A2 A3. repeat split; assumption.
Qed.

(** ** The event handler when the ports are separated *)

Lemma silent_keeps_wiring : Silent K -> KeepsWiring K.
Proof.
  intros Hs k w.
  split; apply sameWiring_frame; cbn [handOver netInterface]; apply Hs.
Qed.

Lemma looks_never_notify (more : list Event) :
  forallb onlyLooks more = true -> filter isNotify more = [].
Proof.
  induction more as [|e more IH]; [reflexivity|].
  cbn [forallb]. intros Hl. apply andb_true_iff in Hl.
  destruct Hl as [He Hl]. destruct e; try discriminate He; cbn; auto.
Qed.

Lemma adjustMac_trace (i : nat) (w : World) :
  exists e : Event,
    isNotify e = false /\ trace (adjustMac K i w) = trace w ++ [e].
Proof. eexists. split; [|reflexivity]. reflexivity. Qed.

(** One pass of "Loop through network interfaces" for the interface [k],
    with a stack that writes no interface and links that stay as they
    are. *)
Lemma eventInterface_follows (i k : nat) (w : World) (links : Z -> bool) :
  Silent K ->
  SteadyLinks H D i (spiDriver (interfaceAt w i)) links ->
  (k < length (netInterface w))%nat ->
  (forall j,
     j <> k ->
     linkState (interfaceAt (eventInterface H D K i w k) j)
     = linkState (interfaceAt w j))
  /\ linkState (interfaceAt (eventInterface H D K i w k) k)
     = (if watched H w i k then links (port (interfaceAt w k))
        else linkState (interfaceAt w k))
  /\ exists more : list Event,
       trace (eventInterface H D K i w k) = trace w ++ more
       /\ filter isNotify more = linkChange H links w i k.
Proof.
  intros Hs Hst Hk. unfold eventInterface, linkChange, watched.
  assert (Hnil : (forall j,
                    j <> k ->
                    linkState (interfaceAt w j) = linkState (interfaceAt w j))
                 /\ linkState (interfaceAt w k) = linkState (interfaceAt w k)
                 /\ exists more : list Event,
                      trace w = trace w ++ more
                      /\ filter isNotify more = []).
  { split; [reflexivity|]. split; [reflexivity|].
    exists []. rewrite app_nil_r. split; reflexivity. }
  destruct (attached w i k); cbn [andb]; [|exact Hnil].
  destruct (_ && _); [|exact Hnil]. clear Hnil.
  pose proof (Hst (port (interfaceAt w k)) w eq_refl) as Hl.
  pose proof (getLinkState_looks H D i (port (interfaceAt w k)) w)
    as (F & m & Hm & _ & Lm & _).
  apply looks_never_notify in Lm.
  destruct (ksz8794GetLinkState H D i _ w) as [link w1].
  cbn [fst snd] in *. subst link.
  assert (Hat : forall j, interfaceAt w1 j = interfaceAt w j)
    by (intros j; unfold interfaceAt; rewrite F; reflexivity).
  rewrite (Hat k).
  destruct (links (port (interfaceAt w k))) eqn:El;
    destruct (linkState (interfaceAt w k)) eqn:Es; cbn [andb negb Bool.eqb].
  - split; [intros j _; rewrite Hat; reflexivity|].
    split; [rewrite Hat; exact Es|]. exists m. split; assumption.
  - destruct (adjustMac_trace i w1) as (e & He & Te).
    pose proof (adjustMac_silent i w1 Hs) as Ne.
    pose proof (read_switch_looks H D i
                  (KSZ8794_PORTn_CTRL11_STAT3 H (port (interfaceAt w k)))
                  (adjustMac K i w1)) as (F2 & m2 & Hm2 & _ & Lm2 & _).
    apply looks_never_notify in Lm2.
    destruct (ksz8794ReadSwitchReg H D i _ (adjustMac K i w1))
      as [status w2]. cbn [snd] in *.
    assert (L2 : length (netInterface w2) = length (netInterface w))
      by (rewrite F2, Ne, updateAt_length, F; reflexivity).
    split; [|split].
    + intros j Hj. unfold interfaceAt.
      rewrite notify_silent by exact Hs. cbn [netInterface update].
      rewrite !updateAt_other by exact Hj.
      rewrite F2, Ne, updateAt_nth, F.
      destruct (_ && _) eqn:Hc; [|reflexivity].
      apply andb_true_iff in Hc. destruct Hc as [Hc _].
      apply Nat.eqb_eq in Hc. subst j. reflexivity.
    + unfold interfaceAt.
      rewrite notify_silent by exact Hs. cbn [netInterface update].
      rewrite updateAt_same by (rewrite updateAt_length, L2; exact Hk).
      reflexivity.
    + eexists. split.
      * unfold notifyLinkChange. cbn [handOver trace record update].
        rewrite Hm2, Te, Hm, <- !app_assoc. reflexivity.
      * rewrite !filter_app, Lm, Lm2. cbn [filter app]. rewrite He.
        cbn [filter isNotify app].
        fold (update w2 k (operationMode H status)).
        rewrite interfaceAt_update
          by (cbn [netInterface update]; rewrite updateAt_length, L2;
              exact Hk).
        reflexivity.
  - split; [|split].
    + intros j Hj. unfold interfaceAt.
      rewrite notify_silent by exact Hs. cbn [netInterface update].
      rewrite updateAt_other by exact Hj. rewrite F. reflexivity.
    + unfold interfaceAt.
      rewrite notify_silent by exact Hs. cbn [netInterface update].
      rewrite updateAt_same by (rewrite F; exact Hk). reflexivity.
    + eexists. split.
      * unfold notifyLinkChange. cbn [handOver trace record update].
        rewrite Hm, <- !app_assoc. reflexivity.
      * rewrite !filter_app, Lm. cbn [filter isNotify app].
        rewrite interfaceAt_update by (rewrite F; exact Hk).
        reflexivity.
  - split; [intros j _; rewrite Hat; reflexivity|].
    split; [rewrite Hat; exact Es|]. exists m. split; assumption.
Qed.

Lemma flat_map_same {A B : Type} (f g : A -> list B) (l : list A) :
  (forall x, In x l -> f x = g x) -> flat_map f l = flat_map g l.
Proof.
  induction l as [|a l IH]; intros Hfg; [reflexivity|].
  cbn [flat_map]. rewrite (Hfg a (or_introl eq_refl)), IH; [reflexivity|].
  intros x Hx. apply Hfg. right. exact Hx.
Qed.

(** The passes of "Loop through network interfaces" for the interfaces
    [ks], each looked at once. *)
Lemma eventInterfaces_follow (i : nat) (links : Z -> bool) (spi : bool) :
  Silent K ->
  SteadyLinks H D i spi links ->
  forall (ks : list nat) (w : World),
    NoDup ks ->
    (forall k, In k ks -> (k < length (netInterface w))%nat) ->
    spiDriver (interfaceAt w i) = spi ->
    let w' := fold_left (eventInterface H D K i) ks w in
    SameWiring w w'
    /\ (forall k,
          linkState (interfaceAt w' k)
          = if existsb (Nat.eqb k) ks && watched H w i k then
              links (port (interfaceAt w k))
            else linkState (interfaceAt w k))
    /\ exists more : list Event,
         trace w' = trace w ++ more
         /\ filter isNotify more = flat_map (linkChange H links w i) ks.
Proof.
  intros Hs Hst. induction ks as [|k ks IH]; intros w Hnd Hin Hspi.
  - cbn. split; [apply sameWiring_refl|]. split; [reflexivity|].
    exists []. rewrite app_nil_r. split; reflexivity.
  - cbv zeta. cbn [fold_left].
    apply NoDup_cons_iff in Hnd. destruct Hnd as [Hk Hnd'].
    assert (Hst' : SteadyLinks H D i (spiDriver (interfaceAt w i)) links)
      by (rewrite Hspi; exact Hst).
    destruct (eventInterface_follows i k w links Hs Hst'
                (Hin k (or_introl eq_refl))) as (O1 & S1 & m1 & T1 & N1).
    pose proof (eventInterface_wiring i k w (silent_keeps_wiring Hs))
      as W1.
    set (w1 := eventInterface H D K i w k) in *.
    assert (Hport : forall j, port (interfaceAt w1 j) = port (interfaceAt w j)).
    { intros j. destruct W1 as [_ F]. destruct (F j) as [A _].
      unfold wiring in A. injection A as _ A _. exact A. }
    assert (Hwatch : forall j, watched H w1 i j = watched H w i j).
    { intros j. unfold watched.
      rewrite (attached_wiring w w1 i j W1), Hport. reflexivity. }
    assert (Hspi1 : spiDriver (interfaceAt w1 i) = spi).
    { destruct W1 as [_ F]. destruct (F i) as [A _].
      unfold wiring in A. injection A as A _ _. congruence. }
    assert (Hin1 : forall j, In j ks -> (j < length (netInterface w1))%nat).
    { intros j Hj. destruct W1 as [L _]. rewrite L.
      apply Hin. right. exact Hj. }
    destruct (IH w1 Hnd' Hin1 Hspi1) as (W2 & S2 & m2 & T2 & N2).
    split; [eapply sameWiring_trans; eassumption|]. split.
    + intros j. rewrite S2, Hwatch, Hport. cbn [existsb].
      destruct (Nat.eqb_spec j k) as [->|Hne]; cbn [orb].
      * assert (Hout : existsb (Nat.eqb k) ks = false).
        { destruct (existsb (Nat.eqb k) ks) eqn:Hex; [|reflexivity].
          apply existsb_exists in Hex. destruct Hex as (x & Hx & Hkx).
          apply Nat.eqb_eq in Hkx. subst x. contradiction. }
        rewrite Hout. cbn [andb]. exact S1.
      * rewrite (O1 j Hne). reflexivity.
    + exists (m1 ++ m2). split; [rewrite T2, T1, app_assoc; reflexivity|].
      rewrite filter_app, N1, N2. cbn [flat_map]. f_equal.
      apply flat_map_same. intros j Hj.
      unfold linkChange. rewrite Hwatch, Hport.
      assert (Hne : j <> k) by (intros ->; contradiction).
      rewrite (O1 j Hne). reflexivity.
Qed.

(** The event handler, when the ports are separated, the links stay as
    they are and the stack writes no interface: every interface that is
    attached to the interface of the switch and whose port is a port of the
    switch gets the state of the link of its port, and the state of the
    link of every other interface is left as it is.  The stack is notified
    once for each interface whose state changed, in the order of
    [netInterface], with the new state, and for no other interface. *)
Theorem event_handler_follows_each_port (i : nat) (w : World)
    (links : Z -> bool) :
  Silent K ->
  SteadyLinks H D i (spiDriver (interfaceAt w i)) links ->
  portSeparation H w i = true ->
  let w' := ksz8794EventHandler H D K i w in
  (forall k,
     (k < length (netInterface w))%nat ->
     linkState (interfaceAt w' k)
     = if watched H w i k then links (port (interfaceAt w k))
       else linkState (interfaceAt w k))
  /\ exists more : list Event,
       trace w' = trace w ++ more
       /\ filter isNotify more
          = flat_map (linkChange H links w i)
              (seq 0 (length (netInterface w))).
Proof.
  intros Hs Hst Hsep. cbv zeta.
  unfold ksz8794EventHandler. rewrite Hsep.
  destruct (eventInterfaces_follow i links _ Hs Hst
              (seq 0 (length (netInterface w))) w) as (_ & S & T).
  - apply seq_NoDup.
  - intros k Hk. apply in_seq in Hk. lia.
  - reflexivity.
  - split; [|exact T]. intros k Hk. rewrite S.
    assert (Hex : existsb (Nat.eqb k) (seq 0 (length (netInterface w)))
                  = true).
    { apply existsb_exists. exists k. split; [|apply Nat.eqb_refl].
      apply in_seq. lia. }
    rewrite Hex. reflexivity.
Qed.

End WiringProperties.

Section DriverExamples.
Import Ksz8794.

(** The sample stack leaves the interface it is handed as it is and keeps
    the wiring. *)
Lemma copyLink_keeps (k : nat) (n v : NetInterface) :
  copyLink k v v = v
  /\ wiring (copyLink k n v) = wiring v
  /\ phyEvent (copyLink k n v) = phyEvent v.
Proof.
  unfold copyLink. destruct v as [s p [j|] ls sp dm ev]; cbn;
    [destruct (j =? k)%nat|]; repeat split.
Qed.

Lemma copyStack_keeps (k : nat) (l : list NetInterface) :
  length (nicNotifyLinkChange copyStack k l) = length l
  /\ forall j : nat,
       (j = k ->
        nth j (nicNotifyLinkChange copyStack k l) nullInterface
        = nth j l nullInterface)
       /\ wiring (nth j (nicNotifyLinkChange copyStack k l) nullInterface)
          = wiring (nth j l nullInterface)
       /\ phyEvent (nth j (nicNotifyLinkChange copyStack k l) nullInterface)
          = phyEvent (nth j l nullInterface).
Proof.
  cbn [nicNotifyLinkChange copyStack].
  split; [apply length_map|]. intros j.
  assert (Hn : nth j (map (copyLink k (nth k l nullInterface)) l)
                 nullInterface
               = copyLink k (nth k l nullInterface) (nth j l nullInterface))
    by exact (map_nth (copyLink k (nth k l nullInterface)) l nullInterface j).
  rewrite Hn.
  destruct (copyLink_keeps k (nth k l nullInterface) (nth j l nullInterface))
    as (_ & B & C).
  split; [|split; assumption].
  intros ->.
  destruct (copyLink_keeps k (nth k l nullInterface) (nth k l nullInterface))
    as (A & _).
  exact A.
Qed.

Lemma copyStack_keeps_handed : KeepsHanded copyStack.
Proof.
  intros k l. split; [split; reflexivity|].
  destruct (copyStack_keeps k l) as [L F].
  split; [exact L|]. apply (F k). reflexivity.
Qed.

Lemma copyStack_keeps_wiring : KeepsWiring copyStack.
Proof.
  intros k w. split; [apply sameWiring_frame; reflexivity|].
  destruct (copyStack_keeps k (netInterface w)) as [L F].
  split; [exact L|]. intros j. apply (F j).
Qed.

Lemma event_handler_follows_the_ports_witness :
  interfaceAt
    (ksz8794EventHandler (sampleHeader false) readyDevice copyStack 0
       (sampleWorld false)) 0
  = mkInterface false 0 None true NIC_LINK_SPEED_100MBPS
      NIC_FULL_DUPLEX_MODE false
  /\ trace
       (ksz8794EventHandler (sampleHeader false) readyDevice copyStack 0
          (sampleWorld false))
     = [PhyRead 2 1 1 0; PhyRead 2 2 1 4; PhyRead 2 3 1 0;
        UpdateMacConfig 0 NIC_LINK_SPEED_100MBPS NIC_FULL_DUPLEX_MODE;
        NotifyLinkChange 0 true]
  /\ netInterface
       (ksz8794EventHandler (sampleHeader false) readyDevice copyStack 0
          (sampleWorld false))
     = nicNotifyLinkChange copyStack 0
         (updateAt
            (updateMacConfig copyStack 0
               [mkInterface false 0 None false NIC_LINK_SPEED_100MBPS
                  NIC_FULL_DUPLEX_MODE false])
            0 (fun n => set_linkState n true)).
Proof.
  destruct (event_handler_follows_the_ports (sampleHeader false) readyDevice
              copyStack 0 (sampleWorld false) copyStack_keeps_handed eq_refl)
    as (A & B & C).
  - simpl. lia.
  - split; [exact A|]. split; [exact B|exact C].
Defined.

(** The links of the sample switch, read through the PHY registers, stay
    as they are: the link of port 2 is up. *)
Lemma sample_links_are_steady :
  SteadyLinks (sampleHeader false) readyDevice 0 false
    (fun p => (1 <=? u8 p) && (u8 p <=? 3) && (u8 p =? 2)).
Proof.
  intros p w Hs. unfold ksz8794GetLinkState. rewrite Hs.
  cbn [KSZ8794_PORT1 KSZ8794_PORT3 sampleHeader].
  destruct ((1 <=? u8 p) && (u8 p <=? 3)); [|reflexivity].
  unfold ksz8794ReadPhyReg. cbn [fst snd phyAnswer readyDevice].
  assert (Hu : u8 (u8 p) = u8 p) by (unfold u8; apply Z.mod_mod; lia).
  rewrite Hu. destruct (u8 p =? 2); reflexivity.
Qed.

Lemma tick_is_quiet_after_the_event_handler_witness :
  linkState
    (interfaceAt
       (ksz8794EventHandler (sampleHeader false) readyDevice copyStack 0
          (sampleWorld false)) 0) = true
  /\ netInterface
       (ksz8794Tick (sampleHeader false) readyDevice 0
          (ksz8794EventHandler (sampleHeader false) readyDevice copyStack 0
             (sampleWorld false)))
     = netInterface
         (ksz8794EventHandler (sampleHeader false) readyDevice copyStack 0
            (sampleWorld false)).
Proof.
  destruct (tick_is_quiet_after_the_event_handler (sampleHeader false)
              readyDevice copyStack 0 (sampleWorld false) _
              copyStack_keeps_handed sample_links_are_steady eq_refl)
    as (A & B & _).
  - simpl. lia.
  - split; [exact A|exact B].
Defined.

Lemma quietStack_is_silent : Silent quietStack.
Proof. intros k l. split; reflexivity. Qed.

Lemma event_handler_keeps_the_wiring_witness :
  length
    (netInterface
       (ksz8794EventHandler (sampleHeader true) linkedDevice quietStack 0
          separatedWorld)) = 3%nat
  /\ (spiDriver
        (interfaceAt
           (ksz8794EventHandler (sampleHeader true) linkedDevice quietStack 0
              separatedWorld) 1) = false
      /\ port
           (interfaceAt
              (ksz8794EventHandler (sampleHeader true) linkedDevice
                 quietStack 0 separatedWorld) 1) = 2
      /\ parent
           (interfaceAt
              (ksz8794EventHandler (sampleHeader true) linkedDevice
                 quietStack 0 separatedWorld) 1) = Some 0%nat)
  /\ linkState
       (interfaceAt
          (ksz8794EventHandler (sampleHeader true) linkedDevice quietStack 0
             separatedWorld) 1)
     <> linkState (interfaceAt separatedWorld 1)
  /\ interfaceAt
       (ksz8794EventHandler (sampleHeader true) linkedDevice quietStack 0
          separatedWorld) 2
     = mkInterface false 3 None false NIC_LINK_SPEED_UNKNOWN
         NIC_UNKNOWN_DUPLEX_MODE false.
Proof.
  destruct (event_handler_keeps_the_wiring (sampleHeader true) linkedDevice
              quietStack 0 separatedWorld
              (silent_keeps_wiring quietStack quietStack_is_silent))
    as (L & F & U).
  split; [exact L|]. split.
  { destruct (F 1%nat) as (A & B & C & _).
    split; [exact A|]. split; [exact B|exact C]. }
  split; [vm_compute; discriminate|].
  rewrite (U quietStack_is_silent 2%nat); [reflexivity|lia|reflexivity].
Defined.

(** The links of the linked switch, read through the SPI bus, stay as they
    are: the link of every port is up. *)
Lemma linked_links_are_steady :
  SteadyLinks (sampleHeader true) linkedDevice 0 true
    (fun p => (1 <=? u8 p) && (u8 p <=? 3)).
Proof.
  intros p w Hs. unfold ksz8794GetLinkState. rewrite Hs.
  cbn [KSZ8794_PORT1 KSZ8794_PORT3 sampleHeader].
  destruct ((1 <=? u8 p) && (u8 p <=? 3)); [|reflexivity].
  unfold ksz8794ReadSwitchReg. rewrite Hs. reflexivity.
Qed.

Lemma event_handler_follows_each_port_witness :
  linkState
    (interfaceAt
       (ksz8794EventHandler (sampleHeader true) linkedDevice quietStack 0
          separatedWorld) 1) = true
  /\ linkState
       (interfaceAt
          (ksz8794EventHandler (sampleHeader true) linkedDevice quietStack 0
             separatedWorld) 2) = false
  /\ exists more : list Event,
       trace
         (ksz8794EventHandler (sampleHeader true) linkedDevice quietStack 0
            separatedWorld) = more
       /\ filter isNotify more
          = [NotifyLinkChange 0 true; NotifyLinkChange 1 true].
Proof.
  destruct (event_handler_follows_each_port (sampleHeader true) linkedDevice
              quietStack 0 separatedWorld _ quietStack_is_silent
              linked_links_are_steady eq_refl) as (S & more & T & N).
  split; [rewrite (S 1%nat); [reflexivity|simpl; lia]|].
  split; [rewrite (S 2%nat); [reflexivity|simpl; lia]|].
  exists more. split; [exact T|exact N].
Defined.

Lemma dead_switch_is_never_ready : NeverReady (sampleHeader true) deadDevice.
Proof. intros t sent. discriminate. Qed.

Lemma init_waits_for_the_switch_witness :
  ksz8794Init (sampleHeader true) deadDevice 1000 0 (sampleWorld true) = None
  /\ exists (w : World) (more : list Event),
       ksz8794Init (sampleHeader true) readyDevice 1 0 (sampleWorld true)
         = Some (NO_ERROR, w)
       /\ netInterface w
          = [mkInterface true 0 None false NIC_LINK_SPEED_UNKNOWN
               NIC_UNKNOWN_DUPLEX_MODE true]
       /\ trace w = more ++ [SetEvent]
       /\ In (SpiTransfer 255 135) more.
Proof.
  destruct (init_waits_for_the_switch (sampleHeader true) deadDevice 0
              (sampleWorld true)) as (_ & Hnever & _).
  split; [apply Hnever; [reflexivity|exact dead_switch_is_never_ready]|].
  destruct (init_waits_for_the_switch (sampleHeader true) readyDevice 0
              (sampleWorld true)) as (Hret & _).
  destruct (ksz8794Init (sampleHeader true) readyDevice 1 0
              (sampleWorld true)) as [[e w]|] eqn:Hr;
    [|vm_compute in Hr; discriminate Hr].
  destruct (Hret 1%nat (e, w) Hr) as (He & Hn & more & Ht & _ & Hin).
  simpl in He. subst e. exists w, more.
  split; [reflexivity|]. split; [exact Hn|]. split; [exact Ht|exact Hin].
Defined.

Lemma untag_frame_strips_the_tail_tag_witness :
  ksz8794UntagFrame (sampleHeader true)
    (mkInterface true 1 None true NIC_LINK_SPEED_100MBPS
       NIC_FULL_DUPLEX_MODE false)
    (repeat 0 14 ++ [1]) 15 0
  = Some (NO_ERROR, 14, 2).
Proof.
  destruct (untag_frame_strips_the_tail_tag (sampleHeader true)
              (mkInterface true 1 None true NIC_LINK_SPEED_100MBPS
                 NIC_FULL_DUPLEX_MODE false)
              (repeat 0 14 ++ [1]) 15 0) as (e & l & q & Hr & _).
  - simpl. lia.
  - rewrite Hr. vm_compute in Hr. symmetry. exact Hr.
Defined.

Lemma tag_frame_checks_the_port_witness :
  ksz8794TagFrame (sampleHeader true) listBuffer
    (mkInterface true 1 None true NIC_LINK_SPEED_100MBPS
       NIC_FULL_DUPLEX_MODE false) [1; 2; 3] 0 2 2048
  = Some (NO_ERROR, [1; 2; 3] ++ repeat 0 57 ++ [66])
  /\ ksz8794TagFrame (sampleHeader true) listBuffer
       (mkInterface true 1 None true NIC_LINK_SPEED_100MBPS
          NIC_FULL_DUPLEX_MODE false) [1; 2; 3] 0 4 2048
     = Some (ERROR_WRONG_IDENTIFIER, [1; 2; 3]).
Proof.
  split.
  - destruct (tag_frame_checks_the_port (sampleHeader true) listBuffer
                (mkInterface true 1 None true NIC_LINK_SPEED_100MBPS
                   NIC_FULL_DUPLEX_MODE false) [1; 2; 3] 0 2 2048)
      as (r & Hr & _); [simpl; lia|].
    rewrite Hr. vm_compute in Hr. symmetry. exact Hr.
  - reflexivity.
Defined.

End DriverExamples.
